(* ===== verification/_CoqProject ===== *)
-Q . S2P
Prelude.v
JsString.v
Effects.v
Machine.v
Cookie.v
Dom.v
Session.v
Extract.v
Scanner.v
Orchestrator.v
Database.v
Server.v
Faults.v
Client.v
Async.v
View.v
Shell.v
Screens.v
Desktop.v
