(* ===== verification/Prelude.v ===== *)
(** * Verification of the short-video scan pipeline (namkellbi/marketing)

    The repository is a desktop tool that scans TikTok/Douyin pages with a
    headless browser and lists the videos it finds.  Its logic lives in
    - [src/server/services/tiktokService.js]: class [TikTokService]
      (cookie parsing, the browser session, the three scanners, the media
      extractor, the batch orchestrator [scanVideos], the download stub);
    - [src/server/index.js]: the HTTP handlers and the SQLite tables;
    - [src/client/src/services/videoService.ts] and
      [src/client/src/components/VideoScanner.tsx]: the client wrappers and
      the list/selection state of the scan screen, which posts to the
      handlers of [index.js];
    - [src/client/src/App.tsx], [src/client/src/components/Sidebar.tsx]
      and the eleven static screens: the frame of the page, its menu and
      what each entry shows;
    - [src/electron/main.js] and [src/electron/preload.js]: the main process
      of the desktop build (the window, the application menu, two
      [ipcMain] handlers, the error listeners) and the API it exposes to
      the page.

    ** Files of the development, in dependency order

    - [Prelude] (this file): the tactics and hint databases of the
      development, and the lemmas on lists and options every component uses.
    - [Machine]: what the models of the screens and of the desktop shell
      share: the run of a list of events through the handler of each, the
      states reachable by events that can occur, invariants by induction
      on reachability, and [eventually], the states from which a property
      holds after finitely many steps whatever steps are taken, with its
      proof by a measure.
    - [JsString]: the JavaScript string primitives the sources call
      ([trim], [split], [includes], [replace], digit stripping, [parseInt] on
      digit strings, [encodeURIComponent]) as functions on [string], with
      their algebra ([join]/[split] round trip, [trim] idempotence, bounds).
    - [Effects]: the exception-and-state monad in which the service methods
      are written: a computation maps a state to an outcome ([Ok] or
      [Throw]) and a new state; effects performed before a throw persist, as
      in JavaScript.  [try_catch] models [try]/[catch].  A weakest
      precondition [wp] with one rule per combinator carries the proofs.
    - [Cookie]: [parseCookies] of [tiktokService.js], as the loop the code
      runs and as a reference [omap]; well-formedness, round trip with an
      encoder, and the cases where the code diverges from the specification.
    - [Dom]: what a page evaluation can observe of a document: elements
      with text, [src], [href], attributes and the answers to
      [querySelectorAll]; [querySelector] is the head of that answer.
    - [Session]: the service object ([this.browser], [this.cookies]), the
      external actions (launch, new page, navigation, waits, evaluation,
      close) logged in a trace, the environment as an oracle on the trace,
      [initBrowser], [setCookies], [closeBrowser].
    - [Extract]: the fallback chains of the page evaluations
      (title/caption/likes/views/uploader, the id from the path) and
      [extractMediaUrls].
    - [Scanner]: [scanVideoLink] (with its timeout retry block),
      [scanUserProfile], [scanHashtag], [scrollToLoadMore].
    - [Orchestrator]: [scanVideos], proved against the interface
      [ScannerLaws] that the three scanners discharge.
    - [Database]: the three tables of [index.js] as lists of rows with
      their [AUTOINCREMENT] sequences and a clock; one function per SQL
      statement the handlers issue ([insertOrReplace], [selectAllVideos],
      [getVideo], [markDownloaded], [insertPost]); the invariant [wf_db]
      and the step relation [db_step] of the statements.
    - [Server]: [downloadVideo] of the service and the four handlers of
      [index.js] ([scanHandler], [videosHandler], [downloadHandler],
      [scheduleHandler]) as computations on the state [server]: the
      tables, the responses sent so far, and the service object the
      handler creates.
    - [Faults]: the handlers of [index.js] for the errors SQLite
      reports: the error callbacks of [db.all] and [stmt.run], the
      rejected promise around [db.get], the statements whose errors
      nobody reads; and [/api/health].
    - [Client]: the scan screen of [VideoScanner.tsx] (the record
      [Screen.t] of its [useState] cells, [parseInput], and one function
      per handler: [handleScan], [handleDownload], [handleSelectAll],
      [handleSelectVideo], [handleSelectRange], [handleFilterByViews],
      [handleDeleteList], the two stop handlers), the wrappers
      [scanVideos] and [downloadVideos] of [videoService.ts] as functions
      of the outcome of [axios.post], its two address parsers, and the
      composition of a click with the handler of the server that answers
      it ([scanClick], [downloadClick]).
    - [Async]: the same screen between a click and its answer.  The state
      [app] is the screen and the calls in flight; a [call] is the
      [job] with what the closure of the handler captured, and the [await]
      at which the wrapper is suspended ([Posted]: on [axios.post];
      [Looping]: on the timer of the progress loop).  [startScan] and
      [startDownload] are the handlers up to their [await], [settle] and
      [onTimer] resume the wrapper, [continue] is the rest of the handler.
      [enabled] says which move can occur, from the [disabled] attributes
      of the buttons.  The file also holds the parts of [videoService.ts]
      nothing calls ([mockVideos], [extractVideoMetadata],
      [downloadVideoWithoutWatermark]) and the loop of the wrappers with
      fuel ([progressLoop]).
    - [View]: the tree [VideoScanner.tsx] renders, as a function of the
      state: [render] and one definition per block of the JSX, with the
      handler, the [disabled] and the [checked] attribute of every control
      and the rows of the table.
    - [Shell]: [App.tsx] and [Sidebar.tsx]: the key of the active entry,
      the [switch] of [renderContent], the entries and sections of the
      menu and the buttons rendered from them.
    - [Screens]: the page as a whole: the eleven static screens as
      records of their texts, the state [ui] (the key and the state of the
      scan screen while it is mounted), [setActiveMenu] with the rule of
      React for keeping or discarding the state of a component, and what
      the page shows for a key.
    - [Desktop]: [main.js] as a machine: the state [desktop] holds the two
      module variables, the windows that exist, the listeners registered
      on [app], and what the process did (messages sent to a window,
      dialogs, calls of [app.quit] and [kill]); every listener is a
      computation of [Effects]; [dispatch] runs the listeners of an event
      and hands an exception to the listener of [uncaughtException] or
      [unhandledRejection]; [template] is the menu and [electronAPI] the
      API of [preload.js], both as data.

    ** Modelling conventions

    - A JavaScript string is a [string] of bytes (the UTF-8 encoding of the
      text).  Every primitive used by the sources acts on ASCII delimiters,
      so the byte model agrees with the UTF-16 one on them; [trim] removes
      the six ASCII white-space characters (the Unicode spaces above U+007F
      are not modelled).
    - Numbers read from the page are [N]: [parseInt] of a digit string is
      exact here, and agrees with the IEEE double of JavaScript below
      2^53, which [parseDigits_lt_pow] bounds by the number of digits.
    - [console.log]/[console.error] are not modelled (pure output).
    - The browser, the network, the scanned site, the file system and
      [Math.random] are an environment [env]: an oracle that, given the
      trace of actions so far, says whether the next action throws, which
      document an evaluation sees and which number is drawn.  Theorems
      quantified over [env] hold for every behaviour of the outside world.
    - In [Server] SQL statements succeed; in [Faults] the error SQLite
      reports to each statement is an input.  A key compared with the [INTEGER] column [id] is a JSON
      number, or a JSON string that is a decimal numeral ([sqlInteger]);
      rows of the same second are returned by [ORDER BY] in the order of a
      stable merge sort.  Time advances by [tick] between statements.
    - A response is appended to the list [sent]; a handler that answers
      twice leaves two responses there, where Express would raise on the
      second.  Request bodies have the types the client declares, each
      field possibly missing.
    - The client receives the first response a handler sent; [axios.post]
      resolves on a status 2xx and rejects otherwise.  In [Client] a
      handler of the screen that awaits a request is run to its end on the
      outcome of the request; in [Async] it stops at each [await], and
      other events run in between, one callback at a time.
      A JavaScript [Set] is the list of its elements in insertion order.
    - A rendered tree keeps the texts, the values of the inputs, the
      handlers and the attributes that depend on the state; class names
      that do not depend on the state and grouping [div]s are left out.
      [toLocaleString] is a parameter of [render].
    - React keeps the state of a component while the element rendered at
      its place has the same type, and runs [useState] again when it is
      mounted anew ([remount]).
    - Electron and Node are inputs of [Desktop]: which events are emitted
      when ([emitted]), what a dialog answers, the platform and the
      environment.  Menu roles are names.  A listener that reads a
      property of [null] or [undefined] throws a [TypeError].
    - The loops of the sources iterate over a finite list or a constant
      count and are structural [Fixpoint]s or folds, except the progress
      loop of the wrappers, which [progressLoop] models with fuel.

    ** What the theorems show

    - [Cookie]: the parser is total, keeps order, yields cookies with a
      non-empty name and the fixed domain and path, equals the reference
      [omap], and inverts the encoder on clean pairs; a value containing
      [=] is truncated and a blank value can survive (both contradict the
      specification).
    - [Extract]: a chain returns the first locator that matches; counts are
      the digits of the text; the thumbnail is a non-empty source or empty.
    - [Scanner]: no scanner ever throws; a link scan that succeeds yields a
      pending, not-downloaded record with a non-empty thumbnail; a
      navigation timeout always yields [null] because the retry block
      refers to a variable that is out of scope; profile and hashtag scans
      are capped at 20 and 15 records; hashtag records carry zero counts.
    - [Orchestrator]: [scanVideos] never throws, launches at most one
      browser, reports failure exactly when the launch fails (and then
      performs no other action), concatenates the results in the order
      links, profiles, hashtags, and its size is bounded by the request.

    - [Database]: every state of the tables reachable by the statements
      satisfies [wf_db] (unique [tiktok_id]s and keys, keys within their
      sequence, no row from the future); a key denotes at most one row;
      saving a video again replaces its row under a new key and with the
      [downloaded] flag of the new record; the ids of scanned records
      denote no row.
    - [Server]: no handler fails; the scan handler answers with the
      result of [scanVideos], saves the records of a successful result
      only, and answers a second time when closing the browser throws;
      the download handler accounts for every id exactly once, refuses a
      missing or empty list, marks the rows it downloaded, and finds none
      of the ids the client actually sends; [downloadVideo] performs its
      three calls in order and reports a size in a fixed range; the list
      handler returns a permutation of the table sorted newest first.
    - [Faults]: with no error the handlers are those of [Server];
      whatever fails, the download handler answers once and accounts for
      every id; a failed [SELECT] is reported for its id; a failed
      [UPDATE] is not: the video is reported downloaded and its row is
      not marked; rows that fail to be stored do not change the answer
      of the scan handler.
    - [Client]: [parseInput] is the three filters of the trimmed
      non-blank lines; every event but the filter on views keeps the
      selection a set of ids of listed videos, and the filter does not;
      [select all] clears only a full selection of distinct ids; a scan
      click lists exactly the records the server saved, and shows the
      message of axios when the batch failed; a download click after a
      scan downloads nothing and marks the selected videos downloaded.
    - [Async]: a call alone (click, answer, timers, nothing in between)
      is the atomic handler of [Client]; from every reachable state the
      calls in flight end after finitely many moves, in any order, and
      then no progress bar is shown; a progress bar is shown only while
      a call of its kind is in flight; the progress loop ends within
      [100 / step + 1] rounds for a positive step and never for step 0;
      the answer to a stopped scan still replaces the list, also the list
      of a later scan; a check box clicked during a download is lost.
    - [View]: the controls of the rendered tree are exactly the moves
      [Async] allows; a check box of the table is checked exactly when
      its video is selected, the box of the head exactly when all
      distinct ids are; the count in the label of the download button
      includes selected videos the search hides.
    - [Shell] and [Screens]: the side bar shows one button per entry, the
      ids are distinct and each is a [case] of the [switch]; whatever is
      clicked, the key is an id of the menu and exactly its button is
      active; five entries show a component that has no file; every
      screen that has a file is titled as its entry; leaving the scan
      screen discards its state.
    - [Desktop]: every reachable state of the main process is well
      formed ([wf_desktop]: at most one window, held by [mainWindow];
      nothing is ever killed, since [serverProcess] is never assigned; one
      [before-quit] listener per window ever created; messages go only to
      channels [preload.js] exposes); start-up shows the window and
      installs the menu; a menu click without a window throws and is
      reported to nobody; [invoke] answers exactly the two channels
      [preload.js] invokes.

    ** Bounds

    The only definition with fuel is [progressLoop]: a round adds the
    step to [i] and the loop runs while [i <= 100], so [100 / step + 1]
    rounds suffice when the step is positive ([progressLoop_fuel]); the
    steps of the sources are 20 and 10, that is 6 and 11 rounds, and
    [rounds] is the measure by which [calls_end] bounds the moves of a
    call ([remaining]: one move for the answer, one per round).  The
    constants of the sources are kept as they are: 3 scrolling rounds, 20
    and 15 records per listing, the timeouts in milliseconds as [N].
    Concrete examples run on documents of at most 50 items, which
    [vm_compute] evaluates in well under a second.

    ** Not modelled

    - The Tailwind configuration ([tailwind.config.js]): colours and
      paths read by the style sheet generator, by no code of the sources.
    - Of [index.js]: Express routing and the middleware, [app.listen],
      and the [CREATE TABLE] statements as SQL text (the tables are the
      records of [Database]).
    - Of the JSX: class names that do not depend on the state, the icons
      of the side bar as components, the layout.
    - Of Electron: what the library does on screen ([show], [loadURL],
      the menu roles, the native dialogs); the model records the calls.
    - [console.log] and [console.error] everywhere.
    - The five components [App.tsx] imports that have no file among the
      sources. *)

From stdpp Require Export base tactics option list strings.
From Stdlib Require Export NArith Lia Ascii.

(** ** Hint databases *)

(** [js] collects the facts about the string primitives, [eff] the rules of
    the effect monad, [scan] the facts about the scanners. *)
Create HintDb js discriminated.
Create HintDb eff discriminated.
Create HintDb scan discriminated.

(** [js_simpl] is the rewrite base of the string primitives: [autorewrite
    with js_simpl] normalises [trim], [split] and friends on the shapes the
    components meet. *)
Create Rewrite HintDb js_simpl.

(** [scan_simpl] normalises counts and projections of traces. *)
Create Rewrite HintDb scan_simpl.

(** ** Tactics *)

(** Case analysis on the scrutinee of the first [match] or [if] of the goal. *)
Ltac break_match :=
  match goal with
  | |- context [match ?x with _ => _ end] => destruct x eqn:?
  end.

(** The same in a hypothesis. *)
Ltac break_match_hyp :=
  match goal with
  | H : context [match ?x with _ => _ end] |- _ => destruct x eqn:?
  end.

(** Split conjunctions and existentials of the context. *)
Ltac destruct_ex :=
  repeat match goal with
  | H : _ ∧ _ |- _ => destruct H
  | H : ∃ _, _ |- _ => destruct H
  end.

(** ** Booleans as JavaScript truth values *)

(** A string is truthy when it is not empty. *)
Definition truthy (s : string) : bool :=
  match s with "" => false | String _ _ => true end.

(** [a || b] on strings: [a] when it is truthy, [b] otherwise. *)
Definition or_else (a b : string) : string :=
  if truthy a then a else b.

(** [a?.f() || b]: the default when the optional value is missing or
    falsy. *)
Definition opt_or_else (a : option string) (b : string) : string :=
  match a with Some x => or_else x b | None => b end.

(** ** Lists *)

Section lists.
Context {A B : Type}.
Implicit Types (l k : list A) (f : A → option B).

(** The accumulating loop [for (x of l) if (f x) acc.push(f x)]. *)
Definition push_some f (acc : list B) (x : A) : list B :=
  match f x with Some y => acc ++ [y] | None => acc end.

Lemma foldl_push_some f l acc :
  foldl (push_some f) acc l = acc ++ omap f l.
Proof.
  revert acc; induction l as [|x l IH]; intros acc; csimpl.
  - by rewrite app_nil_r.
  - rewrite IH. unfold push_some. destruct (f x); csimpl; [|done].
    by rewrite <- app_assoc.
Qed.

Lemma omap_length_le f l : length (omap f l) ≤ length l.
Proof. induction l as [|x l IH]; csimpl; [done|]. destruct (f x); csimpl; lia. Qed.

Lemma Forall_omap (P : B → Prop) f l :
  (∀ x y, f x = Some y → P y) → Forall P (omap f l).
Proof.
  intros Hf. induction l as [|x l IH]; csimpl; [constructor|].
  destruct (f x) eqn:E; [constructor; eauto|done].
Qed.

(** [l.slice(0, n)] keeps at most [n] elements. *)
Lemma length_take_le l n : length (take n l) ≤ n.
Proof. rewrite length_take. lia. Qed.

Lemma length_take_ge l n : n ≤ length l → length (take n l) = n.
Proof. rewrite length_take. lia. Qed.

Lemma NoDup_fmap_eq (f : A → B) (l : list A) x y :
  NoDup (f <$> l) → x ∈ l → y ∈ l → f x = f y → x = y.
Proof.
  induction l as [|a l IH]; csimpl; [by intros _ ?%elem_of_nil|].
  rewrite NoDup_cons, !elem_of_cons, list_elem_of_fmap.
  intros [Ha Hl] [->|Hx] [->|Hy] Heq; [done| | |by apply IH].
  - destruct Ha. eauto.
  - destruct Ha. eauto.
Qed.

Lemma Forall_filter_keep (P Q : A → Prop) `{!∀ x, Decision (Q x)} (l : list A) :
  Forall P l → Forall P (filter Q l).
Proof.
  rewrite !Forall_forall. intros HP x [_ Hx]%list_elem_of_filter. auto.
Qed.

End lists.

Lemma truthy_true s : truthy s = true ↔ s ≠ "".
Proof. destruct s; simpl; split; congruence. Qed.

Lemma truthy_false s : truthy s = false ↔ s = "".
Proof. destruct s; simpl; split; congruence. Qed.

Lemma or_else_truthy a b : truthy b = true → truthy (or_else a b) = true.
Proof. unfold or_else. destruct (truthy a) eqn:E; auto. Qed.

Lemma or_else_nonempty a b : b ≠ "" → or_else a b ≠ "".
Proof. rewrite <- !truthy_true. apply or_else_truthy. Qed.

Lemma opt_or_else_nonempty a b : b ≠ "" → opt_or_else a b ≠ "".
Proof. destruct a; simpl; auto using or_else_nonempty. Qed.

Lemma or_else_l a b : a ≠ "" → or_else a b = a.
Proof. intros H%truthy_true. unfold or_else. by rewrite H. Qed.

Lemma or_else_empty b : or_else "" b = b.
Proof. done. Qed.

#[export] Hint Resolve or_else_nonempty opt_or_else_nonempty : js.
#[export] Hint Rewrite or_else_empty : js_simpl.

(** Sums over a list that changes at one position. *)
Section sums.
Context {A : Type} (f : A → nat).
Implicit Types (l : list A) (x y : A) (n : nat).

Lemma sum_list_with_delete l n x :
  l !! n = Some x → sum_list_with f (delete n l) + f x = sum_list_with f l.
Proof.
  revert n. induction l as [|z l IH]; intros [|n] Hn; simplify_eq/=; [lia|].
  specialize (IH _ Hn). lia.
Qed.

Lemma sum_list_with_insert l n x y :
  l !! n = Some x →
  sum_list_with f (<[n:=y]> l) + f x = sum_list_with f l + f y.
Proof.
  revert n. induction l as [|z l IH]; intros [|n] Hn; simplify_eq/=; [lia|].
  specialize (IH _ Hn). lia.
Qed.

Lemma sum_list_with_0 l : sum_list_with f l = 0 → Forall (λ x, f x = 0) l.
Proof.
  induction l as [|z l IH]; simpl; intros H; constructor; [lia|]. apply IH. lia.
Qed.
End sums.

(** An element with a property survives a change at another position. *)
Section positions.
Context {A : Type} (P : A → Prop).
Implicit Types (l : list A) (x y : A) (n : nat).

Lemma Exists_delete_other l n x :
  l !! n = Some x → ¬ P x → Exists P l → Exists P (delete n l).
Proof.
  rewrite !Exists_exists. intros Hn Hx (y & Hy & HP).
  exists y. split; [|done].
  apply list_elem_of_lookup in Hy as [i Hi].
  destruct (decide (i = n)) as [->|Hne]; [congruence|].
  destruct (decide (i < n)).
  - apply list_elem_of_lookup. exists i. by rewrite list_lookup_delete_lt by lia.
  - apply list_elem_of_lookup. exists (pred i).
    rewrite list_lookup_delete_ge by lia. by replace (S (pred i)) with i by lia.
Qed.

Lemma Exists_insert_same l n x y :
  l !! n = Some x → (P x → P y) → Exists P l → Exists P (<[n:=y]> l).
Proof.
  rewrite !Exists_exists. intros Hn Hxy (z & Hz & HP).
  apply list_elem_of_lookup in Hz as [i Hi].
  destruct (decide (i = n)) as [->|Hne].
  - exists y. split; [|naive_solver].
    apply list_elem_of_lookup. exists n. apply list_lookup_insert_eq.
    by eapply lookup_lt_Some.
  - exists z. split; [|done]. apply list_elem_of_lookup. exists i.
    by rewrite list_lookup_insert_ne.
Qed.
End positions.
