(* ===== verification/JsString.v ===== *)
(** * JsString: the JavaScript string primitives used by the sources

    [tiktokService.js] and the client call [String.prototype.trim],
    [split], [includes], [startsWith], [replace] (string pattern, first
    occurrence), [replace(/[^\d]/g, '')], [parseInt] on digit strings and
    [encodeURIComponent].  Each is a structural function on [string]; the
    lemmas are the algebra the components rely on. *)

From S2P Require Import Prelude.
From stdpp Require Import pretty.

Abbreviation is_space := Ascii.is_space.

(** [simpl] keeps [String.prefix] folded; [sprefix_cons] unfolds one step. *)
#[global] Arguments String.prefix : simpl never.

(** ** Definitions *)

(** [s.length] and [s.slice(n)] *)
Fixpoint sdrop (n : nat) (s : string) : string :=
  match n, s with
  | O, _ => s
  | S _, "" => ""
  | S k, String _ s' => sdrop k s'
  end.

(** Every character of [s] satisfies [p]. *)
Fixpoint all_chars (p : ascii → bool) (s : string) : bool :=
  match s with
  | "" => true
  | String c s' => p c && all_chars p s'
  end.

(** [s.trimStart()], [s.trimEnd()], [s.trim()] on ASCII white space *)
Fixpoint trimStart (s : string) : string :=
  match s with
  | String c s' => if is_space c then trimStart s' else s
  | "" => ""
  end.

Fixpoint trimEnd (s : string) : string :=
  match s with
  | "" => ""
  | String c s' =>
      match trimEnd s' with
      | "" => if is_space c then "" else String c ""
      | t => String c t
      end
  end.

Definition trim (s : string) : string := trimEnd (trimStart s).

(** A string that [trim] leaves alone. *)
Definition trimmed (s : string) : Prop := trimStart s = s ∧ trimEnd s = s.

(** [s.split(sep)] for a non-empty separator: [skip] counts the characters
    of a separator just matched that remain to be dropped. *)
Fixpoint split_from (sep : string) (skip : nat) (s : string) : list string :=
  match s with
  | "" => [""]
  | String c s' =>
      match skip with
      | S k => split_from sep k s'
      | O =>
          if String.prefix sep s
          then "" :: split_from sep (String.length sep - 1) s'
          else match split_from sep 0 s' with
               | seg :: rest => String c seg :: rest
               | [] => [String c ""]
               end
      end
  end.

(** [s.split("")] *)
Definition chars (s : string) : list string :=
  (λ c, String c "") <$> String.list_ascii_of_string s.

Definition split (sep s : string) : list string :=
  match sep with
  | "" => chars s
  | _ => split_from sep 0 s
  end.

(** [l.join(sep)] *)
Definition join (sep : string) (l : list string) : string :=
  String.concat sep l.

(** [s.startsWith(p)] and [s.includes(p)] *)
Definition startsWith (p s : string) : bool := String.prefix p s.

Fixpoint includes (p s : string) : bool :=
  match s with
  | "" => String.prefix p ""
  | String _ s' => String.prefix p s || includes p s'
  end.

(** [p] matches at no position of [a] when [a] is followed by [rest]. *)
Fixpoint no_match (p a rest : string) : bool :=
  match a with
  | "" => true
  | String _ a' => negb (String.prefix p (a +:+ rest)) && no_match p a' rest
  end.

(** [s.replace(p, r)] with a string pattern: the first occurrence only. *)
Fixpoint replace_first (p r s : string) : string :=
  if String.prefix p s then r +:+ sdrop (String.length p) s
  else match s with
       | "" => ""
       | String c s' => String c (replace_first p r s')
       end.

(** [\d] and [s.replace(/[^\d]/g, '')] *)
Definition is_digit (c : ascii) : bool :=
  match Ascii.is_nat c with Some _ => true | None => false end.

Fixpoint stripNonDigits (s : string) : string :=
  match s with
  | "" => ""
  | String c s' =>
      if is_digit c then String c (stripNonDigits s') else stripNonDigits s'
  end.

(** [parseInt(s)] on a string that starts with decimal digits: the value of
    the longest digit prefix, [acc] being the value read so far. *)
Fixpoint parseDigits_from (acc : N) (s : string) : N :=
  match s with
  | "" => acc
  | String c s' =>
      match Ascii.is_nat c with
      | Some d => parseDigits_from (acc * 10 + N.of_nat d) s'
      | None => acc
      end
  end.

Definition parseDigits (s : string) : N := parseDigits_from 0 s.

(** [encodeURIComponent]: the unreserved characters stay, every other byte
    becomes [%XX] in upper-case hexadecimal. *)
Definition is_unreserved (c : ascii) : bool :=
  let n := Ascii.N_of_ascii c in
  ((65 <=? n) && (n <=? 90) || (97 <=? n) && (n <=? 122)
   || (48 <=? n) && (n <=? 57))%N
  || match c with
     | "-" | "_" | "." | "!" | "~" | "*" | "'" | "(" | ")" => true
     | _ => false
     end%char.

Definition hex_digit (n : N) : ascii :=
  Ascii.ascii_of_N (if (n <? 10)%N then 48 + n else 55 + n).

Definition percent_encode (c : ascii) : string :=
  let n := Ascii.N_of_ascii c in
  String "%" (String (hex_digit (n / 16)) (String (hex_digit (n mod 16)) "")).

Fixpoint encodeURIComponent (s : string) : string :=
  match s with
  | "" => ""
  | String c s' =>
      (if is_unreserved c then String c "" else percent_encode c)
      +:+ encodeURIComponent s'
  end.

(** A character that may appear in the output of [encodeURIComponent]. *)
Definition is_uri_safe (c : ascii) : bool :=
  is_unreserved c || bool_decide (c = "%"%char).

#[global] Arguments split : simpl never.
#[global] Arguments join : simpl never.
#[global] Arguments trim : simpl never.

(** ** Lengths and append *)

(** stdpp blocks [simpl] on string append; these two equations and the
    tactic [sapp] unfold it one constructor at a time. *)
Lemma sapp_nil_l t : "" +:+ t = t.
Proof. done. Qed.

Lemma sapp_cons c s t : String c s +:+ t = String c (s +:+ t).
Proof. done. Qed.

Ltac sapp := rewrite ?sapp_nil_l, ?sapp_cons in *; simpl in *.

Lemma sapp_nil_r s : s +:+ "" = s.
Proof. induction s; sapp; congruence. Qed.

Lemma sapp_assoc s t u : (s +:+ t) +:+ u = s +:+ t +:+ u.
Proof. induction s; sapp; congruence. Qed.

Lemma sapp_length s t :
  String.length (s +:+ t) = String.length s + String.length t.
Proof. induction s; sapp; congruence. Qed.

Lemma sapp_eq_nil s t : s +:+ t = "" → s = "" ∧ t = "".
Proof. by destruct s. Qed.

Lemma sdrop_0 s : sdrop 0 s = s.
Proof. by destruct s. Qed.

Lemma sdrop_app s t : sdrop (String.length s) (s +:+ t) = t.
Proof. induction s; sapp; [apply sdrop_0|done]. Qed.

Lemma sdrop_length_le n s : String.length (sdrop n s) ≤ String.length s.
Proof.
  revert n; induction s as [|c s IH]; intros [|n]; simpl; try lia.
  specialize (IH n). lia.
Qed.

Lemma sprefix_cons c p d s :
  String.prefix (String c p) (String d s) =
    if Ascii.ascii_dec c d then String.prefix p s else false.
Proof. done. Qed.

Lemma sprefix_nil_l s : String.prefix "" s = true.
Proof. by destruct s. Qed.

Lemma sprefix_app p s : String.prefix p s = true → ∃ t, s = p +:+ t.
Proof.
  revert s; induction p as [|c p IH]; intros s H; [by exists s; destruct s|].
  destruct s as [|d s]; [done|]. rewrite sprefix_cons in H.
  destruct (Ascii.ascii_dec c d) as [->|]; [|done].
  destruct (IH _ H) as [t ->]. by exists t.
Qed.

Lemma sprefix_app_true p t : String.prefix p (p +:+ t) = true.
Proof.
  induction p as [|c p IH]; sapp; [apply sprefix_nil_l|].
  rewrite sprefix_cons. by destruct (Ascii.ascii_dec c c).
Qed.

Lemma prefix_nil_r p : String.prefix p "" = true → p = "".
Proof. by destruct p. Qed.

#[export] Hint Rewrite sapp_nil_l sapp_cons sapp_nil_r sapp_assoc sdrop_0 sdrop_app
  sprefix_app_true : js_simpl.

(** ** [all_chars] *)

Lemma all_chars_app p s t :
  all_chars p (s +:+ t) = all_chars p s && all_chars p t.
Proof. induction s as [|c s IH]; sapp; [done|]. by rewrite IH, andb_assoc. Qed.

Lemma all_chars_impl (p q : ascii → bool) s :
  (∀ c, p c = true → q c = true) → all_chars p s = true → all_chars q s = true.
Proof.
  intros Hpq. induction s as [|c s IH]; simpl; [done|].
  intros [? ?]%andb_prop. rewrite Hpq, IH; auto.
Qed.

(** ** [trim] *)

Lemma trimStart_head s c t : trimStart s = String c t → is_space c = false.
Proof.
  induction s as [|d s IH]; simpl; [done|].
  destruct (is_space d) eqn:E; [done|]. by intros [= <- _].
Qed.

Lemma trimStart_fix c t : is_space c = false → trimStart (String c t) = String c t.
Proof. intros H; simpl. by rewrite H. Qed.

Lemma trimStart_idemp s : trimStart (trimStart s) = trimStart s.
Proof.
  destruct (trimStart s) as [|c t] eqn:E; [done|].
  by apply trimStart_fix, (trimStart_head s c t).
Qed.

Lemma trimStart_length s : String.length (trimStart s) ≤ String.length s.
Proof. induction s as [|c s IH]; simpl; [done|]. destruct (is_space c); simpl; lia. Qed.

Lemma trimEnd_cons c s :
  is_space c = false → trimEnd (String c s) = String c (trimEnd s).
Proof. intros H; simpl. destruct (trimEnd s); by rewrite ?H. Qed.

Lemma trimEnd_idemp s : trimEnd (trimEnd s) = trimEnd s.
Proof.
  induction s as [|c s IH]; simpl; [done|].
  destruct (trimEnd s) as [|d t] eqn:E.
  - destruct (is_space c) eqn:Ec; simpl; by rewrite ?Ec.
  - change (trimEnd (String c (String d t)) = String c (String d t)).
    simpl. simpl in IH. by rewrite IH.
Qed.

Lemma trimEnd_length s : String.length (trimEnd s) ≤ String.length s.
Proof.
  induction s as [|c s IH]; simpl; [done|].
  destruct (trimEnd s); [destruct (is_space c)|]; simpl in *; lia.
Qed.

Lemma trimEnd_app_fix s t : t ≠ "" → trimEnd t = t → trimEnd (s +:+ t) = s +:+ t.
Proof.
  intros Ht Hfix. induction s as [|c s IH]; sapp; [done|].
  rewrite IH. destruct (s +:+ t) eqn:E; [|done].
  by apply sapp_eq_nil in E as [_ ?].
Qed.

Lemma trimEnd_app_nonspace s c t :
  is_space c = false → trimEnd (s +:+ String c t) = s +:+ String c (trimEnd t).
Proof.
  intros Hc. induction s as [|d s IH]; sapp; [by apply trimEnd_cons|].
  rewrite IH. by destruct s.
Qed.

Lemma trim_head s c t : trim s = String c t → is_space c = false.
Proof.
  unfold trim. destruct (trimStart s) as [|d r] eqn:E; [done|].
  pose proof (trimStart_head _ _ _ E) as Hd.
  rewrite trimEnd_cons by done. by intros [= <- _].
Qed.

Lemma trimStart_trim s : trimStart (trim s) = trim s.
Proof.
  destruct (trim s) as [|c t] eqn:E; [done|].
  by apply trimStart_fix, (trim_head s c t).
Qed.

Lemma trimEnd_trim s : trimEnd (trim s) = trim s.
Proof. apply trimEnd_idemp. Qed.

Lemma trimmed_trim s : trimmed (trim s).
Proof. split; [apply trimStart_trim|apply trimEnd_trim]. Qed.

Lemma trim_trimmed s : trimmed s → trim s = s.
Proof. intros [H1 H2]. unfold trim. by rewrite H1. Qed.

Lemma trimmed_iff s : trimmed s ↔ trim s = s.
Proof.
  split; [apply trim_trimmed|]. intros <-. apply trimmed_trim.
Qed.

Lemma trim_idemp s : trim (trim s) = trim s.
Proof. apply trim_trimmed, trimmed_trim. Qed.

Lemma trim_length s : String.length (trim s) ≤ String.length s.
Proof.
  unfold trim. pose proof (trimEnd_length (trimStart s)).
  pose proof (trimStart_length s). lia.
Qed.

Lemma trim_empty : trim "" = "".
Proof. done. Qed.

(** A non-empty trimmed string stays non-empty when trimmed again: the
    first field of a trimmed pair keeps its first character. *)
Lemma trim_nonempty_head c s : is_space c = false → trim (String c s) ≠ "".
Proof.
  intros H. unfold trim. rewrite trimStart_fix by done.
  by rewrite trimEnd_cons.
Qed.

Lemma trimStart_app_fix s t :
  s ≠ "" → trimStart s = s → trimStart (s +:+ t) = s +:+ t.
Proof.
  destruct s as [|c s]; [done|]. intros _ H. sapp.
  destruct (is_space c); [|done].
  pose proof (trimStart_length s) as Hl. rewrite H in Hl. simpl in Hl. lia.
Qed.

Lemma trimStart_space s : trimStart (String " " s) = trimStart s.
Proof. done. Qed.

Lemma trim_no_space s : all_chars (λ c, negb (is_space c)) s = true → trimmed s.
Proof.
  intros H. split.
  - destruct s as [|c s]; [done|]. simpl in H. apply andb_prop in H as [Hc _].
    apply trimStart_fix. by destruct (is_space c).
  - induction s as [|c s IH]; [done|]. simpl in H. apply andb_prop in H as [Hc Hs].
    rewrite trimEnd_cons by (by destruct (is_space c)). by rewrite IH.
Qed.

#[export] Hint Rewrite trim_idemp trimStart_trim trimEnd_trim trim_empty
  trimStart_space : js_simpl.
#[export] Hint Resolve trimmed_trim trim_nonempty_head : js.

(** ** [split] and [join] *)

Lemma split_from_nonempty sep skip s : split_from sep skip s ≠ [].
Proof.
  revert skip; induction s as [|c s IH]; intros [|k]; try done; [|apply IH].
  change (split_from sep 0 (String c s)) with
    (if String.prefix sep (String c s)
     then "" :: split_from sep (String.length sep - 1) s
     else match split_from sep 0 s with
          | seg :: rest => String c seg :: rest
          | [] => [String c ""]
          end).
  by repeat case_match.
Qed.

(** One step of [split_from] at a position that is not inside a match. *)
Lemma split_from_unfold sep c s :
  split_from sep 0 (String c s) =
    if String.prefix sep (String c s)
    then "" :: split_from sep (String.length sep - 1) s
    else match split_from sep 0 s with
         | seg :: rest => String c seg :: rest
         | [] => [String c ""]
         end.
Proof. done. Qed.

Lemma split_from_skip sep x b :
  split_from sep (String.length x) (x +:+ b) = split_from sep 0 b.
Proof. induction x as [|c x IH]; sapp; [by destruct b|done]. Qed.

Lemma split_from_cons_no sep c s :
  String.prefix sep (String c s) = false →
  ∃ seg rest, split_from sep 0 s = seg :: rest ∧
    split_from sep 0 (String c s) = String c seg :: rest.
Proof.
  intros H. rewrite (split_from_unfold sep c s), H.
  destruct (split_from sep 0 s) as [|seg rest] eqn:E;
    [by apply split_from_nonempty in E|eauto].
Qed.

Lemma split_from_prefix sep b :
  sep ≠ "" → split_from sep 0 (sep +:+ b) = "" :: split_from sep 0 b.
Proof.
  destruct sep as [|c sep]; [done|]. intros _.
  rewrite sapp_cons, split_from_unfold, <- sapp_cons, sprefix_app_true.
  replace (String.length (String c sep) - 1) with (String.length sep)
    by (simpl; lia).
  by rewrite split_from_skip.
Qed.

Lemma join_singleton sep x : join sep [x] = x.
Proof. done. Qed.

Lemma join_nil sep : join sep [] = "".
Proof. done. Qed.

Lemma join_cons sep x y l :
  join sep (x :: y :: l) = x +:+ sep +:+ join sep (y :: l).
Proof. done. Qed.

Lemma join_cons_ne sep x l :
  l ≠ [] → join sep (x :: l) = x +:+ sep +:+ join sep l.
Proof. by destruct l. Qed.

Lemma join_cons_head sep c seg rest :
  join sep (String c seg :: rest) = String c (join sep (seg :: rest)).
Proof. by destruct rest. Qed.

(** Joining the pieces with the separator gives the string back, from any
    position inside a separator. *)
Lemma join_split_from sep skip s :
  sep ≠ "" → skip ≤ String.length s →
  join sep (split_from sep skip s) = sdrop skip s.
Proof.
  intros Hsep. revert skip; induction s as [|c s IH]; intros skip Hskip.
  { by destruct skip. }
  destruct skip as [|k]; [|simpl in *; apply IH; lia].
  destruct (String.prefix sep (String c s)) eqn:Hp.
  - destruct (sprefix_app _ _ Hp) as [b Hb]. rewrite Hb at 1.
    rewrite split_from_prefix by done.
    destruct (split_from sep 0 b) as [|y l] eqn:E;
      [by apply split_from_nonempty in E|].
    rewrite join_cons, <- E, sapp_nil_l.
    destruct sep as [|d sep]; [done|]. sapp. injection Hb as -> ->.
    specialize (IH (String.length sep)). rewrite split_from_skip in IH.
    rewrite IH by (rewrite sapp_length; lia). by rewrite sdrop_app.
  - destruct (split_from_cons_no _ _ _ Hp) as (seg & rest & E1 & E2).
    rewrite E2, join_cons_head, <- E1, (IH 0) by lia. by rewrite sdrop_0.
Qed.

Lemma join_split sep s : sep ≠ "" → join sep (split sep s) = s.
Proof.
  intros Hsep. destruct sep as [|c sep]; [done|]. unfold split.
  rewrite join_split_from by (done || lia). apply sdrop_0.
Qed.

Lemma split_nonempty sep s : sep ≠ "" → split sep s ≠ [].
Proof. destruct sep; [done|]. intros _. apply split_from_nonempty. Qed.

Lemma split_empty sep : sep ≠ "" → split sep "" = [""].
Proof. by destruct sep. Qed.

(** The piece before the first occurrence of the separator. *)
Lemma split_at_first sep a b :
  sep ≠ "" → no_match sep a (sep +:+ b) = true →
  split sep (a +:+ sep +:+ b) = a :: split sep b.
Proof.
  intros Hsep. destruct sep as [|d sep]; [done|]. unfold split.
  induction a as [|c a IH]; intros Hno.
  - by rewrite sapp_nil_l, split_from_prefix.
  - simpl in Hno. apply andb_prop in Hno as [Hp%negb_true_iff Hno].
    rewrite sapp_cons in Hp |- *.
    destruct (split_from_cons_no _ _ _ Hp) as (seg & rest & E1 & E2).
    rewrite E2. rewrite IH in E1 by done. by injection E1 as <- <-.
Qed.

(** With no occurrence at all the string is one piece. *)
Lemma split_no_match sep a :
  sep ≠ "" → no_match sep a "" = true → split sep a = [a].
Proof.
  intros Hsep. destruct sep as [|d sep]; [done|]. unfold split.
  induction a as [|c a IH]; intros Hno; [done|].
  simpl in Hno. apply andb_prop in Hno as [Hp%negb_true_iff Hno].
  rewrite sapp_nil_r in Hp.
  destruct (split_from_cons_no _ _ _ Hp) as (seg & rest & E1 & E2).
  rewrite E2. rewrite IH in E1 by done. by injection E1 as <- <-.
Qed.

(** For a one-character separator, "no occurrence" is a test on characters. *)
Definition lacks (c : ascii) (s : string) : bool :=
  all_chars (λ x, negb (Ascii.eqb x c)) s.

Lemma no_match_char c a rest :
  lacks c a = true → no_match (String c "") a rest = true.
Proof.
  unfold lacks. induction a as [|x a IH]; simpl; [done|].
  intros [Hx Ha]%andb_prop. rewrite IH by done. rewrite sapp_cons, sprefix_cons.
  destruct (Ascii.ascii_dec c x) as [->|]; [|done].
  by rewrite Ascii.eqb_refl in Hx.
Qed.

Lemma split_char_cons c a b :
  lacks c a = true →
  split (String c "") (a +:+ String c b) = a :: split (String c "") b.
Proof.
  intros H. change (String c b) with (String c "" +:+ b).
  apply split_at_first; [done|]. by apply no_match_char.
Qed.

Lemma split_char_last c a :
  lacks c a = true → split (String c "") a = [a].
Proof. intros H. apply split_no_match; [done|]. by apply no_match_char. Qed.

Lemma lacks_app c s t : lacks c (s +:+ t) = lacks c s && lacks c t.
Proof. apply all_chars_app. Qed.

#[export] Hint Rewrite join_split split_empty using done : js_simpl.
#[export] Hint Rewrite join_singleton join_nil : js_simpl.
#[export] Hint Resolve split_nonempty split_from_nonempty : js.

(** ** [includes] and [replace_first] *)

Lemma includes_app p a b : includes p (a +:+ p +:+ b) = true.
Proof.
  induction a as [|c a IH]; sapp.
  - destruct (p +:+ b) eqn:E; simpl; rewrite <- E, sprefix_app_true; [|done].
    apply sapp_eq_nil in E as [-> _]. done.
  - by rewrite IH, orb_true_r.
Qed.

Lemma includes_prefix p s : String.prefix p s = true → includes p s = true.
Proof. intros [t ->]%sprefix_app. apply (includes_app p "" t). Qed.

Lemma replace_first_unfold p r s :
  replace_first p r s =
    if String.prefix p s then r +:+ sdrop (String.length p) s
    else match s with
         | "" => ""
         | String c s' => String c (replace_first p r s')
         end.
Proof. by destruct s. Qed.

Lemma replace_first_prefix p r t : replace_first p r (p +:+ t) = r +:+ t.
Proof. by rewrite replace_first_unfold, sprefix_app_true, sdrop_app. Qed.

Lemma replace_first_no_match p r a b :
  p ≠ "" → no_match p a (p +:+ b) = true →
  replace_first p r (a +:+ p +:+ b) = a +:+ r +:+ b.
Proof.
  intros Hp. induction a as [|c a IH]; intros Hno.
  - by rewrite !sapp_nil_l, replace_first_prefix.
  - simpl in Hno. apply andb_prop in Hno as [Hc%negb_true_iff Hno].
    rewrite replace_first_unfold, Hc, !sapp_cons. by rewrite IH.
Qed.

Lemma replace_first_absent p r a :
  p ≠ "" → no_match p a "" = true → replace_first p r a = a.
Proof.
  intros Hp. induction a as [|c a IH]; intros Hno.
  - rewrite replace_first_unfold. destruct p; [done|]. done.
  - simpl in Hno. apply andb_prop in Hno as [Hc%negb_true_iff Hno].
    rewrite sapp_nil_r in Hc. by rewrite replace_first_unfold, Hc, IH.
Qed.

(** ** Digits *)

Lemma is_nat_le_9 c d : Ascii.is_nat c = Some d → d ≤ 9.
Proof.
  destruct c as [[] [] [] [] [] [] [] []]; simpl; intros [= <-]; lia.
Qed.

Lemma stripNonDigits_digits s : all_chars is_digit (stripNonDigits s) = true.
Proof.
  induction s as [|c s IH]; simpl; [done|].
  destruct (is_digit c) eqn:E; simpl; by rewrite ?E.
Qed.

Lemma stripNonDigits_fix s : all_chars is_digit s = true → stripNonDigits s = s.
Proof.
  induction s as [|c s IH]; simpl; [done|].
  intros [-> ?]%andb_prop. by rewrite IH.
Qed.

Lemma stripNonDigits_idemp s : stripNonDigits (stripNonDigits s) = stripNonDigits s.
Proof. apply stripNonDigits_fix, stripNonDigits_digits. Qed.

Lemma stripNonDigits_app s t :
  stripNonDigits (s +:+ t) = stripNonDigits s +:+ stripNonDigits t.
Proof.
  induction s as [|c s IH]; sapp; [done|].
  destruct (is_digit c); sapp; by rewrite IH.
Qed.

Lemma stripNonDigits_length s :
  String.length (stripNonDigits s) ≤ String.length s.
Proof. induction s as [|c s IH]; simpl; [done|]. destruct (is_digit c); simpl; lia. Qed.

Lemma stripNonDigits_none s :
  all_chars (λ c, negb (is_digit c)) s = true → stripNonDigits s = "".
Proof.
  induction s as [|c s IH]; simpl; [done|].
  intros [Hc ?]%andb_prop. destruct (is_digit c); [done|auto].
Qed.

Lemma parseDigits_from_bound acc s :
  (parseDigits_from acc s < (acc + 1) * 10 ^ N.of_nat (String.length s))%N.
Proof.
  revert acc; induction s as [|c s IH]; intros acc; simpl String.length.
  - simpl. lia.
  - rewrite Nat2N.inj_succ, N.pow_succ_r'. simpl.
    destruct (Ascii.is_nat c) as [d|] eqn:E.
    + apply is_nat_le_9 in E. specialize (IH (acc * 10 + N.of_nat d)%N).
      eapply N.lt_le_trans; [exact IH|].
      rewrite N.mul_assoc. apply N.mul_le_mono_r. lia.
    + assert (0 < 10 ^ N.of_nat (String.length s))%N
        by (apply N.neq_0_lt_0, N.pow_nonzero; lia).
      nia.
Qed.

(** A count read from [n] characters is below [10^n]: at most 15 digits
    stay below 2^53, where the JavaScript number is exact. *)
Lemma parseDigits_lt_pow s :
  (parseDigits s < 10 ^ N.of_nat (String.length s))%N.
Proof.
  pose proof (parseDigits_from_bound 0 s) as H. unfold parseDigits. lia.
Qed.

Lemma parseDigits_empty : parseDigits "" = 0%N.
Proof. done. Qed.

Lemma parseDigits_from_mono acc s : (acc ≤ parseDigits_from acc s)%N.
Proof.
  revert acc; induction s as [|c s IH]; intros acc; simpl; [done|].
  destruct (Ascii.is_nat c) as [d|]; [|done].
  etrans; [|apply IH]. lia.
Qed.

(** ** [encodeURIComponent] *)

Lemma hex_digit_safe n : (n < 16)%N → is_unreserved (hex_digit n) = true.
Proof.
  intros H.
  assert (n ∈ [0;1;2;3;4;5;6;7;8;9;10;11;12;13;14;15]%N) as Hn.
  { rewrite !elem_of_cons. lia. }
  rewrite !elem_of_cons, elem_of_nil in Hn. by destruct_or!; subst.
Qed.

Lemma percent_encode_safe c : all_chars is_uri_safe (percent_encode c) = true.
Proof.
  unfold percent_encode, is_uri_safe. simpl.
  rewrite !hex_digit_safe; [done|..].
  - apply N.mod_lt. lia.
  - apply N.Div0.div_lt_upper_bound.
    pose proof (N_ascii_bounded c). lia.
Qed.

Lemma encodeURIComponent_safe s :
  all_chars is_uri_safe (encodeURIComponent s) = true.
Proof.
  induction s as [|c s IH]; simpl; [done|].
  rewrite all_chars_app, IH, andb_true_r.
  destruct (is_unreserved c) eqn:E; [|apply percent_encode_safe].
  unfold is_uri_safe. simpl. by rewrite E.
Qed.

Lemma encodeURIComponent_app s t :
  encodeURIComponent (s +:+ t) = encodeURIComponent s +:+ encodeURIComponent t.
Proof. induction s as [|c s IH]; sapp; [done|]. by rewrite IH, sapp_assoc. Qed.

Lemma encodeURIComponent_nonempty s : s ≠ "" → encodeURIComponent s ≠ "".
Proof.
  destruct s as [|c s]; [done|]. intros _. simpl.
  by destruct (is_unreserved c).
Qed.

Lemma encodeURIComponent_length s :
  String.length s ≤ String.length (encodeURIComponent s) ≤ 3 * String.length s.
Proof.
  induction s as [|c s IH]; simpl; [lia|].
  rewrite sapp_length. destruct (is_unreserved c); simpl; lia.
Qed.

#[export] Hint Rewrite stripNonDigits_idemp replace_first_prefix
  parseDigits_empty : js_simpl.
#[export] Hint Resolve stripNonDigits_digits encodeURIComponent_safe
  parseDigits_lt_pow : js.

(** ** Pieces of a split and white-space padding *)

(** The first piece of a split either is empty (the string starts with the
    separator) or starts with the first character of the string. *)
Lemma split_head sep c s :
  sep ≠ "" →
  (∃ rest, split sep (String c s) = "" :: rest) ∨
  (∃ seg rest, split sep (String c s) = String c seg :: rest).
Proof.
  destruct sep as [|d sep]; [done|]. intros _. unfold split.
  rewrite split_from_unfold. destruct (String.prefix _ _); [eauto|].
  destruct (split_from (String d sep) 0 s); eauto.
Qed.

Lemma all_chars_trimStart p s :
  all_chars p s = true → all_chars p (trimStart s) = true.
Proof.
  induction s as [|c s IH]; simpl; [done|].
  intros H. destruct (is_space c); [|done]. apply andb_prop in H as [_ ?]; auto.
Qed.

Lemma all_chars_trimEnd p s :
  all_chars p s = true → all_chars p (trimEnd s) = true.
Proof.
  induction s as [|c s IH]; simpl; [done|].
  intros [Hc Hs]%andb_prop. specialize (IH Hs).
  destruct (trimEnd s); [destruct (is_space c)|]; simpl in *; by rewrite ?Hc.
Qed.

Lemma all_chars_trim p s : all_chars p s = true → all_chars p (trim s) = true.
Proof. intros. by apply all_chars_trimEnd, all_chars_trimStart. Qed.

Lemma trimStart_spaces lead s :
  all_chars is_space lead = true → trimStart (lead +:+ s) = trimStart s.
Proof.
  induction lead as [|c lead IH]; sapp; [done|].
  intros [-> ?]%andb_prop. auto.
Qed.

Lemma trimEnd_spaces_nil trail :
  all_chars is_space trail = true → trimEnd trail = "".
Proof.
  induction trail as [|c trail IH]; simpl; [done|].
  intros [-> ?]%andb_prop. by rewrite IH.
Qed.

Lemma trimEnd_spaces s trail :
  all_chars is_space trail = true → trimEnd (s +:+ trail) = trimEnd s.
Proof.
  intros H. induction s as [|c s IH]; sapp; [by apply trimEnd_spaces_nil|].
  by rewrite IH.
Qed.

Lemma trim_spaces s : all_chars is_space s = true → trim s = "".
Proof.
  intros H. unfold trim. by rewrite <- (sapp_nil_r s), trimStart_spaces.
Qed.

(** White space around a non-empty trimmed string is what [trim] removes. *)
Lemma trim_padded lead s trail :
  all_chars is_space lead = true → all_chars is_space trail = true →
  trimmed s → trim (lead +:+ s +:+ trail) = s.
Proof.
  intros Hl Ht [Hs He]. unfold trim. rewrite trimStart_spaces by done.
  destruct s as [|c s].
  - rewrite sapp_nil_l, <- (sapp_nil_r trail), trimStart_spaces by done.
    done.
  - rewrite trimStart_app_fix by done. by rewrite trimEnd_spaces.
Qed.

(** No piece of a split on a character contains that character. *)
Lemma split_from_lacks c skip s :
  Forall (λ piece, lacks c piece = true) (split_from (String c "") skip s).
Proof.
  revert skip; induction s as [|x s IH]; intros [|k]; try apply IH;
    try by repeat constructor.
  rewrite split_from_unfold. destruct (String.prefix _ _) eqn:Hp.
  { constructor; [done|apply IH]. }
  assert (Ascii.eqb x c = false) as Hx.
  { rewrite sprefix_cons, sprefix_nil_l in Hp.
    destruct (Ascii.eqb_spec x c) as [->|]; [|done].
    by destruct (ascii_dec c c). }
  specialize (IH 0). destruct (split_from _ 0 s) as [|seg rest];
    inversion_clear IH; constructor; try done;
    unfold lacks in *; simpl; by rewrite Hx.
Qed.

Lemma split_char_lacks c s :
  Forall (λ piece, lacks c piece = true) (split (String c "") s).
Proof. apply split_from_lacks. Qed.
