(* ===== verification/Effects.v ===== *)
(** * Effects: the exception-and-state monad of the service methods

    Every method of [TikTokService] is an [async] function that reads and
    writes the service object, calls the browser, and may throw.  A
    computation here maps a state to an outcome, [Ok] or [Throw], and the
    state reached; the state reached by a computation that throws is the
    one at the throw, so effects are not rolled back by [catch], as in
    JavaScript.  [await] is sequencing: the sources never start two
    asynchronous operations at once.

    The weakest precondition [wp] and its rules are the program logic the
    components use; [no_throw] is totality without exceptions. *)

From S2P Require Import Prelude.

Declare Scope eff_scope.
Delimit Scope eff_scope with eff.

(** ** The monad *)

Inductive outcome (Err A : Type) : Type :=
| Ok (a : A)
| Throw (e : Err).
Arguments Ok {Err A} a.
Arguments Throw {Err A} e.

Definition M (St Err A : Type) : Type := St → outcome Err A * St.

Section monad.
Context {St Err : Type}.
Implicit Types (s : St) (e : Err).

Definition ret {A} (a : A) : M St Err A := λ s, (Ok a, s).

Definition bind {A B} (m : M St Err A) (k : A → M St Err B) : M St Err B :=
  λ s, match m s with
       | (Ok a, s') => k a s'
       | (Throw e, s') => (Throw e, s')
       end.

(** [throw e] *)
Definition throw {A} (e : Err) : M St Err A := λ s, (Throw e, s).

(** [try { m } catch (e) { h e }] *)
Definition try_catch {A} (m : M St Err A) (h : Err → M St Err A) : M St Err A :=
  λ s, match m s with
       | (Ok a, s') => (Ok a, s')
       | (Throw e, s') => h e s'
       end.

Definition get : M St Err St := λ s, (Ok s, s).
Definition put (s' : St) : M St Err unit := λ _, (Ok tt, s').
Definition modify (f : St → St) : M St Err unit := λ s, (Ok tt, f s).

(** [for (const x of l) { acc = body(acc, x) }] *)
Fixpoint foldM {A B} (body : B → A → M St Err B) (acc : B) (l : list A) : M St Err B :=
  match l with
  | [] => ret acc
  | x :: l' => bind (body acc x) (λ acc', foldM body acc' l')
  end.

(** [for (let i = 0; i < n; i++) { body }] *)
Fixpoint repeatM (n : nat) (body : M St Err unit) : M St Err unit :=
  match n with
  | O => ret tt
  | S n' => bind body (λ _, repeatM n' body)
  end.

(** The result and the final state of a run. *)
Definition result {A} (m : M St Err A) (s : St) : outcome Err A := (m s).1.
Definition final {A} (m : M St Err A) (s : St) : St := (m s).2.

(** ** Specifications *)

(** [wp m Q s]: running [m] from [s] ends in an outcome and a state that
    satisfy [Q]. *)
Definition wp {A} (m : M St Err A) (Q : outcome Err A → St → Prop) (s : St) : Prop :=
  Q (m s).1 (m s).2.

(** [m] never throws. *)
Definition no_throw {A} (m : M St Err A) : Prop :=
  ∀ s, ∃ a, (m s).1 = Ok a.

(** The postcondition that ignores exceptions. *)
Definition on_ok {A} (P : A → St → Prop) : outcome Err A → St → Prop :=
  λ r s, match r with Ok a => P a s | Throw _ => True end.

(** Every value [m] returns satisfies [P], from any state. *)
Definition returns_only {A} (m : M St Err A) (P : A → Prop) : Prop :=
  ∀ s a, (m s).1 = Ok a → P a.

(** Every run of [m] relates the state it starts in to the one it ends
    in by [R], whether it returns or throws. *)
Definition preserves {A} (R : relation St) (m : M St Err A) : Prop :=
  ∀ s, R s (m s).2.

End monad.

#[export] Instance M_ret {St Err} : MRet (M St Err) := @ret St Err.
#[export] Instance M_bind {St Err} : MBind (M St Err) := λ A B k m, bind m k.

Notation "'try' m 'catch' e => h" := (try_catch m (λ e, h))
  (at level 10, m at level 100, e name, h at level 200,
   format "'[v' 'try'  m '/' 'catch'  e  =>  h ']'") : eff_scope.
Notation "{{ P }} m {{ Q }}" := (∀ s, P s → wp m Q s)
  (at level 0, m at level 100,
   format "'[hv' {{  P  }} '/  '  m '/' {{  Q  }} ']'") : eff_scope.
#[global] Open Scope eff_scope.

(** ** Monad laws *)

Section laws.
Context {St Err : Type}.
Implicit Types (s : St) (e : Err).

Lemma bind_ret_l {A B} (a : A) (k : A → M St Err B) :
  (a' ← ret a; k a') = k a.
Proof. done. Qed.

Lemma bind_ret_r {A} (m : M St Err A) s : (a ← m; ret a) s = m s.
Proof.
  unfold mbind, M_bind, bind. by destruct (m s) as [[a|e] s'].
Qed.

Lemma bind_assoc {A B C} (m : M St Err A) (k : A → M St Err B) (k' : B → M St Err C) s :
  (b ← (a ← m; k a); k' b) s = (a ← m; b ← k a; k' b) s.
Proof.
  unfold mbind, M_bind, bind. by destruct (m s) as [[a|e] s'].
Qed.

(** Nothing after a [throw] runs. *)
Lemma bind_throw {A B} e (k : A → M St Err B) :
  (a ← throw e; k a) = throw e.
Proof. done. Qed.

Lemma catch_throw {A} e (h : Err → M St Err A) : try_catch (throw e) h = h e.
Proof. done. Qed.

Lemma catch_ret {A} (a : A) (h : Err → M St Err A) : try_catch (ret a) h = ret a.
Proof. done. Qed.

(** The loop, one round at a time. *)
Lemma repeatM_0 (body : M St Err unit) : repeatM 0 body = mret tt.
Proof. done. Qed.

Lemma repeatM_S n (body : M St Err unit) :
  repeatM (S n) body = (body;; repeatM n body).
Proof. done. Qed.

(** One step of a bind, by the outcome of its first computation. *)
Lemma bind_ok {A B} (m : M St Err A) (k : A → M St Err B) s a s' :
  m s = (Ok a, s') → (x ← m; k x) s = k a s'.
Proof. unfold mbind, M_bind, bind. by intros ->. Qed.

Lemma bind_fail {A B} (m : M St Err A) (k : A → M St Err B) s e s' :
  m s = (Throw e, s') → (x ← m; k x) s = (Throw e, s').
Proof. unfold mbind, M_bind, bind. by intros ->. Qed.

Lemma catch_ok {A} (m : M St Err A) h s a s' :
  m s = (Ok a, s') → try_catch m h s = (Ok a, s').
Proof. unfold try_catch. by intros ->. Qed.

Lemma catch_fail {A} (m : M St Err A) h s e s' :
  m s = (Throw e, s') → try_catch m h s = h e s'.
Proof. unfold try_catch. by intros ->. Qed.

(** A final [return] does not change the state reached. *)
Lemma bind_ret_final {A B} (m : M St Err A) (g : A → B) s :
  ((a ← m; mret (g a)) s).2 = (m s).2.
Proof. unfold mbind, M_bind, bind. by destruct (m s) as [[a|e] s']. Qed.

(** ** Rules of [wp] *)

Lemma wp_ret {A} (a : A) (Q : outcome Err A → St → Prop) s :
  Q (Ok a) s → wp (mret a) Q s.
Proof. done. Qed.

Lemma wp_throw {A} e (Q : outcome Err A → St → Prop) s :
  Q (Throw e) s → wp (throw e) Q s.
Proof. done. Qed.

Lemma wp_bind {A B} (m : M St Err A) (k : A → M St Err B) Q s :
  wp m (λ r s', match r with
                | Ok a => wp (k a) Q s'
                | Throw e => Q (Throw e) s'
                end) s →
  wp (x ← m; k x) Q s.
Proof.
  unfold wp, mbind, M_bind, bind. by destruct (m s) as [[a|e] s'].
Qed.

Lemma wp_catch {A} (m : M St Err A) h (Q : outcome Err A → St → Prop) s :
  wp m (λ r s', match r with
                | Ok a => Q (Ok a) s'
                | Throw e => wp (h e) Q s'
                end) s →
  wp (try_catch m h) Q s.
Proof. unfold wp, try_catch. by destruct (m s) as [[a|e] s']. Qed.

Lemma wp_mono {A} (m : M St Err A) (Q Q' : outcome Err A → St → Prop) s :
  (∀ r s', Q r s' → Q' r s') → wp m Q s → wp m Q' s.
Proof. unfold wp. auto. Qed.

Lemma wp_conj {A} (m : M St Err A) (Q Q' : outcome Err A → St → Prop) s :
  wp m Q s → wp m Q' s → wp m (λ r s', Q r s' ∧ Q' r s') s.
Proof. by split. Qed.

(** A run is determined by a postcondition that fixes its outcome and
    state. *)
Lemma wp_eq {A} (m : M St Err A) s r s' :
  wp m (λ r0 s0, r0 = r ∧ s0 = s') s → m s = (r, s').
Proof. unfold wp. destruct (m s) as [r0 s0]. simpl. by intros [-> ->]. Qed.

Lemma wp_get (Q : outcome Err St → St → Prop) s : Q (Ok s) s → wp get Q s.
Proof. done. Qed.

Lemma wp_put s' (Q : outcome Err unit → St → Prop) s : Q (Ok tt) s' → wp (put s') Q s.
Proof. done. Qed.

Lemma wp_modify f (Q : outcome Err unit → St → Prop) s :
  Q (Ok tt) (f s) → wp (modify f) Q s.
Proof. done. Qed.

(** A loop keeps an invariant that each iteration keeps when it returns;
    an iteration that throws ends the loop. *)
Lemma wp_foldM {A B} (body : B → A → M St Err B) (I : B → St → Prop)
    (Q : outcome Err B → St → Prop) l acc s :
  I acc s →
  (∀ acc x s, x ∈ l → I acc s →
     wp (body acc x) (λ r s', match r with
                              | Ok acc' => I acc' s'
                              | Throw e => Q (Throw e) s'
                              end) s) →
  (∀ acc s, I acc s → Q (Ok acc) s) →
  wp (foldM body acc l) Q s.
Proof.
  intros HI Hbody Hend. revert acc s HI.
  induction l as [|x l IH]; intros acc s HI; simpl; [by apply wp_ret, Hend|].
  apply wp_bind. eapply wp_mono; [|apply Hbody; [left|done]].
  intros [acc'|e] s'; [|done]. apply IH.
  intros ? y ? Hy. apply Hbody. by right.
Qed.

Lemma wp_repeatM (body : M St Err unit) (I : St → Prop)
    (Q : outcome Err unit → St → Prop) n s :
  I s →
  (∀ s, I s → wp body (λ r s', match r with
                               | Ok _ => I s'
                               | Throw e => Q (Throw e) s'
                               end) s) →
  (∀ s, I s → Q (Ok tt) s) →
  wp (repeatM n body) Q s.
Proof.
  intros HI Hbody Hend. revert s HI.
  induction n as [|n IH]; intros s HI; simpl; [by apply wp_ret, Hend|].
  apply wp_bind. eapply wp_mono; [|by apply Hbody].
  intros [[]|e] s'; [|done]. apply IH.
Qed.

(** ** Absence of exceptions *)

Lemma no_throw_wp {A} (m : M St Err A) :
  no_throw m ↔ ∀ s, wp m (λ r _, ∃ a, r = Ok a) s.
Proof. done. Qed.

Lemma no_throw_ret {A} (a : A) : no_throw (mret a : M St Err A).
Proof. intros s. by exists a. Qed.

Lemma no_throw_bind {A B} (m : M St Err A) (k : A → M St Err B) :
  no_throw m → (∀ a, no_throw (k a)) → no_throw (x ← m; k x).
Proof.
  intros Hm Hk s. unfold mbind, M_bind, bind.
  destruct (Hm s) as [a Ha]. destruct (m s) as [r s']; simpl in Ha; subst r.
  apply Hk.
Qed.

(** A [try] whose handler cannot throw cannot throw, whatever its body. *)
Lemma no_throw_catch {A} (m : M St Err A) h :
  (∀ e, no_throw (h e)) → no_throw (try_catch m h).
Proof.
  intros Hh s. unfold try_catch. destruct (m s) as [[a|e] s']; [by exists a|].
  apply Hh.
Qed.

Lemma no_throw_get : no_throw (get : M St Err St).
Proof. intros s. by exists s. Qed.

Lemma no_throw_modify f : no_throw (modify f : M St Err unit).
Proof. intros s. by exists tt. Qed.

Lemma no_throw_foldM {A B} (body : B → A → M St Err B) acc l :
  (∀ acc x, no_throw (body acc x)) → no_throw (foldM body acc l).
Proof.
  intros Hbody. revert acc. induction l as [|x l IH]; intros acc; simpl.
  - apply no_throw_ret.
  - apply no_throw_bind; auto.
Qed.

(** The outcome of a computation that cannot throw. *)
Lemma no_throw_run {A} (m : M St Err A) s :
  no_throw m → ∃ a s', m s = (Ok a, s').
Proof.
  intros H. destruct (H s) as [a Ha]. destruct (m s) as [r s'].
  simpl in Ha; subst. eauto.
Qed.

(** ** Returned values *)

Lemma returns_ret {A} (a : A) (P : A → Prop) : P a → returns_only (mret a : M St Err A) P.
Proof. by intros ? s ? [= <-]. Qed.

Lemma returns_throw {A} e (P : A → Prop) : returns_only (throw e : M St Err A) P.
Proof. by intros s a. Qed.

Lemma returns_bind {A B} (m : M St Err A) (k : A → M St Err B) (P : B → Prop) :
  (∀ a, returns_only (k a) P) → returns_only (x ← m; k x) P.
Proof.
  intros Hk s b. unfold mbind, M_bind, bind.
  destruct (m s) as [[a|e] s']; [apply Hk|done].
Qed.

(** The continuation may rely on what the first computation returns. *)
Lemma returns_bind_strong {A B} (m : M St Err A) (k : A → M St Err B)
    (P : A → Prop) (Q : B → Prop) :
  returns_only m P → (∀ a, P a → returns_only (k a) Q) →
  returns_only (x ← m; k x) Q.
Proof.
  intros Hm Hk s b. unfold mbind, M_bind, bind. specialize (Hm s).
  destruct (m s) as [[a|e] s']; [|done]. by apply Hk, Hm.
Qed.

Lemma returns_catch {A} (m : M St Err A) h (P : A → Prop) :
  returns_only m P → (∀ e, returns_only (h e) P) →
  returns_only (try_catch m h) P.
Proof.
  intros Hm Hh s a. unfold try_catch. specialize (Hm s).
  destruct (m s) as [[a'|e] s']; [apply Hm|apply Hh].
Qed.

Lemma returns_mono {A} (m : M St Err A) (P P' : A → Prop) :
  (∀ a, P a → P' a) → returns_only m P → returns_only m P'.
Proof. intros HP Hm s a H. eauto. Qed.

Lemma returns_foldM {A B} (body : B → A → M St Err B) (P : B → Prop) acc l :
  P acc → (∀ acc x, P acc → returns_only (body acc x) P) →
  returns_only (foldM body acc l) P.
Proof.
  intros Hacc Hbody. revert acc Hacc.
  induction l as [|x l IH]; intros acc Hacc; simpl; [by apply returns_ret|].
  intros s b. unfold bind. specialize (Hbody acc x Hacc s).
  destruct (body acc x s) as [[acc'|e] s']; [|done].
  apply IH. by apply Hbody.
Qed.

(** A loop whose rounds keep [P] and grow a size by at most [k] grows it
    by at most [k] for each element. *)
Lemma returns_foldM_bounded {A B} (body : B → A → M St Err B) (P : B → Prop)
    (size : B → nat) k acc l :
  P acc →
  (∀ acc x, P acc →
     returns_only (body acc x) (λ acc', P acc' ∧ size acc' ≤ size acc + k)) →
  returns_only (foldM body acc l)
    (λ acc', P acc' ∧ size acc' ≤ size acc + k * length l).
Proof.
  intros Hacc Hbody. revert acc Hacc.
  induction l as [|x l IH]; intros acc Hacc; simpl.
  - apply returns_ret. split; [done|lia].
  - intros s b. unfold bind. specialize (Hbody acc x Hacc s).
    destruct (body acc x s) as [[acc'|e] s']; [|done].
    destruct (Hbody acc' eq_refl) as [HP Hsize]. intros Hb.
    destruct (IH acc' HP s' b Hb) as [HP' Hsize']. split; [done|lia].
Qed.

(** A loop whose rounds each grow a size by one grows it by the number of
    elements. *)
Lemma returns_foldM_count {A B} (body : B → A → M St Err B) (size : B → nat)
    acc l :
  (∀ acc x, returns_only (body acc x) (λ acc', size acc' = S (size acc))) →
  returns_only (foldM body acc l) (λ acc', size acc' = size acc + length l).
Proof.
  intros Hbody. revert acc. induction l as [|x l IH]; intros acc; simpl.
  - apply returns_ret. lia.
  - intros s b. unfold bind. specialize (Hbody acc x s).
    destruct (body acc x s) as [[acc'|e] s']; [|done].
    intros Hb. rewrite (IH acc' s' b Hb), (Hbody acc' eq_refl). lia.
Qed.

(** The value of a computation that cannot throw satisfies what it
    returns only. *)
Lemma returns_run {A} (m : M St Err A) (P : A → Prop) s :
  no_throw m → returns_only m P → ∃ a s', m s = (Ok a, s') ∧ P a.
Proof.
  intros Hn Hr. destruct (no_throw_run m s Hn) as (a & s' & E).
  exists a, s'. split; [done|]. apply (Hr s). by rewrite E.
Qed.

(** ** Relations kept by every run *)

Section preserves.
Context (R : relation St) `{!PreOrder R}.

Lemma preserves_ret {A} (a : A) : preserves R (mret a : M St Err A).
Proof. by intros s. Qed.

Lemma preserves_throw {A} e : preserves R (throw e : M St Err A).
Proof. by intros s. Qed.

Lemma preserves_get : preserves R (get : M St Err St).
Proof. by intros s. Qed.

Lemma preserves_modify f : (∀ s, R s (f s)) → preserves R (modify f : M St Err unit).
Proof. intros H s. apply H. Qed.

Lemma preserves_bind {A B} (m : M St Err A) (k : A → M St Err B) :
  preserves R m → (∀ a, preserves R (k a)) → preserves R (x ← m; k x).
Proof.
  intros Hm Hk s. unfold mbind, M_bind, bind. specialize (Hm s).
  destruct (m s) as [[a|e] s']; [|done]. by etrans; [|apply Hk].
Qed.

Lemma preserves_catch {A} (m : M St Err A) h :
  preserves R m → (∀ e, preserves R (h e)) → preserves R (try_catch m h).
Proof.
  intros Hm Hh s. unfold try_catch. specialize (Hm s).
  destruct (m s) as [[a|e] s']; [done|]. by etrans; [|apply Hh].
Qed.

Lemma preserves_foldM {A B} (body : B → A → M St Err B) acc l :
  (∀ acc x, preserves R (body acc x)) → preserves R (foldM body acc l).
Proof.
  intros Hbody. revert acc. induction l as [|x l IH]; intros acc; simpl.
  - apply preserves_ret.
  - apply (preserves_bind (body acc x)); auto.
Qed.

Lemma preserves_repeatM (body : M St Err unit) n :
  preserves R body → preserves R (repeatM n body).
Proof.
  intros Hbody. induction n as [|n IH]; simpl.
  - apply preserves_ret.
  - apply (preserves_bind body); auto.
Qed.

End preserves.

Lemma no_throw_repeatM (body : M St Err unit) n :
  no_throw body → no_throw (repeatM n body).
Proof.
  intros Hbody. induction n as [|n IH]; simpl.
  - apply no_throw_ret.
  - apply (no_throw_bind body); auto.
Qed.

End laws.

#[export] Hint Resolve returns_ret returns_throw returns_bind returns_catch
  preserves_ret preserves_throw preserves_get preserves_bind preserves_catch
  preserves_foldM preserves_repeatM no_throw_repeatM : eff.
#[export] Hint Resolve no_throw_ret no_throw_bind no_throw_catch no_throw_get
  no_throw_modify no_throw_foldM : eff.

(** [monad_unfold] exposes the state-passing function of a computation whose
    own definitions have been unfolded. *)
Ltac monad_unfold :=
  repeat (progress unfold mbind, M_bind, bind, mret, M_ret, ret, get, put,
          modify, throw, try_catch in *; simpl in * ).

(** [eff_step] applies the rule of the head combinator to a goal
    [no_throw m], [returns_only m P] or [preserves R m]; [eff_auto tac]
    repeats it and closes the leaves with [tac]. *)
Ltac eff_step :=
  lazymatch goal with
  | |- preserves _ (mbind _ _) =>
      apply preserves_bind; [apply _| |intros ?]
  | |- preserves _ (bind _ _) =>
      apply preserves_bind; [apply _| |intros ?]
  | |- preserves _ (try_catch _ _) =>
      apply preserves_catch; [apply _| |intros ?]
  | |- preserves _ (mret _) => apply preserves_ret; apply _
  | |- preserves _ (ret _) => apply preserves_ret; apply _
  | |- preserves _ (throw _) => apply preserves_throw; apply _
  | |- preserves _ get => apply preserves_get; apply _
  | |- preserves _ (foldM _ _ _) =>
      apply preserves_foldM; [apply _|intros ? ?]
  | |- preserves _ (repeatM _ _) => apply preserves_repeatM; [apply _|]
  | |- no_throw (mbind _ _) => apply no_throw_bind; [|intros ?]
  | |- no_throw (bind _ _) => apply no_throw_bind; [|intros ?]
  | |- no_throw (try_catch _ _) => apply no_throw_catch; intros ?
  | |- no_throw (mret _) => apply no_throw_ret
  | |- no_throw (ret _) => apply no_throw_ret
  | |- no_throw get => apply no_throw_get
  | |- no_throw (modify _) => apply no_throw_modify
  | |- no_throw (foldM _ _ _) => apply no_throw_foldM; intros ? ?
  | |- no_throw (repeatM _ _) => apply no_throw_repeatM
  | |- returns_only (mbind _ _) _ => apply returns_bind; intros ?
  | |- returns_only (bind _ _) _ => apply returns_bind; intros ?
  | |- returns_only (try_catch _ _) _ => apply returns_catch; [|intros ?]
  | |- returns_only (mret _) _ => apply returns_ret
  | |- returns_only (ret _) _ => apply returns_ret
  | |- returns_only (throw _) _ => apply returns_throw
  | |- context [match ?x with _ => _ end] => destruct x
  end.

Tactic Notation "eff_auto" "by" tactic3(tac) :=
  repeat (first [eff_step | solve [tac]]).

(** [wp_step] applies the rule of the head combinator of the goal. *)
Ltac wp_step :=
  lazymatch goal with
  | |- wp (mbind _ _) _ _ => apply wp_bind
  | |- wp (bind _ _) _ _ => apply wp_bind
  | |- wp (try_catch _ _) _ _ => apply wp_catch
  | |- wp (mret _) _ _ => apply wp_ret
  | |- wp (ret _) _ _ => apply wp_ret
  | |- wp (throw _) _ _ => apply wp_throw
  | |- wp get _ _ => apply wp_get
  | |- wp (put _) _ _ => apply wp_put
  | |- wp (modify _) _ _ => apply wp_modify
  | |- wp (repeatM 0 _) _ _ => rewrite repeatM_0
  | |- wp (repeatM (S _) _) _ _ => rewrite repeatM_S
  end.
