(* ===== verification/Machine.v ===== *)
(** * Machine: components driven by events

    The screens and the desktop shell are objects whose state changes in
    handlers that events call: a click, a message of the network, an
    event of the window system.  This file holds what their models
    share: the run of a list of events, the states reached from an
    initial one, the proof of an invariant by induction on the way a state
    is reached, and, for a relation between states, the states from which
    a property holds after finitely many steps whatever steps are
    taken. *)

From S2P Require Import Prelude.

(** ** Handlers *)

Section handlers.
Context {State Event : Type}.

(** The handler of each event, and the events that can occur in a
    state. *)
Context (step : Event → State → State) (offered : Event → State → Prop).

(** The state after the events of a list, in order. *)
Definition run (events : list Event) (st : State) : State :=
  foldl (λ st e, step e st) st events.

(** The events of a list can occur one after the other. *)
Fixpoint admissible (events : list Event) (st : State) : Prop :=
  match events with
  | [] => True
  | e :: events => offered e st ∧ admissible events (step e st)
  end.

(** The states reached from [init] by events that can occur. *)
Inductive reachable_from (init : State) : State → Prop :=
| reachable_init : reachable_from init init
| reachable_step st e :
    reachable_from init st → offered e st → reachable_from init (step e st).

End handlers.

(** ** Progress *)

Section progress.
Context {State : Type} (next : State → State → Prop).

(** [P] holds after finitely many steps of [next], whatever steps are
    taken, and a step can be taken as long as it does not hold. *)
Inductive eventually (P : State → Prop) (st : State) : Prop :=
| eventually_now : P st → eventually P st
| eventually_later :
    (∃ st', next st st') → (∀ st', next st st' → eventually P st') →
    eventually P st.

(** No step leaves the state. *)
Definition quiescent (st : State) : Prop := ∀ st', ¬ next st st'.

End progress.

(** ** Lemmas *)

Section handler_lemmas.
Context {State Event : Type}.
Context (step : Event → State → State) (offered : Event → State → Prop).
Local Abbreviation run := (run step).
Local Abbreviation admissible := (admissible step offered).
Local Abbreviation reachable_from := (reachable_from step offered).

Lemma run_nil st : run [] st = st.
Proof. done. Qed.

Lemma run_cons e events st : run (e :: events) st = run events (step e st).
Proof. done. Qed.

Lemma run_app events1 events2 st :
  run (events1 ++ events2) st = run events2 (run events1 st).
Proof. apply foldl_app. Qed.

Lemma run_snoc events e st : run (events ++ [e]) st = step e (run events st).
Proof. by rewrite run_app. Qed.

Lemma admissible_app events1 events2 st :
  admissible (events1 ++ events2) st
  ↔ admissible events1 st ∧ admissible events2 (run events1 st).
Proof.
  revert st. induction events1 as [|e events1 IH]; intros st; simpl.
  - naive_solver.
  - rewrite IH. naive_solver.
Qed.

(** A reached state is the end of an admissible run, and conversely. *)
Lemma reachable_run init events :
  admissible events init → reachable_from init (run events init).
Proof.
  induction events as [|e events IH] using rev_ind; [constructor|].
  intros [H1 [H2 _]]%admissible_app. rewrite run_snoc.
  constructor; [by apply IH|done].
Qed.

Lemma reachable_inv init st :
  reachable_from init st →
  ∃ events, admissible events init ∧ st = run events init.
Proof.
  induction 1 as [|st e _ (events & Hadm & ->) He]; [by exists []|].
  exists (events ++ [e]). rewrite run_snoc. split; [|done].
  apply admissible_app. by repeat split.
Qed.

(** An invariant: it holds initially and every event that can occur keeps
    it. *)
Lemma reachable_invariant (I : State → Prop) init :
  I init → (∀ e st, I st → offered e st → I (step e st)) →
  ∀ st, reachable_from init st → I st.
Proof. intros Hinit Hstep st. induction 1; eauto. Qed.

Lemma reachable_trans init st st' :
  reachable_from init st → reachable_from st st' → reachable_from init st'.
Proof. intros H. induction 1; [done|]. by constructor. Qed.

End handler_lemmas.

Section progress_lemmas.
Context {State : Type} (next : State → State → Prop).
Local Abbreviation eventually := (eventually next).

Lemma eventually_weaken (P Q : State → Prop) st :
  (∀ st', P st' → Q st') → eventually P st → eventually Q st.
Proof.
  intros HPQ. induction 1 as [st HP|st Hex _ IH].
  - apply eventually_now. auto.
  - by apply eventually_later.
Qed.

Lemma eventually_trans (P Q : State → Prop) st :
  eventually P st → (∀ st', P st' → eventually Q st') → eventually Q st.
Proof.
  intros H HPQ. induction H as [st HP|st Hex _ IH]; [auto|].
  by apply eventually_later.
Qed.

(** A measure that every step decreases, and that allows a step while it
    is positive, is a bound on the steps to a state where it is zero. *)
Lemma eventually_measure (m : State → nat) st :
  (∀ st, 0 < m st → ∃ st', next st st') →
  (∀ st st', next st st' → m st' < m st) →
  eventually (λ st', m st' = 0) st.
Proof.
  intros Hgo Hdec. remember (m st) as n eqn:Hn. revert st Hn.
  induction n as [n IH] using lt_wf_ind. intros st ->.
  destruct (decide (m st = 0)) as [Hz|Hnz]; [by apply eventually_now|].
  apply eventually_later; [apply Hgo; lia|].
  intros st' Hst'. eapply IH; [by apply Hdec|done].
Qed.

(** With such a measure every sequence of steps is finite. *)
Lemma measure_terminates (m : State → nat) :
  (∀ st st', next st st' → m st' < m st) → ∀ st, Acc (flip next) st.
Proof.
  intros Hdec st. remember (m st) as n eqn:Hn. revert st Hn.
  induction n as [n IH] using lt_wf_ind. intros st ->.
  constructor. intros st' Hst'. eapply IH; [by apply Hdec|done].
Qed.

(** The steps taken on the way preserve an invariant. *)
Lemma eventually_invariant (I P : State → Prop) st :
  (∀ st st', I st → next st st' → I st') →
  I st → eventually P st → eventually (λ st', I st' ∧ P st') st.
Proof.
  intros Hstep HI H. induction H as [st HP|st Hex _ IH].
  - by apply eventually_now.
  - apply eventually_later; [done|]. intros st' Hst'. apply IH; eauto.
Qed.

End progress_lemmas.
