(* ===== verification/Cookie.v ===== *)
(** * Cookie: the cookie codec of [TikTokService]

    [parseCookies] (tiktokService.js, lines 40-57) turns a cookie header
    into the list of cookies handed to the page.  It is modelled as the loop
    the code runs ([foldl] with [push]) and proved equal to the reference
    [omap]; the theorems give its well-formedness invariant, its inverse
    relation to a header encoder, and the inputs on which it departs from
    the specification. *)

From S2P Require Import Prelude JsString.

Module CookieCodec.

(** ** Data *)

(** The object literal pushed at lines 47-52. *)
Record cookie : Type := Cookie {
  name : string;
  value : string;
  domain : string;
  path : string
}.

#[export] Instance cookie_eq_dec : EqDecision cookie.
Proof. solve_decision. Defined.

(** ** Operations *)

(** Lines 47-52: both fields trimmed, the domain and the path fixed. *)
Definition mkCookie (n v : string) : cookie :=
  {| name := trim n; value := trim v; domain := ".tiktok.com"; path := "/" |}.

(** Lines 45-53, one iteration: [const [name, value] =
    pair.trim().split('=')] takes the first two pieces ([value] is
    [undefined], hence falsy, when there is no [=]); the guard
    [name && value] keeps the pair when both are non-empty strings. *)
Definition parsePair (pair : string) : option cookie :=
  match split "=" (trim pair) with
  | n :: v :: _ => if truthy n && truthy v then Some (mkCookie n v) else None
  | _ => None
  end.

(** Lines 40-57: the loop over [cookieString.split(';')] pushing onto
    [cookies]. *)
Definition parseCookies (cookieString : string) : list cookie :=
  foldl (push_some parsePair) [] (split ";" cookieString).

(** The reference definition: the pairs that parse, in order. *)
Definition parseCookies_ref (cookieString : string) : list cookie :=
  omap parsePair (split ";" cookieString).

(** [if (this.cookies) { cookies = parseCookies(this.cookies) }] (lines
    119-122): nothing is set for a missing or empty header. *)
Definition cookiesToSet (cookies : option string) : option (list cookie) :=
  match cookies with
  | Some s => if truthy s then Some (parseCookies s) else None
  | None => None
  end.

(** The header a browser sends for a list of pairs: [n=v] joined by
    [; ] (the inverse the specification asks the parser to have). *)
Definition encodePair (p : string * string) : string :=
  p.1 +:+ "=" +:+ p.2.

Definition encodeCookies (l : list (string * string)) : string :=
  join "; " (encodePair <$> l).

(** A field that survives encoding and parsing: not empty, no white space
    at either end, no separator. *)
Definition clean (s : string) : Prop :=
  s ≠ "" ∧ trimmed s ∧ lacks ";" s = true ∧ lacks "=" s = true.

(** The well-formedness of a parsed cookie. *)
Record wf_cookie (c : cookie) : Prop := WfCookie {
  wf_name_nonempty : name c ≠ "";
  wf_name_trimmed : trimmed (name c);
  wf_value_trimmed : trimmed (value c);
  wf_name_sep : lacks "=" (name c) = true ∧ lacks ";" (name c) = true;
  wf_value_sep : lacks "=" (value c) = true ∧ lacks ";" (value c) = true;
  wf_domain : domain c = ".tiktok.com";
  wf_path : path c = "/"
}.

(** ** The loop and the reference *)

Lemma parseCookies_eq_ref s : parseCookies s = parseCookies_ref s.
Proof. unfold parseCookies. by rewrite foldl_push_some. Qed.

Lemma parsePair_Some pair c :
  parsePair pair = Some c ↔
  ∃ n v rest, split "=" (trim pair) = n :: v :: rest ∧
              n ≠ "" ∧ v ≠ "" ∧ c = mkCookie n v.
Proof.
  unfold parsePair. split.
  - destruct (split "=" (trim pair)) as [|n [|v rest]]; try done.
    destruct (truthy n) eqn:Hn, (truthy v) eqn:Hv; try done.
    intros [= <-]. exists n, v, rest. by rewrite <- !truthy_true.
  - intros (n & v & rest & -> & Hn%truthy_true & Hv%truthy_true & ->).
    by rewrite Hn, Hv.
Qed.

Lemma elem_of_parseCookies s c :
  c ∈ parseCookies s ↔ ∃ pair, pair ∈ split ";" s ∧ parsePair pair = Some c.
Proof. rewrite parseCookies_eq_ref. apply list_elem_of_omap. Qed.

(** ** Well-formedness *)

(** The name is the first piece of a trimmed pair: when it is not empty it
    starts with the first character of the pair, which is not a space. *)
Lemma first_piece_head pair n rest :
  split "=" (trim pair) = n :: rest → n ≠ "" → trim n ≠ "".
Proof.
  destruct (trim pair) as [|c t] eqn:E.
  - intros [= <- _]. done.
  - pose proof (trim_head _ _ _ E) as Hc.
    destruct (split_head "=" c t) as [[r ->]|(seg & r & ->)]; [done|..].
    + by intros [= <- _].
    + intros [= <- _] _. by apply trim_nonempty_head.
Qed.

Lemma pieces_lack_sep pair s n v rest :
  pair ∈ split ";" s → split "=" (trim pair) = n :: v :: rest →
  (lacks "=" n = true ∧ lacks ";" n = true) ∧
  (lacks "=" v = true ∧ lacks ";" v = true).
Proof.
  intros Hin Hsplit.
  pose proof (split_char_lacks ";" s) as Hsemi.
  rewrite Forall_forall in Hsemi. specialize (Hsemi _ Hin).
  apply (all_chars_trim _ pair) in Hsemi.
  pose proof (split_char_lacks "=" (trim pair)) as Heq.
  rewrite Hsplit in Heq. apply Forall_cons in Heq as [Hn Heq].
  apply Forall_cons in Heq as [Hv _].
  assert (join "=" (split "=" (trim pair)) = trim pair) as Hjoin
    by by apply join_split.
  rewrite Hsplit in Hjoin. rewrite <- Hjoin in Hsemi.
  rewrite join_cons in Hsemi. unfold lacks in Hsemi.
  rewrite !all_chars_app in Hsemi.
  apply andb_prop in Hsemi as [Hn' Hrest%andb_prop]. destruct Hrest as [_ Hrest].
  repeat split; try done.
  destruct rest; [done|]. rewrite join_cons, all_chars_app in Hrest.
  by apply andb_prop in Hrest as [? _].
Qed.

Lemma lacks_trim c s : lacks c s = true → lacks c (trim s) = true.
Proof. apply all_chars_trim. Qed.

Lemma parsePair_wf pair s c :
  pair ∈ split ";" s → parsePair pair = Some c → wf_cookie c.
Proof.
  intros Hin (n & v & rest & Hsplit & Hn & Hv & ->)%parsePair_Some.
  destruct (pieces_lack_sep _ _ _ _ _ Hin Hsplit) as [[? ?] [? ?]].
  split; simpl; auto using trimmed_trim, lacks_trim.
  by eapply first_piece_head.
Qed.

(** ** The encoder *)

Lemma clean_head s : clean s → ∃ c t, s = String c t ∧ is_space c = false.
Proof.
  intros (Hne & [Hs _] & _). destruct s as [|c t]; [done|].
  exists c, t. split; [done|]. simpl in Hs. destruct (is_space c); [|done].
  pose proof (trimStart_length t) as Hl. rewrite Hs in Hl. simpl in Hl. lia.
Qed.

Lemma trimmed_pair n v : clean n → clean v → trimmed (n +:+ "=" +:+ v).
Proof.
  intros Hn Hv. destruct (clean_head _ Hn) as (c & t & -> & Hc).
  destruct Hv as (Hv & [_ Hve] & _). split.
  - rewrite sapp_cons. by apply trimStart_fix.
  - rewrite <- sapp_assoc. by apply trimEnd_app_fix.
Qed.

(** A clean pair parses to itself whatever white space surrounds it. *)
Lemma parsePair_clean lead n v trail :
  all_chars is_space lead = true → all_chars is_space trail = true →
  clean n → clean v →
  parsePair (lead +:+ (n +:+ "=" +:+ v) +:+ trail)
  = Some (Cookie n v ".tiktok.com" "/").
Proof.
  intros Hl Ht Hn Hv. unfold parsePair.
  rewrite trim_padded by auto using trimmed_pair.
  destruct Hn as (Hn & Hnt & _ & Hneq), Hv as (Hv & Hvt & _ & Hveq).
  change ("=" +:+ v) with (String "=" v).
  rewrite split_char_cons, split_char_last by done.
  apply truthy_true in Hn, Hv. rewrite Hn, Hv. simpl. unfold mkCookie.
  by rewrite !trim_trimmed.
Qed.

Lemma encodePair_lacks p : clean p.1 → clean p.2 → lacks ";" (encodePair p) = true.
Proof.
  intros (_ & _ & H1 & _) (_ & _ & H2 & _). unfold encodePair.
  by rewrite !lacks_app, H1, H2.
Qed.

Lemma parse_encoded lead l :
  all_chars is_space lead = true →
  Forall (λ p, clean p.1 ∧ clean p.2) l → l ≠ [] →
  parseCookies_ref (lead +:+ encodeCookies l)
  = (λ p, Cookie p.1 p.2 ".tiktok.com" "/") <$> l.
Proof.
  intros Hlead Hl. revert lead Hlead.
  induction Hl as [|p l [Hp1 Hp2] Hl IH]; intros lead Hlead Hne; [done|].
  unfold parseCookies_ref, encodeCookies in *. destruct l as [|q l].
  - rewrite list_fmap_singleton, join_singleton, split_char_last.
    + csimpl. rewrite <- (sapp_nil_r (encodePair p)).
      unfold encodePair at 1. by rewrite parsePair_clean.
    + rewrite lacks_app, encodePair_lacks by done.
      rewrite andb_true_r. revert Hlead. by apply all_chars_impl; intros [[] [] [] [] [] [] [] []].
  - rewrite fmap_cons, join_cons_ne, <- sapp_assoc by done.
    change ("; " +:+ ?r) with (String ";" (" " +:+ r)).
    rewrite split_char_cons.
    + csimpl. rewrite <- (sapp_nil_r (encodePair p)).
      unfold encodePair at 1. rewrite parsePair_clean by done.
      f_equal. by apply (IH " ").
    + rewrite lacks_app, encodePair_lacks by done.
      rewrite andb_true_r. revert Hlead. by apply all_chars_impl; intros [[] [] [] [] [] [] [] []].
Qed.

(** Only the first two pieces of a pair are read. *)
Lemma parsePair_truncates n v1 v2 :
  clean n → clean v1 →
  parsePair (n +:+ "=" +:+ v1 +:+ "=" +:+ v2)
  = Some (Cookie n v1 ".tiktok.com" "/").
Proof.
  intros Hn Hv1. destruct (clean_head _ Hn) as (c & t & -> & Hc).
  destruct Hn as (Hn & Hnt & _ & Hneq), Hv1 as (Hv & Hvt & _ & Hveq).
  unfold parsePair, trim.
  rewrite sapp_cons, trimStart_fix, <- sapp_cons by done.
  rewrite <- !sapp_assoc, (sapp_assoc _ "=" v2).
  change ("=" +:+ v2) with (String "=" v2).
  rewrite trimEnd_app_nonspace, !sapp_assoc by done.
  change ("=" +:+ v1 +:+ ?r) with (String "=" (v1 +:+ r)).
  rewrite !split_char_cons by done.
  apply truthy_true in Hv. rewrite Hv. simpl. unfold mkCookie.
  by rewrite !trim_trimmed.
Qed.

(** ** Properties *)

(** C8. Every cookie produced by [parseCookies] is well formed: its name
    is not empty, name and value carry no surrounding white space and no
    [=] or [;], and the domain and path are the fixed ones; this holds for
    every input string, so the parser never fails. *)
Theorem parseCookies_wf (s : string) : Forall wf_cookie (parseCookies s).
Proof.
  apply Forall_forall. intros c (pair & Hin & Hp)%elem_of_parseCookies.
  by eapply parsePair_wf.
Qed.


(** C38. Round trip: parsing the encoding of clean name/value pairs gives
    the pairs back, in order, under the fixed domain and path. *)
Theorem parseCookies_encode (l : list (string * string)) :
  Forall (λ p, clean p.1 ∧ clean p.2) l →
  parseCookies (encodeCookies l) = (λ p, Cookie p.1 p.2 ".tiktok.com" "/") <$> l.
Proof.
  intros Hl. rewrite parseCookies_eq_ref. destruct l as [|p l]; [done|].
  rewrite <- (sapp_nil_l (encodeCookies _)). by apply parse_encoded.
Qed.

(** The hypotheses of the round trip evaluate on a two-cookie header. *)
Lemma clean_dec_true s :
  (truthy s && String.eqb (trim s) s && lacks ";" s && lacks "=" s) = true →
  clean s.
Proof.
  intros [[[H1%truthy_true H2%String.eqb_eq]%andb_prop H3]%andb_prop H4]%andb_prop.
  repeat split; try done; by apply trimmed_iff.
Qed.

Lemma parseCookies_encode_witness :
  parseCookies (encodeCookies [("sessionid", "abc123"); ("tt_webid", "42")])
  = [Cookie "sessionid" "abc123" ".tiktok.com" "/";
     Cookie "tt_webid" "42" ".tiktok.com" "/"].
Proof.
  apply (parseCookies_encode [("sessionid", "abc123"); ("tt_webid", "42")]).
  repeat constructor; by apply clean_dec_true.
Defined.

(** The number of cookies is at most the number of [;]-separated
    pieces, and an empty header gives no cookie. *)
Theorem parseCookies_length (s : string) :
  length (parseCookies s) ≤ length (split ";" s) ∧ parseCookies "" = [].
Proof.
  split; [|done]. rewrite parseCookies_eq_ref. apply omap_length_le.
Qed.

(** A value that contains [=] is cut at it: only the first two pieces
    of the pair are read, so [k=a=b] yields the value [a] and the encoder
    is not inverted on such values. *)
Theorem parseCookies_value_truncated (n v1 v2 : string) :
  clean n → clean v1 → lacks ";" v2 = true →
  parseCookies (n +:+ "=" +:+ v1 +:+ "=" +:+ v2)
  = [Cookie n v1 ".tiktok.com" "/"].
Proof.
  intros Hn Hv1 Hv2. rewrite parseCookies_eq_ref. unfold parseCookies_ref.
  destruct Hn as (? & ? & Hns & ?) eqn:En, Hv1 as (? & ? & Hvs & ?) eqn:Ev.
  rewrite split_char_last by (by rewrite !lacks_app, Hns, Hvs, Hv2).
  csimpl. by rewrite parsePair_truncates.
Qed.

Lemma parseCookies_value_truncated_witness :
  parseCookies "token=YWJj=ZA" = [Cookie "token" "YWJj" ".tiktok.com" "/"].
Proof.
  apply (parseCookies_value_truncated "token" "YWJj" "ZA");
    [by apply clean_dec_true..|done].
Defined.

(** A pair whose value is blank but followed by a second [=] passes
    the guard [name && value] and yields a cookie with an empty value,
    which the specification excludes. *)
Theorem parseCookies_blank_value :
  parseCookies "a= =b" = [Cookie "a" "" ".tiktok.com" "/"] ∧
  ¬ Forall (λ c, value c ≠ "") (parseCookies "a= =b").
Proof.
  split; [done|]. intros H. by inversion_clear H.
Qed.

End CookieCodec.
