(* ===== verification/Dom.v ===== *)
(** * Dom: what a page evaluation observes of a document

    The callbacks passed to [page.evaluate] read the document through
    [querySelector], [querySelectorAll], [textContent], [src], [href],
    [getAttribute] and [window.location.pathname] only.  A [page] is the
    table of answers to [querySelectorAll], an [element] carries its text,
    its reflected attributes and the same table for its descendants.
    [querySelector] is the first element of the answer, as in the DOM. *)

From S2P Require Import Prelude JsString.

Module Dom.

(** ** Data *)

(** An element as the scanners see it.  [src] and [href] are the reflected
    properties (the empty string when the attribute is absent);
    [attributes] answers [getAttribute]; [descendants] answers
    [element.querySelectorAll]. *)
#[warnings="-register-all"]
Inductive element : Type := Element {
  textContent : string;
  src : string;
  href : string;
  attributes : list (string * string);
  descendants : list (string * list element)
}.

(** A loaded document: [window.location.pathname] and the answers of
    [document.querySelectorAll]. *)
Record page : Type := Page {
  pathname : string;
  nodes : list (string * list element)
}.

(** ** Queries *)

(** The value bound to a key in a table, the first binding winning. *)
Fixpoint assoc {A} (k : string) (l : list (string * A)) : option A :=
  match l with
  | [] => None
  | (k', v) :: l' => if decide (k = k') then Some v else assoc k l'
  end.

Definition matchesOf (tbl : list (string * list element)) (sel : string)
  : list element :=
  default [] (assoc sel tbl).

Definition querySelectorAll (pg : page) (sel : string) : list element :=
  matchesOf (nodes pg) sel.

Definition querySelector (pg : page) (sel : string) : option element :=
  head (querySelectorAll pg sel).

Definition querySelectorAllIn (el : element) (sel : string) : list element :=
  matchesOf (descendants el) sel.

Definition querySelectorIn (el : element) (sel : string) : option element :=
  head (querySelectorAllIn el sel).

Definition getAttribute (el : element) (name : string) : option string :=
  assoc name (attributes el).

(** A text node with nothing else, and an image with a source. *)
Definition textNode (t : string) : element :=
  Element t "" "" [] [].

Definition imgNode (s : string) : element :=
  Element "" s "" [] [].

Definition linkNode (h : string) : element :=
  Element "" "" h [] [].

(** The empty document at a path. *)
Definition blankPage (path : string) : page := Page path [].

(** ** Selector syntax *)

(** The double quote, which a string literal cannot hold here. *)
Definition dq : string := String (ascii_of_nat 34) "".

(** [[attr="v"]], [[attr*="v"]] after a tag *)
Definition attrIs (tag attr v : string) : string :=
  tag +:+ "[" +:+ attr +:+ "=" +:+ dq +:+ v +:+ dq +:+ "]".

Definition attrHas (tag attr v : string) : string :=
  tag +:+ "[" +:+ attr +:+ "*=" +:+ dq +:+ v +:+ dq +:+ "]".

(** [[data-e2e="v"]] *)
Definition e2e (v : string) : string := attrIs "" "data-e2e" v.

(** ** Observational equivalence *)

(** Two documents are equivalent when they have the same path and answer
    every query alike; the tables may differ in order and in shadowed
    bindings. *)
#[export] Instance page_equiv : Equiv page := λ p q,
  pathname p = pathname q ∧ ∀ sel, querySelectorAll p sel = querySelectorAll q sel.

#[export] Instance page_equivalence : Equivalence (≡@{page}).
Proof.
  split.
  - by intros p.
  - intros p q [? H]. split; [done|]. intros sel. by rewrite H.
  - intros p q r [? H1] [? H2]. split; [congruence|].
    intros sel. by rewrite H1, H2.
Qed.

#[export] Instance querySelectorAll_proper :
  Proper ((≡) ==> (=) ==> (=)) querySelectorAll.
Proof. intros p q [_ H] sel ? <-. apply H. Qed.

#[export] Instance querySelector_proper :
  Proper ((≡) ==> (=) ==> (=)) querySelector.
Proof. intros p q Hpq sel ? <-. unfold querySelector. by rewrite Hpq. Qed.

#[export] Instance pathname_proper : Proper ((≡) ==> (=)) pathname.
Proof. by intros p q [? _]. Qed.

(** ** Lemmas *)

Lemma assoc_cons_eq {A} k (v : A) l : assoc k ((k, v) :: l) = Some v.
Proof. simpl. by rewrite decide_True. Qed.

Lemma assoc_cons_ne {A} k k' (v : A) l :
  k ≠ k' → assoc k ((k', v) :: l) = assoc k l.
Proof. intros. simpl. by rewrite decide_False. Qed.

Lemma assoc_None {A} k (l : list (string * A)) :
  assoc k l = None ↔ k ∉ l.*1.
Proof.
  induction l as [|[k' v] l IH]; csimpl.
  - split; [by intros _ ?%elem_of_nil|done].
  - rewrite not_elem_of_cons. case_decide; [naive_solver|]. rewrite IH.
    naive_solver.
Qed.

Lemma querySelector_blank path sel : querySelector (blankPage path) sel = None.
Proof. done. Qed.

Lemma querySelector_Some pg sel el :
  querySelector pg sel = Some el ↔ ∃ rest, querySelectorAll pg sel = el :: rest.
Proof.
  unfold querySelector. destruct (querySelectorAll pg sel); simpl; naive_solver.
Qed.

Lemma querySelector_elem_of pg sel el :
  querySelector pg sel = Some el → el ∈ querySelectorAll pg sel.
Proof. intros [rest ->]%querySelector_Some. by left. Qed.

(** A shadowed binding does not change the document. *)
Lemma page_equiv_shadow path sel l l' tbl :
  Page path ((sel, l) :: (sel, l') :: tbl) ≡ Page path ((sel, l) :: tbl).
Proof.
  split; [done|]. intros s. unfold querySelectorAll, matchesOf. simpl.
  by repeat case_decide.
Qed.

(** Bindings of different selectors commute. *)
Lemma page_equiv_swap path s1 l1 s2 l2 tbl :
  s1 ≠ s2 →
  Page path ((s1, l1) :: (s2, l2) :: tbl) ≡ Page path ((s2, l2) :: (s1, l1) :: tbl).
Proof.
  intros Hne. split; [done|]. intros s. unfold querySelectorAll, matchesOf.
  simpl. repeat case_decide; congruence.
Qed.

End Dom.
