(* ===== verification/Session.v ===== *)
(** * Session: the service object, the browser and the outside world

    [TikTokService] (tiktokService.js, lines 7-38 and 563-568) keeps a
    browser handle and a cookie string.  Everything it asks of Puppeteer is
    an [action]; the actions performed are logged in the [trace] of the
    state, oldest first.  The outside world is an [env]: given the trace so
    far it says whether the next action throws, which document an
    evaluation observes, and what a random draw gives.  Theorems quantified over [env] hold for every
    behaviour of the browser, the network and the site. *)

From S2P Require Import Prelude JsString Effects Cookie Dom.
Export CookieCodec Dom.

Module Session.

(** ** Data *)

(** A JavaScript exception: [error.name] and [error.message]. *)
Record js_error : Type := JsError {
  err_name : string;
  message : string
}.

#[export] Instance js_error_eq_dec : EqDecision js_error.
Proof. solve_decision. Defined.

(** Handles are the position in the trace of the action that created them. *)
Definition browser_id := nat.
Definition page_id := nat.

(** The function a [page.evaluate] runs. *)
Inductive script : Type :=
| ExtractVideo        (* lines 145-191 *)
| ExtractRetry        (* lines 219-252 *)
| ExtractProfile      (* lines 302-335 *)
| ExtractHashtag      (* lines 382-411 *)
| ScrollToBottom      (* lines 434-436 *)
| ExtractThumbnail    (* lines 447-487 *)
| ExtractVideoUrl.    (* lines 490-508 *)

#[export] Instance script_eq_dec : EqDecision script.
Proof. solve_decision. Defined.

(** The calls into Puppeteer, with the arguments the code passes, and the
    timer and file-system calls of [downloadVideo] (lines 538-549). *)
Inductive action : Type :=
| Launch (headless : bool) (args : list string)
| NewPage (b : browser_id)
| SetCookie (p : page_id) (cs : list cookie)
| SetUserAgent (p : page_id) (ua : string)
| SetViewport (p : page_id) (width height : N)
| Goto (p : page_id) (url : string) (timeout : N)
| WaitForTimeout (p : page_id) (ms : N)
| WaitForSelector (p : page_id) (sel : string) (timeout : N)
| Evaluate (p : page_id) (f : script)
| ClosePage (p : page_id)
| CloseBrowser (b : browser_id)
| Sleep (ms : N)
| Mkdir (dir : string)
| WriteFile (path content : string).

#[export] Instance action_eq_dec : EqDecision action.
Proof. solve_decision. Defined.

(** The outside world. *)
Record env : Type := Env {
  fails : list action → action → option js_error;
  document : list action → page;
  random : list action → N
}.

(** The fields of the service object (constructor, lines 8-11) and the log
    of what it did. *)
Record service : Type := Service {
  browser : option browser_id;
  cookies : option string;
  trace : list action
}.

(** [new TikTokService()] *)
Definition newService : service := Service None None [].

Definition eff := M service js_error.

(** ** State updates *)

Definition log (a : action) (s : service) : service :=
  Service (browser s) (cookies s) (trace s ++ [a]).

Definition setBrowser (b : option browser_id) (s : service) : service :=
  Service b (cookies s) (trace s).

Definition setCookieString (c : string) (s : service) : service :=
  Service (browser s) (Some c) (trace s).

(** The service after performing the actions [l]. *)
Definition logs (l : list action) (s : service) : service :=
  Service (browser s) (cookies s) (trace s ++ l).

(** What [applyCookies] asks of the page under a cookie string. *)
Definition cookieActions (p : page_id) (c : option string) : list action :=
  match cookiesToSet c with
  | Some cs => [SetCookie p cs]
  | None => []
  end.

(** ** Operations *)

Section ops.
Context (W : env).

(** One call into Puppeteer: it is logged, then returns or throws as the
    world decides. *)
Definition perform (a : action) : eff unit := λ s,
  match fails W (trace s) a with
  | Some e => (Throw e, log a s)
  | None => (Ok tt, log a s)
  end.

(** A call that creates a handle: the handle is its position in the trace. *)
Definition create (a : action) : eff nat :=
  s ← get; perform a;; mret (length (trace s)).

(** [page.evaluate(f)]: the callback runs on the document the world shows
    after the call. *)
Definition evaluate (p : page_id) (f : script) : eff page :=
  perform (Evaluate p f);; s ← get; mret (document W (trace s)).

(** The launch options of lines 15-31. *)
Definition launchArgs : list string :=
  ["--no-sandbox"; "--disable-setuid-sandbox"; "--disable-dev-shm-usage";
   "--disable-accelerated-2d-canvas"; "--no-first-run"; "--no-zygote";
   "--disable-gpu"; "--disable-web-security";
   "--disable-features=VizDisplayCompositor";
   "--disable-background-timer-throttling";
   "--disable-backgrounding-occluded-windows";
   "--disable-renderer-backgrounding"].

(** [initBrowser] (lines 13-34): launch on first use, then the same
    handle. *)
Definition initBrowser : eff browser_id :=
  s ← get;
  match browser s with
  | Some b => mret b
  | None =>
      b ← create (Launch true launchArgs);
      modify (setBrowser (Some b));;
      mret b
  end.

(** [setCookies] (lines 36-38) *)
Definition setCookies (c : string) : eff unit :=
  modify (setCookieString c).

(** [closeBrowser] (lines 563-568): the handle is cleared only after
    [close] has returned. *)
Definition closeBrowser : eff unit :=
  s ← get;
  match browser s with
  | Some b => perform (CloseBrowser b);; modify (setBrowser None)
  | None => mret tt
  end.

(** [browser.newPage()] *)
Definition newPage (b : browser_id) : eff page_id := create (NewPage b).

(** [if (this.cookies) { page.setCookie(...parseCookies(this.cookies)) }]
    (lines 119-122, 282-285, 360-363) *)
Definition applyCookies (p : page_id) : eff unit :=
  s ← get;
  match cookiesToSet (cookies s) with
  | Some cs => perform (SetCookie p cs)
  | None => mret tt
  end.

End ops.

(** ** Traces *)

(** The launches, page openings and page closings of a trace. *)
Definition isLaunch (a : action) : bool :=
  match a with Launch _ _ => true | _ => false end.

Definition isNewPage (a : action) : bool :=
  match a with NewPage _ => true | _ => false end.

Definition isClosePage (a : action) : bool :=
  match a with ClosePage _ => true | _ => false end.

Definition isCloseBrowser (a : action) : bool :=
  match a with CloseBrowser _ => true | _ => false end.

Definition count (p : action → bool) (t : list action) : nat :=
  length (filter (λ a, p a = true) t).

(** The pages a trace leaves open. *)
Definition openPages (t : list action) : nat :=
  count isNewPage t - count isClosePage t.

(** The URLs navigated to, in order. *)
Definition gotoOf (a : action) : option string :=
  match a with Goto _ url _ => Some url | _ => None end.

Definition navigations (t : list action) : list string := omap gotoOf t.

(** A world in which nothing throws. *)
Definition cooperative (W : env) : Prop := ∀ t a, fails W t a = None.

(** [s'] continues [s]: same cookies, a longer trace. *)
Definition extends (s s' : service) : Prop :=
  cookies s' = cookies s ∧ trace s `prefix_of` trace s'.

(** The actions [s'] performed after [s]. *)
Definition added (s s' : service) : list action :=
  drop (length (trace s)) (trace s').

(** An action that neither launches nor closes a browser. *)
Definition quiet (a : action) : Prop :=
  isLaunch a = false ∧ isCloseBrowser a = false.

(** What every scanner does to the session: it keeps the cookie string and
    only adds to the trace; and when it finds a browser it keeps that
    browser and neither launches nor closes one. *)
Definition session_step (s s' : service) : Prop :=
  extends s s' ∧
  (is_Some (browser s) →
   browser s' = browser s ∧ Forall quiet (added s s')).

(** [m], run with a browser at hand, keeps the session and navigates to
    addresses of [l] only, in the order of [l], each at most once. *)
Definition visits {A} (m : eff A) (l : list string) : Prop :=
  ∀ s, is_Some (browser s) →
       session_step s (m s).2 ∧ navigations (added s (m s).2) `sublist_of` l.

(** ** Lemmas *)

Section lemmas.
Context (W : env).
Implicit Types (s : service) (a : action) (t : list action).

Lemma count_app p t1 t2 : count p (t1 ++ t2) = count p t1 + count p t2.
Proof. unfold count. by rewrite filter_app, length_app. Qed.

Lemma count_nil p : count p [] = 0.
Proof. done. Qed.

Lemma count_singleton p a : count p [a] = if p a then 1 else 0.
Proof.
  unfold count. rewrite filter_cons, filter_nil.
  destruct (p a); by case_decide.
Qed.

Lemma count_cons p a t : count p (a :: t) = (if p a then 1 else 0) + count p t.
Proof. by rewrite <- count_singleton, <- count_app. Qed.

Lemma count_prefix p t t' : t `prefix_of` t' → count p t ≤ count p t'.
Proof. intros [k ->]. rewrite count_app. lia. Qed.

Lemma navigations_cons a t :
  navigations (a :: t) = option_list (gotoOf a) ++ navigations t.
Proof. unfold navigations. csimpl. by destruct (gotoOf a). Qed.

Lemma navigations_app t1 t2 : navigations (t1 ++ t2) = navigations t1 ++ navigations t2.
Proof. apply omap_app. Qed.

#[export] Instance extends_preorder : PreOrder extends.
Proof.
  split.
  - by intros s.
  - intros s1 s2 s3 [? ?] [? ?]. split; [congruence|by etrans].
Qed.

Lemma extends_log a s : extends s (log a s).
Proof. split; [done|]. by apply prefix_app_r. Qed.

Lemma extends_setBrowser b s : extends s (setBrowser b s).
Proof. by split. Qed.

Lemma added_trace s s' : extends s s' → trace s' = trace s ++ added s s'.
Proof.
  intros [_ [k Hk]]. unfold added. by rewrite Hk, drop_app_length.
Qed.

Lemma added_refl s : added s s = [].
Proof. unfold added. by rewrite drop_all. Qed.

Lemma added_log a s : added s (log a s) = [a].
Proof. unfold added, log. simpl. by rewrite drop_app_length. Qed.

Lemma added_trans s1 s2 s3 :
  extends s1 s2 → extends s2 s3 → added s1 s3 = added s1 s2 ++ added s2 s3.
Proof.
  intros H12 H23.
  pose proof (added_trace _ _ H12) as E12.
  pose proof (added_trace _ _ H23) as E23.
  assert (extends s1 s3) as H13 by by etrans.
  pose proof (added_trace _ _ H13) as E13.
  rewrite E23, E12, <- app_assoc in E13. by apply app_inv_head in E13.
Qed.

(** *** The two outcomes of an action *)

Lemma perform_ok a s :
  fails W (trace s) a = None → perform W a s = (Ok tt, log a s).
Proof. unfold perform. by intros ->. Qed.

Lemma perform_fail a s e :
  fails W (trace s) a = Some e → perform W a s = (Throw e, log a s).
Proof. unfold perform. by intros ->. Qed.

Lemma wp_perform a (Q : outcome js_error unit → service → Prop) s :
  (fails W (trace s) a = None → Q (Ok tt) (log a s)) →
  (∀ e, fails W (trace s) a = Some e → Q (Throw e) (log a s)) →
  wp (perform W a) Q s.
Proof.
  intros Hok Hfail. unfold wp, perform.
  destruct (fails W (trace s) a) as [e|]; simpl; auto.
Qed.

(** Whatever the world does, an action only adds itself to the trace. *)
Lemma wp_perform_any a (Q : outcome js_error unit → service → Prop) s :
  (∀ r, Q r (log a s)) → wp (perform W a) Q s.
Proof. intros H. apply wp_perform; auto. Qed.

Lemma wp_create a (Q : outcome js_error nat → service → Prop) s :
  (fails W (trace s) a = None → Q (Ok (length (trace s))) (log a s)) →
  (∀ e, fails W (trace s) a = Some e → Q (Throw e) (log a s)) →
  wp (create W a) Q s.
Proof.
  intros Hok Hfail. unfold create. apply wp_bind, wp_get, wp_bind.
  apply wp_perform; [|done]. intros H. by apply wp_ret, Hok.
Qed.

Lemma wp_evaluate p f (Q : outcome js_error page → service → Prop) s :
  (fails W (trace s) (Evaluate p f) = None →
   Q (Ok (document W (trace s ++ [Evaluate p f]))) (log (Evaluate p f) s)) →
  (∀ e, fails W (trace s) (Evaluate p f) = Some e →
        Q (Throw e) (log (Evaluate p f) s)) →
  wp (evaluate W p f) Q s.
Proof.
  intros Hok Hfail. unfold evaluate. apply wp_bind, wp_perform; [|done].
  intros H. apply wp_bind, wp_get. by apply wp_ret, Hok.
Qed.

(** *** Runs of several actions *)

Lemma logs_nil s : logs [] s = s.
Proof. destruct s. unfold logs. simpl. by rewrite app_nil_r. Qed.

Lemma log_logs a s : log a s = logs [a] s.
Proof. done. Qed.

Lemma logs_logs l1 l2 s : logs l2 (logs l1 s) = logs (l1 ++ l2) s.
Proof. unfold logs. simpl. by rewrite app_assoc. Qed.

Lemma extends_logs l s : extends s (logs l s).
Proof. split; [done|]. by apply prefix_app_r. Qed.

Lemma added_logs l s : added s (logs l s) = l.
Proof. unfold added, logs. simpl. by rewrite drop_app_length. Qed.

Lemma navigations_cookieActions p c : navigations (cookieActions p c) = [].
Proof. unfold cookieActions. by destruct (cookiesToSet c). Qed.

Lemma count_cookieActions f p c :
  (∀ cs, f (SetCookie p cs) = false) → count f (cookieActions p c) = 0.
Proof.
  intros Hf. unfold cookieActions. destruct (cookiesToSet c); [|done].
  by rewrite count_singleton, Hf.
Qed.

(** [applyCookies] performs the cookie actions of the session's string,
    whether or not the page accepts them. *)
Lemma wp_applyCookies p (Q : outcome js_error unit → service → Prop) s :
  Q (Ok tt) (logs (cookieActions p (cookies s)) s) →
  (∀ e cs, fails W (trace s) (SetCookie p cs) = Some e →
           Q (Throw e) (logs (cookieActions p (cookies s)) s)) →
  wp (applyCookies W p) Q s.
Proof.
  unfold applyCookies, cookieActions. intros Hok Hfail.
  apply wp_bind, wp_get. destruct (cookiesToSet (cookies s)) as [cs|].
  - apply wp_perform; eauto.
  - apply wp_ret. by rewrite logs_nil in Hok.
Qed.

(** With a browser at hand, [initBrowser] is a no-op. *)
Lemma wp_initBrowser_warm b (Q : outcome js_error browser_id → service → Prop) s :
  browser s = Some b → Q (Ok b) s → wp (initBrowser W) Q s.
Proof.
  intros Hb HQ. unfold initBrowser. apply wp_bind, wp_get. rewrite Hb.
  by apply wp_ret.
Qed.

(** *** The session relation *)

#[export] Instance session_step_preorder : PreOrder session_step.
Proof.
  split.
  - intros s. split; [done|]. intros _. by rewrite added_refl.
  - intros s1 s2 s3 [E12 H12] [E23 H23]. split; [by etrans|].
    intros Hb. destruct (H12 Hb) as [B12 Q12].
    destruct H23 as [B23 Q23]; [by rewrite B12|].
    split; [congruence|]. rewrite (added_trans s1 s2 s3) by done.
    by apply Forall_app.
Qed.

Lemma session_step_log a s : quiet a → session_step s (log a s).
Proof.
  intros Hq. split; [apply extends_log|]. intros _. split; [done|].
  rewrite added_log. by constructor.
Qed.

Lemma preserves_perform a : quiet a → preserves session_step (perform W a).
Proof.
  intros Hq s. unfold perform.
  destruct (fails W (trace s) a); by apply session_step_log.
Qed.

Lemma preserves_create a : quiet a → preserves session_step (create W a).
Proof.
  intros Hq. unfold create. eff_auto by (by apply preserves_perform).
Qed.

Lemma preserves_evaluate p f : preserves session_step (evaluate W p f).
Proof.
  unfold evaluate. eff_auto by (by apply preserves_perform).
Qed.

Lemma preserves_applyCookies p : preserves session_step (applyCookies W p).
Proof.
  unfold applyCookies. eff_auto by (by apply preserves_perform).
Qed.

(** *** What [initBrowser] gives *)

(** With a browser at hand, [initBrowser] returns it and does nothing. *)
Lemma initBrowser_reuse s b :
  browser s = Some b → initBrowser W s = (Ok b, s).
Proof.
  intros Hb. unfold initBrowser. monad_unfold. by rewrite Hb.
Qed.

Lemma initBrowser_launch s :
  browser s = None → fails W (trace s) (Launch true launchArgs) = None →
  initBrowser W s
  = (Ok (length (trace s)),
     setBrowser (Some (length (trace s))) (log (Launch true launchArgs) s)).
Proof.
  intros Hb Hf. unfold initBrowser, create, perform. monad_unfold.
  by rewrite Hb, Hf.
Qed.

Lemma initBrowser_fail s e :
  browser s = None → fails W (trace s) (Launch true launchArgs) = Some e →
  initBrowser W s = (Throw e, log (Launch true launchArgs) s).
Proof.
  intros Hb Hf. unfold initBrowser, create, perform. monad_unfold.
  by rewrite Hb, Hf.
Qed.

(** When [initBrowser] returns, the session has the browser it returned. *)
Lemma initBrowser_returns s b s' :
  initBrowser W s = (Ok b, s') → browser s' = Some b.
Proof.
  destruct (browser s) as [b0|] eqn:Eb.
  - rewrite (initBrowser_reuse _ _ Eb). by intros [= <- <-].
  - destruct (fails W (trace s) (Launch true launchArgs)) as [e|] eqn:Ef.
    + by rewrite (initBrowser_fail _ _ Eb Ef).
    + rewrite (initBrowser_launch _ Eb Ef). by intros [= <- <-].
Qed.

(** [initBrowser] performs at most one action, a launch. *)
Lemma initBrowser_added s :
  added s (initBrowser W s).2 = [] ∨
  added s (initBrowser W s).2 = [Launch true launchArgs].
Proof.
  destruct (browser s) as [b0|] eqn:Eb.
  - rewrite (initBrowser_reuse _ _ Eb). left. apply added_refl.
  - right. destruct (fails W (trace s) (Launch true launchArgs)) as [e|] eqn:Ef.
    + rewrite (initBrowser_fail _ _ Eb Ef). apply added_log.
    + rewrite (initBrowser_launch _ Eb Ef). apply (added_log _ s).
Qed.

Lemma closeBrowser_closed s b :
  browser s = Some b → fails W (trace s) (CloseBrowser b) = None →
  closeBrowser W s = (Ok tt, setBrowser None (log (CloseBrowser b) s)).
Proof.
  intros Hb Hf. unfold closeBrowser, perform. monad_unfold.
  by rewrite Hb, Hf.
Qed.

Lemma closeBrowser_idle s : browser s = None → closeBrowser W s = (Ok tt, s).
Proof.
  intros Hb. unfold closeBrowser. monad_unfold. by rewrite Hb.
Qed.

Lemma preserves_initBrowser : preserves session_step (initBrowser W).
Proof.
  intros s. destruct (browser s) as [b0|] eqn:Eb.
  { by rewrite (initBrowser_reuse _ _ Eb). }
  assert (∀ s', extends s s' → session_step s s') as Hstep.
  { intros s' H. split; [done|]. rewrite Eb. by intros [? [=]]. }
  apply Hstep.
  destruct (fails W (trace s) (Launch true launchArgs)) as [e|] eqn:Ef.
  - rewrite (initBrowser_fail _ _ Eb Ef). apply extends_log.
  - rewrite (initBrowser_launch _ Eb Ef). apply (extends_log _ s).
Qed.

(** *** Navigation *)

Lemma prefix_sublist {A} (l1 l2 : list A) :
  l1 `prefix_of` l2 → l1 `sublist_of` l2.
Proof. intros [k ->]. by apply sublist_inserts_r. Qed.

Lemma count_quiet t :
  Forall quiet t → count isLaunch t = 0 ∧ count isCloseBrowser t = 0.
Proof.
  induction 1 as [|a t [Ha1 Ha2] _ [IH1 IH2]]; [done|].
  rewrite !count_cons, Ha1, Ha2. lia.
Qed.

Lemma visits_ret {A} (v : A) : visits (mret v) [].
Proof. intros s _. simpl. by rewrite added_refl. Qed.

Lemma visits_bind {A B} (m : eff A) (k : A → eff B) l1 l2 :
  visits m l1 → (∀ v, visits (k v) l2) → visits (x ← m; k x) (l1 ++ l2).
Proof.
  intros Hm Hk s Hb. destruct (Hm s Hb) as [Hstep Hnav].
  unfold mbind, M_bind, bind. destruct (m s) as [[a|e] s1]; simpl in *.
  - destruct (proj2 Hstep Hb) as [Hb1 _].
    destruct (Hk a s1) as [Hstep2 Hnav2]; [by rewrite Hb1|].
    split; [by etrans|].
    rewrite (added_trans s s1) by apply Hstep || apply Hstep2.
    rewrite navigations_app. by apply sublist_app.
  - split; [done|]. by apply sublist_inserts_r.
Qed.

Lemma visits_foldM {A B} (body : B → A → eff B) (f : A → string) acc l :
  (∀ acc x, visits (body acc x) [f x]) → visits (foldM body acc l) (f <$> l).
Proof.
  intros Hbody. revert acc. induction l as [|x l IH]; intros acc; simpl.
  - apply visits_ret.
  - apply (visits_bind _ _ [f x]); auto.
Qed.

Lemma visits_foldM_id {B} (body : B → string → eff B) acc l :
  (∀ acc x, visits (body acc x) [x]) → visits (foldM body acc l) l.
Proof.
  intros Hbody. rewrite <- (list_fmap_id l) at 2. by apply visits_foldM.
Qed.

Lemma visits_bind_ret {A B} (m : eff A) (g : A → B) l :
  visits m l → visits (x ← m; mret (g x)) l.
Proof.
  intros Hm. rewrite <- (app_nil_r l).
  apply visits_bind; [done|]. intros. apply visits_ret.
Qed.

(** A computation known to navigate at most once. *)
Lemma visits_prefix {A} (m : eff A) u :
  preserves session_step m →
  (∀ s, is_Some (browser s) →
        navigations (added s (m s).2) `prefix_of` [u]) →
  visits m [u].
Proof. intros Hp Hn s Hb. split; [apply Hp|]. by apply prefix_sublist, Hn. Qed.

End lemmas.

#[export] Hint Resolve preserves_perform preserves_create preserves_evaluate
  preserves_applyCookies preserves_initBrowser : scan.
#[export] Hint Resolve extends_log extends_setBrowser : scan.
#[export] Hint Extern 1 (quiet _) => (split; reflexivity) : scan.
#[export] Hint Rewrite count_app count_nil count_singleton navigations_app
  added_refl added_log : scan_simpl.

(** ** Properties *)

Section properties.
Context (W : env).
Implicit Types (s : service).

(** The browser is launched once per session: after [initBrowser] has
    returned a browser, every later call returns the same browser and
    performs nothing. *)
Theorem initBrowser_singleton s b s1 :
  initBrowser W s = (Ok b, s1) →
  initBrowser W s1 = (Ok b, s1) ∧
  (added s s1 = [] ∨ added s s1 = [Launch true launchArgs]).
Proof.
  intros E. split.
  - by apply initBrowser_reuse, (initBrowser_returns W s).
  - pose proof (initBrowser_added W s) as H. by rewrite E in H.
Qed.

(** C21. [closeBrowser] closes the browser of the session, if any, with one
    call, and forgets it once the call has returned; when the call throws,
    the session keeps the handle. *)
Theorem closeBrowser_spec s :
  let r := (closeBrowser W s).1 in
  let s' := (closeBrowser W s).2 in
  added s s' = from_option (λ b, [CloseBrowser b]) [] (browser s) ∧
  (r = Ok tt → browser s' = None) ∧
  (∀ e, r = Throw e → browser s' = browser s).
Proof.
  destruct (browser s) as [b|] eqn:Hb; simpl.
  - destruct (fails W (trace s) (CloseBrowser b)) as [e|] eqn:Hf.
    + unfold closeBrowser, perform. monad_unfold. rewrite Hb, Hf. simpl.
      by rewrite (added_log _ s).
    + rewrite (closeBrowser_closed W s b Hb Hf). simpl.
      split_and!; [apply (added_log _ s)|done..].
  - rewrite (closeBrowser_idle W s Hb). simpl. by rewrite added_refl.
Qed.

End properties.

Lemma initBrowser_singleton_witness :
  initBrowser (Env (λ _ _, None) (λ _, blankPage "/") (λ _, 0%N))
    (Service (Some 0) None [Launch true launchArgs])
  = (Ok 0, Service (Some 0) None [Launch true launchArgs]) ∧
  (added newService (Service (Some 0) None [Launch true launchArgs]) = [] ∨
   added newService (Service (Some 0) None [Launch true launchArgs])
   = [Launch true launchArgs]).
Proof.
  by apply (initBrowser_singleton (Env (λ _ _, None) (λ _, blankPage "/") (λ _, 0%N))
              newService 0).
Defined.


(** [wp_run] runs a computation symbolically: it applies the rule of each
    combinator and of each session operation, branching on the world's
    answer at every action, and drops the branches the world excludes. *)
Ltac wp_world H :=
  simpl in H; first [discriminate H | injection H as <- | clear H].

Ltac wp_ok := let H := fresh in intros H; wp_world H.
Ltac wp_ko := let H := fresh in intros ? H; wp_world H.

Ltac wp_op :=
  lazymatch goal with
  | |- wp (perform _ _) _ _ => apply wp_perform; [wp_ok|wp_ko]
  | |- wp (create _ _) _ _ => apply wp_create; [wp_ok|wp_ko]
  | |- wp (newPage _ _) _ _ => apply wp_create; [wp_ok|wp_ko]
  | |- wp (evaluate _ _ _) _ _ => apply wp_evaluate; [wp_ok|wp_ko]
  | |- wp (applyCookies _ _) _ _ =>
      apply wp_applyCookies; [|let H := fresh in intros ? ? H; wp_world H]
  | |- wp (initBrowser _) _ _ => eapply wp_initBrowser_warm; [eassumption|]
  end.

Ltac wp_run := repeat first [wp_step | wp_op].

(** [norm_logs] brings a state reached by a run to the form [logs t s]. *)
Ltac norm_logs :=
  repeat (rewrite log_logs || rewrite logs_logs);
  rewrite <- ?app_assoc; simpl.

(** [solve_prefix] proves that a list of actions is a prefix of another
    that shares its segments. *)
Ltac solve_prefix :=
  simpl;
  repeat first
    [ reflexivity
    | apply prefix_nil
    | apply prefix_cons
    | lazymatch goal with
      | |- (?k ++ _) `prefix_of` (?k ++ _) => apply prefix_app
      | |- ?k `prefix_of` (?k ++ _) => apply prefix_app_r; reflexivity
      end ].

End Session.
