(* ===== verification/Extract.v ===== *)
(** * Extract: the fallback chains run inside the page

    The callbacks of [page.evaluate] in tiktokService.js are pure functions
    of the document: [extractVideoData] (lines 145-191), [extractRetryData]
    (lines 219-252), [extractProfileItems] (lines 302-335),
    [extractHashtagItems] (lines 382-411), and the two callbacks of
    [extractMediaUrls] (lines 447-487 and 490-508).  Each field is read
    through an ordered list of selectors: the first selector that matches
    an element decides, and a missing or empty text degrades to a typed
    default. *)

From stdpp Require Import pretty.
From S2P Require Import Prelude JsString Dom.
Import Dom.

Module Extract.

(** ** Data *)

(** The status of a record (videoService.ts, line 30). *)
Inductive Status : Type :=
| Pending | Scanning | Downloading | Completed | Error.

#[export] Instance Status_eq_dec : EqDecision Status.
Proof. solve_decision. Defined.

(** What a page evaluation returns for one video (lines 180-190). *)
Module VideoData.
Record VideoData : Type := Make {
  tiktok_id : string;
  title : string;
  content : string;
  likes : N;
  views : N;
  uploader : string;
  thumbnail_url : string;
  video_url : string;
  platform : string
}.
Abbreviation t := VideoData.
End VideoData.

(** What [extractMediaUrls] returns (lines 513-516). *)
Module MediaData.
Record MediaData : Type := Make {
  thumbnail_url : string;
  video_url : string
}.
Abbreviation t := MediaData.
End MediaData.

(** A scanned record as returned to the caller (lines 203-209; the
    interface [VideoItem] of videoService.ts, lines 19-32). *)
Record VideoItem : Type := MkVideoItem {
  id : string;
  tiktok_id : string;
  title : string;
  content : string;
  likes : N;
  views : N;
  uploader : string;
  thumbnail_url : string;
  video_url : string;
  platform : string;
  downloaded : bool;
  status : Status
}.

#[export] Instance VideoItem_eq_dec : EqDecision VideoItem.
Proof. solve_decision. Defined.

(** ** The chain *)

(** [q(s1) || q(s2) || ...]: the first selector that matches. *)
Fixpoint firstMatch (q : string → option element) (sels : list string)
  : option element :=
  match sels with
  | [] => None
  | sel :: rest =>
      match q sel with
      | Some el => Some el
      | None => firstMatch q rest
      end
  end.

(** [el?.textContent?.trim() || dflt] *)
Definition textOr (el : option element) (dflt : string) : string :=
  opt_or_else (trim ∘ textContent <$> el) dflt.

(** [parseInt(el?.textContent?.replace(/[^\d]/g, '') || '0')] *)
Definition countOf (el : option element) : N :=
  parseDigits (opt_or_else (stripNonDigits ∘ textContent <$> el) "0").

(** [s.split(marker)[1]?.split(stop)[0]] *)
Definition segmentAfter (marker stop s : string) : option string :=
  piece ← split marker s !! 1; head (split stop piece).

(** [path.split('/video/')[1]?.split('?')[0] || dflt] *)
Definition videoIdOf (path dflt : string) : string :=
  opt_or_else (segmentAfter "/video/" "?" path) dflt.

(** [path.split('/@')[1]?.split('/')[0] || 'Unknown User'] (line 329) *)
Definition handleOf (path : string) : string :=
  opt_or_else (segmentAfter "/@" "/" path) "Unknown User".

(** ** Selector lists *)

Definition titleSelectors : list string :=
  [attrIs "h1" "data-e2e" "video-title"; ".video-meta-title"; "h1";
   e2e "browse-video-title"; ".video-title"].

Definition contentSelectors : list string :=
  [".video-meta-caption"; ".video-description"; "p";
   e2e "browse-video-desc"; ".video-caption"].

Definition likesSelectors : list string :=
  [e2e "like-count"; ".like-count"; e2e "like-icon" +:+ " + span";
   e2e "browse-like-count"; ".like-icon + span"].

Definition viewsSelectors : list string :=
  [e2e "video-views"; ".video-views"; ".view-count";
   e2e "browse-video-count"; ".video-count"].

Definition uploaderSelectors : list string :=
  [e2e "video-author-uniqueId"; ".author-unique-id"; ".username";
   e2e "browse-user-uniqueId"; ".user-unique-id"].

Definition retryTitleSelectors : list string := ["h1"; "title"].

Definition cdnImageSelectors : list string :=
  [attrHas "img" "src" "tiktok"; attrHas "img" "src" "amazonaws";
   attrHas "img" "src" "cdn"; attrHas "img" "src" "sf16"].

Definition thumbnailSelectors : list string :=
  cdnImageSelectors ++
  [attrHas "img" "data-src" "tiktok"; attrHas "img" "data-src" "amazonaws";
   attrHas "img" "data-src" "cdn"; attrHas "img" "data-src" "sf16";
   ".video-thumbnail img"; ".video-poster img";
   e2e "video-thumbnail" +:+ " img"; e2e "browse-video-thumbnail" +:+ " img";
   attrHas "img" "alt" "video"; attrHas "img" "alt" "thumbnail";
   attrHas "img" "alt" "poster"].

Definition videoUrlSelectors : list string :=
  ["video source"; "video"; e2e "video-player" +:+ " source";
   e2e "video-player" +:+ " video"; ".video-player source";
   ".video-player video"].

Definition itemLinkSelector : string := attrHas "a" "href" "/video/".

Definition itemTitleSelectors : list string := [".video-title"; "h3"; "p"].

Definition itemLikesSelectors : list string :=
  [".like-count"; e2e "like-count"; ".stats-item:first-child"].

Definition itemViewsSelectors : list string :=
  [".view-count"; e2e "video-views"; ".stats-item:last-child"].

Definition itemUploaderSelectors : list string :=
  [".author-unique-id"; ".username"; attrHas "a" "href" "/@"].

(** The alternatives of [document.querySelectorAll(a) ||
    document.querySelectorAll(b) || ...] (lines 303-305, 383-385). *)
Definition profileItemSelectors : list string :=
  [e2e "user-post-item"; ".video-feed-item"; itemLinkSelector].

Definition hashtagItemSelectors : list string :=
  [e2e "search-card-container"; ".video-card"; itemLinkSelector].

(** ** The single-video callback *)

(** Lines 145-191. *)
Definition extractVideoData (pg : page) (platformParam : string) : VideoData.t :=
  let q := querySelector pg in
  let titleElement := firstMatch q titleSelectors in
  let contentElement := firstMatch q contentSelectors in
  let likesElement := firstMatch q likesSelectors in
  let viewsElement := firstMatch q viewsSelectors in
  let uploaderElement := firstMatch q uploaderSelectors in
  let videoId := videoIdOf (pathname pg) "unknown" in
  {| VideoData.tiktok_id := videoId;
     VideoData.title := textOr titleElement "Untitled Video";
     VideoData.content := textOr contentElement "";
     VideoData.likes := countOf likesElement;
     VideoData.views := countOf viewsElement;
     VideoData.uploader := textOr uploaderElement "Unknown User";
     VideoData.thumbnail_url := "";
     VideoData.video_url := "";
     VideoData.platform := platformParam |}.

(** The loop of lines 233-239: the first selector whose image has a
    source. *)
Fixpoint firstSrc (q : string → option element) (sels : list string) : string :=
  match sels with
  | [] => ""
  | sel :: rest =>
      match q sel with
      | Some img => if truthy (src img) then src img else firstSrc q rest
      | None => firstSrc q rest
      end
  end.

(** Lines 219-252: the reduced field set of the retry. *)
Definition extractRetryData (pg : page) (platformParam : string) : VideoData.t :=
  let q := querySelector pg in
  let titleElement := firstMatch q retryTitleSelectors in
  let videoId := videoIdOf (pathname pg) "unknown" in
  {| VideoData.tiktok_id := videoId;
     VideoData.title := textOr titleElement "Untitled Video";
     VideoData.content := "";
     VideoData.likes := 0;
     VideoData.views := 0;
     VideoData.uploader := "Unknown User";
     VideoData.thumbnail_url := firstSrc q cdnImageSelectors;
     VideoData.video_url := "";
     VideoData.platform := platformParam |}.

(** ** The media callbacks *)

(** The loop of lines 467-475: for each selector, the [src] of its image,
    or else its [data-src]. *)
Fixpoint thumbnailFrom (q : string → option element) (sels : list string)
  : option string :=
  match sels with
  | [] => None
  | sel :: rest =>
      match q sel with
      | Some img =>
          if truthy (src img) then Some (src img)
          else match getAttribute img "data-src" with
               | Some d => if truthy d then Some d else thumbnailFrom q rest
               | None => thumbnailFrom q rest
               end
      | None => thumbnailFrom q rest
      end
  end.

(** The test of lines 480-481 on an image of the fallback loop. *)
Definition isCdnImage (img : element) : bool :=
  truthy (src img) && includes "http" (src img) &&
  (includes "tiktok" (src img) || includes "amazonaws" (src img)
   || includes "cdn" (src img)).

(** Lines 478-484: the first image of the document hosted on a known CDN. *)
Fixpoint firstCdnImage (imgs : list element) : option string :=
  match imgs with
  | [] => None
  | img :: rest => if isCdnImage img then Some (src img) else firstCdnImage rest
  end.

(** Lines 447-487. *)
Definition extractThumbnail (pg : page) : string :=
  match thumbnailFrom (querySelector pg) thumbnailSelectors with
  | Some url => url
  | None => default "" (firstCdnImage (querySelectorAll pg "img"))
  end.

(** Lines 490-508. *)
Definition extractVideoUrl (pg : page) : string :=
  firstSrc (querySelector pg) videoUrlSelectors.

(** ** The listing callbacks *)

(** [document.querySelectorAll(a) || document.querySelectorAll(b) || ...]:
    a [NodeList] is an object, hence truthy even when empty, so the first
    alternative is always the one taken. *)
Definition firstNodeList (q : string → list element) (sels : list string)
  : list element :=
  match sels with
  | [] => []
  | sel :: _ => q sel
  end.

(** The id of a listed item (lines 308-309, 388-389). *)
Definition itemVideoId (el : element) (dflt : string) : string :=
  opt_or_else (linkElement ← querySelectorIn el itemLinkSelector;
               segmentAfter "/video/" "?" (href linkElement)) dflt.

(** Lines 307-334: one feed item of a profile; [index] is its position. *)
Definition profileItem (pg : page) (index : nat) (el : element) : VideoData.t :=
  let q := querySelectorIn el in
  {| VideoData.tiktok_id := itemVideoId el ("unknown_" +:+ pretty index);
     VideoData.title :=
       textOr (firstMatch q itemTitleSelectors) ("Video " +:+ pretty (index + 1));
     VideoData.content := "";
     VideoData.likes := countOf (firstMatch q itemLikesSelectors);
     VideoData.views := countOf (firstMatch q itemViewsSelectors);
     VideoData.uploader := handleOf (pathname pg);
     VideoData.thumbnail_url := "";
     VideoData.video_url := "";
     VideoData.platform := "tiktok" |}.

(** Lines 302-335. *)
Definition extractProfileItems (pg : page) : list VideoData.t :=
  imap (profileItem pg) (firstNodeList (querySelectorAll pg) profileItemSelectors).

(** Lines 387-410: one card of a hashtag listing. *)
Definition hashtagItem (index : nat) (el : element) : VideoData.t :=
  let q := querySelectorIn el in
  {| VideoData.tiktok_id := itemVideoId el ("hashtag_" +:+ pretty index);
     VideoData.title :=
       textOr (firstMatch q itemTitleSelectors)
              ("Hashtag Video " +:+ pretty (index + 1));
     VideoData.content := "";
     VideoData.likes := 0;
     VideoData.views := 0;
     VideoData.uploader := textOr (firstMatch q itemUploaderSelectors) "Unknown User";
     VideoData.thumbnail_url := "";
     VideoData.video_url := "";
     VideoData.platform := "tiktok" |}.

(** Lines 382-411. *)
Definition extractHashtagItems (pg : page) : list VideoData.t :=
  imap hashtagItem (firstNodeList (querySelectorAll pg) hashtagItemSelectors).

(** ** Building the record *)

(** The placeholder of lines 200, 258, 343 and 419. *)
Definition placeholderUrl (title : string) : string :=
  "https://via.placeholder.com/160x120/ff0050/ffffff?text="
  +:+ encodeURIComponent title.

(** [url || placeholder(title)] *)
Definition thumbnailOr (url title : string) : string :=
  or_else url (placeholderUrl title).

(** Lines 198-209: [{ id: `video_${id}`, ...videoData, ...mediaData,
    downloaded: false, status: 'pending' }] after the placeholder has been
    filled in; the media fields override those of the data. *)
Definition finishVideo (d : VideoData.t) (m : MediaData.t) : VideoItem :=
  {| id := "video_" +:+ VideoData.tiktok_id d;
     tiktok_id := VideoData.tiktok_id d;
     title := VideoData.title d;
     content := VideoData.content d;
     likes := VideoData.likes d;
     views := VideoData.views d;
     uploader := VideoData.uploader d;
     thumbnail_url := thumbnailOr (MediaData.thumbnail_url m) (VideoData.title d);
     video_url := MediaData.video_url m;
     platform := VideoData.platform d;
     downloaded := false;
     status := Pending |}.

(** Lines 256-266 (retry) and 340-346, 416-422 (listings): [{ id:
    `${prefix}${id}`, ...video, thumbnail_url: video.thumbnail_url ||
    placeholder, downloaded: false, status: 'pending' }]. *)
Definition finishItem (prefix : string) (d : VideoData.t) : VideoItem :=
  {| id := prefix +:+ VideoData.tiktok_id d;
     tiktok_id := VideoData.tiktok_id d;
     title := VideoData.title d;
     content := VideoData.content d;
     likes := VideoData.likes d;
     views := VideoData.views d;
     uploader := VideoData.uploader d;
     thumbnail_url := thumbnailOr (VideoData.thumbnail_url d) (VideoData.title d);
     video_url := VideoData.video_url d;
     platform := VideoData.platform d;
     downloaded := false;
     status := Pending |}.

(** [videos.slice(0, 20).map(...)] (lines 340-346) *)
Definition finishProfile (videos : list VideoData.t) : list VideoItem :=
  finishItem "user_" <$> take 20 videos.

(** [videos.slice(0, 15).map(...)] (lines 416-422) *)
Definition finishHashtag (videos : list VideoData.t) : list VideoItem :=
  finishItem "hashtag_" <$> take 15 videos.

(** [`https://www.tiktok.com/tag/${hashtag.replace('#', '')}`] (line 368) *)
Definition tagUrl (hashtag : string) : string :=
  "https://www.tiktok.com/tag/" +:+ replace_first "#" "" hashtag.

(** ** The invariant of a scanned record *)

(** What every record handed to the caller satisfies: it is pending, not
    downloaded, and has a thumbnail. *)
Record wf_item (v : VideoItem) : Prop := WfItem {
  wf_status : status v = Pending;
  wf_downloaded : downloaded v = false;
  wf_thumbnail : thumbnail_url v ≠ "";
  wf_title : title v ≠ "";
  wf_id : ∃ prefix, prefix ∈ ["video_"; "user_"; "hashtag_"] ∧
                    id v = prefix +:+ tiktok_id v
}.

(** ** Documents used as examples *)

(** A page whose only title-bearing element answers the third title
    locator, [h1]. *)
Definition thirdLocatorPage : page :=
  Page "/@u/video/42?lang=en"
    [("h1", [textNode " Third "]); (".video-views", [textNode "12,345 views"])].

(** A page whose first title locator matches a blank element while the
    third matches a titled one. *)
Definition blankFirstPage : page :=
  Page "/@u/video/42"
    [(attrIs "h1" "data-e2e" "video-title", [textNode "   "]);
     ("h1", [textNode "Real title"])].

(** A profile page whose items answer the second listing selector only. *)
Definition secondListingPage : page :=
  Page "/@u" [(".video-feed-item", [textNode "a"; textNode "b"])].

(** ** The chain: lemmas *)

Section chain.
Context (q : string → option element).
Implicit Types (sels : list string) (el : element).

Lemma firstMatch_app sels1 sels2 :
  firstMatch q (sels1 ++ sels2) =
    match firstMatch q sels1 with
    | Some el => Some el
    | None => firstMatch q sels2
    end.
Proof.
  induction sels1 as [|sel sels1 IH]; simpl; [done|]. by destruct (q sel).
Qed.

Lemma firstMatch_None sels :
  firstMatch q sels = None ↔ Forall (λ sel, q sel = None) sels.
Proof.
  induction sels as [|sel sels IH]; simpl; [by split|].
  rewrite Forall_cons. destruct (q sel); naive_solver.
Qed.

Lemma firstMatch_Some sels el :
  firstMatch q sels = Some el ↔
  ∃ n sel, sels !! n = Some sel ∧ q sel = Some el ∧
           Forall (λ sel', q sel' = None) (take n sels).
Proof.
  split.
  - induction sels as [|sel sels IH]; simpl; [done|].
    destruct (q sel) as [el'|] eqn:E.
    + intros [= ->]. exists 0, sel. by repeat split.
    + intros (n & sel' & ? & ? & ?)%IH. exists (S n), sel'.
      repeat split; [done..|]. simpl. by constructor.
  - intros (n & sel & Hn & Hq & Hpre).
    rewrite <- (take_drop n sels), firstMatch_app.
    apply firstMatch_None in Hpre as ->.
    rewrite (drop_S _ _ _ Hn). simpl. by rewrite Hq.
Qed.

(** The element a chain finds is the answer to one of its selectors. *)
Lemma firstMatch_elem_of sels el :
  firstMatch q sels = Some el → ∃ sel, sel ∈ sels ∧ q sel = Some el.
Proof.
  intros (n & sel & Hn & Hq & _)%firstMatch_Some.
  exists sel. split; [|done]. by eapply list_elem_of_lookup_2.
Qed.

Lemma firstSrc_spec sels :
  firstSrc q sels = "" ∨
  ∃ sel img, sel ∈ sels ∧ q sel = Some img ∧ firstSrc q sels = src img.
Proof.
  induction sels as [|sel sels IH]; simpl; [by left|].
  destruct (q sel) as [img|] eqn:E.
  - destruct (truthy (src img)) eqn:Ht.
    + right. exists sel, img. repeat split; [by left|done].
    + destruct IH as [?|(s' & i' & ? & ? & ?)]; [by left|].
      right. exists s', i'. repeat split; [by right|done..].
  - destruct IH as [?|(s' & i' & ? & ? & ?)]; [by left|].
    right. exists s', i'. repeat split; [by right|done..].
Qed.

Lemma thumbnailFrom_Some sels url :
  thumbnailFrom q sels = Some url →
  url ≠ "" ∧ ∃ sel img, sel ∈ sels ∧ q sel = Some img ∧
    (url = src img ∨ getAttribute img "data-src" = Some url).
Proof.
  induction sels as [|sel sels IH]; simpl; [done|].
  assert (thumbnailFrom q sels = Some url →
    url ≠ "" ∧ ∃ sel0 img, sel0 ∈ sel :: sels ∧ q sel0 = Some img ∧
      (url = src img ∨ getAttribute img "data-src" = Some url)) as IH'.
  { intros (? & s' & i' & ? & ? & ?)%IH. split; [done|].
    exists s', i'. repeat split; [by right|done..]. }
  destruct (q sel) as [img|] eqn:E; [|done].
  destruct (truthy (src img)) eqn:Ht.
  { intros [= <-]. split; [by apply truthy_true|].
    exists sel, img. repeat split; [by left|done|by left]. }
  destruct (getAttribute img "data-src") as [d|] eqn:Ed; [|done].
  destruct (truthy d) eqn:Htd; [|done].
  intros [= <-]. split; [by apply truthy_true|].
  exists sel, img. repeat split; [by left|done|by right].
Qed.

End chain.

Lemma firstCdnImage_Some imgs url :
  firstCdnImage imgs = Some url →
  url ≠ "" ∧ ∃ img, img ∈ imgs ∧ url = src img ∧ isCdnImage img = true.
Proof.
  induction imgs as [|img imgs IH]; simpl; [done|].
  destruct (isCdnImage img) eqn:E.
  - intros [= <-]. split.
    + unfold isCdnImage in E. apply andb_prop in E as [[?%truthy_true _]%andb_prop _].
      done.
    + exists img. repeat split; [by left|done].
  - intros (? & i' & ? & ? & ?)%IH. split; [done|].
    exists i'. repeat split; [by right|done..].
Qed.

(** ** Texts and counts *)

Lemma textOr_None dflt : textOr None dflt = dflt.
Proof. done. Qed.

Lemma textOr_Some el dflt :
  textOr (Some el) dflt = or_else (trim (textContent el)) dflt.
Proof. done. Qed.

Lemma textOr_nonempty el dflt : dflt ≠ "" → textOr el dflt ≠ "".
Proof. apply opt_or_else_nonempty. Qed.

Lemma textOr_trimmed el dflt : trimmed dflt → trimmed (textOr el dflt).
Proof.
  destruct el as [el|]; [|done]. rewrite textOr_Some. unfold or_else.
  destruct (truthy _); auto using trimmed_trim.
Qed.

(** A present element with blank text gives the default: the chain does
    not move on to the next selector. *)
Lemma textOr_blank el dflt :
  all_chars is_space (textContent el) = true → textOr (Some el) dflt = dflt.
Proof.
  intros H. by rewrite textOr_Some, trim_spaces.
Qed.

Lemma countOf_None : countOf None = 0%N.
Proof. done. Qed.

Lemma countOf_Some el :
  countOf (Some el) = parseDigits (stripNonDigits (textContent el)).
Proof.
  unfold countOf. simpl. unfold or_else.
  destruct (stripNonDigits (textContent el)); done.
Qed.

(** A count is below ten to the number of characters read. *)
Lemma countOf_bound el :
  (countOf (Some el) < 10 ^ N.of_nat (String.length (textContent el)))%N.
Proof.
  rewrite countOf_Some.
  eapply N.lt_le_trans; [apply parseDigits_lt_pow|].
  apply N.pow_le_mono_r; [done|].
  pose proof (stripNonDigits_length (textContent el)). lia.
Qed.

Lemma countOf_no_digits el :
  all_chars (λ c, negb (is_digit c)) (textContent el) = true →
  countOf (Some el) = 0%N.
Proof. intros H. by rewrite countOf_Some, stripNonDigits_none. Qed.

(** ** Identifiers from paths *)

Lemma segmentAfter_absent marker stop s :
  marker ≠ "" → no_match marker s "" = true →
  segmentAfter marker stop s = None.
Proof. intros Hm Hs. unfold segmentAfter. by rewrite split_no_match. Qed.

(** With one occurrence of the marker, the segment is what follows it, up
    to the stop. *)
Lemma segmentAfter_tail marker stop a b :
  marker ≠ "" →
  no_match marker a (marker +:+ b) = true → no_match marker b "" = true →
  segmentAfter marker stop (a +:+ marker +:+ b) = head (split stop b).
Proof.
  intros Hm Ha Hb. unfold segmentAfter.
  by rewrite split_at_first, split_no_match.
Qed.

Lemma videoIdOf_absent path dflt :
  no_match "/video/" path "" = true → videoIdOf path dflt = dflt.
Proof. intros H. unfold videoIdOf. by rewrite segmentAfter_absent. Qed.

(** The id of [.../video/<id>] and of [.../video/<id>?<query>]. *)
Lemma videoIdOf_plain a vid dflt :
  no_match "/video/" a ("/video/" +:+ vid) = true →
  no_match "/video/" vid "" = true →
  lacks "?" vid = true → vid ≠ "" →
  videoIdOf (a +:+ "/video/" +:+ vid) dflt = vid.
Proof.
  intros Ha Hv Hq Hne. unfold videoIdOf.
  rewrite segmentAfter_tail, split_char_last by done.
  simpl. by apply or_else_l.
Qed.

Lemma videoIdOf_query a vid query dflt :
  no_match "/video/" a ("/video/" +:+ vid +:+ "?" +:+ query) = true →
  no_match "/video/" (vid +:+ "?" +:+ query) "" = true →
  lacks "?" vid = true → vid ≠ "" →
  videoIdOf (a +:+ "/video/" +:+ vid +:+ "?" +:+ query) dflt = vid.
Proof.
  intros Ha Hv Hq Hne. unfold videoIdOf.
  rewrite segmentAfter_tail by done.
  change ("?" +:+ query) with (String "?" query).
  rewrite split_char_cons by done. simpl. by apply or_else_l.
Qed.

Lemma videoIdOf_nonempty path dflt : dflt ≠ "" → videoIdOf path dflt ≠ "".
Proof. apply opt_or_else_nonempty. Qed.

Lemma handleOf_nonempty path : handleOf path ≠ "".
Proof. by apply opt_or_else_nonempty. Qed.

(** ** The media callbacks: lemmas *)

(** The thumbnail is empty or the source (or deferred source) of an image
    of the document. *)
Lemma extractThumbnail_spec pg :
  extractThumbnail pg = "" ∨
  ∃ sel img, img ∈ querySelectorAll pg sel ∧
    (extractThumbnail pg = src img ∨
     getAttribute img "data-src" = Some (extractThumbnail pg)).
Proof.
  unfold extractThumbnail.
  destruct (thumbnailFrom _ _) as [url|] eqn:E.
  - apply thumbnailFrom_Some in E as (_ & sel & img & _ & Hq & Hurl).
    right. exists sel, img. split; [by apply querySelector_elem_of|done].
  - destruct (firstCdnImage _) as [url|] eqn:E'; [|by left].
    apply firstCdnImage_Some in E' as (_ & img & ? & -> & _).
    right. exists "img", img. split; [done|by left].
Qed.

Lemma extractVideoUrl_spec pg :
  extractVideoUrl pg = "" ∨
  ∃ sel el, sel ∈ videoUrlSelectors ∧ querySelector pg sel = Some el ∧
    extractVideoUrl pg = src el.
Proof. apply firstSrc_spec. Qed.

(** ** Records: lemmas *)

Lemma placeholderUrl_nonempty t : placeholderUrl t ≠ "".
Proof. done. Qed.

Lemma thumbnailOr_nonempty url t : thumbnailOr url t ≠ "".
Proof. apply or_else_nonempty, placeholderUrl_nonempty. Qed.

Lemma thumbnailOr_found url t : url ≠ "" → thumbnailOr url t = url.
Proof. apply or_else_l. Qed.

Lemma finishVideo_wf d m : VideoData.title d ≠ "" → wf_item (finishVideo d m).
Proof.
  intros Ht. split; simpl; auto using thumbnailOr_nonempty.
  exists "video_". split; [by left|done].
Qed.

Lemma finishItem_wf prefix d :
  prefix ∈ ["video_"; "user_"; "hashtag_"] → VideoData.title d ≠ "" →
  wf_item (finishItem prefix d).
Proof.
  intros Hp Ht. split; simpl; auto using thumbnailOr_nonempty.
  by exists prefix.
Qed.

Lemma extractVideoData_title pg pf : VideoData.title (extractVideoData pg pf) ≠ "".
Proof. by apply textOr_nonempty. Qed.

Lemma extractRetryData_title pg pf : VideoData.title (extractRetryData pg pf) ≠ "".
Proof. by apply textOr_nonempty. Qed.

Lemma profileItem_title pg i el : VideoData.title (profileItem pg i el) ≠ "".
Proof. by apply textOr_nonempty. Qed.

Lemma hashtagItem_title i el : VideoData.title (hashtagItem i el) ≠ "".
Proof. by apply textOr_nonempty. Qed.

Lemma Forall_imap {A B} (P : B → Prop) (f : nat → A → B) l :
  (∀ i x, P (f i x)) → Forall P (imap f l).
Proof.
  intros Hf. revert f Hf. induction l as [|x l IH]; intros f Hf; simpl;
    constructor; [apply Hf|]. apply IH. intros i y. apply Hf.
Qed.

Lemma finishProfile_wf pg : Forall wf_item (finishProfile (extractProfileItems pg)).
Proof.
  unfold finishProfile. apply Forall_fmap, Forall_take.
  apply Forall_imap. intros i el. apply finishItem_wf; [|apply profileItem_title].
  right; left.
Qed.

Lemma finishHashtag_wf pg : Forall wf_item (finishHashtag (extractHashtagItems pg)).
Proof.
  unfold finishHashtag. apply Forall_fmap, Forall_take.
  apply Forall_imap. intros i el. apply finishItem_wf; [|apply hashtagItem_title].
  right; right; left.
Qed.

Lemma finishProfile_length videos :
  length (finishProfile videos) = length videos `min` 20.
Proof. unfold finishProfile. rewrite length_fmap, length_take. lia. Qed.

Lemma finishHashtag_length videos :
  length (finishHashtag videos) = length videos `min` 15.
Proof. unfold finishHashtag. rewrite length_fmap, length_take. lia. Qed.

Lemma finishHashtag_zero pg :
  Forall (λ v, likes v = 0%N ∧ views v = 0%N)
         (finishHashtag (extractHashtagItems pg)).
Proof.
  unfold finishHashtag. apply Forall_fmap, Forall_take.
  by apply Forall_imap.
Qed.

Lemma extractProfileItems_length pg :
  length (extractProfileItems pg)
  = length (querySelectorAll pg (e2e "user-post-item")).
Proof. unfold extractProfileItems. by rewrite length_imap. Qed.

Lemma extractHashtagItems_length pg :
  length (extractHashtagItems pg)
  = length (querySelectorAll pg (e2e "search-card-container")).
Proof. unfold extractHashtagItems. by rewrite length_imap. Qed.

(** ** The hashtag URL *)

Lemma tagUrl_hash t : tagUrl ("#" +:+ t) = "https://www.tiktok.com/tag/" +:+ t.
Proof. unfold tagUrl. by rewrite replace_first_prefix. Qed.

Lemma tagUrl_plain t :
  lacks "#" t = true → tagUrl t = "https://www.tiktok.com/tag/" +:+ t.
Proof.
  intros H. unfold tagUrl. rewrite replace_first_absent; [done..|].
  by apply no_match_char.
Qed.

(** ** Extraction depends on the answers only *)

#[export] Instance firstMatch_proper :
  Proper (pointwise_relation _ (=) ==> (=) ==> (=)) firstMatch.
Proof.
  intros q q' Hq sels ? <-. induction sels as [|sel sels IH]; simpl; [done|].
  by rewrite Hq, IH.
Qed.

#[export] Instance firstSrc_proper :
  Proper (pointwise_relation _ (=) ==> (=) ==> (=)) firstSrc.
Proof.
  intros q q' Hq sels ? <-. induction sels as [|sel sels IH]; simpl; [done|].
  by rewrite Hq, IH.
Qed.

#[export] Instance thumbnailFrom_proper :
  Proper (pointwise_relation _ (=) ==> (=) ==> (=)) thumbnailFrom.
Proof.
  intros q q' Hq sels ? <-. induction sels as [|sel sels IH]; simpl; [done|].
  by rewrite Hq, IH.
Qed.

Lemma querySelector_ext pg pg' :
  pg ≡ pg' → pointwise_relation _ (=) (querySelector pg) (querySelector pg').
Proof. intros H sel. by rewrite H. Qed.

#[export] Instance extractVideoData_proper :
  Proper ((≡) ==> (=) ==> (=)) extractVideoData.
Proof.
  intros pg pg' H pf ? <-. unfold extractVideoData.
  by rewrite (querySelector_ext _ _ H), (pathname_proper _ _ H).
Qed.

#[export] Instance extractThumbnail_proper : Proper ((≡) ==> (=)) extractThumbnail.
Proof.
  intros pg pg' H. unfold extractThumbnail.
  rewrite (thumbnailFrom_proper _ _ (querySelector_ext _ _ H) _ _ eq_refl).
  destruct H as [_ H]. by rewrite H.
Qed.

#[export] Instance extractVideoUrl_proper : Proper ((≡) ==> (=)) extractVideoUrl.
Proof.
  intros pg pg' H. unfold extractVideoUrl.
  apply firstSrc_proper; [by apply querySelector_ext|done].
Qed.

#[export] Instance extractProfileItems_proper :
  Proper ((≡) ==> (=)) extractProfileItems.
Proof.
  intros pg pg' H. unfold extractProfileItems, firstNodeList. simpl.
  destruct H as [Hp H]. rewrite H. apply imap_ext. intros i el _.
  unfold profileItem. by rewrite Hp.
Qed.

(** ** Properties *)

(** C10. A field read through a chain is decided by the first locator, in
    the order of the list, that matches an element: when the locators
    before the [n]-th match nothing and the [n]-th matches [el], a text
    field is the trimmed text of [el], or the default when that is empty,
    and a numeric field is the number written by the digits of its
    text. *)
Theorem chain_nth_locator (q : string → option element) sels n sel el dflt :
  sels !! n = Some sel → q sel = Some el →
  Forall (λ sel', q sel' = None) (take n sels) →
  textOr (firstMatch q sels) dflt = or_else (trim (textContent el)) dflt ∧
  countOf (firstMatch q sels) = parseDigits (stripNonDigits (textContent el)).
Proof.
  intros Hn Hq Hpre.
  assert (firstMatch q sels = Some el) as -> by (apply firstMatch_Some; eauto).
  by rewrite textOr_Some, countOf_Some.
Qed.

(** On a document where no locator matches, the single-video callback
    returns the typed defaults: the title [Untitled Video], an empty
    caption, counts 0, the uploader [Unknown User], empty media addresses,
    and the id read off the path, [unknown] when the path has none. *)
Theorem extractVideoData_defaults path platformParam :
  extractVideoData (blankPage path) platformParam
  = VideoData.Make (videoIdOf path "unknown") "Untitled Video" "" 0 0
      "Unknown User" "" "" platformParam.
Proof. done. Qed.


(** A count is read from the digits of the text alone: separators and
    words are dropped, a text without digits and a missing element give
    0, and the count of a text of [n] characters is below [10 ^ n]. *)
Theorem countOf_spec el :
  countOf None = 0%N ∧
  countOf (Some (textNode "")) = 0%N ∧
  countOf (Some (textNode "12,345 views")) = 12345%N ∧
  countOf (Some (textNode "1.2M")) = 12%N ∧
  (countOf (Some el) < 10 ^ N.of_nat (String.length (textContent el)))%N.
Proof. split_and!; [done..|apply countOf_bound]. Qed.

(** The id of a video is the segment of the path that follows
    [/video/], up to the query: for a path [a/video/vid?query] in which
    [/video/] does not occur earlier, it is [vid]. *)
Theorem videoIdOf_segment a vid query dflt :
  no_match "/video/" a ("/video/" +:+ vid +:+ "?" +:+ query) = true →
  no_match "/video/" (vid +:+ "?" +:+ query) "" = true →
  lacks "?" vid = true → vid ≠ "" →
  videoIdOf (a +:+ "/video/" +:+ vid +:+ "?" +:+ query) dflt = vid ∧
  VideoData.tiktok_id
    (extractVideoData
       (blankPage (a +:+ "/video/" +:+ vid +:+ "?" +:+ query)) "tiktok") = vid.
Proof. intros. split; by apply videoIdOf_query. Qed.

(** C40. The alternatives of a listing are dead: the items of a profile are
    those of the first selector, [[data-e2e="user-post-item"]], and the
    cards of a tag page those of [[data-e2e="search-card-container"]];
    when the first selector matches nothing the listing is empty,
    whatever the other selectors match. *)
Theorem listing_first_selector_only pg :
  length (extractProfileItems pg)
  = length (querySelectorAll pg (e2e "user-post-item")) ∧
  length (extractHashtagItems pg)
  = length (querySelectorAll pg (e2e "search-card-container")) ∧
  extractProfileItems secondListingPage = [].
Proof.
  split_and!; [apply extractProfileItems_length
              |apply extractHashtagItems_length|done].
Qed.

(** Extraction depends on the document only through the answers to
    its queries: two documents with the same path that answer every
    selector alike give the same fields, thumbnail, media address and
    profile items. *)
Theorem extract_respects_equiv pg pg' platformParam :
  pg ≡ pg' →
  extractVideoData pg platformParam = extractVideoData pg' platformParam ∧
  extractThumbnail pg = extractThumbnail pg' ∧
  extractVideoUrl pg = extractVideoUrl pg' ∧
  extractProfileItems pg = extractProfileItems pg'.
Proof. intros H. by rewrite H. Qed.

(** The thumbnail read off a page is empty or is the [src] or the
    [data-src] of an element of the page; the media address is empty or
    the [src] of the first element of a player selector. *)
Theorem media_from_page pg :
  (extractThumbnail pg = "" ∨
   ∃ sel img, img ∈ querySelectorAll pg sel ∧
     (extractThumbnail pg = src img ∨
      getAttribute img "data-src" = Some (extractThumbnail pg))) ∧
  (extractVideoUrl pg = "" ∨
   ∃ sel el, sel ∈ videoUrlSelectors ∧ querySelector pg sel = Some el ∧
     extractVideoUrl pg = src el).
Proof. split; [apply extractThumbnail_spec|apply extractVideoUrl_spec]. Qed.

(** The tag page of a hashtag is the tag address followed by the
    hashtag without its first [#], wherever that is: a later [#] stays. *)
Theorem tagUrl_first_hash a b :
  lacks "#" a = true →
  tagUrl (a +:+ "#" +:+ b) = "https://www.tiktok.com/tag/" +:+ a +:+ b.
Proof.
  intros Ha. unfold tagUrl.
  rewrite replace_first_no_match; [by rewrite sapp_nil_l|done|].
  by apply no_match_char.
Qed.

(** *** Instances *)

Lemma chain_nth_locator_witness :
  textOr (firstMatch (querySelector thirdLocatorPage) titleSelectors)
    "Untitled Video" = or_else (trim " Third ") "Untitled Video" ∧
  countOf (firstMatch (querySelector thirdLocatorPage) titleSelectors)
  = parseDigits (stripNonDigits " Third ").
Proof.
  apply (chain_nth_locator (querySelector thirdLocatorPage) titleSelectors 2 "h1"
           (textNode " Third ") "Untitled Video"); [done|done|].
  by repeat constructor.
Defined.


Lemma videoIdOf_segment_witness :
  videoIdOf ("/@u" +:+ "/video/" +:+ "42" +:+ "?" +:+ "lang=en") "unknown" = "42" ∧
  VideoData.tiktok_id
    (extractVideoData
       (blankPage ("/@u" +:+ "/video/" +:+ "42" +:+ "?" +:+ "lang=en")) "tiktok")
  = "42".
Proof. by apply (videoIdOf_segment "/@u" "42" "lang=en" "unknown"). Defined.

Lemma extract_respects_equiv_witness :
  extractVideoData (Page "/p" [("h1", [textNode "t"]); ("p", [textNode "c"])]) "tiktok"
  = extractVideoData (Page "/p" [("p", [textNode "c"]); ("h1", [textNode "t"])]) "tiktok" ∧
  extractThumbnail (Page "/p" [("h1", [textNode "t"]); ("p", [textNode "c"])])
  = extractThumbnail (Page "/p" [("p", [textNode "c"]); ("h1", [textNode "t"])]) ∧
  extractVideoUrl (Page "/p" [("h1", [textNode "t"]); ("p", [textNode "c"])])
  = extractVideoUrl (Page "/p" [("p", [textNode "c"]); ("h1", [textNode "t"])]) ∧
  extractProfileItems (Page "/p" [("h1", [textNode "t"]); ("p", [textNode "c"])])
  = extractProfileItems (Page "/p" [("p", [textNode "c"]); ("h1", [textNode "t"])]).
Proof. by apply extract_respects_equiv, page_equiv_swap. Defined.

Lemma tagUrl_first_hash_witness :
  tagUrl ("trip" +:+ "#" +:+ "2024#fun")
  = "https://www.tiktok.com/tag/" +:+ "trip" +:+ "2024#fun".
Proof. by apply (tagUrl_first_hash "trip" "2024#fun"). Defined.

#[export] Hint Resolve textOr_nonempty thumbnailOr_nonempty finishVideo_wf
  finishItem_wf extractVideoData_title extractRetryData_title
  finishProfile_wf finishHashtag_wf videoIdOf_nonempty : scan.

End Extract.
