(* ===== verification/Scanner.v ===== *)
(** * Scanner: the three page scanners of the service

    [scanVideoLink] (tiktokService.js, lines 113-274), [scanUserProfile]
    (lines 276-352), [scanHashtag] (lines 354-428) and their helpers
    [scrollToLoadMore] (lines 430-442) and [extractMediaUrls] (lines
    444-525).  Each opens a page, prepares it, navigates, waits, evaluates
    the callbacks of [Extract] on the document the world shows, closes the
    page and builds the records.  Each is a [try] whose handler returns
    "nothing": [null] for a link, the empty array for a listing. *)

From S2P Require Import Prelude JsString Effects Cookie Dom Session Extract.
Export Session Extract.

Module Scanner.

(** ** Constants of the code *)

(** Line 125. *)
Definition userAgent120 : string :=
  "Mozilla/5.0 (Windows NT 10.0; Win64; x64) AppleWebKit/537.36 (KHTML, like Gecko) Chrome/120.0.0.0 Safari/537.36".

(** Lines 287 and 365. *)
Definition userAgent91 : string :=
  "Mozilla/5.0 (Windows NT 10.0; Win64; x64) AppleWebKit/537.36 (KHTML, like Gecko) Chrome/91.0.4472.124 Safari/537.36".

(** The selector of line 139. *)
Definition titleWaitSelector : string :=
  "h1, " +:+ e2e "video-title" +:+ ", .video-title".

(** [error.name === 'TimeoutError'] (line 215) *)
Definition isTimeout (error : js_error) : bool :=
  bool_decide (err_name error = "TimeoutError").

(** What reading [page] in the [catch] block of [scanVideoLink] throws:
    [page] is declared with [const] inside the [try] block (line 116) and
    is not in scope at line 218. *)
Definition pageNotDefined : js_error :=
  JsError "ReferenceError" "page is not defined".

(** ** The calls each scanner makes, in order *)

(** One round of [scrollToLoadMore] (lines 434-437), and the three rounds
    of its loop. *)
Definition scrollRound (page : page_id) : list action :=
  [Evaluate page ScrollToBottom; WaitForTimeout page 2000%N].

Definition scrollRounds (page : page_id) : list action :=
  scrollRound page ++ scrollRound page ++ scrollRound page.

(** The evaluations of [extractMediaUrls] (lines 447 and 490); the second
    happens when the first returned. *)
Definition mediaActions (page : page_id) (second : bool) : list action :=
  Evaluate page ExtractThumbnail ::
  if second then [Evaluate page ExtractVideoUrl] else [].

(** The calls of the [try] block of [scanVideoLink], lines 116-196, on
    browser [b] for page [page] under the cookie string [c]. *)
Definition linkActions (b : browser_id) (page : page_id) (c : option string)
    (videoLink : string) (second : bool) : list action :=
  NewPage b :: cookieActions page c ++
  [SetUserAgent page userAgent120; SetViewport page 1920%N 1080%N;
   Goto page videoLink 60000%N; WaitForTimeout page 5000%N;
   WaitForSelector page titleWaitSelector 10000%N;
   Evaluate page ExtractVideo] ++
  mediaActions page second ++ [ClosePage page].

(** The calls of the [try] blocks of [scanUserProfile] (lines 279-337) and
    [scanHashtag] (lines 357-413): [url] is the address visited, [f] the
    listing callback and [scrolled] what [scrollToLoadMore] did. *)
Definition listingActions (b : browser_id) (page : page_id) (c : option string)
    (url : string) (f : script) (scrolled : list action) : list action :=
  NewPage b :: cookieActions page c ++
  [SetUserAgent page userAgent91; Goto page url 60000%N;
   WaitForTimeout page 3000%N] ++
  scrolled ++ [Evaluate page f; ClosePage page].

Section scanner.
Context (W : env).

(** ** Helpers *)

(** [scrollToLoadMore] (lines 430-442): three scroll-and-wait rounds; an
    exception ends the rounds and is swallowed. *)
Definition scrollToLoadMore (page : page_id) : eff unit :=
  try_catch
    (repeatM 3 (evaluate W page ScrollToBottom;;
                perform W (WaitForTimeout page 2000%N)))
    (λ _, mret tt).

(** [extractMediaUrls] (lines 444-525): two evaluations; an exception in
    either gives the pair of empty strings. *)
Definition extractMediaUrls (page : page_id) : eff MediaData.t :=
  try_catch
    (pg1 ← evaluate W page ExtractThumbnail;
     let thumbnailUrl := extractThumbnail pg1 in
     pg2 ← evaluate W page ExtractVideoUrl;
     let videoUrl := extractVideoUrl pg2 in
     mret (MediaData.Make thumbnailUrl videoUrl))
    (λ _, mret (MediaData.Make "" "")).

(** ** A single video *)

(** The [try] block of [scanVideoLink] (lines 114-210). *)
Definition scanVideoLink_try (videoLink platform : string)
  : eff (option VideoItem) :=
  browser ← initBrowser W;
  page ← newPage W browser;
  applyCookies W page;;
  perform W (SetUserAgent page userAgent120);;
  perform W (SetViewport page 1920%N 1080%N);;
  perform W (Goto page videoLink 60000%N);;
  perform W (WaitForTimeout page 5000%N);;
  try_catch (perform W (WaitForSelector page titleWaitSelector 10000%N))
            (λ _, mret tt);;
  pg ← evaluate W page ExtractVideo;
  let videoData := extractVideoData pg platform in
  mediaData ← extractMediaUrls page;
  perform W (ClosePage page);;
  mret (Some (finishVideo videoData mediaData)).

(** Lines 218-266, for a page handle: what the retry does once it has
    one. *)
Definition retryBody (page : page_id) (platform : string)
  : eff (option VideoItem) :=
  perform W (WaitForTimeout page 2000%N);;
  pg ← evaluate W page ExtractRetry;
  let retryData := extractRetryData pg platform in
  perform W (ClosePage page);;
  mret (Some (finishItem "video_" retryData)).

(** The inner [try] block of the handler (lines 217-266): its first
    statement reads [page], which throws. *)
Definition scanVideoLink_retry (platform : string) : eff (option VideoItem) :=
  page ← throw pageNotDefined;
  retryBody page platform.

(** [scanVideoLink] (lines 113-274) *)
Definition scanVideoLink (videoLink platform : string)
  : eff (option VideoItem) :=
  try_catch (scanVideoLink_try videoLink platform)
    (λ error,
       if isTimeout error
       then try_catch (scanVideoLink_retry platform) (λ _, mret None)
       else mret None).

(** ** Listings *)

(** The [try] block of [scanUserProfile] (lines 278-346). *)
Definition scanUserProfile_try (userProfile platform : string)
  : eff (list VideoItem) :=
  browser ← initBrowser W;
  page ← newPage W browser;
  applyCookies W page;;
  perform W (SetUserAgent page userAgent91);;
  perform W (Goto page userProfile 60000%N);;
  perform W (WaitForTimeout page 3000%N);;
  scrollToLoadMore page;;
  pg ← evaluate W page ExtractProfile;
  let videos := extractProfileItems pg in
  perform W (ClosePage page);;
  mret (finishProfile videos).

(** [scanUserProfile] (lines 276-352) *)
Definition scanUserProfile (userProfile platform : string)
  : eff (list VideoItem) :=
  try_catch (scanUserProfile_try userProfile platform) (λ _, mret []).

(** The [try] block of [scanHashtag] (lines 356-422). *)
Definition scanHashtag_try (hashtag platform : string)
  : eff (list VideoItem) :=
  browser ← initBrowser W;
  page ← newPage W browser;
  applyCookies W page;;
  perform W (SetUserAgent page userAgent91);;
  let searchUrl := tagUrl hashtag in
  perform W (Goto page searchUrl 60000%N);;
  perform W (WaitForTimeout page 3000%N);;
  scrollToLoadMore page;;
  pg ← evaluate W page ExtractHashtag;
  let videos := extractHashtagItems pg in
  perform W (ClosePage page);;
  mret (finishHashtag videos).

(** [scanHashtag] (lines 354-428) *)
Definition scanHashtag (hashtag platform : string) : eff (list VideoItem) :=
  try_catch (scanHashtag_try hashtag platform) (λ _, mret []).

End scanner.

(** The calls of [scanVideoLink] up to a navigation that fails. *)
Definition gotoFailedActions (b : browser_id) (page : page_id)
    (c : option string) (videoLink : string) : list action :=
  NewPage b :: cookieActions page c ++
  [SetUserAgent page userAgent120; SetViewport page 1920%N 1080%N;
   Goto page videoLink 60000%N].

(** ** What the scanners promise *)

(** What a returned link record satisfies. *)
Definition item_ok (r : option VideoItem) : Prop := from_option wf_item True r.

(** What a returned listing satisfies, under the cap [n]. *)
Definition listing_ok (n : nat) (vs : list VideoItem) : Prop :=
  Forall wf_item vs ∧ length vs ≤ n.

(** The counters of a card are not read from a tag page. *)
Definition uncounted (v : VideoItem) : Prop := likes v = 0%N ∧ views v = 0%N.

(** What a run of [scanVideoLink] from [s], with browser [b], leaves: the
    calls made are a prefix of those of the [try] block, and all of them
    when a record is returned. *)
Definition link_trace (videoLink : string) s (b : browser_id)
    (r : outcome js_error (option VideoItem)) (s' : service) : Prop :=
  ∃ t second,
    s' = logs t s ∧
    t `prefix_of` linkActions b (length (trace s)) (cookies s) videoLink second ∧
    ∀ v, r = Ok (Some v) →
         t = linkActions b (length (trace s)) (cookies s) videoLink second.

(** The same for the two listing scanners; [scrolled] is what
    [scrollToLoadMore] got through. *)
Definition listing_trace (url : string) (f : script) s (b : browser_id)
    (r : outcome js_error (list VideoItem)) (s' : service) : Prop :=
  ∃ t scrolled,
    s' = logs t s ∧
    scrolled `prefix_of` scrollRounds (length (trace s)) ∧
    t `prefix_of` listingActions b (length (trace s)) (cookies s) url f scrolled ∧
    (r ≠ Ok [] →
     t = listingActions b (length (trace s)) (cookies s) url f scrolled).

(** ** Worlds used as examples *)

(** The world in which nothing throws and every evaluation sees [pg]. *)
Definition calm (pg : page) : env := Env (λ _ _, None) (λ _, pg) (λ _, 0%N).

(** The world in which the actions selected by [bad] throw [e]. *)
Definition failing (bad : action → bool) (e : js_error) (pg : page) : env :=
  Env (λ _ a, if bad a then Some e else None) (λ _, pg) (λ _, 0%N).

Definition timeoutError : js_error :=
  JsError "TimeoutError" "Navigation timeout of 60000 ms exceeded".

Definition isGoto (a : action) : bool :=
  match a with Goto _ _ _ => true | _ => false end.

(** A session that has a browser and no cookies. *)
Definition warm : service := Service (Some 0) None [Launch true launchArgs].

(** A video page with a title, a like count, an author, a thumbnail on a
    CDN and a player, at the path of video 7234. *)
Definition demoPage : page :=
  Page "/@creator/video/7234"
    [("h1", [textNode "  A day out  "]);
     (e2e "like-count", [textNode "12,345 likes"]);
     (".username", [textNode "creator"]);
     (attrHas "img" "src" "cdn", [imgNode "https://cdn.example/t.jpg"]);
     ("video", [imgNode "https://cdn.example/v.mp4"])].

Definition demoLink : string := "https://www.tiktok.com/@creator/video/7234".

Definition demoProfile : string := "https://www.tiktok.com/@creator".

(** A feed item linking to video [7001]. *)
Definition feedItem : element :=
  Element "" "" "" []
    [(itemLinkSelector,
      [linkNode "https://www.tiktok.com/@creator/video/7001?lang=en"])].

(** A profile page and a tag page showing [n] items. *)
Definition feedPage (n : nat) : page :=
  Page "/@creator" [(e2e "user-post-item", replicate n feedItem)].

Definition tagPage (n : nat) : page :=
  Page "/tag/travel" [(e2e "search-card-container", replicate n feedItem)].

(** ** Lemmas *)

Section lemmas.
Context (W : env).
Implicit Types (s : service) (page : page_id) (platform : string).

(** *** The helpers *)

(** [scrollToLoadMore] returns, having performed a prefix of its rounds. *)
Lemma wp_scrollToLoadMore page (Q : outcome js_error unit → service → Prop) s :
  (∀ t, t `prefix_of` scrollRounds page → Q (Ok tt) (logs t s)) →
  wp (scrollToLoadMore W page) Q s.
Proof.
  intros H. unfold scrollToLoadMore. wp_run;
    norm_logs; apply H; unfold scrollRounds, scrollRound; solve_prefix.
Qed.

(** [extractMediaUrls] returns; it evaluates the second callback when the
    first returned. *)
Lemma wp_extractMediaUrls page (Q : outcome js_error MediaData.t → service → Prop) s :
  (∀ m second, Q (Ok m) (logs (mediaActions page second) s)) →
  wp (extractMediaUrls W page) Q s.
Proof.
  intros H. unfold extractMediaUrls. wp_run; norm_logs.
  - apply (H _ true).
  - apply (H _ true).
  - apply (H _ false).
Qed.

Lemma no_throw_scrollToLoadMore page : no_throw (scrollToLoadMore W page).
Proof. unfold scrollToLoadMore. eff_auto by done. Qed.

Lemma no_throw_extractMediaUrls page : no_throw (extractMediaUrls W page).
Proof. unfold extractMediaUrls. eff_auto by done. Qed.

Lemma preserves_scrollToLoadMore page :
  preserves session_step (scrollToLoadMore W page).
Proof. unfold scrollToLoadMore. eff_auto by auto with scan. Qed.

Lemma preserves_extractMediaUrls page :
  preserves session_step (extractMediaUrls W page).
Proof. unfold extractMediaUrls. eff_auto by auto with scan. Qed.

(** *** The handler of [scanVideoLink] *)

(** The handler returns [null] for every exception, and does nothing. *)
Lemma handler_null platform (error : js_error) s :
  (if isTimeout error
   then try_catch (scanVideoLink_retry W platform) (λ _, mret None)
   else mret None) s = (Ok None, s).
Proof. by destruct (isTimeout error). Qed.

(** C2. The retry of [scanVideoLink] never runs: whatever exception ends
    the [try] block, a timeout included, the result is [null] and the
    session is left as it was when the exception was thrown.  The
    function is the plain [try { ... } catch { return null }]. *)
Theorem scanVideoLink_retry_dead videoLink platform s :
  scanVideoLink W videoLink platform s
  = try_catch (scanVideoLink_try W videoLink platform) (λ _, mret None) s.
Proof.
  unfold scanVideoLink, try_catch.
  destruct (scanVideoLink_try W videoLink platform s) as [[v|e] s']; [done|].
  apply (handler_null platform e s').
Qed.

(** [scanVideoLink] by the outcome of its [try] block. *)
Lemma wp_scanVideoLink videoLink platform
    (Q : outcome js_error (option VideoItem) → service → Prop) s :
  wp (scanVideoLink_try W videoLink platform)
     (λ r s', match r with
              | Ok v => Q (Ok v) s'
              | Throw _ => Q (Ok None) s'
              end) s →
  wp (scanVideoLink W videoLink platform) Q s.
Proof.
  intros H. unfold scanVideoLink. apply wp_catch.
  eapply wp_mono; [|exact H]. intros [v|e] s' HQ; [done|].
  unfold wp. by rewrite handler_null.
Qed.

(** *** Exceptions stay inside *)

Lemma no_throw_scanVideoLink videoLink platform :
  no_throw (scanVideoLink W videoLink platform).
Proof. unfold scanVideoLink, scanVideoLink_retry. eff_auto by done. Qed.

Lemma no_throw_scanUserProfile userProfile platform :
  no_throw (scanUserProfile W userProfile platform).
Proof. unfold scanUserProfile. eff_auto by done. Qed.

Lemma no_throw_scanHashtag hashtag platform :
  no_throw (scanHashtag W hashtag platform).
Proof. unfold scanHashtag. eff_auto by done. Qed.

(** *** The records returned *)

(** Were it reached, the body of the retry would return a sound record. *)
Lemma returns_retryBody page platform :
  returns_only (retryBody W page platform) item_ok.
Proof.
  unfold retryBody. eff_auto by idtac.
  apply finishItem_wf; [by left|apply extractRetryData_title].
Qed.

Lemma returns_scanVideoLink videoLink platform :
  returns_only (scanVideoLink W videoLink platform) item_ok.
Proof.
  unfold scanVideoLink, scanVideoLink_try, scanVideoLink_retry.
  eff_auto by first [done | apply returns_retryBody
                    | apply finishVideo_wf, extractVideoData_title].
Qed.

Lemma listing_ok_nil n : listing_ok n [].
Proof. split; [constructor|simpl; lia]. Qed.

Lemma returns_scanUserProfile userProfile platform :
  returns_only (scanUserProfile W userProfile platform) (listing_ok 20).
Proof.
  unfold scanUserProfile, scanUserProfile_try.
  eff_auto by first [apply listing_ok_nil | idtac].
  split; [apply finishProfile_wf|]. rewrite finishProfile_length. lia.
Qed.

Lemma returns_scanHashtag hashtag platform :
  returns_only (scanHashtag W hashtag platform)
    (λ vs, listing_ok 15 vs ∧ Forall uncounted vs).
Proof.
  unfold scanHashtag, scanHashtag_try.
  eff_auto by first [by split; [apply listing_ok_nil|constructor] | idtac].
  split; [split|]; [apply finishHashtag_wf| |apply finishHashtag_zero].
  rewrite finishHashtag_length. lia.
Qed.

(** *** The session *)

Lemma preserves_scanVideoLink videoLink platform :
  preserves session_step (scanVideoLink W videoLink platform).
Proof.
  unfold scanVideoLink, scanVideoLink_try, scanVideoLink_retry, retryBody,
    newPage.
  eff_auto by auto using preserves_extractMediaUrls with scan.
Qed.

Lemma preserves_scanUserProfile userProfile platform :
  preserves session_step (scanUserProfile W userProfile platform).
Proof.
  unfold scanUserProfile, scanUserProfile_try, newPage.
  eff_auto by auto using preserves_scrollToLoadMore with scan.
Qed.

Lemma preserves_scanHashtag hashtag platform :
  preserves session_step (scanHashtag W hashtag platform).
Proof.
  unfold scanHashtag, scanHashtag_try, newPage.
  eff_auto by auto using preserves_scrollToLoadMore with scan.
Qed.

End lemmas.

#[export] Hint Resolve no_throw_scrollToLoadMore no_throw_extractMediaUrls : eff.
#[export] Hint Resolve preserves_scrollToLoadMore preserves_extractMediaUrls
  : scan.

(** [scan_run] runs a scanner symbolically, with the helpers replaced by
    their specifications. *)
Ltac scan_run :=
  repeat first
    [ progress wp_run
    | apply wp_scrollToLoadMore; intros ? ?
    | apply wp_extractMediaUrls; intros ? ? ].

(** [trace_leaf] closes a leaf of a run: the state reached is [logs t s]
    for a prefix [t] of the expected calls. *)
Ltac trace_leaf :=
  norm_logs; eexists _, _; split; [reflexivity|];
  try (split; [eassumption || apply prefix_nil|]);
  split; [unfold linkActions, listingActions; solve_prefix|];
  first [by intros ? [=] | done].

Section traces.
Context (W : env).
Implicit Types (s : service) (page : page_id) (platform : string).

(** *** The calls made *)

Lemma wp_link_trace videoLink platform s b :
  browser s = Some b →
  wp (scanVideoLink W videoLink platform) (link_trace videoLink s b) s.
Proof.
  intros Hb. apply wp_scanVideoLink. unfold scanVideoLink_try, link_trace.
  scan_run; trace_leaf.
  Unshelve. all: exact true.
Qed.

Lemma wp_profile_trace userProfile platform s b :
  browser s = Some b →
  wp (scanUserProfile W userProfile platform)
     (listing_trace userProfile ExtractProfile s b) s.
Proof.
  intros Hb. unfold scanUserProfile, listing_trace. apply wp_catch.
  unfold scanUserProfile_try. scan_run; trace_leaf.
Qed.

Lemma wp_hashtag_trace hashtag platform s b :
  browser s = Some b →
  wp (scanHashtag W hashtag platform)
     (listing_trace (tagUrl hashtag) ExtractHashtag s b) s.
Proof.
  intros Hb. unfold scanHashtag, listing_trace. apply wp_catch.
  unfold scanHashtag_try. scan_run; trace_leaf.
Qed.

(** *** The pages visited *)

Lemma navigations_prefix t t' :
  t `prefix_of` t' → navigations t `prefix_of` navigations t'.
Proof. intros [k ->]. rewrite navigations_app. by apply prefix_app_r. Qed.

Lemma navigations_scrolled page scrolled :
  scrolled `prefix_of` scrollRounds page → navigations scrolled = [].
Proof. intros H%navigations_prefix. by apply prefix_nil_inv in H. Qed.

Lemma navigations_linkActions b page c videoLink second :
  navigations (linkActions b page c videoLink second) = [videoLink].
Proof.
  unfold linkActions, mediaActions.
  rewrite navigations_cons, !navigations_app.
  rewrite navigations_cookieActions. by destruct second.
Qed.

Lemma navigations_listingActions b page c url f scrolled :
  scrolled `prefix_of` scrollRounds page →
  navigations (listingActions b page c url f scrolled) = [url].
Proof.
  intros H. unfold listingActions.
  rewrite navigations_cons, !navigations_app.
  by rewrite navigations_cookieActions, (navigations_scrolled _ _ H).
Qed.

Lemma link_trace_visits videoLink s b r s' :
  link_trace videoLink s b r s' →
  navigations (added s s') `prefix_of` [videoLink].
Proof.
  intros (t & second & -> & Ht & _).
  rewrite added_logs.
  rewrite <- (navigations_linkActions b (length (trace s)) (cookies s) _ second).
  by apply navigations_prefix.
Qed.

Lemma listing_trace_visits url f s b r s' :
  listing_trace url f s b r s' → navigations (added s s') `prefix_of` [url].
Proof.
  intros (t & scrolled & -> & Hs & Ht & _).
  rewrite added_logs.
  rewrite <- (navigations_listingActions b _ (cookies s) url f _ Hs).
  by apply navigations_prefix.
Qed.

Lemma visits_scanVideoLink videoLink platform s :
  is_Some (browser s) →
  navigations (added s (scanVideoLink W videoLink platform s).2)
    `prefix_of` [videoLink].
Proof.
  intros [b Hb]. eapply link_trace_visits, (wp_link_trace _ _ _ _ Hb).
Qed.

Lemma visits_scanUserProfile userProfile platform s :
  is_Some (browser s) →
  navigations (added s (scanUserProfile W userProfile platform s).2)
    `prefix_of` [userProfile].
Proof.
  intros [b Hb]. eapply listing_trace_visits, (wp_profile_trace _ _ _ _ Hb).
Qed.

Lemma visits_scanHashtag hashtag platform s :
  is_Some (browser s) →
  navigations (added s (scanHashtag W hashtag platform s).2)
    `prefix_of` [tagUrl hashtag].
Proof.
  intros [b Hb]. eapply listing_trace_visits, (wp_hashtag_trace _ _ _ _ Hb).
Qed.

(** *** Pages opened and closed *)

(** A run that opens a page first and closes it last: every prefix has
    closed at most what it opened, and has closed the page only if it is
    the whole run. *)
Lemma pages_prefix b page mid t :
  count isNewPage mid = 0 → count isClosePage mid = 0 →
  t `prefix_of` NewPage b :: mid ++ [ClosePage page] →
  count isClosePage t ≤ count isNewPage t ≤ 1 ∧
  (t = NewPage b :: mid ++ [ClosePage page] → count isClosePage t = 1).
Proof.
  intros Hn Hc Ht. split.
  - pose proof (count_prefix isNewPage _ _ Ht) as H1.
    pose proof (count_prefix isClosePage _ _ Ht) as H2.
    rewrite count_cons, count_app, count_singleton in H1, H2. simpl in H1, H2.
    destruct t as [|a t]; [rewrite !count_nil; lia|].
    apply prefix_cons_inv_1 in Ht as ->. rewrite !count_cons in *. simpl in *. lia.
  - intros ->. rewrite count_cons, count_app, count_singleton. simpl. lia.
Qed.

Lemma count_scrolled f page scrolled :
  count f (scrollRounds page) = 0 →
  scrolled `prefix_of` scrollRounds page → count f scrolled = 0.
Proof. intros H0 Hp%(count_prefix f). lia. Qed.

Lemma listingActions_shape b page c url f scrolled :
  listingActions b page c url f scrolled
  = NewPage b ::
    (cookieActions page c ++
     [SetUserAgent page userAgent91; Goto page url 60000%N;
      WaitForTimeout page 3000%N] ++ scrolled ++ [Evaluate page f]) ++
    [ClosePage page].
Proof. unfold listingActions. by rewrite <- !app_assoc. Qed.

Lemma listing_trace_pages url f s b r s' :
  listing_trace url f s b r s' →
  count isClosePage (added s s') ≤ count isNewPage (added s s') ≤ 1 ∧
  (r ≠ Ok [] → count isClosePage (added s s') = 1).
Proof.
  intros (t & scrolled & -> & Hs & Ht & Hr). rewrite added_logs.
  rewrite listingActions_shape in Ht, Hr.
  apply pages_prefix in Ht as [H1 H2]; [by auto| |];
    rewrite !count_app, count_cookieActions by done.
  - by rewrite (count_scrolled isNewPage _ _ eq_refl Hs).
  - by rewrite (count_scrolled isClosePage _ _ eq_refl Hs).
Qed.

End traces.

(** ** The scanners when nothing fails *)

Section calm.
Implicit Types (s : service) (pg : page) (platform : string).

(** [calm_run] runs a scanner in a world that decides every action. *)
Ltac calm_run :=
  unfold scanUserProfile, scanUserProfile_try, scanHashtag, scanHashtag_try,
    scanVideoLink_try, extractMediaUrls, scrollToLoadMore;
  wp_run; norm_logs; try done.

Lemma calm_scanVideoLink pg videoLink platform s b :
  browser s = Some b →
  scanVideoLink (calm pg) videoLink platform s
  = (Ok (Some (finishVideo (extractVideoData pg platform)
                 (MediaData.Make (extractThumbnail pg) (extractVideoUrl pg)))),
     logs (linkActions b (length (trace s)) (cookies s) videoLink true) s).
Proof. intros. apply wp_eq, wp_scanVideoLink. calm_run. Qed.

Lemma calm_scanUserProfile pg userProfile platform s b :
  browser s = Some b →
  scanUserProfile (calm pg) userProfile platform s
  = (Ok (finishProfile (extractProfileItems pg)),
     logs (listingActions b (length (trace s)) (cookies s) userProfile
             ExtractProfile (scrollRounds (length (trace s)))) s).
Proof. intros. apply wp_eq. calm_run. Qed.

Lemma calm_scanHashtag pg hashtag platform s b :
  browser s = Some b →
  scanHashtag (calm pg) hashtag platform s
  = (Ok (finishHashtag (extractHashtagItems pg)),
     logs (listingActions b (length (trace s)) (cookies s) (tagUrl hashtag)
             ExtractHashtag (scrollRounds (length (trace s)))) s).
Proof. intros. apply wp_eq. calm_run. Qed.

(** When navigation throws [e], the [try] block of [scanVideoLink] ends
    there. *)
Lemma goto_fails_try e pg videoLink platform s b :
  browser s = Some b →
  wp (scanVideoLink_try (failing isGoto e pg) videoLink platform)
     (λ r s', r = Throw e ∧
        s' = logs (gotoFailedActions b (length (trace s)) (cookies s)
                     videoLink) s) s.
Proof.
  intros. unfold gotoFailedActions. calm_run.
Qed.

End calm.

(** ** Properties *)

Section properties.
Context (W : env).
Implicit Types (s : service) (page : page_id) (platform : string).

(** C6. [scanVideoLink] always returns, whatever the browser, the network
    and the site do: a record that is pending, not downloaded, with a
    non-empty title and thumbnail address and an id made of [video_] and
    its platform id, or [null]. *)
Theorem scanVideoLink_total videoLink platform s :
  ∃ r s', scanVideoLink W videoLink platform s = (Ok r, s') ∧ item_ok r.
Proof.
  apply returns_run;
    [apply no_throw_scanVideoLink|apply returns_scanVideoLink].
Qed.

(** C18. [scanUserProfile] always returns: at most 20 records, each
    pending, not downloaded, with a title and a thumbnail address; a
    failure anywhere in the scan gives the empty list. *)
Theorem scanUserProfile_total userProfile platform s :
  ∃ vs s', scanUserProfile W userProfile platform s = (Ok vs, s') ∧
           Forall wf_item vs ∧ length vs ≤ 20.
Proof.
  apply returns_run;
    [apply no_throw_scanUserProfile|apply returns_scanUserProfile].
Qed.

(** C26. [scanHashtag] always returns: at most 15 records, each pending,
    not downloaded, with a title and a thumbnail address, and with like
    and view counts 0. *)
Theorem scanHashtag_total hashtag platform s :
  ∃ vs s', scanHashtag W hashtag platform s = (Ok vs, s') ∧
           (Forall wf_item vs ∧ length vs ≤ 15) ∧ Forall uncounted vs.
Proof.
  apply returns_run; [apply no_throw_scanHashtag|apply returns_scanHashtag].
Qed.

(** The three scanners keep the session: the cookie string is
    unchanged, the trace only grows, and a browser found at the start is
    still the session's browser at the end, neither relaunched nor
    closed. *)
Theorem scanners_session_step target platform s :
  session_step s (scanVideoLink W target platform s).2 ∧
  session_step s (scanUserProfile W target platform s).2 ∧
  session_step s (scanHashtag W target platform s).2.
Proof.
  split_and!; [apply preserves_scanVideoLink|apply preserves_scanUserProfile
              |apply preserves_scanHashtag].
Qed.

(** C30. From a session with a browser, [scanVideoLink] performs a prefix
    of the calls of its [try] block, in their order, and nothing else;
    when it returns a record it has performed all of them, the closing of
    the page included. *)
Theorem scanVideoLink_trace videoLink platform s b :
  browser s = Some b →
  ∃ t second,
    (scanVideoLink W videoLink platform s).2 = logs t s ∧
    t `prefix_of` linkActions b (length (trace s)) (cookies s) videoLink second ∧
    ∀ v, (scanVideoLink W videoLink platform s).1 = Ok (Some v) →
         t = linkActions b (length (trace s)) (cookies s) videoLink second.
Proof. apply wp_link_trace. Qed.

(** From a session with a browser, each listing scanner performs a
    prefix of the calls of its [try] block, the scrolling rounds it got
    through included, and nothing else; [scanHashtag] visits the tag page
    of its hashtag.  When records are returned all the calls were made. *)
Theorem listing_scanners_trace target platform s b :
  browser s = Some b →
  listing_trace target ExtractProfile s b
    (scanUserProfile W target platform s).1
    (scanUserProfile W target platform s).2 ∧
  listing_trace (tagUrl target) ExtractHashtag s b
    (scanHashtag W target platform s).1
    (scanHashtag W target platform s).2.
Proof.
  intros Hb. split; [by apply wp_profile_trace|by apply wp_hashtag_trace].
Qed.

(** From a session with a browser, [scanVideoLink] opens at most one
    page and closes no page it has not opened; when it returns a record,
    the page it opened has been closed. *)
Theorem scanVideoLink_pages videoLink platform s b :
  browser s = Some b →
  let t := added s (scanVideoLink W videoLink platform s).2 in
  count isClosePage t ≤ count isNewPage t ≤ 1 ∧
  ∀ v, (scanVideoLink W videoLink platform s).1 = Ok (Some v) →
       count isClosePage t = 1.
Proof.
  intros Hb. destruct (wp_link_trace W videoLink platform s b Hb)
    as (t & second & E & Ht & Hv).
  simpl. rewrite E, added_logs. unfold linkActions in *.
  rewrite !app_assoc in Ht, Hv. apply pages_prefix in Ht as [H1 H2].
  - split; [done|]. intros v Hr. by apply H2, Hv with v.
  - rewrite !count_app, count_cookieActions by done. by destruct second.
  - rewrite !count_app, count_cookieActions by done. by destruct second.
Qed.

(** From a session with a browser, each listing scanner opens at most
    one page and closes no page it has not opened; when it returns records
    the page it opened has been closed. *)
Theorem listing_scanners_pages target platform s b :
  browser s = Some b →
  (let t := added s (scanUserProfile W target platform s).2 in
   count isClosePage t ≤ count isNewPage t ≤ 1 ∧
   ((scanUserProfile W target platform s).1 ≠ Ok [] → count isClosePage t = 1)) ∧
  (let t := added s (scanHashtag W target platform s).2 in
   count isClosePage t ≤ count isNewPage t ≤ 1 ∧
   ((scanHashtag W target platform s).1 ≠ Ok [] → count isClosePage t = 1)).
Proof.
  intros Hb. split; eapply listing_trace_pages;
    [by apply wp_profile_trace|by apply wp_hashtag_trace].
Qed.

End properties.

Section concrete.
Implicit Types (s : service) (pg : page) (platform : string).

(** When nothing fails, [scanVideoLink] returns the record built from
    the fields, the thumbnail and the media address read off the page,
    after exactly the calls of its [try] block. *)
Theorem scanVideoLink_calm pg videoLink platform s b :
  browser s = Some b →
  (scanVideoLink (calm pg) videoLink platform s).1
  = Ok (Some (finishVideo (extractVideoData pg platform)
                (MediaData.Make (extractThumbnail pg) (extractVideoUrl pg)))) ∧
  added s (scanVideoLink (calm pg) videoLink platform s).2
  = linkActions b (length (trace s)) (cookies s) videoLink true.
Proof.
  intros Hb. rewrite (calm_scanVideoLink _ _ _ _ _ Hb). simpl.
  by rewrite added_logs.
Qed.

(** When nothing fails, [scanUserProfile] returns one record for each
    of the first 20 feed items of the page and [scanHashtag] one for each
    of the first 15 cards: the count is the number of items shown, capped. *)
Theorem listing_scanners_calm pg target platform s b :
  browser s = Some b →
  ∃ vs ws,
    (scanUserProfile (calm pg) target platform s).1 = Ok vs ∧
    length vs = length (querySelectorAll pg (e2e "user-post-item")) `min` 20 ∧
    (scanHashtag (calm pg) target platform s).1 = Ok ws ∧
    length ws = length (querySelectorAll pg (e2e "search-card-container")) `min` 15.
Proof.
  intros Hb. eexists _, _.
  rewrite (calm_scanUserProfile _ _ _ _ _ Hb), (calm_scanHashtag _ _ _ _ _ Hb).
  split_and!; try done.
  - by rewrite finishProfile_length, extractProfileItems_length.
  - by rewrite finishHashtag_length, extractHashtagItems_length.
Qed.

(** C31. When navigation fails, with a timeout or any other exception,
    [scanVideoLink] returns [null] straight after the failed [goto]: no
    retry follows, and the page it opened is not closed. *)
Theorem scanVideoLink_goto_fails e pg videoLink platform s b :
  browser s = Some b →
  let s' := (scanVideoLink (failing isGoto e pg) videoLink platform s).2 in
  (scanVideoLink (failing isGoto e pg) videoLink platform s).1 = Ok None ∧
  added s s' = gotoFailedActions b (length (trace s)) (cookies s) videoLink ∧
  count isNewPage (added s s') = 1 ∧ count isClosePage (added s s') = 0.
Proof.
  intros Hb. simpl.
  assert (wp (scanVideoLink (failing isGoto e pg) videoLink platform)
            (λ r s', r = Ok None ∧
               s' = logs (gotoFailedActions b (length (trace s)) (cookies s)
                            videoLink) s) s) as [-> ->].
  { apply wp_scanVideoLink. eapply wp_mono; [|by apply goto_fails_try].
    by intros ?? [-> ->]. }
  rewrite added_logs. unfold gotoFailedActions.
  by rewrite !count_cons, !count_app, !count_cookieActions.
Qed.

(** *** Instances *)

Lemma scanVideoLink_trace_witness :
  ∃ t second,
    (scanVideoLink (calm demoPage) demoLink "tiktok" warm).2 = logs t warm ∧
    t `prefix_of` linkActions 0 (length (trace warm)) (cookies warm)
                    demoLink second ∧
    ∀ v, (scanVideoLink (calm demoPage) demoLink "tiktok" warm).1 = Ok (Some v) →
         t = linkActions 0 (length (trace warm)) (cookies warm) demoLink second.
Proof. by apply (scanVideoLink_trace (calm demoPage) demoLink "tiktok" warm 0). Defined.

Lemma listing_scanners_trace_witness :
  listing_trace demoProfile ExtractProfile warm 0
    (scanUserProfile (calm (feedPage 3)) demoProfile "tiktok" warm).1
    (scanUserProfile (calm (feedPage 3)) demoProfile "tiktok" warm).2 ∧
  listing_trace (tagUrl demoProfile) ExtractHashtag warm 0
    (scanHashtag (calm (feedPage 3)) demoProfile "tiktok" warm).1
    (scanHashtag (calm (feedPage 3)) demoProfile "tiktok" warm).2.
Proof.
  by apply (listing_scanners_trace (calm (feedPage 3)) demoProfile "tiktok" warm 0).
Defined.

Lemma scanVideoLink_pages_witness :
  let t := added warm (scanVideoLink (calm demoPage) demoLink "tiktok" warm).2 in
  count isClosePage t ≤ count isNewPage t ≤ 1 ∧
  ∀ v, (scanVideoLink (calm demoPage) demoLink "tiktok" warm).1 = Ok (Some v) →
       count isClosePage t = 1.
Proof. by apply (scanVideoLink_pages (calm demoPage) demoLink "tiktok" warm 0). Defined.

Lemma listing_scanners_pages_witness :
  (let t := added warm (scanUserProfile (calm (feedPage 3)) demoProfile "tiktok" warm).2 in
   count isClosePage t ≤ count isNewPage t ≤ 1 ∧
   ((scanUserProfile (calm (feedPage 3)) demoProfile "tiktok" warm).1 ≠ Ok [] →
    count isClosePage t = 1)) ∧
  (let t := added warm (scanHashtag (calm (feedPage 3)) "#travel" "tiktok" warm).2 in
   count isClosePage t ≤ count isNewPage t ≤ 1 ∧
   ((scanHashtag (calm (feedPage 3)) "#travel" "tiktok" warm).1 ≠ Ok [] →
    count isClosePage t = 1)).
Proof.
  split.
  - by apply (listing_scanners_pages (calm (feedPage 3)) demoProfile "tiktok" warm 0).
  - by apply (listing_scanners_pages (calm (feedPage 3)) "#travel" "tiktok" warm 0).
Defined.

(** The record read off [demoPage]. *)
Lemma scanVideoLink_calm_witness :
  (scanVideoLink (calm demoPage) demoLink "tiktok" warm).1
  = Ok (Some {| id := "video_7234"; tiktok_id := "7234"; title := "A day out";
                content := ""; likes := 12345; views := 0;
                uploader := "creator";
                thumbnail_url := "https://cdn.example/t.jpg";
                video_url := "https://cdn.example/v.mp4";
                platform := "tiktok"; downloaded := false;
                status := Pending |}) ∧
  navigations (added warm (scanVideoLink (calm demoPage) demoLink "tiktok" warm).2)
  = [demoLink].
Proof.
  destruct (scanVideoLink_calm demoPage demoLink "tiktok" warm 0 eq_refl)
    as [E1 E2].
  rewrite E1, E2. by vm_compute.
Defined.

(** A profile showing 50 items gives exactly 20 records, a tag page
    showing 50 cards exactly 15. *)
Lemma listing_scanners_calm_witness :
  ∃ vs ws,
    (scanUserProfile (calm (feedPage 50)) demoProfile "tiktok" warm).1 = Ok vs ∧
    length vs = 20 ∧
    (scanHashtag (calm (tagPage 50)) "#travel" "tiktok" warm).1 = Ok ws ∧
    length ws = 15.
Proof.
  destruct (listing_scanners_calm (feedPage 50) demoProfile "tiktok" warm 0 eq_refl)
    as (vs & _ & E1 & L1 & _).
  destruct (listing_scanners_calm (tagPage 50) "#travel" "tiktok" warm 0 eq_refl)
    as (_ & ws & _ & _ & E2 & L2).
  exists vs, ws. by rewrite L1, L2.
Defined.

Lemma scanVideoLink_goto_fails_witness :
  let s' := (scanVideoLink (failing isGoto timeoutError demoPage)
               demoLink "tiktok" warm).2 in
  (scanVideoLink (failing isGoto timeoutError demoPage) demoLink "tiktok" warm).1
  = Ok None ∧
  added warm s'
  = gotoFailedActions 0 (length (trace warm)) (cookies warm) demoLink ∧
  count isNewPage (added warm s') = 1 ∧ count isClosePage (added warm s') = 0.
Proof.
  by apply (scanVideoLink_goto_fails timeoutError demoPage demoLink "tiktok" warm 0).
Defined.

End concrete.

End Scanner.
