(* ===== verification/Orchestrator.v ===== *)
(** * Orchestrator: one batch of scans

    [scanVideos] (tiktokService.js, lines 59-111) stores the cookie string,
    acquires the browser, then scans the video links, the profiles and the
    hashtags of the request, in that order and one at a time, appending
    what each scan returns.  It answers [{success: true, videos,
    totalCount}], or [{success: false, videos: [], message}] when an
    exception reaches its handler.

    The orchestrator is stated against an interface, [ScannerLaws]: what it
    needs of the three scanners.  The scanners of [Scanner] satisfy it. *)

From S2P Require Import Prelude JsString Effects Cookie Dom Session Extract Scanner.
Export Scanner.

Module Orchestrator.

(** ** Data *)

(** The request (line 60; [ScanVideosParams], videoService.ts, lines 3-10). *)
Module ScanRequest.
Record ScanRequest : Type := Make {
  platform : string;
  videoLinks : list string;
  userProfiles : list string;
  hashtags : list string;
  cookies : string
}.
Abbreviation t := ScanRequest.
End ScanRequest.

(** The answer (lines 97-101 and 105-109; [ScanResult], videoService.ts,
    lines 34-39).  The optional fields are absent when [None]. *)
Module ScanResult.
Record ScanResult : Type := Make {
  success : bool;
  videos : list VideoItem;
  totalCount : option nat;
  message : option string
}.
Abbreviation t := ScanResult.
End ScanResult.

(** The three methods [scanVideos] calls for each entry of the request. *)
Record scanners : Type := Scanners {
  scanLink : string → string → eff (option VideoItem);
  scanProfile : string → string → eff (list VideoItem);
  scanTag : string → string → eff (list VideoItem)
}.

(** What the orchestrator relies on: a scan never throws, returns sound
    records within its cap, keeps the session, and navigates at most once,
    to its own target. *)
Class ScannerLaws (sc : scanners) : Prop := {
  link_no_throw l p : no_throw (scanLink sc l p);
  profile_no_throw u p : no_throw (scanProfile sc u p);
  tag_no_throw h p : no_throw (scanTag sc h p);
  link_returns l p : returns_only (scanLink sc l p) item_ok;
  profile_returns u p : returns_only (scanProfile sc u p) (listing_ok 20);
  tag_returns h p : returns_only (scanTag sc h p) (listing_ok 15);
  link_visits l p : visits (scanLink sc l p) [l];
  profile_visits u p : visits (scanProfile sc u p) [u];
  tag_visits h p : visits (scanTag sc h p) [tagUrl h]
}.

(** [if (videoData) { videos.push(videoData) }] (lines 74-77) *)
Definition pushIfAny (videos : list VideoItem) (videoData : option VideoItem)
  : list VideoItem :=
  match videoData with
  | Some v => videos ++ [v]
  | None => videos
  end.

(** The answer of the handler (lines 105-109). *)
Definition failure (error : js_error) : ScanResult.t :=
  ScanResult.Make false [] None (Some (message error)).

(** The answer of a completed batch (lines 97-101). *)
Definition completed (videos : list VideoItem) : ScanResult.t :=
  ScanResult.Make true videos (Some (length videos)) None.

Section orchestrator.
Context (W : env) (sc : scanners).

(** The loop of lines 71-78. *)
Definition scanLinks (platform : string) (videos : list VideoItem)
    (videoLinks : list string) : eff (list VideoItem) :=
  foldM (λ videos videoLink,
           videoData ← scanLink sc videoLink platform;
           mret (pushIfAny videos videoData))
        videos videoLinks.

(** The loop of lines 81-86. *)
Definition scanProfiles (platform : string) (videos : list VideoItem)
    (userProfiles : list string) : eff (list VideoItem) :=
  foldM (λ videos userProfile,
           userVideos ← scanProfile sc userProfile platform;
           mret (videos ++ userVideos))
        videos userProfiles.

(** The loop of lines 89-94. *)
Definition scanTags (platform : string) (videos : list VideoItem)
    (hashtags : list string) : eff (list VideoItem) :=
  foldM (λ videos hashtag,
           hashtagVideos ← scanTag sc hashtag platform;
           mret (videos ++ hashtagVideos))
        videos hashtags.

(** The three loops on the accumulator of line 68. *)
Definition scanAll (params : ScanRequest.t) : eff (list VideoItem) :=
  let platform := ScanRequest.platform params in
  videos ← scanLinks platform [] (ScanRequest.videoLinks params);
  videos ← scanProfiles platform videos (ScanRequest.userProfiles params);
  scanTags platform videos (ScanRequest.hashtags params).

(** The [try] block of [scanVideos] (lines 62-101). *)
Definition scanVideos_try (params : ScanRequest.t) : eff ScanResult.t :=
  setCookies (ScanRequest.cookies params);;
  browser ← initBrowser W;
  videos ← scanAll params;
  mret (completed videos).

(** [scanVideos] (lines 59-111) over the scanners [sc]. *)
Definition scanVideosWith (params : ScanRequest.t) : eff ScanResult.t :=
  try_catch (scanVideos_try params) (λ error, mret (failure error)).

End orchestrator.

(** The scanners of the service. *)
Definition tiktokScanners (W : env) : scanners :=
  Scanners (scanVideoLink W) (scanUserProfile W) (scanHashtag W).

(** [TikTokService.scanVideos] *)
Definition scanVideos (W : env) (params : ScanRequest.t) : eff ScanResult.t :=
  scanVideosWith W (tiktokScanners W) params.

(** ** What a batch promises *)

(** The addresses a request asks to visit, in the order of the loops. *)
Definition targets (params : ScanRequest.t) : list string :=
  ScanRequest.videoLinks params ++ ScanRequest.userProfiles params ++
  (tagUrl <$> ScanRequest.hashtags params).

(** The most records a request can yield. *)
Definition capacity (params : ScanRequest.t) : nat :=
  length (ScanRequest.videoLinks params) +
  20 * length (ScanRequest.userProfiles params) +
  15 * length (ScanRequest.hashtags params).

(** The two shapes of an answer. *)
Definition result_ok (params : ScanRequest.t) (r : ScanResult.t) : Prop :=
  if ScanResult.success r
  then ScanResult.totalCount r = Some (length (ScanResult.videos r)) ∧
       ScanResult.message r = None ∧
       Forall wf_item (ScanResult.videos r) ∧
       length (ScanResult.videos r) ≤ capacity params
  else ScanResult.videos r = [] ∧ ScanResult.totalCount r = None ∧
       is_Some (ScanResult.message r).

(** The session as [scanVideos] finds it once the cookies are stored. *)
Definition started (params : ScanRequest.t) (s : service) : service :=
  setCookieString (ScanRequest.cookies params) s.

(** What the scan of a link returns when nothing fails and the page is
    [pg]. *)
Definition calmLink (pg : page) (platform : string) : VideoItem :=
  finishVideo (extractVideoData pg platform)
    (MediaData.Make (extractThumbnail pg) (extractVideoUrl pg)).

(** What a batch returns when nothing fails and every page is [pg]. *)
Definition calmVideos (pg : page) (params : ScanRequest.t) : list VideoItem :=
  replicate (length (ScanRequest.videoLinks params))
    (calmLink pg (ScanRequest.platform params)) ++
  mjoin (replicate (length (ScanRequest.userProfiles params))
           (finishProfile (extractProfileItems pg))) ++
  mjoin (replicate (length (ScanRequest.hashtags params))
           (finishHashtag (extractHashtagItems pg))).

(** The navigation to one address. *)
Definition gotoIs (url : string) (a : action) : bool :=
  match a with
  | Goto _ u _ => bool_decide (u = url)
  | _ => false
  end.

(** A request for one link and one profile, without cookies. *)
Definition demoRequest : ScanRequest.t :=
  ScanRequest.Make "tiktok" [demoLink] [demoProfile] [] "".

Definition launchError : js_error :=
  JsError "Error" "Failed to launch the browser process!".

(** ** The scanners of the service satisfy the interface *)

#[export] Instance tiktok_laws (W : env) : ScannerLaws (tiktokScanners W).
Proof.
  split; simpl; intros.
  - apply no_throw_scanVideoLink.
  - apply no_throw_scanUserProfile.
  - apply no_throw_scanHashtag.
  - apply returns_scanVideoLink.
  - apply returns_scanUserProfile.
  - eapply returns_mono; [|apply returns_scanHashtag]. by intros ? [? _].
  - apply visits_prefix; auto using preserves_scanVideoLink, visits_scanVideoLink.
  - apply visits_prefix;
      auto using preserves_scanUserProfile, visits_scanUserProfile.
  - apply visits_prefix; auto using preserves_scanHashtag, visits_scanHashtag.
Qed.

(** ** The loops, against the interface *)

Section loops.
Context (W : env) (sc : scanners) `{!ScannerLaws sc}.
Implicit Types (s : service) (params : ScanRequest.t) (vs : list VideoItem).

Lemma no_throw_scanAll params : no_throw (scanAll sc params).
Proof.
  unfold scanAll, scanLinks, scanProfiles, scanTags.
  eff_auto by auto using link_no_throw, profile_no_throw, tag_no_throw.
Qed.

Lemma returns_scanLinks platform vs videoLinks :
  Forall wf_item vs →
  returns_only (scanLinks sc platform vs videoLinks)
    (λ vs', Forall wf_item vs' ∧ length vs' ≤ length vs + 1 * length videoLinks).
Proof.
  intros Hvs. apply (returns_foldM_bounded _ (Forall wf_item)); [done|].
  intros acc x Hacc. eapply returns_bind_strong; [apply link_returns|].
  intros [v|] Hv; apply returns_ret; simpl.
  - rewrite Forall_app, length_app. simpl. split; [by auto|lia].
  - split; [done|lia].
Qed.

(** A loop that appends listings of at most [n] records. *)
Lemma returns_listings (scan : string → string → eff (list VideoItem)) n
    platform vs l :
  (∀ u p, returns_only (scan u p) (listing_ok n)) →
  Forall wf_item vs →
  returns_only
    (foldM (λ videos u, found ← scan u platform; mret (videos ++ found)) vs l)
    (λ vs', Forall wf_item vs' ∧ length vs' ≤ length vs + n * length l).
Proof.
  intros Hscan Hvs. apply (returns_foldM_bounded _ (Forall wf_item)); [done|].
  intros acc x Hacc. eapply returns_bind_strong; [apply Hscan|].
  intros found [Hwf Hlen]. apply returns_ret.
  rewrite Forall_app, length_app. split; [by auto|lia].
Qed.

Lemma returns_scanAll params :
  returns_only (scanAll sc params)
    (λ vs, Forall wf_item vs ∧ length vs ≤ capacity params).
Proof.
  unfold scanAll, capacity.
  eapply returns_bind_strong; [by apply returns_scanLinks|].
  intros vs1 [Hwf1 Hlen1].
  eapply returns_bind_strong;
    [by apply (returns_listings _ 20), Hwf1; apply profile_returns|].
  intros vs2 [Hwf2 Hlen2].
  eapply returns_mono;
    [|by apply (returns_listings _ 15), Hwf2; apply tag_returns].
  intros vs3 [Hwf3 Hlen3]. simpl in *. split; [done|lia].
Qed.

Lemma visits_scanAll params : visits (scanAll sc params) (targets params).
Proof.
  unfold scanAll, targets, scanLinks, scanProfiles, scanTags.
  apply visits_bind; [|intros vs1; apply visits_bind; [|intros vs2]].
  - apply visits_foldM_id. intros. apply visits_bind_ret, link_visits.
  - apply visits_foldM_id. intros. apply visits_bind_ret, profile_visits.
  - apply visits_foldM. intros. apply visits_bind_ret, tag_visits.
Qed.

End loops.

(** ** A batch, against the interface *)

Section batch.
Context (W : env) (sc : scanners) `{!ScannerLaws sc}.
Implicit Types (s : service) (params : ScanRequest.t) (vs : list VideoItem).

(** Storing the cookies cannot fail; the rest runs from [started]. *)
Lemma scanVideos_try_started params s :
  scanVideos_try W sc params s
  = (browser ← initBrowser W;
     videos ← scanAll sc params;
     mret (completed videos)) (started params s).
Proof. done. Qed.

(** The two ways a batch goes: the browser is not acquired and the handler
    answers, or the three loops run to their end. *)
Lemma scanVideosWith_run params s :
  match initBrowser W (started params s) with
  | (Throw e, s1) => scanVideosWith W sc params s = (Ok (failure e), s1)
  | (Ok b, s1) =>
      ∃ vs s', scanAll sc params s1 = (Ok vs, s') ∧
               Forall wf_item vs ∧ length vs ≤ capacity params ∧
               scanVideosWith W sc params s = (Ok (completed vs), s')
  end.
Proof.
  unfold scanVideosWith.
  destruct (initBrowser W (started params s)) as [[b|e] s1] eqn:E.
  - destruct (returns_run (scanAll sc params) _ s1 (no_throw_scanAll sc params)
                (returns_scanAll sc params)) as (vs & s' & Eall & Hwf & Hlen).
    exists vs, s'. split_and!; [done..|]. apply catch_ok.
    rewrite scanVideos_try_started, (bind_ok _ _ _ _ _ E).
    by rewrite (bind_ok _ _ _ _ _ Eall).
  - rewrite (catch_fail _ _ _ e s1); [done|].
    rewrite scanVideos_try_started. by apply bind_fail.
Qed.

(** What a batch does to the session: at most a launch, then calls that
    neither launch nor close a browser and navigate within the targets. *)
Lemma scanVideosWith_session params s :
  let s' := (scanVideosWith W sc params s).2 in
  cookies s' = Some (ScanRequest.cookies params) ∧
  trace s `prefix_of` trace s' ∧
  (∀ vs, (scanVideosWith W sc params s).1 = Ok (completed vs) →
         is_Some (browser s')) ∧
  ∃ t1 t2, added s s' = t1 ++ t2 ∧
           (t1 = [] ∨ t1 = [Launch true launchArgs]) ∧
           Forall quiet t2 ∧ navigations t2 `sublist_of` targets params.
Proof.
  pose proof (scanVideosWith_run params s) as Hrun.
  pose proof (initBrowser_added W (started params s)) as Hadd.
  pose proof (preserves_initBrowser W (started params s)) as [Hext _].
  pose proof (initBrowser_returns W (started params s)) as Hret.
  destruct (initBrowser W (started params s)) as [[b|e] s1]; simpl in *.
  - destruct Hrun as (vs & s' & Eall & _ & _ & ->). simpl.
    destruct (visits_scanAll sc params s1) as [[Hext' Hq] Hnav];
      [by rewrite (Hret b s1)|].
    specialize (Hq ltac:(by rewrite (Hret b s1))).
    rewrite Eall in *. simpl in *. split_and!.
    + destruct Hext' as [-> _], Hext as [-> _]. done.
    + etrans; [apply Hext|apply Hext'].
    + intros _ _. destruct Hq as [-> _]. by rewrite (Hret b s1).
    + exists (added (started params s) s1), (added s1 s').
      split; [by apply (added_trans (started params s))|].
      by destruct Hq.
  - rewrite Hrun. simpl. split_and!; [apply Hext..|by intros ? [=]|].
    exists (added (started params s) s1), []. rewrite app_nil_r.
    split_and!; [done|done|constructor|apply sublist_nil_l].
Qed.

End batch.

(** ** Properties of [scanVideos] *)

Section properties.
Context (W : env).
Implicit Types (s : service) (params : ScanRequest.t).

(** C1. [scanVideos] always returns, whatever the browser, the network and
    the site do.  Its answer has [success] true, [totalCount] equal to the
    number of records, no message, sound records, and no more records
    than one for each link, 20 for each profile and 15 for each hashtag;
    or it has [success] false, no record, no count and a message. *)
Theorem scanVideos_total params s :
  ∃ r s', scanVideos W params s = (Ok r, s') ∧ result_ok params r.
Proof.
  pose proof (scanVideosWith_run W (tiktokScanners W) params s) as H.
  destruct (initBrowser W (started params s)) as [[b|e] s1].
  - destruct H as (vs & s' & _ & Hwf & Hlen & E).
    exists (completed vs), s'. by split.
  - exists (failure e), s1. split; [done|]. unfold result_ok. simpl. eauto.
Qed.

(** C4. A batch fails in one case only: the session has no browser and the
    launch throws.  No failure of a scan of a link, a profile or a hashtag
    fails the batch. *)
Theorem scanVideos_fails_iff params s :
  ∃ r, (scanVideos W params s).1 = Ok r ∧
       (ScanResult.success r = false ↔
        browser s = None ∧
        is_Some (fails W (trace s) (Launch true launchArgs))).
Proof.
  pose proof (scanVideosWith_run W (tiktokScanners W) params s) as H.
  destruct (browser s) as [b|] eqn:Hb;
    [|destruct (fails W (trace s) (Launch true launchArgs)) as [e|] eqn:Hf].
  - rewrite (initBrowser_reuse W (started params s) b Hb) in H.
    destruct H as (vs & s' & _ & _ & _ & E). exists (completed vs).
    unfold scanVideos. rewrite E. split; [done|]. simpl.
    split; [done|]. by intros [[=] _].
  - rewrite (initBrowser_fail W (started params s) e Hb Hf) in H.
    exists (failure e). unfold scanVideos. rewrite H. by split.
  - rewrite (initBrowser_launch W (started params s) Hb Hf) in H.
    destruct H as (vs & s' & _ & _ & _ & E). exists (completed vs).
    unfold scanVideos. rewrite E. split; [done|]. simpl.
    split; [done|]. by intros [_ [? [=]]].
Qed.

(** When the session has no browser and the launch throws, [scanVideos]
    answers [{success: false, videos: [], message}] with the message of
    the exception, having stored the cookies and attempted the launch,
    and nothing else. *)
Theorem scanVideos_launch_failure params s e :
  browser s = None →
  fails W (trace s) (Launch true launchArgs) = Some e →
  scanVideos W params s
  = (Ok (failure e), log (Launch true launchArgs) (started params s)).
Proof.
  intros Hb Hf.
  pose proof (scanVideosWith_run W (tiktokScanners W) params s) as H.
  by rewrite (initBrowser_fail W (started params s) e Hb Hf) in H.
Qed.

(** C27. [scanVideos] leaves the session with the cookies of the request
    and a longer trace; it launches a browser at most once and never
    closes one: after a successful batch the browser is still open. *)
Theorem scanVideos_session params s :
  let s' := (scanVideos W params s).2 in
  cookies s' = Some (ScanRequest.cookies params) ∧
  trace s `prefix_of` trace s' ∧
  count isLaunch (added s s') ≤ 1 ∧
  count isCloseBrowser (added s s') = 0 ∧
  (∀ r, (scanVideos W params s).1 = Ok r →
        ScanResult.success r = true → is_Some (browser s')).
Proof.
  unfold scanVideos.
  destruct (scanVideosWith_session W (tiktokScanners W) params s)
    as (Hc & Ht & Hb & t1 & t2 & -> & H1 & [Hq1 Hq2]%count_quiet & _).
  split_and!; [done|done| | |];
    [rewrite count_app; destruct H1 as [-> | ->]; simpl; lia..|].
  intros r Hr Hs. simpl in Hb.
  pose proof (scanVideosWith_run W (tiktokScanners W) params s) as Hrun.
  destruct (initBrowser W (started params s)) as [[b|e] s1].
  - destruct Hrun as (vs & s' & _ & _ & _ & E). apply (Hb vs). by rewrite E.
  - rewrite Hrun in Hr. simpl in Hr. by simplify_eq.
Qed.

(** C19. [scanVideos] navigates only to the targets of the request, the
    links, then the profiles, then the tag pages of the hashtags, in the
    order of the request, each at most once. *)
Theorem scanVideos_order params s :
  navigations (added s (scanVideos W params s).2) `sublist_of` targets params.
Proof.
  unfold scanVideos.
  destruct (scanVideosWith_session W (tiktokScanners W) params s)
    as (_ & _ & _ & t1 & t2 & -> & H1 & _ & Hnav).
  rewrite navigations_app. by destruct H1 as [-> | ->].
Qed.

End properties.

(** ** A batch, for its callers *)

Section callers.
Context (W : env) (sc : scanners) `{!ScannerLaws sc}.
Implicit Types (s : service) (params : ScanRequest.t).

Lemma no_throw_scanVideosWith params : no_throw (scanVideosWith W sc params).
Proof. unfold scanVideosWith. eff_auto by done. Qed.

Lemma returns_scanVideosWith params :
  returns_only (scanVideosWith W sc params) (result_ok params).
Proof.
  intros s r Hr. pose proof (scanVideosWith_run W sc params s) as H.
  destruct (initBrowser W (started params s)) as [[b|e] s1].
  - destruct H as (vs & s' & _ & Hwf & Hlen & E). rewrite E in Hr.
    simpl in Hr. simplify_eq. by split.
  - rewrite H in Hr. simpl in Hr. simplify_eq.
    unfold result_ok. simpl. eauto.
Qed.

End callers.

(** ** A batch when nothing fails *)

Section calm.
Implicit Types (s : service) (pg : page) (params : ScanRequest.t).

(** A loop whose scans all succeed with the same value, each navigating
    to its target. *)
Lemma calm_foldM {A} (scan : string → eff A)
    (push : list VideoItem → A → list VideoItem) (f : string → string)
    (out : A) b :
  (∀ x s, browser s = Some b →
     ∃ t, scan x s = (Ok out, logs t s) ∧ navigations t = [f x]) →
  ∀ l vs s, browser s = Some b →
    ∃ t, foldM (λ videos x, a ← scan x; mret (push videos a)) vs l s
         = (Ok (foldl push vs (replicate (length l) out)), logs t s) ∧
         navigations t = f <$> l.
Proof.
  intros Hscan. induction l as [|x l IH]; intros vs s Hb; simpl.
  - exists []. by rewrite logs_nil.
  - destruct (Hscan x s Hb) as (t1 & E1 & N1).
    destruct (IH (push vs out) (logs t1 s) Hb) as (t2 & E2 & N2).
    exists (t1 ++ t2). rewrite navigations_app, N1, N2. split; [|done].
    unfold bind at 1. rewrite (bind_ok _ _ _ _ _ E1). simpl.
    by rewrite E2, logs_logs.
Qed.

Lemma foldl_pushIfAny vs n v :
  foldl pushIfAny vs (replicate n (Some v)) = vs ++ replicate n v.
Proof.
  revert vs. induction n as [|n IH]; intros vs; simpl.
  - by rewrite app_nil_r.
  - by rewrite IH, <- app_assoc.
Qed.

Lemma foldl_app_replicate vs n (l : list VideoItem) :
  foldl app vs (replicate n l) = vs ++ mjoin (replicate n l).
Proof.
  revert vs. induction n as [|n IH]; intros vs; simpl.
  - by rewrite app_nil_r.
  - by rewrite IH, <- app_assoc.
Qed.

Lemma calm_scanLinks pg platform vs l s b :
  browser s = Some b →
  ∃ t, scanLinks (tiktokScanners (calm pg)) platform vs l s
       = (Ok (vs ++ replicate (length l) (calmLink pg platform)), logs t s) ∧
       navigations t = l.
Proof.
  intros Hb.
  edestruct (calm_foldM (λ x, scanVideoLink (calm pg) x platform) pushIfAny
               (λ x, x)) as (t & E & N); [|exact Hb|].
  { intros x s0 Hs. eexists. split; [by apply calm_scanVideoLink|].
    apply navigations_linkActions. }
  exists t. unfold scanLinks. simpl.
  by rewrite E, foldl_pushIfAny, N, list_fmap_id.
Qed.

Lemma calm_scanProfiles pg platform vs l s b :
  browser s = Some b →
  ∃ t, scanProfiles (tiktokScanners (calm pg)) platform vs l s
       = (Ok (vs ++ mjoin (replicate (length l)
                             (finishProfile (extractProfileItems pg)))),
          logs t s) ∧
       navigations t = l.
Proof.
  intros Hb.
  edestruct (calm_foldM (λ x, scanUserProfile (calm pg) x platform) app
               (λ x, x)) as (t & E & N); [|exact Hb|].
  { intros x s0 Hs. eexists. split; [by apply calm_scanUserProfile|].
    by apply navigations_listingActions. }
  exists t. unfold scanProfiles. simpl.
  by rewrite E, foldl_app_replicate, N, list_fmap_id.
Qed.

Lemma calm_scanTags pg platform vs l s b :
  browser s = Some b →
  ∃ t, scanTags (tiktokScanners (calm pg)) platform vs l s
       = (Ok (vs ++ mjoin (replicate (length l)
                             (finishHashtag (extractHashtagItems pg)))),
          logs t s) ∧
       navigations t = tagUrl <$> l.
Proof.
  intros Hb.
  edestruct (calm_foldM (λ x, scanHashtag (calm pg) x platform) app tagUrl)
    as (t & E & N); [|exact Hb|].
  { intros x s0 Hs. eexists. split; [by apply calm_scanHashtag|].
    by apply navigations_listingActions. }
  exists t. unfold scanTags. simpl. by rewrite E, foldl_app_replicate, N.
Qed.

Lemma calm_scanAll pg params s b :
  browser s = Some b →
  ∃ t, scanAll (tiktokScanners (calm pg)) params s
       = (Ok (calmVideos pg params), logs t s) ∧
       navigations t = targets params.
Proof.
  intros Hb. unfold scanAll, calmVideos, targets.
  destruct (calm_scanLinks pg (ScanRequest.platform params) []
              (ScanRequest.videoLinks params) s b Hb) as (t1 & E1 & N1).
  rewrite (bind_ok _ _ _ _ _ E1).
  destruct (calm_scanProfiles pg (ScanRequest.platform params)
              ([] ++ replicate (length (ScanRequest.videoLinks params))
                       (calmLink pg (ScanRequest.platform params)))
              (ScanRequest.userProfiles params) (logs t1 s) b Hb)
    as (t2 & E2 & N2).
  rewrite (bind_ok _ _ _ _ _ E2).
  edestruct (calm_scanTags pg (ScanRequest.platform params))
    as (t3 & E3 & N3); [|rewrite E3]; [done|].
  exists (t1 ++ t2 ++ t3).
  by rewrite !logs_logs, !navigations_app, N1, N2, N3, <- !app_assoc.
Qed.

(** When nothing fails and every page shows the same document,
    [scanVideos] returns the record of the document once for each link,
    then its first 20 feed items once for each profile, then its first 15
    cards once for each hashtag; it has navigated to every target of the
    request, in order. *)
Theorem scanVideos_calm pg params s :
  ∃ s', scanVideos (calm pg) params s
        = (Ok (completed (calmVideos pg params)), s') ∧
        navigations (added s s') = targets params.
Proof.
  unfold scanVideos, scanVideosWith.
  destruct (browser s) as [b|] eqn:Hb.
  - destruct (calm_scanAll pg params (started params s) b Hb) as (t & E & N).
    exists (logs t (started params s)). split.
    + apply catch_ok. rewrite scanVideos_try_started.
      rewrite (bind_ok _ _ _ _ _
                 (initBrowser_reuse (calm pg) (started params s) b Hb)).
      by rewrite (bind_ok _ _ _ _ _ E).
    + rewrite <- N. f_equal. apply (added_logs t (started params s)).
  - pose proof (initBrowser_launch (calm pg) (started params s) Hb eq_refl) as E0.
    destruct (calm_scanAll pg params
                (setBrowser (Some (length (trace (started params s))))
                   (log (Launch true launchArgs) (started params s)))
                _ eq_refl) as (t & E & N).
    eexists. split.
    + apply catch_ok. rewrite scanVideos_try_started.
      rewrite (bind_ok _ _ _ _ _ E0). by rewrite (bind_ok _ _ _ _ _ E).
    + unfold added. simpl. rewrite <- app_assoc, drop_app_length.
      by rewrite navigations_app, N.
Qed.

(** *** Instances *)

(** A request for one link, whose navigation times out, and one
    profile, whose page shows two items, succeeds with the two records of
    the profile: the failed link is dropped and does not fail the
    batch. *)
Example scanVideos_partial_failure :
  ∃ vs s',
    scanVideos (failing (gotoIs demoLink) timeoutError (feedPage 2))
      demoRequest newService
    = (Ok (ScanResult.Make true vs (Some 2) None), s') ∧
    vs = finishProfile (extractProfileItems (feedPage 2)) ∧
    id <$> vs = ["user_7001"; "user_7001"] ∧
    navigations (trace s') = [demoLink; demoProfile] ∧
    openPages (trace s') = 1.
Proof. eexists _, _. split; [by vm_compute|]. by vm_compute. Qed.

Lemma scanVideos_launch_failure_witness :
  scanVideos (failing isLaunch launchError demoPage) demoRequest newService
  = (Ok (failure launchError),
     log (Launch true launchArgs) (started demoRequest newService)).
Proof.
  by apply (scanVideos_launch_failure
              (failing isLaunch launchError demoPage) demoRequest newService).
Defined.

End calm.

End Orchestrator.
