(* ===== verification/Database.v ===== *)
(** * Database: the tables of the server

    index.js creates three tables (lines 19-57) and reads and writes them
    from its handlers: [INSERT OR REPLACE INTO videos] (lines 83-101),
    [SELECT * FROM videos ORDER BY created_at DESC] (line 125), [SELECT *
    FROM videos WHERE id = ?] (line 164), [UPDATE videos SET downloaded = 1
    WHERE id = ?] (line 184) and [INSERT INTO scheduled_posts] (lines
    226-231).  A table is the list of its rows in insertion order; an
    [AUTOINCREMENT] key is a counter that only grows; [CURRENT_TIMESTAMP]
    is a clock the outside advances.  Statements are taken not to fail. *)

From stdpp Require Import pretty sorting relations.
From S2P Require Import Prelude JsString Extract.
Import Extract.

Module Database.

(** ** Rows *)

(** A row of [videos] (lines 21-33). *)
Module VideoRow.
Record VideoRow : Type := Make {
  id : nat;
  tiktok_id : string;
  title : string;
  content : string;
  likes : N;
  views : N;
  uploader : string;
  thumbnail_url : string;
  video_url : string;
  downloaded : bool;
  created_at : nat
}.
Abbreviation t := VideoRow.
End VideoRow.

(** A row of [accounts] (lines 36-43). *)
Module AccountRow.
Record AccountRow : Type := Make {
  id : nat;
  platform : string;
  username : string;
  cookie : string;
  status : string;
  created_at : nat
}.
Abbreviation t := AccountRow.
End AccountRow.

(** A row of [scheduled_posts] (lines 46-56); a column is [None] when the
    request left it out. *)
Module PostRow.
Record PostRow : Type := Make {
  id : nat;
  video_id : option nat;
  account_id : option nat;
  platform : option string;
  scheduled_time : option string;
  status : string;
  created_at : nat
}.
Abbreviation t := PostRow.
End PostRow.

(** The database: the rows of each table, the sequence of each
    [AUTOINCREMENT] key, and the clock. *)
Record database : Type := Db {
  videos : list VideoRow.t;
  videos_seq : nat;
  accounts : list AccountRow.t;
  accounts_seq : nat;
  scheduled_posts : list PostRow.t;
  posts_seq : nat;
  clock : nat
}.

(** The database after [CREATE TABLE IF NOT EXISTS] on a new file
    (lines 19-57). *)
Definition emptyDb : database := Db [] 0 [] 0 [] 0 0.

(** Time passes. *)
Definition tick (db : database) : database :=
  Db (videos db) (videos_seq db) (accounts db) (accounts_seq db)
     (scheduled_posts db) (posts_seq db) (S (clock db)).

Definition writeVideos (rows : list VideoRow.t) (seq : nat) (db : database)
  : database :=
  Db rows seq (accounts db) (accounts_seq db)
     (scheduled_posts db) (posts_seq db) (clock db).

(** ** Statements *)

(** The row bound by lines 90-100: the columns of the record, [downloaded]
    as sent, the next key and the current time. *)
Definition rowOf (key now : nat) (video : VideoItem) : VideoRow.t :=
  {| VideoRow.id := key;
     VideoRow.tiktok_id := tiktok_id video;
     VideoRow.title := title video;
     VideoRow.content := content video;
     VideoRow.likes := likes video;
     VideoRow.views := views video;
     VideoRow.uploader := uploader video;
     VideoRow.thumbnail_url := thumbnail_url video;
     VideoRow.video_url := video_url video;
     VideoRow.downloaded := downloaded video;
     VideoRow.created_at := now |}.

(** [INSERT OR REPLACE INTO videos] (lines 83-87, 90-100): the row that holds
    the same [tiktok_id], the [UNIQUE] column, is deleted, and the new row
    gets a new key. *)
Definition insertOrReplace (db : database) (video : VideoItem) : database :=
  let key := S (videos_seq db) in
  writeVideos
    (filter (λ r, VideoRow.tiktok_id r ≠ tiktok_id video) (videos db)
     ++ [rowOf key (clock db) video])
    key db.

(** The loop of lines 89-101. *)
Definition saveVideos (db : database) (videos : list VideoItem) : database :=
  foldl insertOrReplace db videos.

(** [a] is at least as new as [b]. *)
Definition newer (a b : VideoRow.t) : Prop :=
  VideoRow.created_at b ≤ VideoRow.created_at a.

#[export] Instance newer_dec a b : Decision (newer a b).
Proof. unfold newer. apply _. Defined.

(** [SELECT * FROM videos ORDER BY created_at DESC] (line 125); the
    order of rows of the same second is that of the sort. *)
Definition selectAllVideos (db : database) : list VideoRow.t :=
  merge_sort newer (videos db).

(** An id as a request carries it: a JSON number or a JSON string. *)
Inductive videoId : Type :=
| IdNum (n : nat)
| IdStr (s : string).

(** [`${videoId}`] *)
Definition showId (v : videoId) : string :=
  match v with
  | IdNum n => pretty n
  | IdStr s => s
  end.

(** The key an id denotes when compared with an [INTEGER] column: a
    number is itself, a string counts when it is a decimal numeral. *)
Definition sqlInteger (v : videoId) : option nat :=
  match v with
  | IdNum n => Some n
  | IdStr s =>
      if truthy s && all_chars is_digit s
      then Some (N.to_nat (parseDigits s))
      else None
  end.

Definition hasKey (v : videoId) (r : VideoRow.t) : Prop :=
  sqlInteger v = Some (VideoRow.id r).

#[export] Instance hasKey_dec v r : Decision (hasKey v r).
Proof. unfold hasKey. apply _. Defined.

(** [SELECT * FROM videos WHERE id = ?] (line 164) *)
Definition getVideo (db : database) (v : videoId) : option VideoRow.t :=
  snd <$> list_find (hasKey v) (videos db).

Definition setDownloaded (r : VideoRow.t) : VideoRow.t :=
  {| VideoRow.id := VideoRow.id r;
     VideoRow.tiktok_id := VideoRow.tiktok_id r;
     VideoRow.title := VideoRow.title r;
     VideoRow.content := VideoRow.content r;
     VideoRow.likes := VideoRow.likes r;
     VideoRow.views := VideoRow.views r;
     VideoRow.uploader := VideoRow.uploader r;
     VideoRow.thumbnail_url := VideoRow.thumbnail_url r;
     VideoRow.video_url := VideoRow.video_url r;
     VideoRow.downloaded := true;
     VideoRow.created_at := VideoRow.created_at r |}.

(** [UPDATE videos SET downloaded = 1 WHERE id = ?] (line 184) *)
Definition markDownloaded (db : database) (v : videoId) : database :=
  writeVideos
    ((λ r, if decide (hasKey v r) then setDownloaded r else r) <$> videos db)
    (videos_seq db) db.

(** [INSERT INTO scheduled_posts (video_id, account_id, platform,
    scheduled_time)] (lines 226-231): the status is the default
    ['pending'], the key the next of its sequence; the foreign keys are
    not checked.  The second component is [this.lastID]. *)
Definition insertPost (db : database) (videoId accountId : option nat)
    (platform scheduledTime : option string) : database * nat :=
  let key := S (posts_seq db) in
  (Db (videos db) (videos_seq db) (accounts db) (accounts_seq db)
      (scheduled_posts db ++
       [PostRow.Make key videoId accountId platform scheduledTime "pending"
          (clock db)])
      key (clock db),
   key).

(** ** The invariant of the tables *)

(** [tiktok_id] is unique, keys are unique and below their sequence, and
    no row is from the future. *)
Record wf_db (db : database) : Prop := WfDb {
  wf_unique : NoDup (VideoRow.tiktok_id <$> videos db);
  wf_keys : NoDup (VideoRow.id <$> videos db);
  wf_seq : Forall (λ r, VideoRow.id r ≤ videos_seq db) (videos db);
  wf_clock : Forall (λ r, VideoRow.created_at r ≤ clock db) (videos db);
  wf_post_keys : NoDup (PostRow.id <$> scheduled_posts db);
  wf_post_seq : Forall (λ r, PostRow.id r ≤ posts_seq db) (scheduled_posts db)
}.

(** ** The statements as steps *)

(** What the handlers and the passing of time do to the tables: a step is
    one statement of index.js, or a tick of the clock. *)
Inductive db_step : database → database → Prop :=
| step_save db video : db_step db (insertOrReplace db video)
| step_mark db v : db_step db (markDownloaded db v)
| step_post db vid aid pf st : db_step db (insertPost db vid aid pf st).1
| step_tick db : db_step db (tick db).

(** The tables the server can be in: those reached from the empty tables
    that lines 19-57 create. *)
Definition reachable (db : database) : Prop := rtc db_step emptyDb db.

(** ** Tables used as examples *)

(** A record as [scanVideoLink] builds it (tiktokService.js, lines
    203-215). *)
Definition demoVideo : VideoItem :=
  MkVideoItem "video_7234" "7234" "A title" "" 12345 0 "someone"
    "https://cdn.example/7234.jpg" "" "tiktok" false Pending.

(** The tables after the first scan saved [demoVideo]. *)
Definition demoDb : database := saveVideos emptyDb [demoVideo].

(** The same tables after the row was downloaded. *)
Definition downloadedDb : database := markDownloaded demoDb (IdNum 1).

(** ** Lemmas *)

Section lemmas.
Implicit Types (db : database) (video : VideoItem) (r : VideoRow.t) (v : videoId).

#[export] Instance newer_total : Total newer.
Proof. intros a b. unfold newer. lia. Qed.

#[export] Instance newer_trans : Transitive newer.
Proof. intros a b c. unfold newer. lia. Qed.

Lemma setDownloaded_id r : VideoRow.id (setDownloaded r) = VideoRow.id r.
Proof. done. Qed.

Lemma setDownloaded_tiktok_id r :
  VideoRow.tiktok_id (setDownloaded r) = VideoRow.tiktok_id r.
Proof. done. Qed.

(** A projection that an update of rows leaves alone. *)
Lemma fmap_update {B} (proj : VideoRow.t → B) v (rows : list VideoRow.t) :
  (∀ r, proj (setDownloaded r) = proj r) →
  proj <$> ((λ r, if decide (hasKey v r) then setDownloaded r else r) <$> rows)
  = proj <$> rows.
Proof.
  intros Hp. rewrite <- list_fmap_compose. apply list_fmap_ext.
  intros i r _. simpl. by case_decide.
Qed.

(** *** The invariant is kept *)

Lemma emptyDb_wf : wf_db emptyDb.
Proof. split; simpl; constructor. Qed.

Lemma tick_wf db : wf_db db → wf_db (tick db).
Proof.
  intros [Hu Hk Hs Hc Hpk Hps]. split; simpl; try done.
  eapply Forall_impl; [exact Hc|]. simpl. lia.
Qed.

Lemma kept_sublist db video :
  filter (λ r, VideoRow.tiktok_id r ≠ tiktok_id video) (videos db)
  `sublist_of` videos db.
Proof. apply sublist_filter. Qed.

Lemma insertOrReplace_wf db video : wf_db db → wf_db (insertOrReplace db video).
Proof.
  intros [Hu Hk Hs Hc Hpk Hps]. pose proof (kept_sublist db video) as Hsub.
  split; simpl; try done.
  - rewrite fmap_app. apply NoDup_app. split_and!.
    + apply (sublist_NoDup _ (VideoRow.tiktok_id <$> videos db));
        [done|by apply fmap_sublist].
    + intros t (r & -> & [Hr _]%list_elem_of_filter)%list_elem_of_fmap.
      by intros Heq%list_elem_of_singleton.
    + apply NoDup_singleton.
  - rewrite fmap_app. apply NoDup_app. split_and!.
    + apply (sublist_NoDup _ (VideoRow.id <$> videos db));
        [done|by apply fmap_sublist].
    + intros k (r & -> & [_ Hr]%list_elem_of_filter)%list_elem_of_fmap.
      intros Hk'%list_elem_of_singleton. simpl in Hk'.
      rewrite Forall_forall in Hs. specialize (Hs r Hr). lia.
    + apply NoDup_singleton.
  - apply Forall_app. split; [|by repeat constructor].
    apply Forall_filter_keep. eapply Forall_impl; [exact Hs|]. simpl. lia.
  - apply Forall_app. split; [|by repeat constructor].
    by apply Forall_filter_keep.
Qed.

Lemma saveVideos_wf db videos : wf_db db → wf_db (saveVideos db videos).
Proof.
  unfold saveVideos. revert db.
  induction videos as [|v vs IH]; intros db Hdb; simpl; [done|].
  by apply IH, insertOrReplace_wf.
Qed.

Lemma markDownloaded_wf db v : wf_db db → wf_db (markDownloaded db v).
Proof.
  intros [Hu Hk Hs Hc Hpk Hps]. split; simpl; try done.
  - by rewrite fmap_update.
  - by rewrite fmap_update.
  - apply Forall_fmap. eapply Forall_impl; [exact Hs|]. intros r. simpl.
    by case_decide.
  - apply Forall_fmap. eapply Forall_impl; [exact Hc|]. intros r. simpl.
    by case_decide.
Qed.

Lemma insertPost_wf db vid aid pf st : wf_db db → wf_db (insertPost db vid aid pf st).1.
Proof.
  intros [Hu Hk Hs Hc Hpk Hps]. split; simpl; try done.
  - rewrite fmap_app. apply NoDup_app. split_and!; [done| |apply NoDup_singleton].
    intros k (r & -> & Hr)%list_elem_of_fmap Hk'%list_elem_of_singleton.
    simpl in Hk'. rewrite Forall_forall in Hps. specialize (Hps r Hr). lia.
  - apply Forall_app. split; [|by repeat constructor].
    eapply Forall_impl; [exact Hps|]. simpl. lia.
Qed.

(** *** What the statements do *)

Lemma insertOrReplace_videos db video :
  videos (insertOrReplace db video)
  = filter (λ r, VideoRow.tiktok_id r ≠ tiktok_id video) (videos db)
    ++ [rowOf (S (videos_seq db)) (clock db) video].
Proof. done. Qed.

(** A row of another video stays. *)
Lemma insertOrReplace_keeps db video r :
  r ∈ videos db → VideoRow.tiktok_id r ≠ tiktok_id video →
  r ∈ videos (insertOrReplace db video).
Proof.
  intros Hr Hne. rewrite insertOrReplace_videos, elem_of_app. left.
  by apply list_elem_of_filter.
Qed.

(** A key denotes at most one row. *)
Lemma getVideo_Some db v r :
  getVideo db v = Some r → r ∈ videos db ∧ hasKey v r.
Proof.
  unfold getVideo. destruct (list_find _ _) as [[i r']|] eqn:E; [|done].
  intros [= <-]. apply list_find_Some in E as (Hi & Hk & _).
  split; [by eapply list_elem_of_lookup_2|done].
Qed.

Lemma getVideo_None db v :
  getVideo db v = None ↔ Forall (λ r, ¬ hasKey v r) (videos db).
Proof.
  unfold getVideo. destruct (list_find _ _) as [[i r']|] eqn:E; simpl.
  - split; [done|]. intros H. apply list_find_Some in E as (Hi & Hk & _).
    rewrite Forall_forall in H. destruct (H r'); [|done].
    by eapply list_elem_of_lookup_2.
  - split; [|done]. intros _. by apply list_find_None in E.
Qed.

Lemma getVideo_unique db v r :
  wf_db db → r ∈ videos db → hasKey v r → getVideo db v = Some r.
Proof.
  intros Hwf Hr Hk. destruct (getVideo db v) as [r'|] eqn:E.
  - apply getVideo_Some in E as [Hr' Hk']. f_equal.
    apply (NoDup_fmap_eq VideoRow.id (videos db)); [apply Hwf|done..|].
    unfold hasKey in *. congruence.
  - apply getVideo_None in E. rewrite Forall_forall in E. by destruct (E r).
Qed.

(** The row just saved is found under its new key. *)
Lemma insertOrReplace_get db video :
  wf_db db →
  getVideo (insertOrReplace db video) (IdNum (S (videos_seq db)))
  = Some (rowOf (S (videos_seq db)) (clock db) video).
Proof.
  intros Hwf. apply getVideo_unique; [by apply insertOrReplace_wf| |done].
  rewrite insertOrReplace_videos, elem_of_app. right. by left.
Qed.

(** The key of a replaced row denotes nothing any more. *)
Lemma insertOrReplace_forgets db video r :
  wf_db db → r ∈ videos db → VideoRow.tiktok_id r = tiktok_id video →
  getVideo (insertOrReplace db video) (IdNum (VideoRow.id r)) = None.
Proof.
  intros Hwf Hr Ht. apply getVideo_None.
  rewrite insertOrReplace_videos, Forall_app, Forall_singleton. split.
  - apply Forall_forall. intros r' [Hne Hr']%list_elem_of_filter [= Hid].
    destruct Hne. rewrite <- Ht. f_equal.
    by apply (NoDup_fmap_eq VideoRow.id (videos db)); [apply Hwf|..].
  - intros [= Hid]. simpl in Hid. destruct Hwf as [_ _ Hs _ _ _].
    rewrite Forall_forall in Hs. specialize (Hs r Hr). lia.
Qed.

Lemma markDownloaded_videos db v :
  videos (markDownloaded db v)
  = (λ r, if decide (hasKey v r) then setDownloaded r else r) <$> videos db.
Proof. done. Qed.

(** An update that matches no row changes nothing. *)
Lemma markDownloaded_missing db v :
  getVideo db v = None → markDownloaded db v = db.
Proof.
  intros H%getVideo_None. destruct db as [vs ? ? ? ? ? ?].
  unfold markDownloaded, writeVideos. simpl in *. f_equal.
  rewrite <- (list_fmap_id vs) at 2. apply list_fmap_ext.
  intros i r Hi. simpl. rewrite decide_False; [done|].
  rewrite Forall_forall in H. eapply H, list_elem_of_lookup_2, Hi.
Qed.

(** The row of the key is marked, and found marked. *)
Lemma markDownloaded_get db v r :
  wf_db db → getVideo db v = Some r →
  getVideo (markDownloaded db v) v = Some (setDownloaded r).
Proof.
  intros Hwf [Hr Hk]%getVideo_Some.
  apply getVideo_unique; [by apply markDownloaded_wf| |done].
  rewrite markDownloaded_videos, list_elem_of_fmap. exists r.
  by rewrite decide_True.
Qed.

(** The other rows stay as they are. *)
Lemma markDownloaded_other db v r :
  r ∈ videos db → ¬ hasKey v r → r ∈ videos (markDownloaded db v).
Proof.
  intros Hr Hk. rewrite markDownloaded_videos, list_elem_of_fmap. exists r.
  by rewrite decide_False.
Qed.

Lemma markDownloaded_length db v :
  length (videos (markDownloaded db v)) = length (videos db).
Proof. by rewrite markDownloaded_videos, length_fmap. Qed.

(** *** Ids of scanned records *)

Lemma sqlInteger_letter c s :
  is_digit c = false → sqlInteger (IdStr (String c s)) = None.
Proof. intros H. simpl. by rewrite H. Qed.

(** The id of a scanned record denotes no key. *)
Lemma sqlInteger_scanned video : wf_item video → sqlInteger (IdStr (id video)) = None.
Proof.
  intros [_ _ _ _ (prefix & Hp & ->)].
  repeat (apply elem_of_cons in Hp as [->|Hp]; [by rewrite sapp_cons|]).
  by apply elem_of_nil in Hp.
Qed.

(** Every record saved takes a new key, replaced or not. *)
Lemma saveVideos_seq db videos :
  videos_seq (saveVideos db videos) = videos_seq db + length videos.
Proof.
  unfold saveVideos. revert db.
  induction videos as [|v vs IH]; intros db; simpl; [lia|].
  rewrite IH. simpl. lia.
Qed.

Lemma db_step_wf db db' : db_step db db' → wf_db db → wf_db db'.
Proof.
  destruct 1; auto using insertOrReplace_wf, markDownloaded_wf,
    insertPost_wf, tick_wf.
Qed.

Lemma saveVideos_reachable db videos : reachable db → reachable (saveVideos db videos).
Proof.
  unfold saveVideos, reachable. revert db.
  induction videos as [|v vs IH]; intros db Hdb; simpl; [done|].
  apply IH. eapply rtc_r; [done|constructor].
Qed.

Lemma demoDb_wf : wf_db demoDb.
Proof. apply saveVideos_wf, emptyDb_wf. Qed.

Lemma downloadedDb_wf : wf_db downloadedDb.
Proof. apply markDownloaded_wf, demoDb_wf. Qed.

End lemmas.

(** ** Properties *)

Section properties.
Implicit Types (db : database) (video : VideoItem) (r : VideoRow.t).

(** C9. Every state of the tables the server can reach from the empty
    tables by its statements ([INSERT OR REPLACE INTO videos], [UPDATE
    videos SET downloaded], [INSERT INTO scheduled_posts]) and the passing
    of time is sound: no two rows of [videos] share a [tiktok_id] or a
    key, no key is above its [AUTOINCREMENT] sequence, and no row is dated
    after the clock. *)
Theorem reachable_wf db : reachable db → wf_db db.
Proof.
  revert db. apply rtc_ind_r; [apply emptyDb_wf|].
  intros db db' _ Hstep Hwf. by eapply db_step_wf.
Qed.

(** C22. Scanning a video again replaces its row: the key of the old row
    denotes no row any more, the record is found under a new key, the
    next of the sequence, with the [downloaded] flag the scanner sent,
    and the rows of other videos are kept. *)
Theorem rescan_forgets_download db video r :
  wf_db db → r ∈ videos db → VideoRow.tiktok_id r = tiktok_id video →
  let db' := insertOrReplace db video in
  let key := S (videos_seq db) in
  getVideo db' (IdNum (VideoRow.id r)) = None ∧
  getVideo db' (IdNum key) = Some (rowOf key (clock db) video) ∧
  ∀ r', r' ∈ videos db → VideoRow.tiktok_id r' ≠ tiktok_id video →
        r' ∈ videos db'.
Proof.
  intros Hwf Hr Ht. split_and!.
  - by apply insertOrReplace_forgets.
  - by apply insertOrReplace_get.
  - intros r' Hr' Hne. by apply insertOrReplace_keeps.
Qed.

End properties.

Lemma reachable_wf_witness : wf_db downloadedDb.
Proof.
  apply (reachable_wf downloadedDb).
  eapply rtc_r; [apply (saveVideos_reachable emptyDb [demoVideo])|constructor].
  apply rtc_refl.
Defined.

Lemma rescan_forgets_download_witness :
  getVideo downloadedDb (IdNum 1) = Some (setDownloaded (rowOf 1 0 demoVideo)) ∧
  getVideo (insertOrReplace downloadedDb demoVideo) (IdNum 1) = None ∧
  getVideo (insertOrReplace downloadedDb demoVideo) (IdNum 2)
  = Some (rowOf 2 0 demoVideo).
Proof.
  split; [done|].
  destruct (rescan_forgets_download downloadedDb demoVideo
              (setDownloaded (rowOf 1 0 demoVideo))) as (H1 & H2 & _);
    [apply downloadedDb_wf|by left|done|].
  by split.
Defined.

End Database.
