(* ===== verification/Server.v ===== *)
(** * Server: the download stage and the HTTP handlers

    [downloadVideo] (tiktokService.js, lines 527-561) and the handlers of
    index.js: [POST /api/scan-videos] (lines 65-121), [GET /api/videos]
    (lines 124-139), [POST /api/download-video] (lines 142-219) and [POST
    /api/schedule-post] (lines 222-255).  A handler runs on the state of
    the server: the database, the responses sent on the connection, and
    the service object the handler creates.  A response is appended to
    [sent]; a handler that answers twice has two responses there, where
    Express would refuse the second.  Request bodies are taken to have the
    types the client declares, with fields possibly missing. *)

From stdpp Require Import pretty sorting.
From S2P Require Import Prelude JsString Effects Cookie Dom Session Extract.
From S2P Require Import Scanner Orchestrator Database.
Export Orchestrator Database.

Module Server.

(** ** The download stage *)

(** What [downloadVideo] returns (lines 551-555). *)
Module DownloadOutcome.
Record DownloadOutcome : Type := Make {
  success : bool;
  filePath : string;
  size : N
}.
Abbreviation t := DownloadOutcome.
End DownloadOutcome.

(** [path.join(__dirname, '../downloads')] (line 541), from the root of
    the sources. *)
Definition downloadsDir : string := "server/downloads".

(** Line 545. *)
Definition fileName (platform videoId : string) : string :=
  platform +:+ "_" +:+ videoId +:+ "_no_watermark.mp4".

(** Line 546. *)
Definition filePathOf (platform videoId : string) : string :=
  downloadsDir +:+ "/" +:+ fileName platform videoId.

(** Line 549. *)
Definition dummyContent (videoId : string) : string :=
  "Dummy video content for " +:+ videoId.

(** [Math.floor(Math.random() * 10000000) + 1000000] (line 554), for the
    draw the world gives. *)
Definition sizeOf (draw : N) : N := (draw mod 10000000 + 1000000)%N.

(** ** Requests and responses *)

(** The body of [POST /api/scan-videos] (line 67). *)
Module ScanBody.
Record ScanBody : Type := Make {
  platform : string;
  videoLinks : option (list string);
  userProfiles : option (list string);
  hashtags : option (list string);
  cookies : option string
}.
Abbreviation t := ScanBody.
End ScanBody.

(** The body of [POST /api/download-video] (line 144). *)
Module DownloadBody.
Record DownloadBody : Type := Make {
  videoIds : option (list videoId);
  platform : option string;
  cookies : option string
}.
Abbreviation t := DownloadBody.
End DownloadBody.

(** The body of [POST /api/schedule-post] (line 224). *)
Module ScheduleBody.
Record ScheduleBody : Type := Make {
  videoId : option nat;
  accountId : option nat;
  platform : option string;
  scheduledTime : option string
}.
Abbreviation t := ScheduleBody.
End ScheduleBody.

(** An entry of [results] (lines 185-190). *)
Module DownloadEntry.
Record DownloadEntry : Type := Make {
  videoId : videoId;
  success : bool;
  filePath : string;
  size : N
}.
Abbreviation t := DownloadEntry.
End DownloadEntry.

(** The JSON a handler sends. *)
Inductive payload : Type :=
| ScanAnswer (result : ScanResult.t)                       (* lines 107, 109 *)
| Rows (data : list VideoRow.t)                            (* lines 133-136 *)
| Downloaded (downloadedCount : nat) (results : list DownloadEntry.t)
             (errors : option (list string))               (* lines 204-209 *)
| Scheduled (message : string) (postId : nat)              (* lines 239-243 *)
| Refused (message : string)                               (* lines 147-150 *)
| Failed (message error : string).                         (* lines 115-119 *)

Record response : Type := Response {
  status : nat;
  body : payload
}.

(** ** The state a handler runs on *)

Record server : Type := Server {
  db : database;
  sent : list response;
  svc : service
}.

Definition handler := M server js_error.

(** A method of the service, run on the service of the handler. *)
Definition liftS {A} (m : eff A) : handler A := λ st,
  let (r, s') := m (svc st) in (r, Server (db st) (sent st) s').

(** [res.status(status).json(body)] *)
Definition respond (status : nat) (body : payload) : handler unit :=
  modify (λ st, Server (db st) (sent st ++ [Response status body]) (svc st)).

(** A statement on the database. *)
Definition updateDb (f : database → database) : handler unit :=
  modify (λ st, Server (f (db st)) (sent st) (svc st)).

(** [const tiktokService = new TikTokService()] (lines 70, 154) *)
Definition newTikTokService : handler unit :=
  modify (λ st, Server (db st) (sent st) newService).

(** The accumulators of the download loop (lines 156-157). *)
Record tally : Type := Tally {
  results : list DownloadEntry.t;
  errors : list string
}.

Definition pushResult (acc : tally) (r : DownloadEntry.t) : tally :=
  Tally (results acc ++ [r]) (errors acc).

Definition pushError (acc : tally) (e : string) : tally :=
  Tally (results acc) (errors acc ++ [e]).

(** The parameters passed to [scanVideos] (lines 73-79). *)
Definition scanParams (body : ScanBody.t) : ScanRequest.t :=
  ScanRequest.Make (ScanBody.platform body)
    (default [] (ScanBody.videoLinks body))
    (default [] (ScanBody.userProfiles body))
    (default [] (ScanBody.hashtags body))
    (opt_or_else (ScanBody.cookies body) "").

(** [errors.length > 0 ? errors : undefined] (line 208) *)
Definition errorsField (errors : list string) : option (list string) :=
  match errors with
  | [] => None
  | _ => Some errors
  end.

Section handlers.
Context (W : env).

(** [downloadVideo] (lines 527-561) *)
Definition downloadVideo (videoId platform cookies : string)
  : eff DownloadOutcome.t :=
  try_catch
    (modify (log (Sleep 3000%N));;
     perform W (Mkdir downloadsDir);;
     let filePath := filePathOf platform videoId in
     perform W (WriteFile filePath (dummyContent videoId));;
     s ← get;
     mret (DownloadOutcome.Make true filePath (sizeOf (random W (trace s)))))
    (λ error, throw error).

(** [POST /api/scan-videos] (lines 65-121) *)
Definition scanHandler (body : ScanBody.t) : handler unit :=
  try_catch
    (newTikTokService;;
     result ← liftS (scanVideos W (scanParams body));
     (if ScanResult.success result
      then updateDb (λ db, saveVideos db (ScanResult.videos result));;
           respond 200 (ScanAnswer result)
      else respond 400 (ScanAnswer result));;
     liftS (closeBrowser W))
    (λ error, respond 500 (Failed "Error scanning videos" (message error))).

(** [GET /api/videos] (lines 124-139), the statement succeeding. *)
Definition videosHandler : handler unit :=
  st ← get;
  respond 200 (Rows (selectAllVideos (db st))).

(** One round of the loop of lines 160-199. *)
Definition downloadOne (platform cookies : option string) (acc : tally)
    (videoId : videoId) : handler tally :=
  try_catch
    (st ← get;
     match getVideo (db st) videoId with
     | None =>
         mret (pushError acc ("Video " +:+ showId videoId +:+ " not found"))
     | Some video =>
         downloadResult ← liftS (downloadVideo (VideoRow.tiktok_id video)
                                   (opt_or_else platform "tiktok")
                                   (opt_or_else cookies ""));
         if DownloadOutcome.success downloadResult
         then updateDb (λ db, markDownloaded db videoId);;
              mret (pushResult acc
                      (DownloadEntry.Make videoId true
                         (DownloadOutcome.filePath downloadResult)
                         (DownloadOutcome.size downloadResult)))
         else mret (pushError acc
                      ("Failed to download video " +:+ showId videoId))
     end)
    (λ error,
       mret (pushError acc
               ("Error downloading video " +:+ showId videoId +:+ ": "
                +:+ message error))).

(** [POST /api/download-video] (lines 142-219) *)
Definition downloadHandler (body : DownloadBody.t) : handler unit :=
  try_catch
    (match DownloadBody.videoIds body with
     | None | Some [] => respond 400 (Refused "Video IDs are required")
     | Some videoIds =>
         newTikTokService;;
         acc ← foldM (downloadOne (DownloadBody.platform body)
                        (DownloadBody.cookies body))
                     (Tally [] []) videoIds;
         liftS (closeBrowser W);;
         respond 200 (Downloaded (length (results acc)) (results acc)
                        (errorsField (errors acc)))
     end)
    (λ error, respond 500 (Failed "Error downloading videos" (message error))).

(** [POST /api/schedule-post] (lines 222-255), the statement succeeding. *)
Definition scheduleHandler (body : ScheduleBody.t) : handler unit :=
  try_catch
    (st ← get;
     let '(db', postId) :=
       insertPost (db st) (ScheduleBody.videoId body)
         (ScheduleBody.accountId body) (ScheduleBody.platform body)
         (ScheduleBody.scheduledTime body) in
     updateDb (λ _, db');;
     respond 200 (Scheduled "Post scheduled successfully" postId))
    (λ error, respond 500 (Failed "Error scheduling post" (message error))).

End handlers.

(** ** What a handler promises *)

(** The responses a handler added. *)
Definition answers (st st' : server) : list response :=
  drop (length (sent st)) (sent st').

(** A server about to take a request. *)
Definition idle (d : database) : server := Server d [] newService.

(** The number of ids a tally accounts for. *)
Definition tallySize (acc : tally) : nat :=
  length (results acc) + length (errors acc).

(** What the download loop does to the server: it answers nothing, keeps
    the browser handle of the service, and keeps the tables sound. *)
Definition quietly (st st' : server) : Prop :=
  sent st' = sent st ∧ browser (svc st') = browser (svc st) ∧
  (wf_db (db st) → wf_db (db st')).

(** Line 171. *)
Definition notFound (v : videoId) : string :=
  "Video " +:+ showId v +:+ " not found".

(** The calls of [downloadVideo] (lines 538-549). *)
Definition downloadActions (videoId platform : string) : list action :=
  [Sleep 3000%N; Mkdir downloadsDir;
   WriteFile (filePathOf platform videoId) (dummyContent videoId)].

(** The first answer of the scan handler and the tables it leaves
    (lines 81-110). *)
Definition scanAnswer (result : ScanResult.t) : response :=
  Response (if ScanResult.success result then 200 else 400) (ScanAnswer result).

Definition scanSaved (d : database) (result : ScanResult.t) : database :=
  if ScanResult.success result
  then saveVideos d (ScanResult.videos result)
  else d.

(** The answer of the handler's [catch] (lines 113-120). *)
Definition scanFailed (error : js_error) : response :=
  Response 500 (Failed "Error scanning videos" (message error)).

(** The answer to a download request (lines 204-209). *)
Definition downloadAnswer (acc : tally) : response :=
  Response 200 (Downloaded (length (results acc)) (results acc)
                  (errorsField (errors acc))).

Definition downloadRefused : response :=
  Response 400 (Refused "Video IDs are required").

(** ** Worlds and requests used as examples *)

(** The error of a browser that is gone when it is closed. *)
Definition closeError : js_error :=
  JsError "Error" "Protocol error: Connection closed.".

(** A scan request that names no target. *)
Definition emptyScan : ScanBody.t :=
  ScanBody.Make "tiktok" None None None None.

(** The world in which closing the browser throws, on an empty page. *)
Definition closeFails : env :=
  failing isCloseBrowser closeError (blankPage "/").

(** The world in which nothing throws, on an empty page. *)
Definition still : env := calm (blankPage "/").

(** What the client sends to download the records it selected
    (VideoScanner.tsx, lines 118-120): their [id]s. *)
Definition selectedIds (items : list VideoItem) : list videoId :=
  (λ item, IdStr (id item)) <$> items.

(** The request of a client that selected [demoVideo], and the request
    for the first row of the table. *)
Definition selectedRequest : DownloadBody.t :=
  DownloadBody.Make (Some (selectedIds [demoVideo])) (Some "tiktok") None.

Definition firstRowRequest : DownloadBody.t :=
  DownloadBody.Make (Some [IdNum 1]) None None.

(** ** Lemmas *)

Section lemmas.
Context (W : env).
Implicit Types (st : server) (s : service) (acc : tally) (v : videoId).

(** *** The state of a handler *)

Lemma liftS_run {A} (m : eff A) st :
  liftS m st = ((m (svc st)).1, Server (db st) (sent st) (m (svc st)).2).
Proof. unfold liftS. by destruct (m (svc st)). Qed.

Lemma wp_liftS {A} (m : eff A) (Q : outcome js_error A → server → Prop) st :
  wp m (λ r s', Q r (Server (db st) (sent st) s')) (svc st) →
  wp (liftS m) Q st.
Proof. unfold wp. by rewrite liftS_run. Qed.

Lemma no_throw_liftS {A} (m : eff A) : no_throw m → no_throw (liftS m).
Proof. intros H st. rewrite liftS_run. apply H. Qed.

Lemma returns_liftS {A} (m : eff A) (P : A → Prop) :
  returns_only m P → returns_only (liftS m) P.
Proof. intros H st a. rewrite liftS_run. apply H. Qed.

#[export] Instance quietly_preorder : PreOrder quietly.
Proof.
  split.
  - by intros st.
  - intros st1 st2 st3 (? & ? & ?) (? & ? & ?).
    split_and!; [congruence..|auto].
Qed.

(** *** [downloadVideo] *)

(** [downloadVideo] performs its calls up to the first that throws, and
    throws what it threw; when none does it reports the file written and
    a size drawn from the world. *)
Lemma wp_downloadVideo videoId platform cookies
    (Q : outcome js_error DownloadOutcome.t → service → Prop) s :
  (∀ e t, t `prefix_of` downloadActions videoId platform →
          Q (Throw e) (logs t s)) →
  Q (Ok (DownloadOutcome.Make true (filePathOf platform videoId)
           (sizeOf (random W (trace s ++ downloadActions videoId platform)))))
    (logs (downloadActions videoId platform) s) →
  wp (downloadVideo W videoId platform cookies) Q s.
Proof.
  intros Hthrow Hok. unfold downloadVideo. wp_run; norm_logs;
    first [exact Hok | apply Hthrow; unfold downloadActions; solve_prefix].
Qed.

Lemma sizeOf_bounds draw : (1000000 ≤ sizeOf draw < 11000000)%N.
Proof.
  unfold sizeOf.
  pose proof (N.mod_upper_bound draw 10000000 ltac:(done)) as H.
  revert H. generalize (draw mod 10000000)%N. intros m Hm. lia.
Qed.

Lemma no_throw_respond status body : no_throw (respond status body).
Proof. apply no_throw_modify. Qed.

Lemma no_throw_updateDb f : no_throw (updateDb f).
Proof. apply no_throw_modify. Qed.

Lemma preserves_liftS_downloadVideo videoId platform cookies :
  preserves quietly (liftS (downloadVideo W videoId platform cookies)).
Proof.
  intros st. rewrite liftS_run. simpl.
  split_and!; [done| |done].
  apply (wp_downloadVideo _ _ _ (λ _ s', browser s' = browser (svc st))); done.
Qed.

Lemma preserves_markDownloaded v :
  preserves quietly (updateDb (λ db, markDownloaded db v)).
Proof. intros st. split_and!; [done..|]. simpl. apply markDownloaded_wf. Qed.

(** *** One round of the download loop *)

Lemma no_throw_downloadOne platform cookies acc v :
  no_throw (downloadOne W platform cookies acc v).
Proof. unfold downloadOne. eff_auto by done. Qed.

(** Each round accounts for its id, once. *)
Lemma returns_downloadOne platform cookies acc v :
  returns_only (downloadOne W platform cookies acc v)
    (λ acc', tallySize acc' = S (tallySize acc)).
Proof.
  unfold downloadOne, tallySize.
  eff_auto by (simpl; rewrite ?length_app; simpl; lia).
Qed.

Lemma preserves_downloadOne platform cookies acc v :
  preserves quietly (downloadOne W platform cookies acc v).
Proof.
  unfold downloadOne.
  eff_auto by first [apply preserves_liftS_downloadVideo
                    | apply preserves_markDownloaded].
Qed.

(** A round whose id denotes no row reports it and does nothing. *)
Lemma downloadOne_missing platform cookies acc v st :
  getVideo (db st) v = None →
  downloadOne W platform cookies acc v st = (Ok (pushError acc (notFound v)), st).
Proof. intros H. unfold downloadOne. monad_unfold. by rewrite H. Qed.

(** *** The loop *)

Lemma downloadLoop_run platform cookies ids acc st :
  ∃ acc' st',
    foldM (downloadOne W platform cookies) acc ids st = (Ok acc', st') ∧
    tallySize acc' = tallySize acc + length ids ∧ quietly st st'.
Proof.
  destruct (returns_run (foldM (downloadOne W platform cookies) acc ids)
              (λ acc', tallySize acc' = tallySize acc + length ids) st)
    as (acc' & st' & E & Hsize).
  - apply no_throw_foldM. intros. apply no_throw_downloadOne.
  - apply returns_foldM_count. intros. apply returns_downloadOne.
  - exists acc', st'. split_and!; [done..|].
    pose proof (preserves_foldM quietly (downloadOne W platform cookies)
                  acc ids (λ a x, preserves_downloadOne platform cookies a x) st)
      as H.
    by rewrite E in H.
Qed.

(** Ids that denote no row are all reported, and nothing else happens. *)
Lemma downloadLoop_missing platform cookies ids acc st :
  Forall (λ v, getVideo (db st) v = None) ids →
  foldM (downloadOne W platform cookies) acc ids st
  = (Ok (Tally (results acc) (errors acc ++ (notFound <$> ids))), st).
Proof.
  revert acc. induction ids as [|v ids IH]; intros acc Hids; simpl.
  - rewrite app_nil_r. by destruct acc.
  - apply Forall_cons in Hids as [Hv Hids]. unfold bind.
    rewrite (downloadOne_missing _ _ _ _ _ Hv), IH by done. simpl.
    by rewrite <- app_assoc.
Qed.

(** *** The handlers *)

(** The scan handler: the batch runs on a new service and cannot throw;
    its answer is sent, after the records are saved when it succeeded;
    then the browser is closed, and a failure to close it sends a second
    answer. *)
Lemma scanHandler_run body st :
  ∃ result s1,
    scanVideos W (scanParams body) newService = (Ok result, s1) ∧
    result_ok (scanParams body) result ∧
    scanHandler W body st
    = (Ok tt,
       match closeBrowser W s1 with
       | (Ok _, s2) =>
           Server (scanSaved (db st) result) (sent st ++ [scanAnswer result]) s2
       | (Throw e, s2) =>
           Server (scanSaved (db st) result)
             (sent st ++ [scanAnswer result; scanFailed e]) s2
       end).
Proof.
  destruct (returns_run (scanVideos W (scanParams body))
              (result_ok (scanParams body)) newService)
    as (result & s1 & E & Hok).
  { apply no_throw_scanVideosWith. }
  { apply returns_scanVideosWith, _. }
  exists result, s1. split_and!; [done..|].
  unfold scanHandler, newTikTokService, respond, updateDb, liftS,
    scanAnswer, scanSaved, scanFailed.
  monad_unfold. rewrite E.
  destruct (ScanResult.success result); simpl;
    destruct (closeBrowser W s1) as [[[]|e] s2]; simpl;
    by rewrite <- ?app_assoc.
Qed.

Lemma downloadHandler_refused body st :
  DownloadBody.videoIds body = None ∨ DownloadBody.videoIds body = Some [] →
  downloadHandler W body st
  = (Ok tt, Server (db st) (sent st ++ [downloadRefused]) (svc st)).
Proof. unfold downloadHandler. by intros [-> | ->]. Qed.

(** The download handler on a list of ids: the loop runs on a new service,
    which stays without a browser, so that closing it does nothing. *)
Lemma downloadHandler_run body ids st :
  DownloadBody.videoIds body = Some ids → ids ≠ [] →
  ∃ acc st1,
    foldM (downloadOne W (DownloadBody.platform body) (DownloadBody.cookies body))
      (Tally [] []) ids (Server (db st) (sent st) newService) = (Ok acc, st1) ∧
    tallySize acc = length ids ∧
    quietly (Server (db st) (sent st) newService) st1 ∧
    downloadHandler W body st
    = (Ok tt, Server (db st1) (sent st ++ [downloadAnswer acc]) (svc st1)).
Proof.
  intros Hids Hne.
  destruct (downloadLoop_run (DownloadBody.platform body)
              (DownloadBody.cookies body) ids (Tally [] [])
              (Server (db st) (sent st) newService))
    as (acc & st1 & E & Hsize & Hq).
  exists acc, st1. split_and!; [done..|].
  destruct Hq as (Hsent & Hb & _). simpl in Hsent, Hb.
  unfold downloadHandler. rewrite Hids. destruct ids as [|v ids]; [done|].
  apply catch_ok. unfold newTikTokService, mbind, M_bind, bind, modify.
  cbv beta iota. rewrite E. cbv beta iota.
  rewrite liftS_run, (closeBrowser_idle W _ Hb). cbv beta iota.
  unfold respond, modify, downloadAnswer. simpl. by rewrite Hsent.
Qed.

(** The schedule handler stores the post under the next key and answers
    with that key; nothing is validated. *)
Lemma scheduleHandler_run body st :
  scheduleHandler body st
  = (Ok tt,
     Server (insertPost (db st) (ScheduleBody.videoId body)
               (ScheduleBody.accountId body) (ScheduleBody.platform body)
               (ScheduleBody.scheduledTime body)).1
       (sent st ++ [Response 200 (Scheduled "Post scheduled successfully"
                                    (S (posts_seq (db st))))])
       (svc st)).
Proof. done. Qed.

(** *** Runs in which no call fails *)

Lemma answers_app st d l s : answers st (Server d (sent st ++ l) s) = l.
Proof. unfold answers. simpl. by rewrite drop_app_length. Qed.

Lemma downloadVideo_ok videoId platform cookies s :
  (∀ t a, fails W t a = None) →
  downloadVideo W videoId platform cookies s
  = (Ok (DownloadOutcome.Make true (filePathOf platform videoId)
           (sizeOf (random W (trace s ++ downloadActions videoId platform)))),
     logs (downloadActions videoId platform) s).
Proof.
  intros Hcalm. unfold downloadVideo, perform. monad_unfold.
  rewrite !Hcalm. simpl. unfold logs, log, downloadActions. simpl.
  by rewrite <- !app_assoc.
Qed.

(** A round whose id denotes a row writes the file, marks the row and
    records the entry. *)
Lemma downloadOne_found platform cookies acc v r st :
  (∀ t a, fails W t a = None) → getVideo (db st) v = Some r →
  let p := opt_or_else platform "tiktok" in
  let s1 := logs (downloadActions (VideoRow.tiktok_id r) p) (svc st) in
  downloadOne W platform cookies acc v st
  = (Ok (pushResult acc
           (DownloadEntry.Make v true (filePathOf p (VideoRow.tiktok_id r))
              (sizeOf (random W (trace s1))))),
     Server (markDownloaded (db st) v) (sent st) s1).
Proof.
  intros Hcalm Hr p s1. unfold downloadOne. apply catch_ok.
  unfold mbind, M_bind, bind, get. cbv beta iota. rewrite Hr.
  by rewrite liftS_run, (downloadVideo_ok _ _ _ _ Hcalm).
Qed.

(** Ids taken from scanned records denote no row. *)
Lemma selectedIds_missing d items :
  Forall wf_item items →
  Forall (λ v, getVideo d v = None) (selectedIds items).
Proof.
  intros H. apply Forall_fmap. eapply Forall_impl; [exact H|].
  intros item Hitem. simpl. apply getVideo_None, Forall_forall.
  intros r _. unfold hasKey. by rewrite (sqlInteger_scanned item Hitem).
Qed.

End lemmas.

(** ** Properties *)

Section properties.
Context (W : env).
Implicit Types (st : server) (s : service).

(** C3. [POST /api/scan-videos] never fails and always answers: its first
    answer carries the result of [scanVideos], with status 200 when the
    result reports success and 400 otherwise; the records of a successful
    result, and nothing else, are saved; the tables stay sound; and the
    handler ends either with that one answer and the browser closed, or,
    when closing the browser threw, with a second answer of status 500. *)
Theorem scanHandler_spec body st :
  ∃ result st',
    scanHandler W body st = (Ok tt, st') ∧
    result_ok (scanParams body) result ∧
    db st' = scanSaved (db st) result ∧
    (wf_db (db st) → wf_db (db st')) ∧
    (answers st st' = [scanAnswer result] ∧ browser (svc st') = None ∨
     ∃ e, answers st st' = [scanAnswer result; scanFailed e]).
Proof.
  destruct (scanHandler_run W body st) as (result & s1 & _ & Hok & ->).
  pose proof (closeBrowser_spec W s1) as (_ & Hclosed & _). simpl in Hclosed.
  assert (wf_db (db st) → wf_db (scanSaved (db st) result)) as Hwf.
  { unfold scanSaved. destruct (ScanResult.success result); [|done].
    apply saveVideos_wf. }
  destruct (closeBrowser W s1) as [[[]|e] s2]; eexists result, _;
    (split_and!; [done..|]); rewrite answers_app; eauto.
Qed.

(** C33. When the batch returns and closing the browser then throws, the
    scan handler has already answered and answers again from its [catch]:
    two responses are sent on one request. *)
Theorem scanHandler_double_response body st result s1 e s2 :
  scanVideos W (scanParams body) newService = (Ok result, s1) →
  closeBrowser W s1 = (Throw e, s2) →
  answers st (scanHandler W body st).2 = [scanAnswer result; scanFailed e].
Proof.
  intros Hscan Hclose.
  destruct (scanHandler_run W body st) as (result' & s1' & E & _ & ->).
  rewrite Hscan in E. injection E as <- <-. rewrite Hclose. simpl.
  apply answers_app.
Qed.

(** C5. [POST /api/download-video] never fails and answers once.  Without
    a non-empty list of ids it answers 400 and changes nothing.
    Otherwise it answers 200 with the entries and the errors of its loop,
    which together account for every id of the request, once each; the
    count it reports is the number of entries; and the tables stay
    sound. *)
Theorem downloadHandler_spec body st :
  ∃ st',
    downloadHandler W body st = (Ok tt, st') ∧
    (wf_db (db st) → wf_db (db st')) ∧
    match DownloadBody.videoIds body with
    | None | Some [] => answers st st' = [downloadRefused] ∧ db st' = db st
    | Some ids =>
        ∃ acc, answers st st' = [downloadAnswer acc] ∧
               tallySize acc = length ids
    end.
Proof.
  destruct (DownloadBody.videoIds body) as [[|v ids]|] eqn:Hids;
    [rewrite downloadHandler_refused by eauto; eexists;
     by rewrite answers_app..| |].
  - destruct (downloadHandler_run W body (v :: ids) st Hids)
      as (acc & st1 & _ & Hsize & (_ & _ & Hwf) & ->); [done|].
    eexists. rewrite answers_app. eauto.
  - rewrite downloadHandler_refused by eauto. eexists.
    by rewrite answers_app.
Qed.

(** C7. The ids the client sends are the [id]s of the records it selected
    ("video_...", "user_...", "hashtag_...").  Compared with the integer
    key of the table none of them denotes a row: the download handler
    answers 200 with no entry and one "not found" error per id, writes no
    file and marks no row. *)
Theorem download_selected_not_found body items st :
  Forall wf_item items → items ≠ [] →
  DownloadBody.videoIds body = Some (selectedIds items) →
  downloadHandler W body st
  = (Ok tt,
     Server (db st)
       (sent st ++ [Response 200
                      (Downloaded 0 [] (Some (notFound <$> selectedIds items)))])
       newService).
Proof.
  intros Hitems Hne Hids.
  destruct (downloadHandler_run W body _ st Hids)
    as (acc & st1 & E & _ & _ & ->).
  { by destruct items. }
  rewrite downloadLoop_missing in E by by apply selectedIds_missing.
  injection E as <- <-. unfold downloadAnswer. simpl.
  by destruct items.
Qed.

(** C28. When no call fails, downloading the row an integer key denotes
    writes one file named after the platform and the row's [tiktok_id],
    marks that row downloaded and reports one entry and no error. *)
Theorem downloadHandler_marks body v r st :
  (∀ t a, fails W t a = None) → wf_db (db st) →
  DownloadBody.videoIds body = Some [v] → getVideo (db st) v = Some r →
  let p := opt_or_else (DownloadBody.platform body) "tiktok" in
  let file := filePathOf p (VideoRow.tiktok_id r) in
  ∃ size st',
    downloadHandler W body st = (Ok tt, st') ∧
    answers st st'
    = [Response 200 (Downloaded 1 [DownloadEntry.Make v true file size] None)] ∧
    getVideo (db st') v = Some (setDownloaded r) ∧
    trace (svc st')
    = [Sleep 3000%N; Mkdir downloadsDir;
       WriteFile file (dummyContent (VideoRow.tiktok_id r))].
Proof.
  intros Hcalm Hwf Hids Hr p file.
  destruct (downloadHandler_run W body _ st Hids)
    as (acc & st1 & E & _ & _ & ->); [done|].
  simpl in E. unfold bind in E.
  rewrite (downloadOne_found W _ _ _ v r) in E by done.
  injection E as <- <-. eexists _, _. split; [done|].
  rewrite answers_app. simpl. split_and!; [done| |done].
  by apply markDownloaded_get.
Qed.

(** C32. [downloadVideo] sleeps, creates the downloads directory and writes
    the file, in this order and up to the first call that throws, and it
    rethrows what that call threw; when none throws it reports success,
    the path of the file, built from the platform and the id, and a size
    between 1,000,000 and 10,999,999.  It leaves the browser and the
    cookies of the service as they were. *)
Theorem downloadVideo_spec videoId platform cookies s :
  match downloadVideo W videoId platform cookies s with
  | (Ok out, s') =>
      s' = logs (downloadActions videoId platform) s ∧
      DownloadOutcome.success out = true ∧
      DownloadOutcome.filePath out = filePathOf platform videoId ∧
      (1000000 ≤ DownloadOutcome.size out < 11000000)%N
  | (Throw e, s') =>
      ∃ t, t `prefix_of` downloadActions videoId platform ∧ s' = logs t s
  end.
Proof.
  pose proof (wp_downloadVideo W videoId platform cookies
    (λ r s', match r with
             | Ok out =>
                 s' = logs (downloadActions videoId platform) s ∧
                 DownloadOutcome.success out = true ∧
                 DownloadOutcome.filePath out = filePathOf platform videoId ∧
                 (1000000 ≤ DownloadOutcome.size out < 11000000)%N
             | Throw e =>
                 ∃ t, t `prefix_of` downloadActions videoId platform ∧
                      s' = logs t s
             end) s) as H.
  unfold wp in H. destruct (downloadVideo W videoId platform cookies s).
  apply H.
  - intros e t Ht. by exists t.
  - split_and!; try done; apply sizeOf_bounds.
Qed.

(** [GET /api/videos] answers 200 with every row of the table, each
    once, the newest first, and changes nothing. *)
Theorem videosHandler_spec st :
  ∃ rows,
    videosHandler st
    = (Ok tt, Server (db st) (sent st ++ [Response 200 (Rows rows)]) (svc st)) ∧
    rows ≡ₚ videos (db st) ∧ Sorted newer rows.
Proof.
  exists (selectAllVideos (db st)). split_and!; [done|..].
  - apply merge_sort_Permutation.
  - apply (Sorted_merge_sort newer).
Qed.

End properties.

Lemma demoVideo_wf : wf_item demoVideo.
Proof. split; try done. exists "video_". split; [by left|done]. Qed.

Lemma scanHandler_double_response_witness :
  answers (idle emptyDb) (scanHandler closeFails emptyScan (idle emptyDb)).2
  = [scanAnswer (completed []); scanFailed closeError].
Proof.
  eapply (scanHandler_double_response closeFails emptyScan (idle emptyDb));
    vm_compute; reflexivity.
Defined.

Lemma download_selected_not_found_witness :
  downloadHandler still selectedRequest (idle demoDb)
  = (Ok tt,
     Server demoDb
       [Response 200 (Downloaded 0 [] (Some ["Video video_7234 not found"]))]
       newService).
Proof.
  apply (download_selected_not_found still selectedRequest [demoVideo]
           (idle demoDb)); [|done..].
  apply Forall_singleton, demoVideo_wf.
Defined.

Lemma downloadHandler_marks_witness :
  ∃ size st',
    downloadHandler still firstRowRequest (idle demoDb) = (Ok tt, st') ∧
    answers (idle demoDb) st'
    = [Response 200
         (Downloaded 1
            [DownloadEntry.Make (IdNum 1) true
               "server/downloads/tiktok_7234_no_watermark.mp4" size] None)] ∧
    getVideo (db st') (IdNum 1) = Some (setDownloaded (rowOf 1 0 demoVideo)) ∧
    trace (svc st')
    = [Sleep 3000%N; Mkdir "server/downloads";
       WriteFile "server/downloads/tiktok_7234_no_watermark.mp4"
         "Dummy video content for 7234"].
Proof.
  apply (downloadHandler_marks still firstRowRequest (IdNum 1)
           (rowOf 1 0 demoVideo) (idle demoDb)); [done|apply demoDb_wf|done..].
Defined.

End Server.
