(* ===== verification/Faults.v ===== *)
(** * Faults: the handlers when a statement fails

    [Server] takes every SQL statement of [index.js] to succeed.  Here
    SQLite reports an error or nothing to each statement, as an input: the
    callbacks of [db.all] and of [stmt.run] in the list and the schedule
    handler answer 500 on an error; the promise around [db.get] in the
    download loop rejects, and the [catch] of the round reports it; the
    statements without a callback ([db.run] of the download loop,
    [stmt.run] of the scan handler) lose their errors.  With no error
    every definition is the one of [Server].  [GET /api/health] is the
    remaining route. *)

From S2P Require Import Prelude JsString Effects Cookie Dom Session Extract.
From S2P Require Import Scanner Orchestrator Database Server.
Import Session Extract Orchestrator Database Server.

Module Faults.

(** What SQLite passes as [err] to a callback. *)
Definition sqlError : Type := option js_error.

(** [GET /api/health] (lines 60-63): the status and the fields of the
    body. *)
Definition healthHandler : nat * list (string * string) :=
  (200, [("status", "OK"); ("message", "TikTok Automation Server is running")]).

(** The callback of [db.all] (lines 126-138). *)
Definition videosCallback (err : sqlError) (rows : list VideoRow.t) : handler unit :=
  match err with
  | Some e => respond 500 (Failed "Error fetching videos" (message e))
  | None => respond 200 (Rows rows)
  end.

(** [GET /api/videos] (lines 124-139). *)
Definition videosHandlerOn (err : sqlError) : handler unit :=
  st ← get;
  videosCallback err (selectAllVideos (db st)).

(** The promise around [db.get] (lines 162-168). *)
Definition getVideoOn (err : sqlError) (videoId : videoId)
  : handler (option VideoRow.t) :=
  match err with
  | Some e => throw e
  | None => st ← get; mret (getVideo (db st) videoId)
  end.

(** [db.run('UPDATE videos SET downloaded = 1 ...')] (line 182): there is
    no callback, an error changes nothing and is not seen. *)
Definition markDownloadedOn (err : sqlError) (videoId : videoId) : handler unit :=
  match err with
  | Some _ => mret tt
  | None => updateDb (λ db, markDownloaded db videoId)
  end.

(** The errors of the two statements of a round of the download loop, by
    the id of the round. *)
Record faults : Type := Faults {
  getFails : videoId → sqlError;
  updateFails : videoId → sqlError
}.

Definition noFaults : faults := Faults (λ _, None) (λ _, None).

Section handlers.
Context (W : env) (F : faults).

(** One round of the loop of lines 160-199. *)
Definition downloadOneOn (platform cookies : option string) (acc : tally)
    (videoId : videoId) : handler tally :=
  try_catch
    (video ← getVideoOn (getFails F videoId) videoId;
     match video with
     | None =>
         mret (pushError acc ("Video " +:+ showId videoId +:+ " not found"))
     | Some video =>
         downloadResult ← liftS (downloadVideo W (VideoRow.tiktok_id video)
                                   (opt_or_else platform "tiktok")
                                   (opt_or_else cookies ""));
         if DownloadOutcome.success downloadResult
         then markDownloadedOn (updateFails F videoId) videoId;;
              mret (pushResult acc
                      (DownloadEntry.Make videoId true
                         (DownloadOutcome.filePath downloadResult)
                         (DownloadOutcome.size downloadResult)))
         else mret (pushError acc
                      ("Failed to download video " +:+ showId videoId))
     end)
    (λ error,
       mret (pushError acc
               ("Error downloading video " +:+ showId videoId +:+ ": "
                +:+ message error))).

(** [POST /api/download-video] (lines 142-219). *)
Definition downloadHandlerOn (body : DownloadBody.t) : handler unit :=
  try_catch
    (match DownloadBody.videoIds body with
     | None | Some [] => respond 400 (Refused "Video IDs are required")
     | Some videoIds =>
         newTikTokService;;
         acc ← foldM (downloadOneOn (DownloadBody.platform body)
                        (DownloadBody.cookies body))
                     (Tally [] []) videoIds;
         liftS (closeBrowser W);;
         respond 200 (Downloaded (length (results acc)) (results acc)
                        (errorsField (errors acc)))
     end)
    (λ error, respond 500 (Failed "Error downloading videos" (message error))).

End handlers.

(** The callback of [stmt.run] (lines 231-243); [lastID] is [this.lastID]. *)
Definition scheduleCallback (err : sqlError) (lastID : nat) : handler unit :=
  match err with
  | Some e => respond 500 (Failed "Error scheduling post" (message e))
  | None => respond 200 (Scheduled "Post scheduled successfully" lastID)
  end.

(** [POST /api/schedule-post] (lines 222-255): a statement that fails
    inserts no row. *)
Definition scheduleHandlerOn (err : sqlError) (body : ScheduleBody.t)
  : handler unit :=
  try_catch
    (st ← get;
     let '(db', postId) :=
       insertPost (db st) (ScheduleBody.videoId body)
         (ScheduleBody.accountId body) (ScheduleBody.platform body)
         (ScheduleBody.scheduledTime body) in
     match err with
     | Some _ => scheduleCallback err (posts_seq (db st))
     | None => updateDb (λ _, db');; scheduleCallback err postId
     end)
    (λ error, respond 500 (Failed "Error scheduling post" (message error))).

(** The loop of lines 89-101 when [stmt.run] fails for some records: it
    has no callback, the records are skipped and nothing is reported. *)
Definition saveVideosOn (fails : VideoItem → bool) (db : database)
    (videos : list VideoItem) : database :=
  foldl (λ db video, if fails video then db else insertOrReplace db video)
        db videos.

Section scan.
Context (W : env) (fails : VideoItem → bool).

(** [POST /api/scan-videos] (lines 65-121). *)
Definition scanHandlerOn (body : ScanBody.t) : handler unit :=
  try_catch
    (newTikTokService;;
     result ← liftS (scanVideos W (scanParams body));
     (if ScanResult.success result
      then updateDb (λ db, saveVideosOn fails db (ScanResult.videos result));;
           respond 200 (ScanAnswer result)
      else respond 400 (ScanAnswer result));;
     liftS (closeBrowser W))
    (λ error, respond 500 (Failed "Error scanning videos" (message error))).

End scan.

(** An error of SQLite. *)
Definition busy : js_error := JsError "Error" "SQLITE_BUSY: database is locked".

(** ** Lemmas *)

Section lemmas.
Context (W : env).
Implicit Types (st : server) (err : sqlError) (F : faults) (v : videoId).

(** *** Without errors the handlers are those of [Server] *)

Lemma videosHandlerOn_None : videosHandlerOn None = videosHandler.
Proof. done. Qed.

Lemma scheduleHandlerOn_None body : scheduleHandlerOn None body = scheduleHandler body.
Proof. done. Qed.

Lemma downloadOneOn_noFaults : downloadOneOn W noFaults = downloadOne W.
Proof. done. Qed.

Lemma downloadHandlerOn_noFaults : downloadHandlerOn W noFaults = downloadHandler W.
Proof. done. Qed.

Lemma saveVideosOn_filter (fails : VideoItem → bool) d videos :
  saveVideosOn fails d videos
  = saveVideos d (filter (λ video, fails video = false) videos).
Proof.
  unfold saveVideosOn, saveVideos. revert d.
  induction videos as [|video videos IH]; intros d; [done|].
  simpl. rewrite IH. destruct (fails video) eqn:Hf.
  - by rewrite filter_cons_False by (by rewrite Hf).
  - by rewrite filter_cons_True.
Qed.

Lemma saveVideosOn_none : saveVideosOn (λ _, false) = saveVideos.
Proof. done. Qed.

Lemma scanHandlerOn_none : scanHandlerOn W (λ _, false) = scanHandler W.
Proof. done. Qed.

(** *** With errors *)

(** The list handler answers once, with the rows or with the error. *)
Lemma videosHandlerOn_run err st :
  videosHandlerOn err st
  = (Ok tt,
     Server (db st)
       (sent st ++
        [match err with
         | Some e => Response 500 (Failed "Error fetching videos" (message e))
         | None => Response 200 (Rows (selectAllVideos (db st)))
         end])
       (svc st)).
Proof. by destruct err. Qed.

(** The schedule handler answers once; a statement that fails stores
    nothing. *)
Lemma scheduleHandlerOn_fails e body st :
  scheduleHandlerOn (Some e) body st
  = (Ok tt,
     Server (db st)
       (sent st ++ [Response 500 (Failed "Error scheduling post" (message e))])
       (svc st)).
Proof. done. Qed.

Section rounds.
Context (F : faults).

(** A round in which [db.get] fails reports the error and does nothing
    else. *)
Lemma downloadOneOn_get_fails platform cookies acc v e st :
  getFails F v = Some e →
  downloadOneOn W F platform cookies acc v st
  = (Ok (pushError acc ("Error downloading video " +:+ showId v +:+ ": "
                        +:+ message e)), st).
Proof. intros H. unfold downloadOneOn. by rewrite H. Qed.

(** A round in which the [UPDATE] fails reports the video as downloaded
    and leaves its row as it was. *)
Lemma downloadOneOn_update_lost platform cookies acc v r e st :
  (∀ t a, fails W t a = None) →
  getFails F v = None → getVideo (db st) v = Some r → updateFails F v = Some e →
  let p := opt_or_else platform "tiktok" in
  let s1 := logs (downloadActions (VideoRow.tiktok_id r) p) (svc st) in
  downloadOneOn W F platform cookies acc v st
  = (Ok (pushResult acc
           (DownloadEntry.Make v true (filePathOf p (VideoRow.tiktok_id r))
              (sizeOf (random W (trace s1))))),
     Server (db st) (sent st) s1).
Proof.
  intros Hcalm Hget Hr Hupd p s1. unfold downloadOneOn. apply catch_ok.
  rewrite Hget, Hupd. unfold getVideoOn, markDownloadedOn, mbind, M_bind, bind, get.
  cbv beta iota. unfold mret, M_ret, ret. cbv beta iota. rewrite Hr.
  by rewrite liftS_run, (downloadVideo_ok _ _ _ _ _ Hcalm).
Qed.

Lemma no_throw_downloadOneOn platform cookies acc v :
  no_throw (downloadOneOn W F platform cookies acc v).
Proof.
  unfold downloadOneOn, getVideoOn, markDownloadedOn.
  destruct (getFails F v), (updateFails F v); eff_auto by done.
Qed.

(** Each round accounts for its id, once, whatever fails. *)
Lemma returns_downloadOneOn platform cookies acc v :
  returns_only (downloadOneOn W F platform cookies acc v)
    (λ acc', tallySize acc' = S (tallySize acc)).
Proof.
  unfold downloadOneOn, getVideoOn, markDownloadedOn, tallySize.
  destruct (getFails F v), (updateFails F v);
    eff_auto by (simpl; rewrite ?length_app; simpl; lia).
Qed.

Lemma preserves_downloadOneOn platform cookies acc v :
  preserves quietly (downloadOneOn W F platform cookies acc v).
Proof.
  unfold downloadOneOn, getVideoOn, markDownloadedOn.
  destruct (getFails F v), (updateFails F v);
    eff_auto by first [apply preserves_liftS_downloadVideo
                      | apply preserves_markDownloaded].
Qed.

Lemma downloadLoopOn_run platform cookies ids acc st :
  ∃ acc' st',
    foldM (downloadOneOn W F platform cookies) acc ids st = (Ok acc', st') ∧
    tallySize acc' = tallySize acc + length ids ∧ quietly st st'.
Proof.
  destruct (returns_run (foldM (downloadOneOn W F platform cookies) acc ids)
              (λ acc', tallySize acc' = tallySize acc + length ids) st)
    as (acc' & st' & E & Hsize).
  - apply no_throw_foldM. intros. apply no_throw_downloadOneOn.
  - apply returns_foldM_count. intros. apply returns_downloadOneOn.
  - exists acc', st'. split_and!; [done..|].
    pose proof (preserves_foldM quietly (downloadOneOn W F platform cookies)
                  acc ids (λ a x, preserves_downloadOneOn platform cookies a x) st)
      as H.
    by rewrite E in H.
Qed.

(** Whatever statements fail, the download handler answers once, and its
    answer accounts for every id of the request, once each. *)
Lemma downloadHandlerOn_spec body ids st :
  DownloadBody.videoIds body = Some ids → ids ≠ [] →
  ∃ acc st',
    downloadHandlerOn W F body st = (Ok tt, st') ∧
    answers st st' = [downloadAnswer acc] ∧
    tallySize acc = length ids ∧
    (wf_db (db st) → wf_db (db st')).
Proof.
  intros Hids Hne.
  destruct (downloadLoopOn_run (DownloadBody.platform body)
              (DownloadBody.cookies body) ids (Tally [] [])
              (Server (db st) (sent st) newService))
    as (acc & st1 & E & Hsize & Hsent & Hb & Hwf).
  simpl in Hsent, Hb, Hwf.
  exists acc, (Server (db st1) (sent st ++ [downloadAnswer acc]) (svc st1)).
  split_and!; [|by rewrite answers_app|done..].
  unfold downloadHandlerOn. rewrite Hids. destruct ids as [|v ids]; [done|].
  apply catch_ok. unfold newTikTokService, mbind, M_bind, bind, modify.
  cbv beta iota. rewrite E. cbv beta iota.
  rewrite liftS_run, (closeBrowser_idle W _ Hb). cbv beta iota.
  unfold respond, modify, downloadAnswer. simpl. by rewrite Hsent.
Qed.

End rounds.

(** The scan handler answers the same whatever rows fail to be stored. *)
Lemma scanHandlerOn_sent fails body st :
  sent (scanHandlerOn W fails body st).2 = sent (scanHandler W body st).2 ∧
  (scanHandlerOn W fails body st).1 = (scanHandler W body st).1.
Proof.
  unfold scanHandlerOn, scanHandler, try_catch, mbind, M_bind, bind.
  destruct (newTikTokService st) as [[[]|e] st1]; [|done].
  destruct (liftS (scanVideos W (scanParams body)) st1) as [[result|e] st2]; [|done].
  destruct (ScanResult.success result); [|done].
  unfold updateDb, respond, modify. cbv beta iota.
  rewrite !liftS_run. simpl.
  by destruct (closeBrowser W (svc st2)) as [[[]|e] s3].
Qed.

End lemmas.

(** An [UPDATE] that fails, on the tables of the examples: the answer
    reports the first row downloaded and the row is not marked. *)
Lemma update_lost_example :
  let F := Faults (λ _, None) (λ _, Some busy) in
  ∃ acc st',
    downloadHandlerOn still F firstRowRequest (idle demoDb) = (Ok tt, st') ∧
    answers (idle demoDb) st' = [downloadAnswer acc] ∧
    length (results acc) = 1 ∧
    VideoRow.downloaded <$> videos (db st') = [false].
Proof. by eexists _, _. Qed.

End Faults.
