(* ===== verification/Client.v ===== *)
(** * Client: the scan screen and the service wrappers

    [VideoScanner.tsx] keeps the state of the scan screen (the form, the
    list of videos, the set of selected ids, the two progress bars) and
    changes it in its handlers; [videoService.ts] wraps the two requests
    the screen makes.  A handler that awaits a request is a function of
    the outcome of [axios.post]; [scanClick] and [downloadClick] close the
    loop with the handlers of the server.  A JavaScript [Set] is the list
    of its elements in insertion order; [alert] calls are recorded in the
    state. *)

From stdpp Require Import pretty.
From S2P Require Import Prelude JsString Effects Cookie Dom Session Extract.
From S2P Require Import Scanner Orchestrator Database Server.
Import Server.

Module Client.

(** ** The input box *)

(** The list a line of the input goes to (VideoScanner.tsx, lines
    46-59). *)
Inductive lineKind : Type :=
| VideoLine
| ProfileLine
| HashtagLine
| OtherLine.

#[export] Instance lineKind_eq_dec : EqDecision lineKind.
Proof. solve_decision. Defined.

(** The chain of tests of lines 46-59, on the trimmed line. *)
Definition classify (trimmed : string) : lineKind :=
  if includes "/video/" trimmed then VideoLine
  else if includes "/@" trimmed then ProfileLine
  else if startsWith "#" trimmed then HashtagLine
  else if includes "tiktok.com" trimmed || includes "douyin.com" trimmed
  then if includes "/@" trimmed then ProfileLine else VideoLine
  else OtherLine.

(** [result] of [parseInput] (lines 38-42). *)
Module ParsedInput.
Record ParsedInput : Type := Make {
  videoLinks : list string;
  userProfiles : list string;
  hashtags : list string
}.
Abbreviation t := ParsedInput.
End ParsedInput.

(** The callback of [lines.forEach] (lines 44-60). *)
Definition pushLine (result : ParsedInput.t) (line : string) : ParsedInput.t :=
  let trimmed := trim line in
  match classify trimmed with
  | VideoLine =>
      ParsedInput.Make (ParsedInput.videoLinks result ++ [trimmed])
        (ParsedInput.userProfiles result) (ParsedInput.hashtags result)
  | ProfileLine =>
      ParsedInput.Make (ParsedInput.videoLinks result)
        (ParsedInput.userProfiles result ++ [trimmed])
        (ParsedInput.hashtags result)
  | HashtagLine =>
      ParsedInput.Make (ParsedInput.videoLinks result)
        (ParsedInput.userProfiles result)
        (ParsedInput.hashtags result ++ [trimmed])
  | OtherLine => result
  end.

(** The line feed. *)
Definition newline : string := String (ascii_of_nat 10) "".

(** [input.split('\n').filter(line => line.trim())] (line 37) *)
Definition inputLines (input : string) : list string :=
  filter (λ line, truthy (trim line)) (split newline input).

(** [parseInput] (lines 36-63) *)
Definition parseInput (input : string) : ParsedInput.t :=
  foldl pushLine (ParsedInput.Make [] [] []) (inputLines input).

(** ** A JavaScript [Set] of strings *)

(** The elements in insertion order, each once. *)
Definition jsSet : Type := list string.

(** [s.has(x)] *)
Definition setHas (s : jsSet) (x : string) : bool := bool_decide (x ∈ s).

(** [s.add(x)] *)
Definition setAdd (s : jsSet) (x : string) : jsSet :=
  if setHas s x then s else s ++ [x].

(** [s.delete(x)] *)
Definition setDelete (s : jsSet) (x : string) : jsSet :=
  filter (λ y, y ≠ x) s.

(** [new Set(l)] *)
Definition setOf (l : list string) : jsSet := foldl setAdd [] l.

(** ** The state of the screen *)

(** What [alert] shows: the messages of lines 67, 89, 91, 110, 127 and
    135, with the values they interpolate.  The alerts of the two [catch]
    blocks (lines 95, 139) are not reached: the wrappers of videoService.ts
    never throw. *)
Inductive alert : Type :=
| NoInput
| ScanDone (found : nat)
| ScanFailed (message : option string)
| NoSelection
| DownloadDone (downloadedCount : nat)
| DownloadFailed (message : option string).

(** The state the handlers only read: what the user typed (lines 21-23,
    26-28, 33). *)
Module Form.
Record Form : Type := Make {
  platform : string;
  links : string;
  cookies : string;
  rangeFrom : nat;
  rangeTo : nat;
  filterViews : N;
  skipDownloaded : bool;
  searchTerm : string
}.
Abbreviation t := Form.
End Form.

(** The state of the component (lines 21-33). *)
Module Screen.
Record Screen : Type := Make {
  form : Form.t;
  isScanning : bool;
  isDownloading : bool;
  videos : list VideoItem;
  selectedVideos : jsSet;
  scanProgress : nat;
  downloadProgress : nat;
  alerts : list alert
}.
Abbreviation t := Screen.
End Screen.

Import Screen.

(** The state when the component is mounted (the arguments of [useState],
    lines 21-33). *)
Definition initialForm : Form.t := Form.Make "tiktok" "" "" 0 0 0 true "".

Definition initialScreen : Screen.t :=
  Screen.Make initialForm false false [] [] 0 0 [].

(** The setters of [useState]. *)
Definition setIsScanning (b : bool) (st : Screen.t) : Screen.t :=
  Screen.Make (form st) b (isDownloading st) (videos st) (selectedVideos st)
    (scanProgress st) (downloadProgress st) (alerts st).

Definition setIsDownloading (b : bool) (st : Screen.t) : Screen.t :=
  Screen.Make (form st) (isScanning st) b (videos st) (selectedVideos st)
    (scanProgress st) (downloadProgress st) (alerts st).

Definition setVideos (l : list VideoItem) (st : Screen.t) : Screen.t :=
  Screen.Make (form st) (isScanning st) (isDownloading st) l
    (selectedVideos st) (scanProgress st) (downloadProgress st) (alerts st).

Definition setSelectedVideos (s : jsSet) (st : Screen.t) : Screen.t :=
  Screen.Make (form st) (isScanning st) (isDownloading st) (videos st) s
    (scanProgress st) (downloadProgress st) (alerts st).

Definition setScanProgress (p : nat) (st : Screen.t) : Screen.t :=
  Screen.Make (form st) (isScanning st) (isDownloading st) (videos st)
    (selectedVideos st) p (downloadProgress st) (alerts st).

Definition setDownloadProgress (p : nat) (st : Screen.t) : Screen.t :=
  Screen.Make (form st) (isScanning st) (isDownloading st) (videos st)
    (selectedVideos st) (scanProgress st) p (alerts st).

Definition setForm (f : Form.t) (st : Screen.t) : Screen.t :=
  Screen.Make f (isScanning st) (isDownloading st) (videos st)
    (selectedVideos st) (scanProgress st) (downloadProgress st) (alerts st).

(** [alert(...)] *)
Definition showAlert (a : alert) (st : Screen.t) : Screen.t :=
  Screen.Make (form st) (isScanning st) (isDownloading st) (videos st)
    (selectedVideos st) (scanProgress st) (downloadProgress st)
    (alerts st ++ [a]).

(** ** The wire *)

(** [axios.post]: the promise resolves with the body of a response whose
    status is 2xx and rejects otherwise. *)
Definition axiosPost (r : response) : outcome js_error payload :=
  if decide (200 ≤ Server.status r < 300)
  then Ok (Server.body r)
  else Throw (JsError "AxiosError"
                ("Request failed with status code " +:+ pretty (Server.status r))).

(** The fields [success], [message], [videos], [totalCount],
    [downloadedCount] and [errors] of a body, as index.js writes them;
    an optional field the body lacks is [None], a list it lacks is
    empty. *)
Definition successOf (data : payload) : bool :=
  match data with
  | ScanAnswer result => ScanResult.success result
  | Rows _ | Downloaded _ _ _ | Scheduled _ _ => true
  | Refused _ | Failed _ _ => false
  end.

Definition messageOf (data : payload) : option string :=
  match data with
  | ScanAnswer result => ScanResult.message result
  | Scheduled message _ | Refused message | Failed message _ => Some message
  | Rows _ | Downloaded _ _ _ => None
  end.

Definition videosOf (data : payload) : list VideoItem :=
  match data with
  | ScanAnswer result => ScanResult.videos result
  | _ => []
  end.

Definition totalCountOf (data : payload) : option nat :=
  match data with
  | ScanAnswer result => ScanResult.totalCount result
  | _ => None
  end.

Definition downloadedCountOf (data : payload) : nat :=
  match data with
  | Downloaded downloadedCount _ _ => downloadedCount
  | _ => 0
  end.

Definition errorsOf (data : payload) : option (list string) :=
  match data with
  | Downloaded _ _ errors => errors
  | _ => None
  end.

(** What the client receives of a handler run: the first response it
    sent, or a network error when it sent none. *)
Definition received (sent : list response) : outcome js_error payload :=
  match sent with
  | r :: _ => axiosPost r
  | [] => Throw (JsError "AxiosError" "Network Error")
  end.

(** ** videoService.ts *)

(** [interface DownloadResult] (videoService.ts, lines 41-46) *)
Module DownloadResult.
Record DownloadResult : Type := Make {
  success : bool;
  downloadedCount : nat;
  message : option string;
  errors : option (list string)
}.
Abbreviation t := DownloadResult.
End DownloadResult.

(** The values [for (let i = 0; i <= 100; i += step)] passes to
    [onProgress] (lines 106-109, 147-150). *)
Definition progressSteps (step : nat) : list nat :=
  (λ k, k * step) <$> seq 0 (S (100 / step)).

(** [scanVideos] (videoService.ts, lines 91-130), after [axios.post]
    settled: the result and the calls of [onProgress]. *)
Definition clientScanVideos (reply : outcome js_error payload)
  : ScanResult.t * list nat :=
  match reply with
  | Ok data =>
      if successOf data
      then (ScanResult.Make (successOf data) (videosOf data)
              (totalCountOf data) (messageOf data),
            progressSteps 20)
      else (ScanResult.Make false [] None
              (Some (opt_or_else (messageOf data) "Scan failed")), [])
  | Throw error =>
      (ScanResult.Make false [] None (Some (message error)), [])
  end.

(** [downloadVideos] (videoService.ts, lines 132-169), after [axios.post]
    settled. *)
Definition clientDownloadVideos (reply : outcome js_error payload)
  : DownloadResult.t * list nat :=
  match reply with
  | Ok data =>
      if successOf data
      then (DownloadResult.Make (successOf data) (downloadedCountOf data)
              (messageOf data) (errorsOf data),
            progressSteps 10)
      else (DownloadResult.Make false 0
              (Some (opt_or_else (messageOf data) "Download failed")) None, [])
  | Throw error =>
      (DownloadResult.Make false 0 (Some (message error)) None, [])
  end.

(** ** The handlers of the screen *)

(** The body of the scan request (VideoScanner.tsx, lines 78-85;
    videoService.ts, lines 96-102). *)
Definition scanBody (st : Screen.t) : ScanBody.t :=
  let parsedInput := parseInput (Form.links (form st)) in
  ScanBody.Make (Form.platform (form st))
    (Some (ParsedInput.videoLinks parsedInput))
    (Some (ParsedInput.userProfiles parsedInput))
    (Some (ParsedInput.hashtags parsedInput))
    (Some (Form.cookies (form st))).

(** [handleScan] (lines 65-101) for the outcome of the request. *)
Definition handleScan (reply : outcome js_error payload) (st : Screen.t)
  : Screen.t :=
  if negb (truthy (trim (Form.links (form st))))
  then showAlert NoInput st
  else
    let st := setSelectedVideos []
                (setVideos [] (setScanProgress 0 (setIsScanning true st))) in
    let '(scanResult, progress) := clientScanVideos reply in
    let st := foldl (λ st p, setScanProgress p st) st progress in
    let st :=
      if ScanResult.success scanResult
      then showAlert (ScanDone (length (ScanResult.videos scanResult)))
             (setVideos (ScanResult.videos scanResult) st)
      else showAlert (ScanFailed (ScanResult.message scanResult)) st in
    setScanProgress 0 (setIsScanning false st).

(** [handleStopScan] (lines 103-106) *)
Definition handleStopScan (st : Screen.t) : Screen.t :=
  setScanProgress 0 (setIsScanning false st).

(** The ids of the selected videos as the request carries them (lines
    118-120). *)
Definition downloadBody (st : Screen.t) : DownloadBody.t :=
  DownloadBody.Make (Some (IdStr <$> selectedVideos st))
    (Some (Form.platform (form st))) (Some (Form.cookies (form st))).

(** Lines 129-131. *)
Definition markCompleted (selected : jsSet) (video : VideoItem) : VideoItem :=
  if setHas selected (id video)
  then MkVideoItem (id video) (tiktok_id video) (title video) (content video)
         (likes video) (views video) (uploader video) (thumbnail_url video)
         (video_url video) (Extract.platform video) true Completed
  else video.

(** [handleDownload] (lines 108-144) for the outcome of the request. *)
Definition handleDownload (reply : outcome js_error payload) (st : Screen.t)
  : Screen.t :=
  if bool_decide (length (selectedVideos st) = 0)
  then showAlert NoSelection st
  else
    let selected := selectedVideos st in
    let st := setDownloadProgress 0 (setIsDownloading true st) in
    let '(downloadResult, progress) := clientDownloadVideos reply in
    let st := foldl (λ st p, setDownloadProgress p st) st progress in
    let st :=
      if DownloadResult.success downloadResult
      then setSelectedVideos []
             (setVideos (markCompleted selected <$> videos st)
                (showAlert
                   (DownloadDone (DownloadResult.downloadedCount downloadResult))
                   st))
      else showAlert (DownloadFailed (DownloadResult.message downloadResult)) st in
    setDownloadProgress 0 (setIsDownloading false st).

(** [handleStopDownload] (lines 146-149) *)
Definition handleStopDownload (st : Screen.t) : Screen.t :=
  setDownloadProgress 0 (setIsDownloading false st).

(** [handleDeleteList] (lines 151-156) for the answer to
    [window.confirm]. *)
Definition handleDeleteList (confirmed : bool) (st : Screen.t) : Screen.t :=
  if confirmed then setSelectedVideos [] (setVideos [] st) else st.

(** [handleSelectAll] (lines 158-164) *)
Definition handleSelectAll (st : Screen.t) : Screen.t :=
  if bool_decide (length (selectedVideos st) = length (videos st))
  then setSelectedVideos [] st
  else setSelectedVideos (setOf (id <$> videos st)) st.

(** [handleSelectVideo] (lines 166-174) *)
Definition handleSelectVideo (videoId : string) (st : Screen.t) : Screen.t :=
  if setHas (selectedVideos st) videoId
  then setSelectedVideos (setDelete (selectedVideos st) videoId) st
  else setSelectedVideos (setAdd (selectedVideos st) videoId) st.

(** [videos.slice(from - 1, to)] *)
Definition slice {A} (first last : nat) (l : list A) : list A :=
  take (last - first) (drop first l).

(** [handleSelectRange] (lines 176-181) *)
Definition handleSelectRange (st : Screen.t) : Screen.t :=
  let from := Form.rangeFrom (form st) in
  let to := Form.rangeTo (form st) in
  if bool_decide (0 < from) && bool_decide (0 < to) && bool_decide (from ≤ to)
  then setSelectedVideos (setOf (id <$> slice (from - 1) to (videos st))) st
  else st.

(** [handleFilterByViews] (lines 183-188) *)
Definition handleFilterByViews (st : Screen.t) : Screen.t :=
  let filterViews := Form.filterViews (form st) in
  if bool_decide (0 < filterViews)%N
  then setVideos (filter (λ video, (filterViews ≤ views video)%N) (videos st)) st
  else st.

(** [c.toLowerCase()] on the ASCII letters. *)
Definition lowerChar (c : ascii) : ascii :=
  let n := nat_of_ascii c in
  if bool_decide (65 ≤ n ≤ 90) then ascii_of_nat (n + 32) else c.

Fixpoint toLowerCase (s : string) : string :=
  match s with
  | "" => ""
  | String c s' => String (lowerChar c) (toLowerCase s')
  end.

(** The test of lines 190-201. *)
Definition matchesSearch (searchTerm : string) (video : VideoItem) : bool :=
  if truthy searchTerm
  then let searchLower := toLowerCase searchTerm in
       includes searchLower (toLowerCase (title video))
       || includes searchLower (toLowerCase (content video))
       || includes searchLower (toLowerCase (uploader video))
       || includes searchTerm (tiktok_id video)
  else true.

(** [filteredVideos] (lines 190-201): the rows the table shows. *)
Definition filteredVideos (st : Screen.t) : list VideoItem :=
  filter (λ video, matchesSearch (Form.searchTerm (form st)) video) (videos st).

(** ** The screen and the server together *)

(** The system: the server and one screen. *)
Record system : Type := System {
  server_of : server;
  screen_of : Screen.t
}.

(** A request served on a new connection: the state of the server after
    the handler, and what the client receives. *)
Definition serve (h : handler unit) (srv : server)
  : outcome js_error payload * server :=
  let srv' := (h (Server (db srv) [] (svc srv))).2 in
  (received (sent srv'), srv').

(** A click on the scan button: nothing is sent when the input is blank
    (lines 66-69), and [handleScan] then ignores the outcome it is
    given. *)
Definition scanClick (W : env) (sys : system) : system :=
  let st := screen_of sys in
  if negb (truthy (trim (Form.links (form st))))
  then System (server_of sys) (handleScan (Ok (Refused "")) st)
  else
    let '(reply, srv') := serve (scanHandler W (scanBody st)) (server_of sys) in
    System srv' (handleScan reply st).

(** A click on the download button: nothing is sent when nothing is
    selected (lines 109-112), and [handleDownload] then ignores the
    outcome it is given. *)
Definition downloadClick (W : env) (sys : system) : system :=
  let st := screen_of sys in
  if bool_decide (length (selectedVideos st) = 0)
  then System (server_of sys) (handleDownload (Ok (Refused "")) st)
  else
    let '(reply, srv') :=
      serve (downloadHandler W (downloadBody st)) (server_of sys) in
    System srv' (handleDownload reply st).

(** ** The address helpers of videoService.ts *)

(** What [parseTikTokUrl] and [parseDouyinUrl] return: the [type] and the
    [id] of lines 180, 186, 189 and 191. *)
Inductive urlInfo : Type :=
| UrlVideo (id : option string)
| UrlUser (id : option string)
| UrlUnknown
| UrlInvalid.

Section urls.

(** [new URL(url).pathname], [None] when the constructor throws. *)
Context (pathnameOf : string → option string).

(** [parseTikTokUrl] (videoService.ts, lines 173-193) *)
Definition parseTikTokUrl (url : string) : urlInfo :=
  match pathnameOf url with
  | Some pathname =>
      if includes "/video/" pathname
      then UrlVideo (segmentAfter "/video/" "?" pathname)
      else if includes "/@" pathname
      then UrlUser (segmentAfter "/@" "/" pathname)
      else UrlUnknown
  | None => UrlInvalid
  end.

(** [parseDouyinUrl] (videoService.ts, lines 195-215) *)
Definition parseDouyinUrl (url : string) : urlInfo :=
  match pathnameOf url with
  | Some pathname =>
      if includes "/video/" pathname
      then UrlVideo (segmentAfter "/video/" "?" pathname)
      else if includes "/user/" pathname
      then UrlUser (segmentAfter "/user/" "/" pathname)
      else UrlUnknown
  | None => UrlInvalid
  end.

End urls.

(** ** The screen as a machine *)

(** What the user and the network can do to the screen. *)
Inductive event : Type :=
| Typed (f : Form.t)                                  (* lines 213-379 *)
| ScanClicked (reply : outcome js_error payload)      (* line 268 *)
| StopScanClicked                                     (* line 276 *)
| DownloadClicked (reply : outcome js_error payload)  (* line 342 *)
| StopDownloadClicked                                 (* line 350 *)
| DeleteClicked (confirmed : bool)                    (* line 357 *)
| SelectAllClicked                                    (* line 395 *)
| VideoClicked (videoId : string)                     (* line 422 *)
| RangeClicked                                        (* line 314 *)
| FilterClicked.                                      (* line 332 *)

Definition step (e : event) (st : Screen.t) : Screen.t :=
  match e with
  | Typed f => setForm f st
  | ScanClicked reply => handleScan reply st
  | StopScanClicked => handleStopScan st
  | DownloadClicked reply => handleDownload reply st
  | StopDownloadClicked => handleStopDownload st
  | DeleteClicked confirmed => handleDeleteList confirmed st
  | SelectAllClicked => handleSelectAll st
  | VideoClicked videoId => handleSelectVideo videoId st
  | RangeClicked => handleSelectRange st
  | FilterClicked => handleFilterByViews st
  end.

(** The check box of a video exists only on a row the table shows (lines
    410-422); the other controls are always there. *)
Definition offered (e : event) (st : Screen.t) : Prop :=
  match e with
  | VideoClicked videoId => videoId ∈ id <$> filteredVideos st
  | _ => True
  end.

(** The selection is a set, and it selects videos of the list. *)
Definition selection_ok (st : Screen.t) : Prop :=
  NoDup (selectedVideos st) ∧ selectedVideos st ⊆ id <$> videos st.

(** The classification without the test that cannot succeed. *)
Definition classify_ref (trimmed : string) : lineKind :=
  if includes "/video/" trimmed then VideoLine
  else if includes "/@" trimmed then ProfileLine
  else if startsWith "#" trimmed then HashtagLine
  else if includes "tiktok.com" trimmed || includes "douyin.com" trimmed
  then VideoLine
  else OtherLine.

(** The lines of the input that go to the list of a kind. *)
Definition linesOf (k : lineKind) (input : string) : list string :=
  filter (λ t, classify t = k) (trim <$> inputLines input).

(** ** Screens used as examples *)

(** Four lines: a video link, a profile with a trailing space, a blank
    line and a hashtag. *)
Definition demoInput : string :=
  "https://www.tiktok.com/@ann/video/7234" +:+ newline +:+
  "https://www.tiktok.com/@ann " +:+ newline +:+
  "   " +:+ newline +:+
  "#fun".

(** A second record, with fewer views. *)
Definition otherVideo : VideoItem :=
  MkVideoItem "user_99" "99" "Another title" "" 5 10 "ann"
    "https://cdn.example/99.jpg" "" "tiktok" false Pending.

(** The screen after a scan that found two videos, the second of them
    selected, and a filter on 1000 views typed in. *)
Definition shownScreen : Screen.t :=
  Screen.Make (Form.Make "tiktok" demoInput "" 1 2 1000 true "")
    false false [demoVideo; otherVideo] ["user_99"] 0 0 [].

(** The same video scanned twice. *)
Definition doubledScreen : Screen.t :=
  setVideos [demoVideo; demoVideo] initialScreen.

(** ** Lemmas *)

Section lemmas.
Implicit Types (s : jsSet) (x y : string) (l : list string) (st : Screen.t).

(** *** Sets *)

Lemma elem_of_setAdd s x y : y ∈ setAdd s x ↔ y ∈ s ∨ y = x.
Proof.
  unfold setAdd, setHas. case_bool_decide.
  - naive_solver.
  - rewrite elem_of_app, list_elem_of_singleton. naive_solver.
Qed.

Lemma setAdd_NoDup s x : NoDup s → NoDup (setAdd s x).
Proof.
  unfold setAdd, setHas. intros Hs. case_bool_decide; [done|].
  apply NoDup_app. split_and!; [done| |apply NoDup_singleton].
  by intros y Hy ->%list_elem_of_singleton.
Qed.

Lemma setAdd_length s x : length s ≤ length (setAdd s x) ≤ S (length s).
Proof.
  unfold setAdd. destruct (setHas s x); rewrite ?length_app; simpl; lia.
Qed.

(** [new Set] from an accumulator. *)
Lemma setOf_from l s :
  NoDup s →
  NoDup (foldl setAdd s l) ∧
  (∀ y, y ∈ foldl setAdd s l ↔ y ∈ s ∨ y ∈ l) ∧
  length (foldl setAdd s l) ≤ length s + length l.
Proof.
  revert s. induction l as [|x l IH]; intros s Hs; simpl.
  - split_and!; [done| |lia]. intros y. rewrite elem_of_nil. naive_solver.
  - destruct (IH (setAdd s x) (setAdd_NoDup s x Hs)) as (Hn & Hin & Hlen).
    split_and!; [done| |].
    + intros y. rewrite Hin, elem_of_setAdd, elem_of_cons. naive_solver.
    + pose proof (setAdd_length s x). lia.
Qed.

Lemma setOf_NoDup l : NoDup (setOf l).
Proof. apply (setOf_from l []), NoDup_nil_2. Qed.

Lemma elem_of_setOf l y : y ∈ setOf l ↔ y ∈ l.
Proof.
  destruct (setOf_from l [] (NoDup_nil_2 (A:=string))) as (_ & H & _).
  unfold setOf. rewrite H, elem_of_nil. naive_solver.
Qed.

Lemma setOf_length l : length (setOf l) ≤ length l.
Proof. by destruct (setOf_from l [] (NoDup_nil_2 (A:=string))) as (_ & _ & H). Qed.

(** A list without repetition is its own set. *)
Lemma setOf_from_NoDup l s : NoDup (s ++ l) → foldl setAdd s l = s ++ l.
Proof.
  revert s. induction l as [|x l IH]; intros s Hs; simpl.
  - by rewrite app_nil_r.
  - assert (setAdd s x = s ++ [x]) as ->.
    { unfold setAdd, setHas. rewrite bool_decide_false; [done|].
      apply NoDup_app in Hs as (_ & Hx & _). intros Hin.
      apply (Hx x Hin). by left. }
    rewrite IH, <- (assoc_L (++)); [done|]. by rewrite <- (assoc_L (++)).
Qed.

Lemma setOf_NoDup_id l : NoDup l → setOf l = l.
Proof. intros H. by apply (setOf_from_NoDup l []). Qed.

(** The set is as long as the list only when nothing repeats. *)
Lemma setOf_length_NoDup l : length (setOf l) = length l ↔ NoDup l.
Proof.
  split; [|by intros ->%setOf_NoDup_id].
  intros Hlen. assert (setOf l ⊆+ l) as Hsub.
  { apply NoDup_submseteq; [apply setOf_NoDup|]. intros y. by rewrite elem_of_setOf. }
  apply submseteq_length_Permutation in Hsub; [|lia].
  rewrite <- Hsub. apply setOf_NoDup.
Qed.

Lemma elem_of_setDelete s x y : y ∈ setDelete s x ↔ y ∈ s ∧ y ≠ x.
Proof. unfold setDelete. rewrite list_elem_of_filter. naive_solver. Qed.

Lemma setDelete_NoDup s x : NoDup s → NoDup (setDelete s x).
Proof. apply NoDup_filter. Qed.

(** *** The input box *)

Lemma classify_eq_ref t : classify t = classify_ref t.
Proof.
  unfold classify, classify_ref.
  destruct (includes "/video/" t); [done|].
  by destruct (includes "/@" t).
Qed.

(** The loop of [parseInput] appends to each list the lines of its kind. *)
Lemma foldl_pushLine acc lines :
  let kept k := filter (λ t, classify t = k) (trim <$> lines) in
  foldl pushLine acc lines
  = ParsedInput.Make (ParsedInput.videoLinks acc ++ kept VideoLine)
      (ParsedInput.userProfiles acc ++ kept ProfileLine)
      (ParsedInput.hashtags acc ++ kept HashtagLine).
Proof.
  revert acc. induction lines as [|line lines IH]; intros acc; simpl.
  - rewrite !app_nil_r. by destruct acc.
  - rewrite IH. unfold pushLine. rewrite !filter_cons.
    destruct (classify (trim line)); simpl; by rewrite <- ?(assoc_L (++)).
Qed.

Lemma inputLines_trimmed input t :
  t ∈ trim <$> inputLines input → t ≠ "" ∧ trim t = t.
Proof.
  intros (line & -> & Hline)%list_elem_of_fmap.
  apply list_elem_of_filter in Hline as [Hline _].
  split; [|apply trim_idemp]. by destruct (trim line).
Qed.

Lemma linesOf_elem k input t :
  t ∈ linesOf k input → classify t = k ∧ t ≠ "" ∧ trim t = t.
Proof.
  intros [Hk Ht]%list_elem_of_filter. split; [done|].
  by apply (inputLines_trimmed input).
Qed.

(** *** The handlers *)

Lemma markCompleted_id s video : id (markCompleted s video) = id video.
Proof. unfold markCompleted. by destruct (setHas s (id video)). Qed.

Lemma markCompleted_ids s (l : list VideoItem) :
  id <$> (markCompleted s <$> l) = id <$> l.
Proof.
  rewrite <- list_fmap_compose. apply list_fmap_ext. intros i v _.
  apply markCompleted_id.
Qed.

Lemma filteredVideos_subseteq st : filteredVideos st ⊆ videos st.
Proof. intros v [_ Hv]%list_elem_of_filter. done. Qed.

Lemma slice_subseteq {A} first last (l : list A) : slice first last l ⊆ l.
Proof.
  unfold slice. etrans; [apply subseteq_take|apply subseteq_drop].
Qed.

(** [handleScan] once the input is not blank: the list is what a
    successful result carries, the selection is empty, and one alert is
    shown. *)
Lemma handleScan_run reply st :
  truthy (trim (Form.links (form st))) = true →
  let scanResult := (clientScanVideos reply).1 in
  handleScan reply st
  = Screen.Make (form st) false (isDownloading st)
      (if ScanResult.success scanResult then ScanResult.videos scanResult else [])
      [] 0 (downloadProgress st)
      (alerts st ++
       [if ScanResult.success scanResult
        then ScanDone (length (ScanResult.videos scanResult))
        else ScanFailed (ScanResult.message scanResult)]).
Proof.
  intros Hlinks. unfold handleScan. rewrite Hlinks. simpl.
  destruct reply as [data|error]; simpl; [|done].
  destruct (successOf data) eqn:E; simpl; by rewrite ?E.
Qed.

(** [handleDownload] once something is selected. *)
Lemma handleDownload_run reply st :
  selectedVideos st ≠ [] →
  let downloadResult := (clientDownloadVideos reply).1 in
  handleDownload reply st
  = Screen.Make (form st) (isScanning st) false
      (if DownloadResult.success downloadResult
       then markCompleted (selectedVideos st) <$> videos st else videos st)
      (if DownloadResult.success downloadResult then [] else selectedVideos st)
      (scanProgress st) 0
      (alerts st ++
       [if DownloadResult.success downloadResult
        then DownloadDone (DownloadResult.downloadedCount downloadResult)
        else DownloadFailed (DownloadResult.message downloadResult)]).
Proof.
  intros Hsel. unfold handleDownload. rewrite bool_decide_false.
  2: { by destruct (selectedVideos st). }
  destruct reply as [data|error]; simpl; [|done].
  destruct (successOf data) eqn:E; simpl; by rewrite ?E.
Qed.

(** *** The selection *)

Lemma selection_ok_nil st (vs : list VideoItem) :
  selection_ok (setSelectedVideos [] (setVideos vs st)).
Proof. split; simpl; [constructor|]. by intros x ?%elem_of_nil. Qed.

Lemma selection_ok_setOf st (l : list VideoItem) :
  l ⊆ videos st → selection_ok (setSelectedVideos (setOf (id <$> l)) st).
Proof.
  intros Hl. split; simpl; [apply setOf_NoDup|].
  intros x (v & -> & Hv)%elem_of_setOf%list_elem_of_fmap.
  apply list_elem_of_fmap. eauto.
Qed.

Lemma handleScan_selection reply st :
  selection_ok st → selection_ok (handleScan reply st).
Proof.
  intros Hok. destruct (truthy (trim (Form.links (form st)))) eqn:E.
  - rewrite handleScan_run by done. split; simpl; [constructor|].
    by intros x ?%elem_of_nil.
  - unfold handleScan. by rewrite E.
Qed.

Lemma handleDownload_selection reply st :
  selection_ok st → selection_ok (handleDownload reply st).
Proof.
  intros Hok. destruct (decide (selectedVideos st = [])) as [E|E].
  - unfold handleDownload. rewrite E. exact Hok.
  - rewrite handleDownload_run by done.
    destruct (DownloadResult.success _); [|done].
    split; simpl; [constructor|]. by intros y ?%elem_of_nil.
Qed.

Lemma handleSelectAll_selection st :
  selection_ok st → selection_ok (handleSelectAll st).
Proof.
  intros Hok. unfold handleSelectAll. case_bool_decide.
  - split; simpl; [constructor|]. by intros y ?%elem_of_nil.
  - by apply selection_ok_setOf.
Qed.

Lemma handleSelectVideo_selection videoId st :
  videoId ∈ id <$> videos st →
  selection_ok st → selection_ok (handleSelectVideo videoId st).
Proof.
  intros Hid [Hn Hsub]. unfold handleSelectVideo.
  destruct (setHas _ _); split; simpl.
  - by apply setDelete_NoDup.
  - intros y [Hy _]%elem_of_setDelete. by apply Hsub.
  - by apply setAdd_NoDup.
  - intros y [Hy| ->]%elem_of_setAdd; [by apply Hsub|done].
Qed.

Lemma handleSelectRange_selection st :
  selection_ok st → selection_ok (handleSelectRange st).
Proof.
  intros Hok. unfold handleSelectRange.
  destruct (_ && _); [|done]. apply selection_ok_setOf, slice_subseteq.
Qed.

Lemma handleDeleteList_selection confirmed st :
  selection_ok st → selection_ok (handleDeleteList confirmed st).
Proof.
  intros Hok. destruct confirmed; [|done]. apply selection_ok_nil.
Qed.

(** Under a sound selection the box [select all] is checked only when the
    ids do not repeat and all are selected. *)
Lemma all_selected_iff st :
  selection_ok st →
  length (selectedVideos st) = length (videos st)
  ↔ NoDup (id <$> videos st) ∧ selectedVideos st ≡ₚ id <$> videos st.
Proof.
  intros [Hn Hsub]. split.
  - intros Hlen. apply NoDup_submseteq in Hsub; [|done].
    apply submseteq_length_Permutation in Hsub.
    + split; [by rewrite <- Hsub|done].
    + rewrite length_fmap. lia.
  - intros [_ ->]. by rewrite length_fmap.
Qed.

(** *** The wire *)

Lemma axiosPost_scanAnswer result :
  axiosPost (scanAnswer result)
  = if ScanResult.success result
    then Ok (ScanAnswer result)
    else Throw (JsError "AxiosError" "Request failed with status code 400").
Proof.
  unfold axiosPost, scanAnswer. by destruct (ScanResult.success result).
Qed.

(** What the wrapper makes of the first answer of the scan handler: the
    result itself when it reports success, and the message of axios
    otherwise. *)
Lemma scanVideos_received result :
  (clientScanVideos (axiosPost (scanAnswer result))).1
  = if ScanResult.success result
    then result
    else ScanResult.Make false [] None
           (Some "Request failed with status code 400").
Proof.
  rewrite axiosPost_scanAnswer.
  destruct result as [[] vs n m]; simpl; done.
Qed.

(** A scan request served: the client receives the first answer of the
    handler, whether or not a second one followed. *)
Lemma serve_scan W body srv :
  ∃ result svc1,
    scanVideos W (scanParams body) newService = (Ok result, svc1) ∧
    result_ok (scanParams body) result ∧
    (serve (scanHandler W body) srv).1 = axiosPost (scanAnswer result) ∧
    db (serve (scanHandler W body) srv).2 = scanSaved (db srv) result.
Proof.
  destruct (scanHandler_run W body (Server (db srv) [] (svc srv)))
    as (result & svc1 & E & Hok & Hrun).
  exists result, svc1. split_and!; [done..| |]; unfold serve; rewrite Hrun;
    simpl; by destruct (closeBrowser W svc1) as [[[]|e] svc2].
Qed.

Lemma scanClick_run W srv st :
  truthy (trim (Form.links (form st))) = true →
  scanClick W (System srv st)
  = System (serve (scanHandler W (scanBody st)) srv).2
      (handleScan (serve (scanHandler W (scanBody st)) srv).1 st).
Proof.
  intros Hlinks. unfold scanClick. cbn [server_of screen_of].
  rewrite Hlinks. by destruct (serve _ srv).
Qed.

Lemma downloadClick_run W srv st :
  selectedVideos st ≠ [] →
  downloadClick W (System srv st)
  = System (serve (downloadHandler W (downloadBody st)) srv).2
      (handleDownload (serve (downloadHandler W (downloadBody st)) srv).1 st).
Proof.
  intros Hsel. unfold downloadClick. cbn [server_of screen_of].
  rewrite bool_decide_false by by destruct (selectedVideos st).
  by destruct (serve _ srv).
Qed.

(** The ids of a sound selection of scanned records denote no row. *)
Lemma selected_missing d st :
  selection_ok st → Forall wf_item (videos st) →
  Forall (λ v, getVideo d v = None) (IdStr <$> selectedVideos st).
Proof.
  intros [_ Hsub] Hwf. apply Forall_fmap, Forall_forall. intros x Hx. simpl.
  apply Hsub, list_elem_of_fmap in Hx as (video & -> & Hvideo).
  rewrite Forall_forall in Hwf.
  apply getVideo_None, Forall_forall. intros r _. unfold hasKey.
  by rewrite (sqlInteger_scanned video (Hwf video Hvideo)).
Qed.

(** A download request for such ids served: every id is reported missing
    and the server is left as it was. *)
Lemma serve_download_missing W srv st :
  selection_ok st → Forall wf_item (videos st) → selectedVideos st ≠ [] →
  let ids := IdStr <$> selectedVideos st in
  serve (downloadHandler W (downloadBody st)) srv
  = (Ok (Downloaded 0 [] (Some (notFound <$> ids))),
     Server (db srv) [Response 200 (Downloaded 0 [] (Some (notFound <$> ids)))]
       newService).
Proof.
  intros Hok Hwf Hsel ids.
  destruct (downloadHandler_run W (downloadBody st) ids
              (Server (db srv) [] (svc srv)) eq_refl)
    as (acc & st1 & E & _ & _ & Hrun).
  { unfold ids. by destruct (selectedVideos st). }
  rewrite downloadLoop_missing in E by by apply selected_missing.
  injection E as <- <-. unfold serve. rewrite Hrun. simpl.
  unfold downloadAnswer, ids. simpl. by destruct (selectedVideos st).
Qed.

(** *** The address helpers *)

(** The two parsers differ in the marker of a user only: on a path
    without [/@] and [/user/] they agree. *)
Lemma parseUrl_agree pathnameOf url pathname :
  pathnameOf url = Some pathname →
  includes "/@" pathname = false → includes "/user/" pathname = false →
  parseTikTokUrl pathnameOf url = parseDouyinUrl pathnameOf url.
Proof.
  intros Hp Hat Huser. unfold parseTikTokUrl, parseDouyinUrl.
  by rewrite Hp, Hat, Huser.
Qed.

(** A video path wins over a user path, as in [classify]. *)
Lemma parseTikTokUrl_video pathnameOf url pathname :
  pathnameOf url = Some pathname → includes "/video/" pathname = true →
  parseTikTokUrl pathnameOf url = UrlVideo (segmentAfter "/video/" "?" pathname).
Proof. intros Hp Hv. unfold parseTikTokUrl. by rewrite Hp, Hv. Qed.

(** *** The example screens *)

Lemma otherVideo_wf : wf_item otherVideo.
Proof. split; try done. exists "user_". split; [by right; left|done]. Qed.

Lemma shownScreen_wf : Forall wf_item (videos shownScreen).
Proof.
  apply Forall_cons. split; [apply demoVideo_wf|].
  apply Forall_singleton, otherVideo_wf.
Qed.

Lemma shownScreen_ok : selection_ok shownScreen.
Proof.
  split; simpl; [apply NoDup_singleton|].
  intros x ->%list_elem_of_singleton. by right; left.
Qed.

Lemma doubledScreen_ok : selection_ok doubledScreen.
Proof. split; simpl; [constructor|]. by intros x ?%elem_of_nil. Qed.

(** The filter on views can leave the id of a removed video selected. *)
Lemma filter_breaks_selection :
  selection_ok shownScreen ∧ ¬ selection_ok (handleFilterByViews shownScreen).
Proof.
  split; [apply shownScreen_ok|]. intros [_ Hsub].
  specialize (Hsub "user_99"). simpl in Hsub.
  by apply elem_of_nil in Hsub; [|left].
Qed.

End lemmas.

(** ** Properties *)

Section properties.
Implicit Types (st : Screen.t) (srv : server).

(** C25. [parseInput] sorts the non-blank lines of the input into three
    lists by the first test a line passes, keeping their order and
    trimming them: the video links are the lines that contain [/video/],
    or a site name and no [/@]; the profiles are the other lines that
    contain [/@]; the hashtags are the other lines that start with [#];
    every other line is dropped.  No entry is empty or padded. *)
Theorem parseInput_spec input :
  parseInput input
  = ParsedInput.Make (linesOf VideoLine input) (linesOf ProfileLine input)
      (linesOf HashtagLine input) ∧
  ∀ k t, t ∈ linesOf k input → classify_ref t = k ∧ t ≠ "" ∧ trim t = t.
Proof.
  split; [apply (foldl_pushLine (ParsedInput.Make [] [] []))|].
  intros k t Ht. rewrite <- classify_eq_ref. by apply (linesOf_elem k input).
Qed.


(** The filter on views removes videos from the list and leaves the
    selection as it is: ids of removed videos stay selected, and the next
    download request carries them. *)
Theorem filter_keeps_selection st :
  selectedVideos (handleFilterByViews st) = selectedVideos st ∧
  downloadBody (handleFilterByViews st) = downloadBody st ∧
  (∀ video, video ∈ videos (handleFilterByViews st) ↔
            video ∈ videos st ∧
            (0 < Form.filterViews (form st) →
             Form.filterViews (form st) ≤ views video)%N).
Proof.
  unfold handleFilterByViews. case_bool_decide; simpl.
  - split_and!; [done..|]. intros video. rewrite list_elem_of_filter.
    naive_solver.
  - split_and!; [done..|]. intros video. naive_solver.
Qed.

(** C39. [Select all] clears the selection exactly when the ids of the list
    do not repeat and all of them are selected; in every other state it
    selects the ids of the whole list.  When two videos of the list share
    an id, no click on it ever clears the selection. *)
Theorem handleSelectAll_spec st :
  selection_ok st →
  let ids := id <$> videos st in
  if decide (NoDup ids ∧ selectedVideos st ≡ₚ ids)
  then selectedVideos (handleSelectAll st) = []
  else selectedVideos (handleSelectAll st) = setOf ids ∧
       (ids ≠ [] → selectedVideos (handleSelectAll st) ≠ []).
Proof.
  intros Hok ids. pose proof (all_selected_iff st Hok) as Hall.
  unfold handleSelectAll. case_decide as Hd.
  - by rewrite bool_decide_true by by apply Hall.
  - rewrite bool_decide_false by by rewrite Hall. simpl. split; [done|].
    intros Hne Hnil. apply Hne, elem_of_nil_inv. intros x Hx.
    apply (proj2 (elem_of_setOf _ _)) in Hx. unfold ids in Hx.
    rewrite Hnil in Hx. by apply elem_of_nil in Hx.
Qed.

(** C12. A click on the scan button with a non-blank input: the server
    runs the batch on the parsed input and saves the records of a
    successful result; the screen then lists exactly those records, with
    an empty selection, and reports their number.  When the batch failed
    the server answers 400, axios rejects, and the screen shows the
    message of axios, not the message of the server. *)
Theorem scanClick_spec W srv st :
  truthy (trim (Form.links (form st))) = true →
  ∃ result svc1,
    scanVideos W (scanParams (scanBody st)) newService = (Ok result, svc1) ∧
    result_ok (scanParams (scanBody st)) result ∧
    let sys := scanClick W (System srv st) in
    db (server_of sys) = scanSaved (db srv) result ∧
    selectedVideos (screen_of sys) = [] ∧
    isScanning (screen_of sys) = false ∧
    if ScanResult.success result
    then videos (screen_of sys) = ScanResult.videos result ∧
         alerts (screen_of sys)
         = alerts st ++ [ScanDone (length (ScanResult.videos result))]
    else videos (screen_of sys) = [] ∧
         alerts (screen_of sys)
         = alerts st ++
           [ScanFailed (Some "Request failed with status code 400")].
Proof.
  intros Hlinks.
  destruct (serve_scan W (scanBody st) srv)
    as (result & svc1 & E & Hok & Hreply & Hdb).
  exists result, svc1. split_and!; [done..|].
  rewrite scanClick_run by done. cbn [server_of screen_of].
  rewrite Hreply, handleScan_run by done. cbv zeta.
  rewrite !scanVideos_received. cbn [videos selectedVideos isScanning alerts].
  destruct (ScanResult.success result) eqn:Es; simpl; by rewrite ?Es.
Qed.

(** C11. A click on the download button after a scan: the selected ids are
    ids of scanned records, which denote no row of the table, so the
    server writes no file and marks no row, and answers success with a
    count of 0; the screen nevertheless marks every selected video as
    downloaded and completed, clears the selection and reports the
    count 0. *)
Theorem downloadClick_marks_undownloaded W srv st :
  selection_ok st → Forall wf_item (videos st) → selectedVideos st ≠ [] →
  let sys := downloadClick W (System srv st) in
  db (server_of sys) = db srv ∧
  trace (svc (server_of sys)) = [] ∧
  sent (server_of sys)
  = [Response 200
       (Downloaded 0 []
          (Some (notFound <$> (IdStr <$> selectedVideos st))))] ∧
  videos (screen_of sys) = markCompleted (selectedVideos st) <$> videos st ∧
  selectedVideos (screen_of sys) = [] ∧
  alerts (screen_of sys) = alerts st ++ [DownloadDone 0].
Proof.
  intros Hok Hwf Hsel. rewrite downloadClick_run by done.
  rewrite serve_download_missing by done. cbn [server_of screen_of fst snd].
  by rewrite handleDownload_run by done.
Qed.

End properties.


Lemma handleSelectAll_spec_witness :
  selectedVideos (handleSelectAll doubledScreen) ≠ [].
Proof.
  pose proof (handleSelectAll_spec doubledScreen doubledScreen_ok) as H.
  simpl in H. by apply H.
Defined.

Lemma scanClick_spec_witness :
  let sys := scanClick still (System (idle emptyDb) shownScreen) in
  selectedVideos (screen_of sys) = [] ∧ isScanning (screen_of sys) = false.
Proof.
  destruct (scanClick_spec still (idle emptyDb) shownScreen eq_refl)
    as (result & svc1 & _ & _ & _ & Hsel & Hscan & _).
  by split.
Defined.

Lemma downloadClick_marks_undownloaded_witness :
  let sys := downloadClick still (System (idle demoDb) shownScreen) in
  db (server_of sys) = demoDb ∧
  trace (svc (server_of sys)) = [] ∧
  downloaded <$> videos (screen_of sys) = [false; true] ∧
  alerts (screen_of sys) = [DownloadDone 0].
Proof.
  destruct (downloadClick_marks_undownloaded still (idle demoDb) shownScreen)
    as (Hdb & Htrace & _ & Hvideos & _ & Halerts);
    [apply shownScreen_ok|apply shownScreen_wf|done|].
  cbv zeta. by rewrite Hdb, Htrace, Hvideos, Halerts.
Defined.

End Client.
