(* ===== verification/Async.v ===== *)
(** * Async: the scan screen between a click and its answer

    [handleScan] and [handleDownload] of [VideoScanner.tsx] are [async]:
    after the click they set the state, call the wrapper of
    [videoService.ts] and return; the rest runs when the wrapper
    returns, and the wrapper itself waits for [axios.post] and then, on
    success, for a timer after each call of [onProgress].  Between these
    points React renders and the user goes on clicking; the buttons are
    there or not as the [disabled] attributes of the render say.

    [Client] gives each handler as one function of the outcome of the
    request.  Here the calls in flight are part of the state; a click
    starts one, [Reply] and [Tick] move it, and the continuation of the
    handler runs when it ends, on the state of the screen at that
    moment with the values the closure captured at the click.  The atomic
    handlers of [Client] are the runs in which nothing happens in
    between. *)

From stdpp Require Import pretty.
From S2P Require Import Prelude JsString Effects Machine Session Extract.
From S2P Require Import Orchestrator Server Client.
Import Session Extract Orchestrator Server Client Client.Screen.

Module Async.

(** ** videoService.ts *)

(** [mockVideos] (lines 47-90); the objects have no [platform]. *)
Definition mockVideos : list VideoItem := [
  MkVideoItem "1" "7303728609955515653" "Video TikTok đẹp #1"
    "Nội dung video TikTok rất thú vị và hấp dẫn" 15000 150000
    "@vzry4n.cenas"
    "https://via.placeholder.com/160x120/ff0000/ffffff?text=TikTok"
    "https://example.com/video1.mp4" "" false Pending;
  MkVideoItem "2" "7303728609955515654" "Video TikTok hay #2"
    "Nội dung video TikTok rất thú vị và hấp dẫn" 25000 250000
    "@hieuhayho"
    "https://via.placeholder.com/160x120/00ff00/ffffff?text=TikTok"
    "https://example.com/video2.mp4" "" false Pending;
  MkVideoItem "3" "7303728609955515655" "Video TikTok hot #3"
    "Nội dung video TikTok rất thú vị và hấp dẫn" 35000 350000
    "@user123"
    "https://via.placeholder.com/160x120/0000ff/ffffff?text=TikTok"
    "https://example.com/video3.mp4" "" false Pending
].

(** [Math.floor(Math.random() * n)] for a draw of the generator. *)
Definition floorRandom (n draw : N) : N := (draw mod n)%N.

(** The digit of value [d] in [toString(16)]. *)
Definition hexChar (d : N) : ascii :=
  if (d <? 10)%N then ascii_of_N (48 + d) else ascii_of_N (87 + d).

(** [n.toString(16)] for [n] below 16^[digits]; the leading zeros are not
    written. *)
Fixpoint toHex (digits : nat) (n : N) : string :=
  match digits with
  | 0 => ""
  | S digits =>
      (if (n <? 16)%N then "" else toHex digits (n / 16)%N)
      +:+ String (hexChar (n mod 16)%N) ""
  end.

(** What [extractVideoMetadata] returns (lines 225-233). *)
Module Metadata.
Record Metadata : Type := Make {
  title : string;
  content : string;
  likes : N;
  views : N;
  uploader : string;
  thumbnail_url : string;
  video_url : string
}.
Abbreviation t := Metadata.
End Metadata.

(** [extractVideoMetadata] (lines 216-238) for the four draws of
    [Math.random], in the order of the calls; the [cookies] are not
    read. *)
Definition extractVideoMetadata (videoId platform : string)
    (draw1 draw2 draw3 draw4 : N) : Metadata.t :=
  Metadata.Make
    ("Video " +:+ videoId)
    ("Nội dung video " +:+ videoId)
    (floorRandom 50000 draw1 + 1000)
    (floorRandom 500000 draw2 + 10000)
    ("@user" +:+ pretty (floorRandom 1000 draw3))
    ("https://via.placeholder.com/160x120/"
     +:+ toHex 6 (floorRandom 16777215 draw4) +:+ "/ffffff?text=" +:+ platform)
    ("https://example.com/video_" +:+ videoId +:+ ".mp4").

(** What [downloadVideoWithoutWatermark] returns (lines 253-257). *)
Module Saved.
Record Saved : Type := Make {
  success : bool;
  filePath : string;
  size : N
}.
Abbreviation t := Saved.
End Saved.

(** [downloadVideoWithoutWatermark] (lines 240-263) for the draw of
    [Math.random]. *)
Definition downloadVideoWithoutWatermark (videoId platform : string) (draw : N)
  : Saved.t :=
  Saved.Make true
    ("downloads/" +:+ platform +:+ "_" +:+ videoId +:+ "_no_watermark.mp4")
    (floorRandom 10000000 draw + 1000000).

(** [for (let i = 0; i <= 100; i += step) { onProgress(i); await ... }]
    (lines 106-109, 147-150) from a value of [i]: the arguments of
    [onProgress], or [None] when the fuel does not reach the end of the
    loop. *)
Fixpoint progressLoop (fuel step i : nat) : option (list nat) :=
  if decide (i ≤ 100)
  then match fuel with
       | 0 => None
       | S fuel => cons i <$> progressLoop fuel step (i + step)
       end
  else Some [].

(** The rounds of the loop from [i]. *)
Definition rounds (step i : nat) : nat := S ((100 - i) / step).

(** ** A call in flight *)

(** The call a handler made, with what its continuation captured:
    [selectedVideos] of the render in which the button was clicked
    (VideoScanner.tsx, lines 129-131). *)
Inductive job : Type :=
| ScanJob
| DownloadJob (selected : jsSet).

(** The wrapper waits for [axios.post] (lines 96, 137), or for the timer
    of the loop after [onProgress(i)] (lines 108, 149). *)
Inductive phase : Type :=
| Posted
| Looping (data : payload) (i : nat).

Record call : Type := Call {
  job_of : job;
  phase_of : phase
}.

(** The screen and the calls in flight, oldest first. *)
Record app : Type := App {
  screen : Screen.t;
  calls : list call
}.

Definition initialApp : app := App initialScreen [].

(** The increment of the loop (lines 106, 147). *)
Definition stepOf (j : job) : nat :=
  match j with ScanJob => 20 | DownloadJob _ => 10 end.

(** [params.onProgress] (VideoScanner.tsx, lines 84, 124). *)
Definition onProgress (j : job) (progress : nat) (st : Screen.t) : Screen.t :=
  match j with
  | ScanJob => setScanProgress progress st
  | DownloadJob _ => setDownloadProgress progress st
  end.

(** What a wrapper returns: [ScanResult] or [DownloadResult]. *)
Definition returned (j : job) : Type :=
  match j with
  | ScanJob => ScanResult.t
  | DownloadJob _ => DownloadResult.t
  end.

(** [return response.data] (lines 112, 153). *)
Definition returnData (j : job) (data : payload) : returned j :=
  match j return returned j with
  | ScanJob =>
      ScanResult.Make (successOf data) (videosOf data) (totalCountOf data)
        (messageOf data)
  | DownloadJob _ =>
      DownloadResult.Make (successOf data) (downloadedCountOf data)
        (messageOf data) (errorsOf data)
  end.

(** The object of the [else] and [catch] branches (lines 114-118,
    123-127, 155-159, 164-168). *)
Definition returnFailure (j : job) (message : string) : returned j :=
  match j return returned j with
  | ScanJob => ScanResult.Make false [] None (Some message)
  | DownloadJob _ => DownloadResult.Make false 0 (Some message) None
  end.

(** [response.data.message || '... failed'] (lines 117, 158). *)
Definition failureMessage (j : job) (data : payload) : string :=
  opt_or_else (messageOf data)
    match j with ScanJob => "Scan failed" | DownloadJob _ => "Download failed" end.

(** The handler after [await] (VideoScanner.tsx, lines 87-99 and
    127-143): the branch on [success], then [finally].  The videos marked
    are those of the state at this moment ([prev]) that the captured
    selection holds. *)
Definition continue (j : job) : returned j → Screen.t → Screen.t :=
  match j return returned j → Screen.t → Screen.t with
  | ScanJob => λ scanResult st,
      let st :=
        if ScanResult.success scanResult
        then showAlert (ScanDone (length (ScanResult.videos scanResult)))
               (setVideos (ScanResult.videos scanResult) st)
        else showAlert (ScanFailed (ScanResult.message scanResult)) st in
      setScanProgress 0 (setIsScanning false st)
  | DownloadJob selected => λ downloadResult st,
      let st :=
        if DownloadResult.success downloadResult
        then setSelectedVideos []
               (setVideos (markCompleted selected <$> videos st)
                  (showAlert
                     (DownloadDone (DownloadResult.downloadedCount downloadResult))
                     st))
        else showAlert (DownloadFailed (DownloadResult.message downloadResult)) st in
      setDownloadProgress 0 (setIsDownloading false st)
  end.

(** The call [n] ends: its handler continues and the call is gone. *)
Definition finish (n : nat) (j : job) (r : returned j) (a : app) : app :=
  App (continue j r (screen a)) (delete n (calls a)).

(** The head of the loop with a value of [i] (lines 106-109, 147-150):
    another round, or [return response.data]. *)
Definition loopHead (n : nat) (j : job) (data : payload) (i : nat) (a : app) : app :=
  if decide (i ≤ 100)
  then App (onProgress j i (screen a)) (<[n := Call j (Looping data i)]> (calls a))
  else finish n j (returnData j data) a.

(** [axios.post] of the call [n] settles (lines 96-129, 137-169). *)
Definition settle (n : nat) (reply : outcome js_error payload) (a : app) : app :=
  match calls a !! n with
  | Some (Call j Posted) =>
      match reply with
      | Ok data =>
          if successOf data then loopHead n j data 0 a
          else finish n j (returnFailure j (failureMessage j data)) a
      | Throw error => finish n j (returnFailure j (message error)) a
      end
  | _ => a
  end.

(** The timer of the call [n] fires: [i += step] and the head of the
    loop. *)
Definition onTimer (n : nat) (a : app) : app :=
  match calls a !! n with
  | Some (Call j (Looping data i)) => loopHead n j data (i + stepOf j) a
  | _ => a
  end.

(** ** The clicks *)

(** [handleScan] up to its [await] (VideoScanner.tsx, lines 65-85). *)
Definition startScan (a : app) : app :=
  let st := screen a in
  if negb (truthy (trim (Form.links (form st))))
  then App (showAlert NoInput st) (calls a)
  else App (setSelectedVideos []
              (setVideos [] (setScanProgress 0 (setIsScanning true st))))
           (calls a ++ [Call ScanJob Posted]).

(** [handleDownload] up to its [await] (lines 108-125). *)
Definition startDownload (a : app) : app :=
  let st := screen a in
  if bool_decide (length (selectedVideos st) = 0)
  then App (showAlert NoSelection st) (calls a)
  else App (setDownloadProgress 0 (setIsDownloading true st))
           (calls a ++ [Call (DownloadJob (selectedVideos st)) Posted]).

(** The [disabled] attributes of the buttons (lines 269, 277, 343, 351,
    358). *)
Definition scanDisabled (st : Screen.t) : bool := isScanning st.

Definition stopScanDisabled (st : Screen.t) : bool := negb (isScanning st).

Definition downloadDisabled (st : Screen.t) : bool :=
  isDownloading st
  || bool_decide (length (selectedVideos st) = 0)
  || bool_decide (length (videos st) = 0).

Definition stopDownloadDisabled (st : Screen.t) : bool :=
  negb (isDownloading st).

Definition deleteDisabled (st : Screen.t) : bool :=
  bool_decide (length (videos st) = 0).

(** ** The machine *)

Inductive move : Type :=
| ScanStart                                      (* a click on [Quét] *)
| DownloadStart                                  (* a click on the download button *)
| Other (e : event)                              (* another event of the screen *)
| Reply (n : nat) (reply : outcome js_error payload)
| Tick (n : nat).

Definition act (m : move) (a : app) : app :=
  match m with
  | ScanStart => startScan a
  | DownloadStart => startDownload a
  | Other e => App (step e (screen a)) (calls a)
  | Reply n reply => settle n reply a
  | Tick n => onTimer n a
  end.

(** What can happen in a state: a click needs its button enabled, the
    check boxes are those of the table (lines 392-397, 419-424), an
    answer or a timer needs the call that waits for it.  The two [async]
    handlers are started by [ScanStart] and [DownloadStart] only. *)
Definition enabled (m : move) (a : app) : Prop :=
  let st := screen a in
  match m with
  | ScanStart => scanDisabled st = false
  | DownloadStart => downloadDisabled st = false
  | Other (ScanClicked _) | Other (DownloadClicked _) => False
  | Other StopScanClicked => stopScanDisabled st = false
  | Other StopDownloadClicked => stopDownloadDisabled st = false
  | Other (DeleteClicked _) => deleteDisabled st = false
  | Other SelectAllClicked => videos st ≠ []
  | Other e => offered e st
  | Reply n _ => ∃ j, calls a !! n = Some (Call j Posted)
  | Tick n => ∃ j data i, calls a !! n = Some (Call j (Looping data i))
  end.

(** The states of the screen with its calls. *)
Definition working : app → Prop := reachable_from act enabled initialApp.

(** The calls move on: an answer or a timer. *)
Inductive moves_on (a : app) : app → Prop :=
| moves_reply n reply : enabled (Reply n reply) a → moves_on a (settle n reply a)
| moves_tick n : enabled (Tick n) a → moves_on a (onTimer n a).

(** The steps a call still takes, at most. *)
Definition remaining (t : call) : nat :=
  match phase_of t with
  | Posted => S (rounds (stepOf (job_of t)) 0)
  | Looping _ i => rounds (stepOf (job_of t)) i
  end.

Definition pending (a : app) : nat := sum_list_with remaining (calls a).

Definition isScanJob (t : call) : Prop :=
  job_of t = ScanJob.

Definition isDownloadJob (t : call) : Prop :=
  ∃ selected, job_of t = DownloadJob selected.

(** A progress bar is shown only while a call of its kind is in
    flight. *)
Definition busy_ok (a : app) : Prop :=
  (isScanning (screen a) = true → Exists isScanJob (calls a)) ∧
  (isDownloading (screen a) = true → Exists isDownloadJob (calls a)).

(** No call is in flight and no progress bar is shown. *)
Definition idle (a : app) : Prop :=
  calls a = [] ∧ isScanning (screen a) = false ∧ isDownloading (screen a) = false.

(** The moves of a call from the click to its end when nothing happens in
    between: the answer, and the timers of the loop. *)
Definition alone (m : move) (n : nat) (reply : outcome js_error payload)
    (increment : nat) : list move :=
  m :: Reply n reply :: replicate (rounds increment 0) (Tick n).

(** A screen that shows [mockVideos], the first two selected. *)
Definition mockScreen : Screen.t :=
  Screen.Make (Form.Make "tiktok" "#OmVaoLong" "" 0 0 0 true "")
    false false mockVideos ["1"; "2"] 0 0 [].

(** The events of two scans, the first stopped by the user: the answer
    of the second comes first, then the answer of the first. *)
Definition overtaken (old new : list VideoItem) : list move :=
  [ ScanStart; Other StopScanClicked; ScanStart ]
  ++ Reply 1 (Ok (ScanAnswer (ScanResult.Make true new None None)))
     :: replicate 6 (Tick 1)
  ++ Reply 0 (Ok (ScanAnswer (ScanResult.Make true old None None)))
     :: replicate 6 (Tick 0).

(** What the user types before a scan. *)
Definition typedForm : Form.t := Form.Make "tiktok" "#OmVaoLong" "" 0 0 0 true "".

(** A check box clicked while a download is in flight. *)
Definition lostClick : list move :=
  DownloadStart :: Other (VideoClicked "3")
  :: Reply 0 (Ok (Downloaded 2 [] None)) :: replicate 11 (Tick 0).

(** ** The helpers *)

Lemma floorRandom_lt n draw : (0 < n)%N → (floorRandom n draw < n)%N.
Proof. intros. apply N.mod_lt. lia. Qed.

(** The numbers the two helpers make up are in the ranges their comments
    give. *)
Lemma extractVideoMetadata_bounds videoId platform draw1 draw2 draw3 draw4 :
  let m := extractVideoMetadata videoId platform draw1 draw2 draw3 draw4 in
  (1000 ≤ Metadata.likes m < 51000)%N ∧ (10000 ≤ Metadata.views m < 510000)%N.
Proof.
  simpl. pose proof (floorRandom_lt 50000 draw1). pose proof (floorRandom_lt 500000 draw2). lia.
Qed.

Lemma downloadVideoWithoutWatermark_size videoId platform draw :
  (1000000 ≤ Saved.size (downloadVideoWithoutWatermark videoId platform draw)
   < 11000000)%N.
Proof. simpl. pose proof (floorRandom_lt 10000000 draw). lia. Qed.

Lemma toHex_example : toHex 6 16777214 = "fffffe" ∧ toHex 6 255 = "ff" ∧ toHex 6 0 = "0".
Proof. done. Qed.

(** ** The loop *)

Lemma progressLoop_done fuel step i : 100 < i → progressLoop fuel step i = Some [].
Proof. intros. destruct fuel; simpl; by rewrite decide_False by lia. Qed.

Lemma rounds_next step i :
  0 < step → i + step ≤ 100 → rounds step i = S (rounds step (i + step)).
Proof.
  intros Hs Hi. unfold rounds. f_equal.
  replace (100 - i) with ((100 - (i + step)) + 1 * step) by lia.
  rewrite Nat.div_add by lia. lia.
Qed.

Lemma rounds_last step i : 100 < i + step → rounds step i = 1.
Proof.
  intros Hi. unfold rounds. f_equal.
  destruct (decide (step = 0)) as [->|]; [done|]. apply Nat.div_small. lia.
Qed.

(** With fuel for its rounds the loop ends, and it has called
    [onProgress] with [i], [i + step], ... *)
Lemma progressLoop_fuel fuel step i :
  0 < step → i ≤ 100 → rounds step i ≤ fuel →
  progressLoop fuel step i
  = Some ((λ k, i + k * step) <$> seq 0 (rounds step i)).
Proof.
  intros Hs. revert i. induction fuel as [|fuel IH]; intros i Hi Hfuel.
  { unfold rounds in Hfuel. lia. }
  cbn [progressLoop]. rewrite decide_True by done.
  destruct (decide (i + step ≤ 100)) as [Hnext|Hlast].
  - rewrite (rounds_next step i) in * by done. rewrite IH by lia.
    cbn [seq fmap list_fmap option_fmap option_map]. do 2 f_equal; [lia|].
    rewrite <-fmap_S_seq, <-list_fmap_compose.
    apply list_fmap_ext. intros _ k _. simpl. lia.
  - rewrite progressLoop_done, rounds_last by lia. simpl. do 3 f_equal. lia.
Qed.

(** A step of 0 never leaves the loop. *)
Lemma progressLoop_stuck fuel i : i ≤ 100 → progressLoop fuel 0 i = None.
Proof.
  revert i. induction fuel as [|fuel IH]; intros i Hi; simpl;
    rewrite decide_True by done; [done|].
  by rewrite IH by lia.
Qed.

Lemma progressSteps_rounds step :
  progressSteps step = (λ k, 0 + k * step) <$> seq 0 (rounds step 0).
Proof. done. Qed.

(** ** The calls *)

Implicit Types (a : app) (st : Screen.t) (t : call) (j : job) (l : list call).

Lemma stepOf_pos j : 0 < stepOf j.
Proof. destruct j; simpl; lia. Qed.

Lemma remaining_pos t : 0 < remaining t.
Proof. unfold remaining, rounds. destruct (phase_of t); lia. Qed.

Lemma pending_0 a : pending a = 0 ↔ calls a = [].
Proof.
  unfold pending. destruct (calls a) as [|t l]; simpl; [done|].
  pose proof (remaining_pos t). split; [lia|done].
Qed.

Lemma finish_pending n j r a t :
  calls a !! n = Some t → pending (finish n j r a) < pending a.
Proof.
  intros Hn. unfold pending, finish. simpl.
  pose proof (sum_list_with_delete remaining _ _ _ Hn).
  pose proof (remaining_pos t). lia.
Qed.

Lemma loopHead_pending n j data i a t :
  calls a !! n = Some t → (i ≤ 100 → rounds (stepOf j) i < remaining t) →
  pending (loopHead n j data i a) < pending a.
Proof.
  intros Hn Hlt. unfold loopHead. case_decide as Hi; [|by eapply finish_pending].
  unfold pending. simpl.
  pose proof (sum_list_with_insert remaining _ _ _ (Call j (Looping data i)) Hn) as Hsum.
  change (remaining (Call j (Looping data i))) with (rounds (stepOf j) i) in Hsum.
  specialize (Hlt Hi). lia.
Qed.

(** Every move of a call brings the end nearer. *)
Lemma moves_on_pending a a' : moves_on a a' → pending a' < pending a.
Proof.
  intros [n reply [j Hn]|n (j & data & i & Hn)].
  - unfold settle. rewrite Hn.
    destruct reply as [data|error]; [destruct (successOf data)|];
      try by eapply finish_pending.
    eapply loopHead_pending; [done|]. unfold remaining. simpl. lia.
  - unfold onTimer. rewrite Hn. eapply loopHead_pending; [done|].
    intros Hi. unfold remaining. simpl.
    rewrite (rounds_next (stepOf j) i); [lia|apply stepOf_pos|done].
Qed.

(** Without a call nothing moves on. *)
Lemma idle_quiescent a : calls a = [] → quiescent moves_on a.
Proof.
  intros Hnil a' Hmove. apply moves_on_pending in Hmove.
  apply pending_0 in Hnil. lia.
Qed.

(** While a call is in flight it can move. *)
Lemma moves_on_exists a : 0 < pending a → ∃ a', moves_on a a'.
Proof.
  intros Hp. destruct (calls a) as [|[j [|data i]] l] eqn:Ht.
  - apply Nat.lt_neq in Hp. by destruct Hp; symmetry; apply pending_0.
  - exists (settle 0 (Throw (JsError "AxiosError" "Network Error")) a).
    constructor. exists j. by rewrite Ht.
  - exists (onTimer 0 a). constructor. exists j, data, i. by rewrite Ht.
Qed.

(** *** The progress bars *)

Lemma busy_ok_initial : busy_ok initialApp.
Proof. by split. Qed.

(** The end of a call stops the bar of its kind and leaves the other. *)
Lemma continue_flags j r st :
  match j with
  | ScanJob => isScanning (continue j r st) = false ∧
               isDownloading (continue j r st) = isDownloading st
  | DownloadJob _ => isDownloading (continue j r st) = false ∧
               isScanning (continue j r st) = isScanning st
  end.
Proof.
  destruct j as [|selected]; simpl.
  - by destruct (ScanResult.success r).
  - by destruct (DownloadResult.success r).
Qed.

Lemma finish_busy_ok n j r a ph :
  calls a !! n = Some (Call j ph) → busy_ok a → busy_ok (finish n j r a).
Proof.
  intros Hn [Hs Hd]. pose proof (continue_flags j r (screen a)) as Hr.
  unfold finish. split; simpl; intros Hb; destruct j as [|selected], Hr as [Hr1 Hr2];
    try congruence.
  - eapply Exists_delete_other; [done| |apply Hs; congruence].
    by intros [=].
  - eapply Exists_delete_other; [done| |apply Hd; congruence].
    by intros [? [=]].
Qed.

Lemma loopHead_busy_ok n j data i a ph :
  calls a !! n = Some (Call j ph) → busy_ok a → busy_ok (loopHead n j data i a).
Proof.
  intros Hn Hok. unfold loopHead. case_decide; [|by eapply finish_busy_ok].
  destruct Hok as [Hs Hd]. split; simpl; intros Hb.
  - eapply Exists_insert_same; [done|by intros [=]; done|].
    apply Hs. by destruct j.
  - eapply Exists_insert_same; [done|by intros [? [=]]; eexists; done|].
    apply Hd. by destruct j.
Qed.

(** The handlers of [Client] start no bar that stays. *)
Lemma step_flags e st :
  (isScanning (step e st) = true → isScanning st = true) ∧
  (isDownloading (step e st) = true → isDownloading st = true).
Proof.
  destruct e; simpl; try done.
  - unfold handleScan. destruct (truthy _) eqn:Hlinks; [|done].
    pose proof (handleScan_run reply st Hlinks) as Hrun.
    unfold handleScan in Hrun. rewrite Hlinks in Hrun. simpl in Hrun.
    by rewrite Hrun.
  - unfold handleDownload. case_bool_decide as Hsel; [done|].
    assert (selectedVideos st ≠ []) as Hne by (by intros Heq; rewrite Heq in Hsel).
    pose proof (handleDownload_run reply st Hne) as Hrun.
    unfold handleDownload in Hrun. rewrite bool_decide_false in Hrun by done.
    simpl in Hrun. by rewrite Hrun.
  - unfold handleDeleteList. by destruct confirmed.
  - unfold handleSelectAll. by case_bool_decide.
  - unfold handleSelectVideo. by destruct (setHas _ _).
  - unfold handleSelectRange. by destruct (_ && _).
  - unfold handleFilterByViews. by case_bool_decide.
Qed.

Lemma Exists_app_l {A} (P : A → Prop) (l1 l2 : list A) :
  Exists P l1 → Exists P (l1 ++ l2).
Proof. rewrite Exists_app. by left. Qed.

(** Every move keeps the bars and the calls together. *)
Lemma act_busy_ok m a : busy_ok a → enabled m a → busy_ok (act m a).
Proof.
  intros Hok He. destruct m as [| |e|n reply|n]; simpl.
  - unfold startScan. destruct (negb _); [done|]. destruct Hok as [Hs Hd].
    split; simpl; intros Hb.
    + apply Exists_app. right. by apply Exists_cons_hd.
    + by apply Exists_app_l, Hd.
  - unfold startDownload. case_bool_decide; [done|]. destruct Hok as [Hs Hd].
    split; simpl; intros Hb.
    + by apply Exists_app_l, Hs.
    + apply Exists_app. right. apply Exists_cons_hd. by eexists.
  - destruct Hok as [Hs Hd], (step_flags e (screen a)) as [Hfs Hfd].
    split; simpl; auto.
  - destruct He as [j Hn]. unfold settle. rewrite Hn.
    destruct reply as [data|error]; [destruct (successOf data)|];
      by (eapply finish_busy_ok || eapply loopHead_busy_ok).
  - destruct He as (j & data & i & Hn). unfold onTimer. rewrite Hn.
    by eapply loopHead_busy_ok.
Qed.

Lemma working_busy_ok a : working a → busy_ok a.
Proof.
  apply reachable_invariant; [apply busy_ok_initial|].
  intros m a'. apply act_busy_ok.
Qed.

Lemma moves_on_busy_ok a a' : busy_ok a → moves_on a a' → busy_ok a'.
Proof.
  intros Hok [n reply He|n He].
  - by apply (act_busy_ok (Reply n reply)).
  - by apply (act_busy_ok (Tick n)).
Qed.

Lemma busy_ok_idle a : busy_ok a → pending a = 0 → idle a.
Proof.
  intros [Hs Hd] Hp%pending_0. rewrite Hp in Hs, Hd. split_and!; [done|..].
  - destruct (isScanning (screen a)); [|done]. by specialize (Hs eq_refl); apply Exists_nil in Hs.
  - destruct (isDownloading (screen a)); [|done]. by specialize (Hd eq_refl); apply Exists_nil in Hd.
Qed.

(** C13. Liveness: from every state the screen reaches, when the calls in
    flight go on (an answer or an error for each request, the timers of
    the loops), after finitely many moves, whatever their order, no call is
    left and neither progress bar is shown. *)
Theorem calls_end a : working a → eventually moves_on idle a.
Proof.
  intros Hok%working_busy_ok.
  eapply eventually_weaken;
    [|apply (eventually_invariant moves_on busy_ok (λ a', pending a' = 0))].
  - intros a' [Hok' Hp]. by apply busy_ok_idle.
  - apply moves_on_busy_ok.
  - done.
  - apply eventually_measure; [apply moves_on_exists|apply moves_on_pending].
Qed.

(** *** A call alone *)

Lemma settle_last l j st reply :
  settle (length l) reply (App st (l ++ [Call j Posted]))
  = match reply with
    | Ok data =>
        if successOf data
        then App (onProgress j 0 st) (l ++ [Call j (Looping data 0)])
        else App (continue j (returnFailure j (failureMessage j data)) st) l
    | Throw error => App (continue j (returnFailure j (message error)) st) l
    end.
Proof.
  unfold settle, loopHead, finish. cbn [calls screen].
  rewrite list_lookup_middle by done. rewrite (delete_middle l []), app_nil_r.
  destruct reply as [data|error]; [|done].
  rewrite decide_True by lia. by rewrite insert_app_r_alt, Nat.sub_diag.
Qed.

Lemma tick_last l j data i st :
  onTimer (length l) (App st (l ++ [Call j (Looping data i)]))
  = if decide (i + stepOf j ≤ 100)
    then App (onProgress j (i + stepOf j) st)
           (l ++ [Call j (Looping data (i + stepOf j))])
    else App (continue j (returnData j data) st) l.
Proof.
  unfold onTimer, loopHead, finish. cbn [calls screen].
  rewrite list_lookup_middle by done. rewrite (delete_middle l []), app_nil_r.
  rewrite insert_app_r_alt, Nat.sub_diag by done. done.
Qed.

(** An answer or a timer for a call that is not there changes nothing. *)
Lemma absent_run a n reply k :
  calls a !! n = None →
  run act (Reply n reply :: replicate k (Tick n)) a = a.
Proof.
  intros Hn. rewrite run_cons. cbn [act]. unfold settle. rewrite Hn.
  induction k as [|k IH]; [done|].
  cbn [replicate]. rewrite run_cons. cbn [act]. unfold onTimer. by rewrite Hn.
Qed.

Lemma absent_ticks a n k :
  calls a !! n = None → run act (replicate k (Tick n)) a = a.
Proof.
  intros Hn. induction k as [|k IH]; [done|].
  cbn [replicate]. rewrite run_cons. cbn [act]. unfold onTimer. by rewrite Hn.
Qed.

Lemma scan_alone a reply :
  run act (alone ScanStart (length (calls a)) reply 20) a
  = App (handleScan reply (screen a)) (calls a).
Proof.
  destruct a as [st l]. unfold alone. rewrite run_cons. cbn [act calls screen].
  unfold startScan, handleScan. cbn [calls screen].
  destruct (negb _) eqn:Hlinks.
  { apply absent_run. by apply lookup_ge_None_2. }
  rewrite run_cons. cbn [act]. rewrite settle_last.
  destruct reply as [data|error]; cbn [clientScanVideos];
    [destruct (successOf data) eqn:E|];
    try by rewrite absent_ticks by (by apply lookup_ge_None_2).
  unfold rounds. cbn [Nat.div Nat.divmod Nat.sub fst replicate].
  rewrite !run_cons. cbn [act].
  rewrite !tick_last. cbn [stepOf Nat.add].
  repeat (rewrite decide_True by lia; rewrite ?run_cons, ?tick_last; cbn [act stepOf Nat.add]).
  rewrite decide_False by lia. rewrite run_nil.
  cbn. by rewrite E.
Qed.

Lemma download_alone a reply :
  run act (alone DownloadStart (length (calls a)) reply 10) a
  = App (handleDownload reply (screen a)) (calls a).
Proof.
  destruct a as [st l]. unfold alone. rewrite run_cons. cbn [act calls screen].
  unfold startDownload, handleDownload. cbn [calls screen].
  case_bool_decide as Hsel.
  { apply absent_run. by apply lookup_ge_None_2. }
  rewrite run_cons. cbn [act]. rewrite settle_last.
  destruct reply as [data|error]; cbn [clientDownloadVideos];
    [destruct (successOf data) eqn:E|];
    try by rewrite absent_ticks by (by apply lookup_ge_None_2).
  unfold rounds. cbn [Nat.div Nat.divmod Nat.sub fst replicate].
  rewrite !run_cons. cbn [act].
  rewrite !tick_last. cbn [stepOf Nat.add].
  repeat (rewrite decide_True by lia; rewrite ?run_cons, ?tick_last; cbn [act stepOf Nat.add]).
  rewrite decide_False by lia. rewrite run_nil.
  cbn. by rewrite E.
Qed.

Lemma overtaken_admissible old new :
  admissible act enabled (overtaken old new) (App mockScreen []).
Proof. vm_compute. repeat split; eauto. Qed.

Lemma overtaken_run old new :
  videos (screen (run act (overtaken old new) (App mockScreen []))) = old.
Proof. done. Qed.


Lemma lostClick_admissible : admissible act enabled lostClick (App mockScreen []).
Proof. vm_compute. repeat split; eauto. repeat constructor. Qed.

Lemma lostClick_run :
  let a := run act lostClick (App mockScreen []) in
  selectedVideos (screen a) = [] ∧
  downloaded <$> videos (screen a) = [true; true; false].
Proof. done. Qed.

(** *** With the server *)

(** A click answered by the server, as [Client] composes them, is the
    call alone whose answer is what the handler of the server sent. *)
Lemma scanClick_alone (W : env) (sys : system) :
  let reply := (serve (scanHandler W (scanBody (screen_of sys))) (server_of sys)).1 in
  App (screen_of (scanClick W sys)) []
  = run act (alone ScanStart 0 reply 20) (App (screen_of sys) []).
Proof.
  intros reply. rewrite (scan_alone (App (screen_of sys) [])). f_equal.
  unfold scanClick, reply, handleScan. cbn [screen].
  destruct (negb _); [done|].
  by destruct (serve _ _).
Qed.

Lemma downloadClick_alone (W : env) (sys : system) :
  let reply :=
    (serve (downloadHandler W (downloadBody (screen_of sys))) (server_of sys)).1 in
  App (screen_of (downloadClick W sys)) []
  = run act (alone DownloadStart 0 reply 10) (App (screen_of sys) []).
Proof.
  intros reply. rewrite (download_alone (App (screen_of sys) [])). f_equal.
  unfold downloadClick, reply, handleDownload. cbn [screen].
  case_bool_decide; [done|].
  by destruct (serve _ _).
Qed.

(** *** The guard of [handleDownload] *)

Lemma continue_alerts j r st :
  NoSelection ∉ alerts st → NoSelection ∉ alerts (continue j r st).
Proof.
  intros Hno. destruct j as [|selected]; simpl.
  - destruct (ScanResult.success r); simpl; rewrite elem_of_app, list_elem_of_singleton;
      naive_solver.
  - destruct (DownloadResult.success r); simpl; rewrite elem_of_app, list_elem_of_singleton;
      naive_solver.
Qed.

Lemma loopHead_alerts n j data i a :
  NoSelection ∉ alerts (screen a) →
  NoSelection ∉ alerts (screen (loopHead n j data i a)).
Proof.
  intros Hno. unfold loopHead, finish. case_decide; simpl.
  - by destruct j.
  - by apply continue_alerts.
Qed.

(** The alert of an empty selection (VideoScanner.tsx, lines 109-112) is
    never shown: the button is disabled when the test would succeed. *)
Lemma no_selection_alert_dead a :
  working a → NoSelection ∉ alerts (screen a).
Proof.
  revert a. apply reachable_invariant; [by intros ?%elem_of_nil|].
  intros m a Hno He. destruct m as [| |e|n reply|n]; simpl.
  - unfold startScan. destruct (negb _); simpl; [|done].
    rewrite elem_of_app, list_elem_of_singleton. naive_solver.
  - unfold startDownload. simpl in He. unfold downloadDisabled in He.
    apply orb_false_elim in He as [[_ Hsel]%orb_false_elim _].
    by rewrite Hsel.
  - destruct e; simpl in *; try done.
    + unfold handleDeleteList. by destruct confirmed.
    + unfold handleSelectAll. by case_bool_decide.
    + unfold handleSelectVideo. by destruct (setHas _ _).
    + unfold handleSelectRange. by destruct (_ && _).
    + unfold handleFilterByViews. by case_bool_decide.
  - unfold settle. destruct (calls a !! n) as [[j [|data i]]|]; try done.
    destruct reply as [data|error]; [destruct (successOf data)|];
      first [by apply loopHead_alerts|by apply continue_alerts].
  - unfold onTimer. destruct (calls a !! n) as [[j [|data i]]|]; try done.
    by apply loopHead_alerts.
Qed.


(** C24. The loop of a wrapper ends: with a positive step and fuel for
    its rounds, [100 / step + 1], it returns, having called [onProgress]
    with the multiples of the step up to 100, one call per round. *)
Theorem progressLoop_terminates fuel step :
  0 < step → rounds step 0 ≤ fuel →
  progressLoop fuel step 0 = Some (progressSteps step) ∧
  length (progressSteps step) = rounds step 0.
Proof.
  intros Hs Hfuel. rewrite progressLoop_fuel by (done || lia). split; [done|].
  unfold progressSteps. by rewrite length_fmap, length_seq.
Qed.


Lemma typed_working :
  working (run act [Other (Typed typedForm); ScanStart] initialApp).
Proof. apply reachable_run. by repeat split. Qed.

Lemma calls_end_witness :
  eventually moves_on idle (run act [Other (Typed typedForm); ScanStart] initialApp).
Proof. apply calls_end, typed_working. Defined.

Lemma progressLoop_terminates_witness :
  progressLoop 6 20 0 = Some [0; 20; 40; 60; 80; 100].
Proof. apply (progressLoop_terminates 6 20); [lia|by vm_compute]. Defined.

End Async.
