(* ===== verification/View.v ===== *)
(** * View: what the scan screen renders

    The [return] of [VideoScanner.tsx] (lines 203-482) as a function from
    the state of the screen to a tree of elements: the texts, the values
    the inputs show, the handler each control calls, and the attributes
    that depend on the state ([disabled], [checked], the width of a
    progress bar, the highlight of a row).  Class names that do not
    depend on the state are left out; a [div] that only groups is a
    [Group].  [toLocaleString] depends on the locale of the browser and
    is a parameter.

    The view is what makes a click possible: the theorems relate the
    controls of the tree to the moves [Async] allows, and the rows of the
    table to the list and the selection. *)

From stdpp Require Import pretty.
From S2P Require Import Prelude JsString Effects Machine Session Extract.
From S2P Require Import Orchestrator Server Client Async.
Import Session Extract Orchestrator Server Client Client.Screen Async.

Module View.

(** The function a control calls. *)
Inductive callback : Type :=
| SetPlatform (platform : string)
| SetLinks
| SetCookies
| SetRangeFrom
| SetRangeTo
| SetFilterViews
| SetSearchTerm
| HandleScan
| HandleStopScan
| HandleSelectRange
| HandleFilterByViews
| HandleDownload
| HandleStopDownload
| HandleDeleteList
| HandleSelectAll
| HandleSelectVideo (videoId : string).

#[export] Instance callback_eq_dec : EqDecision callback.
Proof. solve_decision. Defined.

#[warnings="-register-all"]
Inductive node : Type :=
| Group (children : list node)
| Text (text : string)
| Icon (name : string)
| Button (onClick : callback) (disabled active : bool) (children : list node)
| TextArea (value : string) (onChange : callback) (placeholder : string)
| Input (type value : string) (onChange : callback) (placeholder : string)
| Checkbox (checked : bool) (onChange : option callback)
| Img (src alt : string)
| Bar (color : string) (percent : nat)
| Row (key : string) (highlighted : bool) (cells : list node).

(** The controls of a tree that call a function, with their [disabled]
    attribute. *)
Fixpoint controlsOf (n : node) : list (callback * bool) :=
  match n with
  | Group children => flat_map controlsOf children
  | Button onClick disabled _ children =>
      (onClick, disabled) :: flat_map controlsOf children
  | TextArea _ onChange _ | Input _ _ onChange _ => [(onChange, false)]
  | Checkbox _ (Some onChange) => [(onChange, false)]
  | Row _ _ cells => flat_map controlsOf cells
  | _ => []
  end.

Definition controls (view : list node) : list (callback * bool) :=
  flat_map controlsOf view.

(** A control that calls [f] is there and is not disabled. *)
Definition clickable (f : callback) (view : list node) : Prop :=
  (f, false) ∈ controls view.

(** The check boxes of a tree: what they call, and whether they are
    checked. *)
Fixpoint checkboxesOf (n : node) : list (option callback * bool) :=
  match n with
  | Group children | Button _ _ _ children => flat_map checkboxesOf children
  | Checkbox checked onChange => [(onChange, checked)]
  | Row _ _ cells => flat_map checkboxesOf cells
  | _ => []
  end.

Definition checkboxes (view : list node) : list (option callback * bool) :=
  flat_map checkboxesOf view.

(** The rows of a tree. *)
Fixpoint rowsOf (n : node) : list (string * bool * list node) :=
  match n with
  | Group children | Button _ _ _ children => flat_map rowsOf children
  | Row key highlighted cells => [(key, highlighted, cells)]
  | _ => []
  end.

Section render.
Context (toLocaleString : N → string).

(** Lines 205-207. *)
Definition heading : node := Group [Text "Quét video"].

(** The two tabs, lines 210-233. *)
Definition platformTabs (st : Screen.t) : node :=
  let platform := Form.platform (form st) in
  Group [
    Button (SetPlatform "tiktok") false (bool_decide (platform = "tiktok"))
      [Text "Tiktok"];
    Button (SetPlatform "douyin") false (bool_decide (platform = "douyin"))
      [Text "Douyin"] ].

(** The two text areas, lines 236-264. *)
Definition inputAreas (st : Screen.t) : list node := [
  Group [
    Text "Nhập link video/link user/#hashtag/từ khoá muốn quét:";
    Text "Vd: https://www.tiktok.com/@vzry4n.cenas/video/7303728609955515653 | https://www.tiktok.com/@hieuhayho | #OmVaoLong";
    Text "Quét theo link video có thể quét nhiều link cùng lúc bằng cách xuống dòng cho mỗi link.";
    TextArea (Form.links (form st)) SetLinks
      "Nhập link video, user, hashtag hoặc từ khóa..." ];
  Group [
    Text "Nhập cookie";
    TextArea (Form.cookies (form st)) SetCookies "Nhập cookie Tiktok" ] ].

(** The scan buttons, lines 266-283. *)
Definition scanButtons (st : Screen.t) : node :=
  Group [
    Button HandleScan (scanDisabled st) false [
      Icon "Search";
      Text (if isScanning st
            then "Đang quét... " +:+ pretty (scanProgress st) +:+ "%"
            else "Quét") ];
    Button HandleStopScan (stopScanDisabled st) false [
      Icon "StopCircle"; Text "Dừng quét" ] ].

(** [{cond && <bar/>}], lines 285-292 and 366-373. *)
Definition progressBar (shown : bool) (color : string) (percent : nat) : list node :=
  if shown then [Bar color percent] else [].

(** The range, lines 297-320. *)
Definition rangeControls (st : Screen.t) : node :=
  Group [
    Text "Tích chọn từ:";
    Input "number" (pretty (Form.rangeFrom (form st))) SetRangeFrom "";
    Text "đến";
    Input "number" (pretty (Form.rangeTo (form st))) SetRangeTo "";
    Button HandleSelectRange false false [Text "Chọn"] ].

(** The filter, lines 322-338. *)
Definition filterControls (st : Screen.t) : node :=
  Group [
    Text "Lọc videos cao hơn:";
    Input "number" (pretty (Form.filterViews (form st))) SetFilterViews "";
    Button HandleFilterByViews false false [Text "Lọc"] ].

(** The download buttons, lines 340-364. *)
Definition downloadButtons (st : Screen.t) : node :=
  Group [
    Button HandleDownload (downloadDisabled st) false [
      Icon "Download";
      Text (if isDownloading st
            then "Đang tải... " +:+ pretty (downloadProgress st) +:+ "%"
            else "Tải xuống video đã chọn (" +:+
                 pretty (length (selectedVideos st)) +:+ ")") ];
    Button HandleStopDownload (stopDownloadDisabled st) false [Text "Dừng tải"];
    Button HandleDeleteList (deleteDisabled st) false [
      Icon "Trash2"; Text "Xoá DS" ] ].

(** The search box, lines 375-383. *)
Definition searchBox (st : Screen.t) : node :=
  Group [
    Input "text" (Form.searchTerm (form st)) SetSearchTerm
      "Tìm kiếm theo ID, tiêu đề, nội dung..." ].

(** The cell of the status, lines 438-451: [scanning] has no icon. *)
Definition statusCell (status : Status) : node :=
  Group match status with
        | Completed => [Icon "CheckCircle"]
        | Error => [Icon "AlertCircle"]
        | Downloading => [Icon "spinner"]
        | Pending => [Icon "circle"]
        | Scanning => []
        end.

(** A row of the table, lines 411-452. *)
Definition tableRow (selected : jsSet) (index : nat) (video : VideoItem) : node :=
  Row (id video) (setHas selected (id video)) [
    Text (pretty (index + 1));
    Checkbox (setHas selected (id video)) (Some (HandleSelectVideo (id video)));
    Img (thumbnail_url video) "Thumbnail";
    Text (tiktok_id video);
    Text (title video);
    Text (content video);
    Text (toLocaleString (likes video));
    Text (toLocaleString (views video));
    statusCell (Extract.status video) ].

(** The head of the table when there are videos, lines 388-407. *)
Definition tableHead (st : Screen.t) : node :=
  Group [
    Text "STT";
    Checkbox (bool_decide (length (selectedVideos st) = length (videos st)))
      (Some HandleSelectAll);
    Text "Thumbnails"; Text "ID"; Text "Tiêu đề"; Text "Nội dung";
    Text "Like"; Text "View"; Text "Trạng thái" ].

(** The table without videos, lines 457-478. *)
Definition emptyTable : node :=
  Group [
    Group [
      Text "STT"; Checkbox false None;
      Text "Thumbnails"; Text "ID"; Text "Tiêu đề"; Text "Nội dung";
      Text "Like"; Text "View" ];
    Group [
      Text ("Chưa có video nào được quét. Hãy nhập link hoặc hashtag và nhấn "
            +:+ String (Ascii.ascii_of_nat 34) "Quét"
            +:+ String (Ascii.ascii_of_nat 34) " để bắt đầu.") ] ].

(** [filteredVideos.map((video, index) => ...)], lines 409-454. *)
Definition tableRows (st : Screen.t) : list node :=
  imap (tableRow (selectedVideos st)) (filteredVideos st).

(** The table, lines 386-479. *)
Definition table (st : Screen.t) : node :=
  if bool_decide (0 < length (videos st))
  then Group [tableHead st; Group (tableRows st)]
  else emptyTable.

(** The component, lines 203-482. *)
Definition render (st : Screen.t) : list node :=
  [ heading;
    platformTabs st;
    Group (inputAreas st ++ [scanButtons st]
           ++ progressBar (isScanning st) "red" (scanProgress st));
    Group ([rangeControls st; filterControls st; downloadButtons st]
           ++ progressBar (isDownloading st) "green" (downloadProgress st)
           ++ [searchBox st]);
    table st ].

End render.

(** The control a click move uses; the other moves are not clicks. *)
Definition clickOf (m : move) : option callback :=
  match m with
  | ScanStart => Some HandleScan
  | DownloadStart => Some HandleDownload
  | Other StopScanClicked => Some HandleStopScan
  | Other StopDownloadClicked => Some HandleStopDownload
  | Other (DeleteClicked _) => Some HandleDeleteList
  | Other SelectAllClicked => Some HandleSelectAll
  | Other (VideoClicked videoId) => Some (HandleSelectVideo videoId)
  | Other RangeClicked => Some HandleSelectRange
  | Other FilterClicked => Some HandleFilterByViews
  | _ => None
  end.

(** A locale for the examples: the digits without separators. *)
Definition plainLocale (n : N) : string := pretty n.

(** [mockScreen] when the user has typed a search term that hides the
    first two videos. *)
Definition searchedScreen : Screen.t :=
  setForm (Form.Make "tiktok" "#OmVaoLong" "" 0 0 0 true "hot") mockScreen.

(** ** Lemmas *)

Section view_lemmas.
Context (toLocaleString : N → string).
Implicit Types (st : Screen.t) (f : callback) (video : VideoItem).
Local Abbreviation render := (render toLocaleString).
Local Abbreviation tableRow := (tableRow toLocaleString).
Local Abbreviation tableRows := (tableRows toLocaleString).

(** The check box of a row is its only control. *)
Lemma controls_tableRow (selected : jsSet) index video :
  controlsOf (tableRow selected index video)
  = [(HandleSelectVideo (id video), false)].
Proof. unfold tableRow, statusCell. simpl. by destruct (Extract.status video). Qed.

Lemma controls_rows (selected : jsSet) (g : nat → nat) (l : list VideoItem) :
  flat_map controlsOf (imap (λ i, tableRow selected (g i)) l)
  = (λ video, (HandleSelectVideo (id video), false)) <$> l.
Proof.
  revert g. induction l as [|video l IH]; intros g; [done|].
  cbn [imap flat_map fmap list_fmap].
  by rewrite controls_tableRow, <-(IH (g ∘ S)).
Qed.

Lemma rows_of_rows (selected : jsSet) (g : nat → nat) (l : list VideoItem) :
  (λ r, (r.1.1, r.1.2)) <$> flat_map rowsOf (imap (λ i, tableRow selected (g i)) l)
  = (λ video, (id video, setHas selected (id video))) <$> l.
Proof.
  revert g. induction l as [|video l IH]; intros g; [done|].
  cbn [imap flat_map fmap list_fmap]. rewrite <-(IH (g ∘ S)). done.
Qed.

(** The controls of the screen, in the order of the page. *)
Lemma controls_render st :
  controls (render st)
  = [ (SetPlatform "tiktok", false); (SetPlatform "douyin", false);
      (SetLinks, false); (SetCookies, false);
      (HandleScan, scanDisabled st); (HandleStopScan, stopScanDisabled st);
      (SetRangeFrom, false); (SetRangeTo, false); (HandleSelectRange, false);
      (SetFilterViews, false); (HandleFilterByViews, false);
      (HandleDownload, downloadDisabled st);
      (HandleStopDownload, stopDownloadDisabled st);
      (HandleDeleteList, deleteDisabled st); (SetSearchTerm, false) ]
    ++ if bool_decide (0 < length (videos st))
       then (HandleSelectAll, false)
            :: ((λ video, (HandleSelectVideo (id video), false))
                <$> filteredVideos st)
       else [].
Proof.
  unfold controls, render, table, progressBar, tableRows.
  pose proof (controls_rows (selectedVideos st) (λ i, i) (filteredVideos st)) as Hrows.
  destruct (isScanning st), (isDownloading st); case_bool_decide;
    cbn [flat_map controlsOf Datatypes.app inputAreas scanButtons rangeControls
         filterControls downloadButtons searchBox platformTabs heading
         tableHead emptyTable];
    rewrite ?app_nil_r; try done; by rewrite <-Hrows.
Qed.

Lemma clickable_render f st :
  clickable f (render st) ↔
  f ∈ [ SetPlatform "tiktok"; SetPlatform "douyin"; SetLinks; SetCookies;
        SetRangeFrom; SetRangeTo; HandleSelectRange; SetFilterViews;
        HandleFilterByViews; SetSearchTerm ]
  ∨ f = HandleScan ∧ scanDisabled st = false
  ∨ f = HandleStopScan ∧ stopScanDisabled st = false
  ∨ f = HandleDownload ∧ downloadDisabled st = false
  ∨ f = HandleStopDownload ∧ stopDownloadDisabled st = false
  ∨ f = HandleDeleteList ∧ deleteDisabled st = false
  ∨ videos st ≠ [] ∧
    (f = HandleSelectAll ∨
     ∃ video, video ∈ filteredVideos st ∧ f = HandleSelectVideo (id video)).
Proof.
  unfold clickable. rewrite controls_render.
  assert (0 < length (videos st) ↔ videos st ≠ []) as Hne.
  { destruct (videos st); simpl; split; (done || lia). }
  destruct (decide (videos st = [])) as [Hnil|Hcons].
  - rewrite bool_decide_false by (rewrite Hne; naive_solver).
    rewrite elem_of_app, !elem_of_cons, !elem_of_nil.
    setoid_rewrite pair_equal_spec. naive_solver.
  - rewrite bool_decide_true by by rewrite Hne.
    rewrite elem_of_app, !elem_of_cons, list_elem_of_fmap, !elem_of_nil.
    setoid_rewrite pair_equal_spec. naive_solver.
Qed.


Lemma checkboxes_tableRow (selected : jsSet) index video :
  checkboxesOf (tableRow selected index video)
  = [(Some (HandleSelectVideo (id video)), setHas selected (id video))].
Proof. unfold tableRow, statusCell. simpl. by destruct (Extract.status video). Qed.

Lemma checkboxes_rows (selected : jsSet) (g : nat → nat) (l : list VideoItem) :
  flat_map checkboxesOf (imap (λ i, tableRow selected (g i)) l)
  = (λ video, (Some (HandleSelectVideo (id video)), setHas selected (id video)))
    <$> l.
Proof.
  revert g. induction l as [|video l IH]; intros g; [done|].
  cbn [imap flat_map fmap list_fmap].
  by rewrite checkboxes_tableRow, <-(IH (g ∘ S)).
Qed.

(** The check boxes of the screen. *)
Lemma checkboxes_render st :
  checkboxes (render st)
  = if bool_decide (0 < length (videos st))
    then (Some HandleSelectAll,
          bool_decide (length (selectedVideos st) = length (videos st)))
         :: ((λ video, (Some (HandleSelectVideo (id video)),
                        setHas (selectedVideos st) (id video)))
             <$> filteredVideos st)
    else [(None, false)].
Proof.
  unfold checkboxes, render, table, progressBar, tableRows.
  pose proof (checkboxes_rows (selectedVideos st) (λ i, i) (filteredVideos st)) as Hrows.
  destruct (isScanning st), (isDownloading st); case_bool_decide;
    cbn [flat_map checkboxesOf Datatypes.app inputAreas scanButtons rangeControls
         filterControls downloadButtons searchBox platformTabs heading
         tableHead emptyTable];
    rewrite ?app_nil_r; try done; by rewrite <-Hrows.
Qed.

(** The rows of the table are the videos that match the search, in the
    order of the list, numbered from 1. *)
Lemma rows_render st :
  videos st ≠ [] →
  (λ r, r.1.1) <$> flat_map rowsOf (render st) = id <$> filteredVideos st.
Proof.
  intros Hne. unfold render, table, progressBar, tableRows.
  pose proof (rows_of_rows (selectedVideos st) (λ i, i) (filteredVideos st)) as Hrows.
  apply (f_equal (fmap fst)) in Hrows.
  rewrite <-!list_fmap_compose in Hrows.
  rewrite bool_decide_true by (destruct (videos st); simpl; (done || lia)).
  destruct (isScanning st), (isDownloading st);
    cbn [flat_map rowsOf Datatypes.app inputAreas scanButtons rangeControls
         filterControls downloadButtons searchBox platformTabs heading
         tableHead emptyTable];
    rewrite ?app_nil_r; exact Hrows.
Qed.

(** C35. The check marks of the table show the selection: with a list
    that is not empty, the box of a row is checked exactly when the
    video of the row is selected, and the box of the head exactly when
    the ids of the list are distinct and all selected. *)
Theorem check_marks st :
  selection_ok st → videos st ≠ [] →
  ((Some HandleSelectAll, true) ∈ checkboxes (render st)
   ↔ NoDup (id <$> videos st) ∧ selectedVideos st ≡ₚ id <$> videos st) ∧
  (∀ videoId,
     (Some (HandleSelectVideo videoId), true) ∈ checkboxes (render st)
     ↔ videoId ∈ id <$> filteredVideos st ∧ videoId ∈ selectedVideos st).
Proof.
  intros Hok Hne. rewrite checkboxes_render.
  rewrite bool_decide_true by (destruct (videos st); simpl; (done || lia)).
  split; [|intros videoId];
    rewrite elem_of_cons, !list_elem_of_fmap, pair_equal_spec;
    setoid_rewrite pair_equal_spec; unfold setHas.
  - rewrite <-(all_selected_iff st Hok). split.
    + intros [[_ Hlen]|(video & [[=] _] & _)]. symmetry in Hlen.
      by apply bool_decide_eq_true in Hlen.
    + intros Hlen. left. by rewrite bool_decide_true.
  - split.
    + intros [[[=] _]|(video & [[= ->] Hsel] & Hin)]. symmetry in Hsel.
      apply bool_decide_eq_true in Hsel. split; [by exists video|done].
    + intros [(video & -> & Hin) Hsel]. right. exists video.
      by rewrite bool_decide_true.
Qed.

End view_lemmas.

(** The label of the download button counts the selected videos, also
    those the search hides: two are selected, none of them is shown. *)
Lemma hidden_selection_counted :
  Text "Tải xuống video đã chọn (2)"
    ∈ match downloadButtons searchedScreen with
      | Group (Button _ _ _ children :: _) => children
      | _ => []
      end ∧
  (λ r, r.1) <$> flat_map rowsOf (render plainLocale searchedScreen) = [("3", false)].
Proof. split; [|done]. vm_compute. repeat constructor. Qed.


Lemma check_marks_witness :
  (Some (HandleSelectVideo "2"), true) ∈ checkboxes (render plainLocale mockScreen).
Proof.
  destruct (check_marks plainLocale mockScreen) as [_ Hrow].
  - split; compute_done.
  - done.
  - apply Hrow. split; repeat constructor.
Defined.

End View.
