(* ===== verification/Shell.v ===== *)
(** * Shell: the application frame and its menu

    [App.tsx] keeps the key of the active menu entry and shows the
    component its [switch] selects; [Sidebar.tsx] holds the entries of
    the menu, groups them by section and renders one button per entry,
    whose click sets the active key.  The frame is the pair of the key
    and what the two components render from it; the JSX around the
    buttons is not modelled. *)

From S2P Require Import Prelude JsString Machine Dom.
Import Dom.

Module Shell.

(** ** App.tsx *)

(** The components [App.tsx] imports (lines 3-19). *)
Inductive component : Type :=
| VideoScanner
| DownloadedVideos
| AIManagement
| VideoEditor
| VideoGroupManagement
| MusicLibrary
| AccountManagement
| AccountGroupManagement
| ProxyManagement
| PostSchedule
| BatchScheduling
| FBReelsComments
| PostReelsProfile
| PostReelsFanpage
| PostReelsInstagram
| PostYoutubeShort
| PostTiktok.

#[export] Instance component_eq_dec : EqDecision component.
Proof. solve_decision. Defined.

(** The [case] labels of [renderContent] and what each returns (lines
    34-67), in the order of the [switch]. *)
Definition cases : list (string * component) :=
  [("scan-video", VideoScanner);
   ("downloaded-videos", DownloadedVideos);
   ("ai-management", AIManagement);
   ("video-editor", VideoEditor);
   ("video-group-management", VideoGroupManagement);
   ("music-library", MusicLibrary);
   ("account-management", AccountManagement);
   ("account-group-management", AccountGroupManagement);
   ("proxy-management", ProxyManagement);
   ("post-schedule", PostSchedule);
   ("batch-scheduling", BatchScheduling);
   ("fb-reels-comments", FBReelsComments);
   ("post-reels-profile", PostReelsProfile);
   ("post-reels-fanpage", PostReelsFanpage);
   ("post-reels-instagram", PostReelsInstagram);
   ("post-youtube-short", PostYoutubeShort);
   ("post-tiktok", PostTiktok)].

(** [renderContent] (lines 32-71): the first label equal to the key, the
    [default] otherwise. *)
Definition renderContent (activeMenu : string) : component :=
  default VideoScanner (assoc activeMenu cases).

(** [useState('scan-video')] (line 30) *)
Definition initialMenu : string := "scan-video".

(** The components that have a file under [src/client/src/components]. *)
Definition present : list component :=
  [VideoScanner; DownloadedVideos; AIManagement; VideoEditor; MusicLibrary;
   AccountGroupManagement; ProxyManagement; PostSchedule; BatchScheduling;
   PostReelsFanpage; PostYoutubeShort; PostTiktok].

(** ** Sidebar.tsx *)

(** An entry of [menuItems] (lines 27-129); [icon] is the name of the
    imported icon. *)
Module MenuItem.
Record MenuItem : Type := Make {
  id : string;
  label : string;
  icon : string;
  section : string;
  badge : option string
}.
Abbreviation t := MenuItem.
End MenuItem.

(** [menuItems] (lines 26-130) *)
Definition menuItems : list MenuItem.t :=
  [MenuItem.Make "scan-video" "Quét video" "Search" "main" None;
   MenuItem.Make "downloaded-videos" "DS video đã download" "Download" "main"
     None;
   MenuItem.Make "ai-management" "Quản lý AI" "Brain" "main" None;
   MenuItem.Make "video-editor" "Chỉnh sửa video" "Scissors" "main" None;
   MenuItem.Make "video-group-management" "Quản lý nhóm video" "FolderOpen"
     "main" None;
   MenuItem.Make "music-library" "Kho nhạc" "Music" "main" None;
   MenuItem.Make "account-management" "Quản lý tài khoản" "Users"
     "management" None;
   MenuItem.Make "account-group-management" "Quản lý nhóm tài khoản"
     "UserCheck" "management" None;
   MenuItem.Make "proxy-management" "Quản lý proxy" "Shield" "management"
     None;
   MenuItem.Make "post-schedule" "Lịch trình đăng bài" "Calendar"
     "management" None;
   MenuItem.Make "batch-scheduling" "Lên lịch hàng loạt" "Clock"
     "management" None;
   MenuItem.Make "fb-reels-comments" "Gắn bình luận cho Reels FB"
     "MessageSquare" "management" (Some "NEW");
   MenuItem.Make "post-reels-profile" "Đăng reels Profile" "Facebook"
     "posting" None;
   MenuItem.Make "post-reels-fanpage" "Đăng reels Fanpage" "Facebook"
     "posting" None;
   MenuItem.Make "post-reels-instagram" "Đăng reels Instagram" "Instagram"
     "posting" None;
   MenuItem.Make "post-youtube-short" "Đăng Youtube short" "Youtube"
     "posting" None;
   MenuItem.Make "post-tiktok" "Đăng Tiktok" "Facebook" "posting" None].

(** [sections] (lines 132-136): the id and the label of each. *)
Definition sections : list (string * string) :=
  [("main", "Tính năng chính");
   ("management", "Quản lý");
   ("posting", "Tác vụ đăng video")].

(** A button as rendered (lines 151-167): its key, which a click passes
    to [onMenuChange], its text, whether it is drawn active, and its
    badge. *)
Module Button.
Record Button : Type := Make {
  key : string;
  text : string;
  isActive : bool;
  badge : option string
}.
Abbreviation t := Button.
End Button.

(** The callback of [sectionItems.map] (lines 146-169). *)
Definition renderItem (activeMenu : string) (item : MenuItem.t) : Button.t :=
  Button.Make (MenuItem.id item) (MenuItem.label item)
    (bool_decide (activeMenu = MenuItem.id item)) (MenuItem.badge item).

(** [menuItems.filter(item => item.section === sectionId)] (line 139) *)
Definition sectionItems (sectionId : string) : list MenuItem.t :=
  filter (λ item, MenuItem.section item = sectionId) menuItems.

(** [renderSection] (lines 138-172): the heading, which is the label of
    the first section with this id when there is one, and the buttons. *)
Definition renderSection (activeMenu sectionId : string)
  : option string * list Button.t :=
  (assoc sectionId sections, renderItem activeMenu <$> sectionItems sectionId).

(** What [Sidebar] renders (lines 174-182). *)
Definition renderSidebar (activeMenu : string)
  : list (option string * list Button.t) :=
  renderSection activeMenu <$> sections.*1.

(** ** The frame *)

(** What [App] shows for a key (lines 94-104): the side bar and the
    content. *)
Record frame : Type := Frame {
  sidebar : list (option string * list Button.t);
  content : component
}.

Definition renderApp (activeMenu : string) : frame :=
  Frame (renderSidebar activeMenu) (renderContent activeMenu).

(** The buttons of a side bar, top to bottom. *)
Definition buttons (bar : list (option string * list Button.t))
  : list Button.t :=
  mjoin (bar.*2).

(** A click on a button: [onMenuChange(item.id)] (Sidebar.tsx, line 153),
    which is [setActiveMenu] (App.tsx, line 96). *)
Definition onMenuChange (menuId : string) (activeMenu : string) : string :=
  menuId.

(** A button can be clicked when the side bar shows it. *)
Definition shown (menuId : string) (activeMenu : string) : Prop :=
  menuId ∈ Button.key <$> buttons (renderSidebar activeMenu).

(** The keys the frame can hold. *)
Definition menuKey (activeMenu : string) : Prop :=
  reachable_from onMenuChange shown initialMenu activeMenu.

(** The ids of the menu. *)
Definition menuIds : list string := MenuItem.id <$> menuItems.

(** ** Lemmas *)

Section lemmas.
Implicit Types (activeMenu menuId : string) (item : MenuItem.t).

(** The side bar shows one button per entry of the menu, in the order of
    the menu, whatever the key. *)
Lemma buttons_keys activeMenu :
  Button.key <$> buttons (renderSidebar activeMenu) = menuIds.
Proof. done. Qed.

Lemma buttons_items activeMenu :
  buttons (renderSidebar activeMenu) = renderItem activeMenu <$> menuItems.
Proof. done. Qed.

Lemma menuIds_NoDup : NoDup menuIds.
Proof. compute_done. Qed.

(** Every id of the menu is a label of the [switch]. *)
Lemma menuIds_cases : menuIds = cases.*1.
Proof. done. Qed.

Lemma cases_inj : NoDup (cases.*2).
Proof. compute_done. Qed.

Lemma shown_iff menuId activeMenu : shown menuId activeMenu ↔ menuId ∈ menuIds.
Proof. unfold shown. by rewrite buttons_keys. Qed.

(** The key is always an id of the menu. *)
Lemma menuKey_id activeMenu : menuKey activeMenu → activeMenu ∈ menuIds.
Proof.
  apply (reachable_invariant onMenuChange shown (λ key, key ∈ menuIds)).
  - by left.
  - intros menuId key _ Hshown. by apply shown_iff in Hshown.
Qed.

(** The button of an id is the only one drawn active under that key. *)
Lemma active_buttons activeMenu :
  activeMenu ∈ menuIds →
  Button.key <$> filter Button.isActive (buttons (renderSidebar activeMenu))
  = [activeMenu].
Proof.
  intros Hin.
  repeat (apply elem_of_cons in Hin as [->|Hin]; [by vm_compute|]).
  by apply elem_of_nil in Hin.
Qed.

(** An id of the menu is never shown by the [default] of the [switch]. *)
Lemma renderContent_case menuId :
  menuId ∈ menuIds → assoc menuId cases = Some (renderContent menuId).
Proof.
  intros Hin.
  repeat (apply elem_of_cons in Hin as [->|Hin]; [by vm_compute|]).
  by apply elem_of_nil in Hin.
Qed.

Lemma renderContent_inj menuId1 menuId2 :
  menuId1 ∈ menuIds → menuId2 ∈ menuIds →
  renderContent menuId1 = renderContent menuId2 → menuId1 = menuId2.
Proof.
  intros H1 H2 Heq.
  apply renderContent_case in H1, H2. rewrite Heq in H1.
  clear Heq. revert H1 H2. generalize (renderContent menuId2). intros c H1 H2.
  assert (∀ k, assoc k cases = Some c → (k, c) ∈ cases) as Hin.
  { intros k. generalize cases. induction l as [|[k' c'] l IH]; [done|].
    simpl. case_decide as Hk; [intros [= ->]; subst; by left|].
    intros H. right. by apply IH. }
  apply Hin in H1, H2.
  assert ((menuId1, c) = (menuId2, c)) as [= ->]; [|done].
  by apply (NoDup_fmap_eq snd cases); [apply cases_inj|..].
Qed.

(** Five labels of the [switch] show a component that has no file among
    the sources. *)
Lemma cases_without_source :
  filter (λ c, c ∉ present) (cases.*2)
  = [VideoGroupManagement; AccountManagement; FBReelsComments;
     PostReelsProfile; PostReelsInstagram].
Proof. done. Qed.

(** Every section has a heading, and every entry is in a section. *)
Lemma sections_cover :
  Forall (λ item, MenuItem.section item ∈ sections.*1) menuItems ∧
  Forall (λ bar, is_Some bar.1) (renderSidebar initialMenu).
Proof. split; repeat constructor; compute_done. Qed.

Lemma menuKey_click menuId : menuId ∈ menuIds → menuKey menuId.
Proof.
  intros Hin. apply (reachable_step onMenuChange shown _ initialMenu menuId).
  - constructor.
  - by apply shown_iff.
Qed.

End lemmas.

(** ** Properties *)

Section properties.
Implicit Types (activeMenu menuId : string).

(** The side bar and the [switch] of the frame agree on the menu: for
    every key the side bar shows exactly one button per entry of the
    menu, in the order of the menu; the ids of the entries are distinct;
    each is a label of the [switch], never handled by its [default]; and
    different entries show different components. *)
Theorem menu_routes activeMenu :
  Button.key <$> buttons (renderSidebar activeMenu) = menuIds ∧
  NoDup menuIds ∧
  ∀ menuId1, menuId1 ∈ menuIds →
    assoc menuId1 cases = Some (renderContent menuId1) ∧
    ∀ menuId2, menuId2 ∈ menuIds →
      renderContent menuId1 = renderContent menuId2 → menuId1 = menuId2.
Proof.
  split_and!; [apply buttons_keys|apply menuIds_NoDup|].
  intros menuId1 H1. split; [by apply renderContent_case|].
  intros menuId2 H2. by apply renderContent_inj.
Qed.

(** C34. Whatever buttons are clicked, the key of the frame is the id of an
    entry of the menu, the button of that entry and no other is drawn
    active, and the content is the component of that entry's [case]. *)
Theorem active_menu_invariant activeMenu :
  menuKey activeMenu →
  activeMenu ∈ menuIds ∧
  Button.key <$> filter Button.isActive (buttons (sidebar (renderApp activeMenu)))
  = [activeMenu] ∧
  assoc activeMenu cases = Some (content (renderApp activeMenu)).
Proof.
  intros Hin%menuKey_id. split_and!; [done| |by apply renderContent_case].
  by apply active_buttons.
Qed.

End properties.

Lemma active_menu_invariant_witness :
  Button.key <$> filter Button.isActive
                   (buttons (sidebar (renderApp "post-tiktok")))
  = ["post-tiktok"] ∧
  content (renderApp "post-tiktok") = PostTiktok.
Proof.
  destruct (active_menu_invariant "post-tiktok") as (_ & Hactive & Hcase).
  { apply menuKey_click. compute_done. }
  by split.
Defined.

End Shell.
