(* ===== verification/Screens.v ===== *)
(** * Screens: the page as a whole

    What [App.tsx] puts on the page (lines 72-109): the header, the side
    bar of [Shell] and the component of the active key.  Eleven of the
    components are static ([AIManagement.tsx] and its ten siblings: a
    heading, an icon, two lines of text); [VideoScanner] is the screen of
    [Client], [Async] and [View], and its state lives as long as the
    component is mounted: React keeps the state of a component while the
    element returned at its place has the same type, and starts from the
    arguments of [useState] when it is mounted again.  Five components
    that [App.tsx] imports have no file among the sources; nothing is
    rendered for them. *)

From S2P Require Import Prelude JsString Effects Machine Dom Session Extract.
From S2P Require Import Orchestrator Server Client Async View Shell.
Import Dom Client Client.Screen Async Shell.

Module Screens.

(** ** The static screens *)

(** The texts of a static screen: the [h1], the icon, the [h3] and the
    [p] (lines 8, 13, 14 and 15 of each file). *)
Module Placeholder.
Record Placeholder : Type := Make {
  heading : string;
  icon : string;
  subtitle : string;
  message : string
}.
Abbreviation t := Placeholder.
End Placeholder.

(** [AIManagement.tsx], lines 4-20. *)
Definition AIManagementPage : Placeholder.t :=
  Placeholder.Make "Quản lý AI" "Brain" "Tính năng AI đang phát triển"
    "Hãy chờ phiên bản cập nhật để sử dụng các tính năng AI".

(** [AccountGroupManagement.tsx], lines 4-20. *)
Definition AccountGroupManagementPage : Placeholder.t :=
  Placeholder.Make "Quản lý nhóm tài khoản" "UserCheck" "Quản lý nhóm tài khoản"
    "Hãy chờ phiên bản cập nhật để sử dụng tính năng quản lý nhóm tài khoản".

(** [BatchScheduling.tsx], lines 4-20. *)
Definition BatchSchedulingPage : Placeholder.t :=
  Placeholder.Make "Lên lịch hàng loạt" "Clock" "Lên lịch hàng loạt"
    "Hãy chờ phiên bản cập nhật để sử dụng tính năng lên lịch hàng loạt".

(** [DownloadedVideos.tsx], lines 4-20. *)
Definition DownloadedVideosPage : Placeholder.t :=
  Placeholder.Make "DS video đã download" "Download"
    "Chưa có video nào được download"
    ("Hãy quét và download video từ trang "
     +:+ String (Ascii.ascii_of_nat 34) "Quét video"
     +:+ String (Ascii.ascii_of_nat 34) " trước").

(** [MusicLibrary.tsx], lines 4-20. *)
Definition MusicLibraryPage : Placeholder.t :=
  Placeholder.Make "Kho nhạc" "Music" "Kho nhạc"
    "Hãy chờ phiên bản cập nhật để sử dụng tính năng kho nhạc".

(** [PostReelsFanpage.tsx], lines 4-20. *)
Definition PostReelsFanpagePage : Placeholder.t :=
  Placeholder.Make "Đăng reels Fanpage" "Facebook" "Đăng reels Fanpage"
    "Hãy chờ phiên bản cập nhật để sử dụng tính năng đăng reels Fanpage".

(** [PostSchedule.tsx], lines 4-20. *)
Definition PostSchedulePage : Placeholder.t :=
  Placeholder.Make "Lịch trình đăng bài" "Calendar" "Lịch trình đăng bài"
    "Hãy chờ phiên bản cập nhật để sử dụng tính năng lịch trình đăng bài".

(** [PostTiktok.tsx], lines 4-20. *)
Definition PostTiktokPage : Placeholder.t :=
  Placeholder.Make "Đăng Tiktok" "Facebook" "Đăng Tiktok"
    "Hãy chờ phiên bản cập nhật để sử dụng tính năng đăng Tiktok".

(** [PostYoutubeShort.tsx], lines 4-20. *)
Definition PostYoutubeShortPage : Placeholder.t :=
  Placeholder.Make "Đăng Youtube short" "Youtube" "Đăng Youtube short"
    "Hãy chờ phiên bản cập nhật để sử dụng tính năng đăng Youtube short".

(** [ProxyManagement.tsx], lines 4-20. *)
Definition ProxyManagementPage : Placeholder.t :=
  Placeholder.Make "Quản lý proxy" "Shield" "Quản lý proxy"
    "Hãy chờ phiên bản cập nhật để sử dụng tính năng quản lý proxy".

(** [VideoEditor.tsx], lines 4-20. *)
Definition VideoEditorPage : Placeholder.t :=
  Placeholder.Make "Chỉnh sửa video" "Scissors" "Trình chỉnh sửa video"
    "Hãy chờ phiên bản cập nhật để sử dụng tính năng chỉnh sửa video".

(** The tree the eleven files share (lines 5-19). *)
Definition placeholderView (p : Placeholder.t) : list View.node :=
  [ View.Group [View.Text (Placeholder.heading p)];
    View.Group [ View.Icon (Placeholder.icon p);
                 View.Text (Placeholder.subtitle p);
                 View.Text (Placeholder.message p) ] ].

(** The file behind each import of [App.tsx] (lines 3-19), for the static
    screens. *)
Definition placeholderOf (c : component) : option Placeholder.t :=
  match c with
  | DownloadedVideos => Some DownloadedVideosPage
  | AIManagement => Some AIManagementPage
  | VideoEditor => Some VideoEditorPage
  | MusicLibrary => Some MusicLibraryPage
  | AccountGroupManagement => Some AccountGroupManagementPage
  | ProxyManagement => Some ProxyManagementPage
  | PostSchedule => Some PostSchedulePage
  | BatchScheduling => Some BatchSchedulingPage
  | PostReelsFanpage => Some PostReelsFanpagePage
  | PostYoutubeShort => Some PostYoutubeShortPage
  | PostTiktok => Some PostTiktokPage
  | _ => None
  end.

(** ** The page *)

(** The state of the page: the key of [App] and, while [VideoScanner] is
    mounted, its state and its calls. *)
Record ui : Type := Ui {
  activeMenu : string;
  scanner : option app
}.

(** The state of [VideoScanner] when the component of a key is mounted in
    place of the component of another: kept when both are
    [VideoScanner], new when only the second is, gone otherwise. *)
Definition remount (previous next : component) (mounted : option app) : option app :=
  match next with
  | VideoScanner =>
      match previous with
      | VideoScanner => mounted
      | _ => Some initialApp
      end
  | _ => None
  end.

(** The first render (App.tsx, line 30). *)
Definition initialUi : ui := Ui initialMenu (Some initialApp).

(** [setActiveMenu(menuId)] and the render that follows. *)
Definition setActiveMenu (menuId : string) (u : ui) : ui :=
  Ui (onMenuChange menuId (activeMenu u))
     (remount (renderContent (activeMenu u)) (renderContent menuId) (scanner u)).

(** What happens on the page: a click on the side bar, or a move of the
    scan screen. *)
Inductive gesture : Type :=
| MenuClicked (menuId : string)
| ScannerMove (m : move).

Definition react (g : gesture) (u : ui) : ui :=
  match g with
  | MenuClicked menuId => setActiveMenu menuId u
  | ScannerMove m => Ui (activeMenu u) (act m <$> scanner u)
  end.

(** A button of the side bar is always there; a move of the scan screen
    needs the screen. *)
Definition possible (g : gesture) (u : ui) : Prop :=
  match g with
  | MenuClicked menuId => shown menuId (activeMenu u)
  | ScannerMove m =>
      match scanner u with
      | Some a => enabled m a
      | None => False
      end
  end.

Definition browsing : ui → Prop := reachable_from react possible initialUi.

(** The header (App.tsx, lines 74-91). *)
Definition header : View.node :=
  View.Group [ View.Text "S"; View.Text "MARKETING BY NAMNH";
               View.Text "TikTok Automation Tool v2.0" ].

Section page.
Context (toLocaleString : N → string).

(** [renderContent()] (App.tsx, line 102) with the state of the screen;
    nothing for a component without a file. *)
Definition contentView (u : ui) : option (list View.node) :=
  match renderContent (activeMenu u) with
  | VideoScanner => View.render toLocaleString ∘ screen <$> scanner u
  | c => placeholderView <$> placeholderOf c
  end.

End page.

(** The heading of a tree: the text of its first group. *)
Definition headingOf (view : list View.node) : option string :=
  match view with
  | View.Group (View.Text heading :: _) :: _ => Some heading
  | _ => None
  end.

(** The first icon of the second group of a static screen. *)
Definition iconOf (view : list View.node) : option string :=
  match view with
  | _ :: View.Group (View.Icon name :: _) :: _ => Some name
  | _ => None
  end.

(** The scan screen with a list, as left for another screen. *)
Definition scannedUi : ui := Ui "scan-video" (Some (App mockScreen [])).

(** ** Lemmas *)

Section lemmas.
Context (toLocaleString : N → string).
Implicit Types (u : ui) (menuId : string) (item : MenuItem.t).
Local Abbreviation contentView := (contentView toLocaleString).

Lemma headingOf_render st :
  headingOf (View.render toLocaleString st) = Some "Quét video".
Proof. done. Qed.

(** The scan screen is mounted exactly under a key that shows it. *)
Lemma browsing_mounted u :
  browsing u →
  is_Some (scanner u) ↔ renderContent (activeMenu u) = VideoScanner.
Proof.
  revert u. apply reachable_invariant; [done|].
  intros [menuId|m] u IH Hpos; simpl.
  - unfold remount, onMenuChange. destruct (renderContent menuId) eqn:Hnext;
      try (by split; [intros [? [=]]|]).
    split; [done|intros _].
    destruct (renderContent (activeMenu u)); try done. by apply IH.
  - rewrite fmap_is_Some. apply IH.
Qed.

(** A static screen is shown for a component exactly when it has a
    file. *)
Lemma placeholderOf_present (c : component) :
  c ≠ VideoScanner → is_Some (placeholderOf c) ↔ c ∈ present.
Proof.
  intros Hc. destruct c; try done; simpl;
    (split; [first [by intros [? [=]]|intros _; compute_done]|]);
    first [by eexists|intros Hin; exfalso; revert Hin; compute_done].
Qed.
(** Each screen is titled as its entry of the menu: when a button of
    the side bar is clicked and its component has a file, the heading of
    the screen shown is the label of the button, and a static screen
    shows the icon of the button. *)
Theorem screens_titled item u view :
  item ∈ menuItems →
  contentView (setActiveMenu (MenuItem.id item) u) = Some view →
  headingOf view = Some (MenuItem.label item) ∧
  (renderContent (MenuItem.id item) ≠ VideoScanner →
   iconOf view = Some (MenuItem.icon item)).
Proof.
  intros Hin.
  repeat (apply elem_of_cons in Hin as [->|Hin];
          [try (by cbn; intros [= <-]); try done|]).
  - unfold contentView, Screens.contentView. cbn.
    destruct (remount _ _ _); [|done]. by intros [= <-].
  - by apply elem_of_nil in Hin.
Qed.

(** C29. The scan screen forgets: after a look at any other screen of the
    menu the scan screen is as at the first render, with an empty list
    and no selection, and the calls it had in flight are no longer its
    own. *)
Theorem leaving_forgets u menuId :
  menuId ∈ menuIds → menuId ≠ "scan-video" →
  react (MenuClicked "scan-video") (react (MenuClicked menuId) u) = initialUi.
Proof.
  intros Hin Hne.
  repeat (apply elem_of_cons in Hin as [->|Hin]; [done|]).
  by apply elem_of_nil in Hin.
Qed.

End lemmas.

Lemma screens_titled_witness :
  headingOf (placeholderView PostTiktokPage) = Some "Đăng Tiktok".
Proof.
  apply (screens_titled View.plainLocale
           (MenuItem.Make "post-tiktok" "Đăng Tiktok" "Facebook" "posting" None)
           scannedUi); [by apply (list_elem_of_lookup_2 _ 16)|done].
Defined.

Lemma leaving_forgets_witness :
  react (MenuClicked "scan-video") (react (MenuClicked "post-tiktok") scannedUi)
  = initialUi.
Proof. apply leaving_forgets; [compute_done|done]. Defined.

End Screens.
