(* ===== verification/Desktop.v ===== *)
(** * Desktop: the Electron shell

    [src/electron/main.js] is the main process of the desktop build: it
    owns two module variables, [mainWindow] and [serverProcess], creates
    the window, installs the application menu once the window is ready to
    show, answers two [ipcMain.handle] channels and forwards errors to the
    page.  [src/electron/preload.js] is what the page sees of it.

    The main process is a machine of [Machine]: its state is the record
    [desktop] (the two variables, the windows that exist, the listeners
    registered on [app], and what the process has done: messages sent to
    a window, dialogs opened, calls of [app.quit] and of
    [serverProcess.kill]); each listener is a computation of [Effects]
    that may throw; [dispatch] runs the listeners of one event of
    Electron and hands what they throw to the listener of
    [uncaughtException] or [unhandledRejection], as Node does.  Electron
    itself (what [show], [loadURL] or a menu role do on screen) and the
    host ([process.env], [process.platform], the answers of
    [app.getVersion] and of the folder dialog) are inputs. *)

From stdpp Require Import strings list.
From S2P Require Import Prelude JsString Effects Machine Session.
Import Session.

Module Desktop.

(** ** The host *)

(** [process.env.NODE_ENV], [process.platform], [process.arch], and the
    answers of [app.getVersion()] and [app.getName()]. *)
Record host : Type := Host {
  NODE_ENV : string;
  platform : string;
  arch : string;
  appVersion : string;
  appName : string
}.

(** [main.js] line 3. *)
Definition isDev (h : host) : bool :=
  bool_decide (NODE_ENV h = "development").

(** ** Windows *)

Module WebPreferences.
Record WebPreferences : Type := Make {
  nodeIntegration : bool;
  contextIsolation : bool;
  enableRemoteModule : bool;
  preload : string
}.
Abbreviation t := WebPreferences.
End WebPreferences.

Module WindowOptions.
Record WindowOptions : Type := Make {
  width : nat;
  height : nat;
  minWidth : nat;
  minHeight : nat;
  icon : string;
  webPreferences : WebPreferences.t;
  show : bool;
  titleBarStyle : string;
  frame : bool
}.
Abbreviation t := WindowOptions.
End WindowOptions.

(** The argument of [new BrowserWindow], lines 10-25; the paths are
    relative to [__dirname]. *)
Definition windowOptions : WindowOptions.t :=
  WindowOptions.Make 1400 900 1200 800 "../assets/icon.ico"
    (WebPreferences.Make false true false "preload.js")
    false "default" true.

(** What a window has been told to load. *)
Inductive location : Type :=
| URL (url : string)
| File (path : string).

(** A [BrowserWindow] as [main.js] uses it: its options, what it loads,
    whether the developer tools were opened, whether it is shown, and the
    two listeners [createWindow] registers on it ([once] for
    [ready-to-show], [on] for [closed]). *)
Module BrowserWindow.
Record BrowserWindow : Type := Make {
  options : WindowOptions.t;
  loaded : option location;
  devTools : bool;
  visible : bool;
  onceReadyToShow : bool;
  onClosed : bool
}.
Abbreviation t := BrowserWindow.
End BrowserWindow.

(** The value of a variable that holds a window: [let mainWindow;] leaves
    it [undefined], the listener of [closed] sets it to [null]. *)
Inductive reference : Type :=
| Undefined
| Null
| Ref (id : nat).

(** ** Messages, dialogs and the menu *)

(** An argument of [webContents.send]. *)
Inductive ipcValue : Type :=
| VUndefined
| VString (s : string)
| VError (e : js_error).

Record ipcMessage : Type := IpcMessage {
  channel : string;
  args : list ipcValue
}.

(** The answer of [dialog.showOpenDialog]. *)
Record openResult : Type := OpenResult {
  canceled : bool;
  filePaths : list string
}.

(** A dialog the process has opened, with the window it was given. *)
Inductive dialogBox : Type :=
| OpenDialog (parent : reference) (properties : list string) (title : string)
| MessageBox (parent : reference) (type title message detail : string).

(** The four [click] functions of the template, lines 66-68, 72-80, 86-88
    and 130-137. *)
Inductive clickAction : Type :=
| SendNewScan
| AskFolder
| QuitApp
| ShowAbout.

Inductive menuEntry : Type :=
| Item (label : string) (accelerator : option string) (click : clickAction)
| Role (role : string)
| Separator.

Record submenu : Type := Submenu {
  menuLabel : string;
  entries : list menuEntry
}.

(** [template] of [createMenu], lines 59-141. *)
Definition template (h : host) : list submenu := [
  Submenu "File" [
    Item "New Scan" (Some "CmdOrCtrl+N") SendNewScan;
    Item "Open Downloads Folder" None AskFolder;
    Separator;
    Item "Exit"
      (Some (if bool_decide (platform h = "darwin") then "Cmd+Q" else "Ctrl+Q"))
      QuitApp ];
  Submenu "Edit" [
    Role "undo"; Role "redo"; Separator;
    Role "cut"; Role "copy"; Role "paste"; Role "selectall" ];
  Submenu "View" [
    Role "reload"; Role "forceReload"; Role "toggleDevTools"; Separator;
    Role "resetZoom"; Role "zoomIn"; Role "zoomOut"; Separator;
    Role "togglefullscreen" ];
  Submenu "Window" [ Role "minimize"; Role "close" ];
  Submenu "Help" [ Item "About" None ShowAbout ]
].

Local Abbreviation nl := (String (Ascii.ascii_of_nat 10) "").

(** The text of the About box, line 135. *)
Definition aboutDetail : string :=
  "Developed by NamNH" +:+ nl +:+ nl +:+
  "A powerful tool for TikTok automation with features like:" +:+ nl +:+
  "• Video scanning and downloading" +:+ nl +:+
  "• Multi-platform posting" +:+ nl +:+
  "• Scheduled posting" +:+ nl +:+
  "• AI management" +:+ nl +:+
  "• And much more!".

(** ** The state of the main process *)

Record desktop : Type := Desktop {
  ready : bool;                              (* [app.whenReady()] has resolved *)
  mainWindow : reference;                    (* line 5 *)
  serverProcess : option nat;                (* line 6 *)
  windows : list (nat * BrowserWindow.t);    (* [BrowserWindow.getAllWindows()] *)
  created : nat;                             (* windows created so far *)
  applicationMenu : option (list submenu);   (* [Menu.setApplicationMenu] *)
  beforeQuit : nat;                          (* listeners of [before-quit] *)
  activate : nat;                            (* listeners of [activate] *)
  delivered : list (nat * ipcMessage);       (* [webContents.send], by window *)
  dialogs : list dialogBox;
  quits : nat;                               (* calls of [app.quit()] *)
  kills : nat                                (* calls of [serverProcess.kill()] *)
}.

(** The process when [main.js] has been evaluated: the variables are
    declared, nothing is registered on [app] but [window-all-closed]. *)
Definition initialDesktop : desktop :=
  Desktop false Undefined None [] 0 None 0 0 [] [] 0 0.

Definition process := M desktop js_error.

(** *** Assignments *)

Definition set_ready (st : desktop) : desktop :=
  Desktop true (mainWindow st) (serverProcess st) (windows st) (created st)
    (applicationMenu st) (beforeQuit st) (activate st) (delivered st)
    (dialogs st) (quits st) (kills st).

Definition add_activate (st : desktop) : desktop :=
  Desktop (ready st) (mainWindow st) (serverProcess st) (windows st)
    (created st) (applicationMenu st) (beforeQuit st) (S (activate st))
    (delivered st) (dialogs st) (quits st) (kills st).

Definition set_mainWindow (r : reference) (st : desktop) : desktop :=
  Desktop (ready st) r (serverProcess st) (windows st) (created st)
    (applicationMenu st) (beforeQuit st) (activate st) (delivered st)
    (dialogs st) (quits st) (kills st).

Definition set_windows (f : list (nat * BrowserWindow.t) → list (nat * BrowserWindow.t))
    (st : desktop) : desktop :=
  Desktop (ready st) (mainWindow st) (serverProcess st) (f (windows st))
    (created st) (applicationMenu st) (beforeQuit st) (activate st)
    (delivered st) (dialogs st) (quits st) (kills st).

Definition set_created (n : nat) (st : desktop) : desktop :=
  Desktop (ready st) (mainWindow st) (serverProcess st) (windows st) n
    (applicationMenu st) (beforeQuit st) (activate st) (delivered st)
    (dialogs st) (quits st) (kills st).

Definition set_applicationMenu (menu : list submenu) (st : desktop) : desktop :=
  Desktop (ready st) (mainWindow st) (serverProcess st) (windows st)
    (created st) (Some menu) (beforeQuit st) (activate st) (delivered st)
    (dialogs st) (quits st) (kills st).

Definition add_beforeQuit (st : desktop) : desktop :=
  Desktop (ready st) (mainWindow st) (serverProcess st) (windows st)
    (created st) (applicationMenu st) (S (beforeQuit st)) (activate st)
    (delivered st) (dialogs st) (quits st) (kills st).

Definition add_delivered (id : nat) (m : ipcMessage) (st : desktop) : desktop :=
  Desktop (ready st) (mainWindow st) (serverProcess st) (windows st)
    (created st) (applicationMenu st) (beforeQuit st) (activate st)
    (delivered st ++ [(id, m)]) (dialogs st) (quits st) (kills st).

Definition add_dialog (d : dialogBox) (st : desktop) : desktop :=
  Desktop (ready st) (mainWindow st) (serverProcess st) (windows st)
    (created st) (applicationMenu st) (beforeQuit st) (activate st)
    (delivered st) (dialogs st ++ [d]) (quits st) (kills st).

Definition add_quit (st : desktop) : desktop :=
  Desktop (ready st) (mainWindow st) (serverProcess st) (windows st)
    (created st) (applicationMenu st) (beforeQuit st) (activate st)
    (delivered st) (dialogs st) (S (quits st)) (kills st).

Definition add_kill (st : desktop) : desktop :=
  Desktop (ready st) (mainWindow st) (serverProcess st) (windows st)
    (created st) (applicationMenu st) (beforeQuit st) (activate st)
    (delivered st) (dialogs st) (quits st) (S (kills st)).

(** ** Electron as [main.js] calls it *)

(** Reading a property of [null] or [undefined]. *)
Definition typeError (r : reference) (property : string) : js_error :=
  JsError "TypeError"
    ("Cannot read properties of " +:+
     (match r with Undefined => "undefined" | _ => "null" end) +:+
     " (reading '" +:+ property +:+ "')").

(** [mainWindow.<property>]: the window the variable holds, or the
    [TypeError] of reading a property of [null]. *)
Definition mainWindowDot (property : string) : process nat :=
  st ← get;
  match mainWindow st with
  | Ref id => mret id
  | r => throw (typeError r property)
  end.

(** The first window of the list with this identifier, changed by [f]. *)
Fixpoint alterWindow (id : nat) (f : BrowserWindow.t → BrowserWindow.t)
    (ws : list (nat * BrowserWindow.t)) : list (nat * BrowserWindow.t) :=
  match ws with
  | [] => []
  | (id', w) :: ws =>
      if decide (id = id') then (id', f w) :: ws
      else (id', w) :: alterWindow id f ws
  end.

(** A method of [mainWindow] that changes the window. *)
Definition mainWindowCall (method : string)
    (f : BrowserWindow.t → BrowserWindow.t) : process unit :=
  id ← mainWindowDot method;
  modify (set_windows (alterWindow id f)).

Definition loadURL (url : string) (w : BrowserWindow.t) : BrowserWindow.t :=
  BrowserWindow.Make (BrowserWindow.options w) (Some (URL url))
    (BrowserWindow.devTools w) (BrowserWindow.visible w)
    (BrowserWindow.onceReadyToShow w) (BrowserWindow.onClosed w).

Definition loadFile (path : string) (w : BrowserWindow.t) : BrowserWindow.t :=
  BrowserWindow.Make (BrowserWindow.options w) (Some (File path))
    (BrowserWindow.devTools w) (BrowserWindow.visible w)
    (BrowserWindow.onceReadyToShow w) (BrowserWindow.onClosed w).

Definition openDevTools (w : BrowserWindow.t) : BrowserWindow.t :=
  BrowserWindow.Make (BrowserWindow.options w) (BrowserWindow.loaded w)
    true (BrowserWindow.visible w)
    (BrowserWindow.onceReadyToShow w) (BrowserWindow.onClosed w).

Definition showWindow (w : BrowserWindow.t) : BrowserWindow.t :=
  BrowserWindow.Make (BrowserWindow.options w) (BrowserWindow.loaded w)
    (BrowserWindow.devTools w) true
    (BrowserWindow.onceReadyToShow w) (BrowserWindow.onClosed w).

(** [once('ready-to-show', ...)] registers the listener, its call removes
    it. *)
Definition setOnceReadyToShow (b : bool) (w : BrowserWindow.t) : BrowserWindow.t :=
  BrowserWindow.Make (BrowserWindow.options w) (BrowserWindow.loaded w)
    (BrowserWindow.devTools w) (BrowserWindow.visible w)
    b (BrowserWindow.onClosed w).

Definition setOnClosed (w : BrowserWindow.t) : BrowserWindow.t :=
  BrowserWindow.Make (BrowserWindow.options w) (BrowserWindow.loaded w)
    (BrowserWindow.devTools w) (BrowserWindow.visible w)
    (BrowserWindow.onceReadyToShow w) true.

(** [new BrowserWindow(options)]: a window with a fresh identifier, shown
    or not as the options say, with no listener. *)
Definition newBrowserWindow (o : WindowOptions.t) : process nat :=
  st ← get;
  let id := created st in
  modify (set_created (S id));;
  modify (set_windows
            (cons (id, BrowserWindow.Make o None false (WindowOptions.show o)
                         false false)));;
  mret id.

(** [mainWindow.webContents.send(channel, ...args)]. *)
Definition webContentsSend (channel : string) (args : list ipcValue) : process unit :=
  id ← mainWindowDot "webContents";
  modify (add_delivered id (IpcMessage channel args)).

(** ** [main.js] *)

(** [createWindow], lines 8-56. *)
Definition createWindow (h : host) : process unit :=
  id ← newBrowserWindow windowOptions;
  modify (set_mainWindow (Ref id));;
  (if isDev h then
     mainWindowCall "loadURL" (loadURL "http://localhost:3000");;
     id' ← mainWindowDot "webContents";
     modify (set_windows (alterWindow id' openDevTools))
   else
     mainWindowCall "loadFile" (loadFile "../client/build/index.html"));;
  mainWindowCall "once" (setOnceReadyToShow true);;
  mainWindowCall "on" setOnClosed;;
  modify add_beforeQuit.

(** The window [createWindow] leaves, before it is shown. *)
Definition createdWindow (h : host) : BrowserWindow.t :=
  BrowserWindow.Make windowOptions
    (Some (if isDev h then URL "http://localhost:3000"
           else File "../client/build/index.html"))
    (isDev h) false true true.

(** [createMenu], lines 58-145: the menu built from the template becomes
    the application menu. *)
Definition createMenu (h : host) : process unit :=
  modify (set_applicationMenu (template h)).

(** The listener of [ready-to-show], lines 38-43. *)
Definition onReadyToShow (h : host) : process unit :=
  mainWindowCall "show" showWindow;;
  createMenu h.

(** The listener of [closed], lines 46-48. *)
Definition onWindowClosed : process unit :=
  modify (set_mainWindow Null).

(** A listener of [before-quit], lines 51-55. *)
Definition onBeforeQuit : process unit :=
  st ← get;
  match serverProcess st with
  | Some _ => modify add_kill
  | None => mret tt
  end.

(** The callback of [app.whenReady()], lines 148-156. *)
Definition onReady (h : host) : process unit :=
  createWindow h;;
  modify add_activate.

(** A listener of [activate], lines 151-155. *)
Definition onActivate (h : host) : process unit :=
  st ← get;
  if decide (length (windows st) = 0) then createWindow h else mret tt.

(** The listener of [window-all-closed], lines 158-162. *)
Definition onWindowAllClosed (h : host) : process unit :=
  if bool_decide (platform h ≠ "darwin") then modify add_quit else mret tt.

(** [filePaths[0]] as an argument of [send]. *)
Definition firstPath (result : openResult) : ipcValue :=
  match filePaths result with
  | path :: _ => VString path
  | [] => VUndefined
  end.

(** The [click] functions of the menu. *)
Definition onClick (a : clickAction) (result : openResult) : process unit :=
  match a with
  | SendNewScan => webContentsSend "new-scan" []
  | AskFolder =>
      st ← get;
      modify (add_dialog (OpenDialog (mainWindow st) ["openDirectory"]
                            "Open Downloads Folder"));;
      if negb (canceled result)
      then webContentsSend "open-folder" [firstPath result]
      else mret tt
  | QuitApp => modify add_quit
  | ShowAbout =>
      st ← get;
      modify (add_dialog (MessageBox (mainWindow st) "info"
                            "About TikTok Automation Tool"
                            "TikTok Automation Tool v2.0" aboutDetail))
  end.

(** The [click] of line 72 is an [async] function: what it throws rejects
    a promise nobody handles. *)
Definition isAsync (a : clickAction) : bool :=
  match a with AskFolder => true | _ => false end.

(** [ipcMain.handle], lines 165-171: the channels that have a handler, and
    what the handler returns. *)
Definition ipcHandlers (h : host) : list (string * string) :=
  [ ("get-app-version", appVersion h); ("get-app-name", appName h) ].

(** [ipcRenderer.invoke(channel)] as the main process answers it: the
    promise rejects when the channel has no handler. *)
Definition invoke (h : host) (channel : string) : outcome js_error string :=
  match list_find (λ entry, entry.1 = channel) (ipcHandlers h) with
  | Some (_, (_, answer)) => Ok answer
  | None =>
      Throw (JsError "Error"
               ("No handler registered for '" +:+ channel +:+ "'"))
  end.

(** The listener of [uncaughtException], lines 174-179. *)
Definition onUncaughtException (error : js_error) : process unit :=
  st ← get;
  match mainWindow st with
  | Ref _ => webContentsSend "error" [VString (message error)]
  | _ => mret tt
  end.

(** The listener of [unhandledRejection], lines 181-186. *)
Definition onUnhandledRejection (reason : js_error) : process unit :=
  st ← get;
  match mainWindow st with
  | Ref _ => webContentsSend "error" [VError reason]
  | _ => mret tt
  end.

(** ** [preload.js] *)

(** What a function of [window.electronAPI] does with [ipcRenderer]. *)
Inductive bridge : Type :=
| Invokes (channel : string)
| Listens (channel : string)
| RemovesListeners.

(** [electronAPI], lines 5-19. *)
Definition electronAPI : list (string * bridge) := [
  ("getAppVersion", Invokes "get-app-version");
  ("getAppName", Invokes "get-app-name");
  ("openFolder", Listens "open-folder");
  ("newScan", Listens "new-scan");
  ("onError", Listens "error");
  ("removeAllListeners", RemovesListeners)
].

(** [window.platform], lines 22-26. *)
Definition platformInfo (h : host) : list (string * string) :=
  [ ("isElectron", "true"); ("platform", platform h); ("arch", arch h) ].

(** The channels the page can listen to, and those it can invoke. *)
Definition listened : list string :=
  omap (λ entry, match entry.2 with Listens c => Some c | _ => None end)
       electronAPI.

Definition invoked : list string :=
  omap (λ entry, match entry.2 with Invokes c => Some c | _ => None end)
       electronAPI.

(** ** The events of Electron *)

Inductive signal : Type :=
| WhenReady
| ReadyToShow (id : nat)
| Closed (id : nat)
| Activate
| WindowAllClosed
| BeforeQuit
| MenuClick (label : string) (result : openResult)
| UncaughtException (error : js_error)
| UnhandledRejection (reason : js_error).

(** The item of an installed menu with a label. *)
Definition menuAction (label : string) (menu : list submenu) : option clickAction :=
  head (omap (λ entry, match entry with
                       | Item label' _ a =>
                           if decide (label' = label) then Some a else None
                       | _ => None
                       end)
             (mjoin (entries <$> menu))).

Definition windowOf (id : nat) (st : desktop) : option BrowserWindow.t :=
  (λ found, found.2.2) <$> list_find (λ entry, entry.1 = id) (windows st).

(** The listeners Electron calls for an event, in the order it calls
    them.  The second component says whether an exception of theirs is a
    rejection. *)
Definition listeners (h : host) (e : signal) (st : desktop) : process unit * bool :=
  match e with
  | WhenReady => (modify set_ready;; onReady h, true)
  | ReadyToShow id =>
      (modify (set_windows (alterWindow id (setOnceReadyToShow false)));;
       onReadyToShow h, false)
  | Closed id =>
      (modify (set_windows (filter (λ entry, entry.1 ≠ id)));;
       match windowOf id st with
       | Some w => if BrowserWindow.onClosed w then onWindowClosed else mret tt
       | None => mret tt
       end, false)
  | Activate => (repeatM (activate st) (onActivate h), false)
  | WindowAllClosed => (onWindowAllClosed h, false)
  | BeforeQuit => (repeatM (beforeQuit st) onBeforeQuit, false)
  | MenuClick label result =>
      match applicationMenu st ≫= menuAction label with
      | Some a => (onClick a result, isAsync a)
      | None => (mret tt, false)
      end
  | UncaughtException error => (onUncaughtException error, false)
  | UnhandledRejection reason => (onUnhandledRejection reason, false)
  end.

(** One event: its listeners run, and what they throw goes to the
    listener of [uncaughtException], or of [unhandledRejection] when it
    was thrown in a promise. *)
Definition dispatch (h : host) (e : signal) (st : desktop) : desktop :=
  let '(listener, rejection) := listeners h e st in
  match listener st with
  | (Ok _, st') => st'
  | (Throw error, st') =>
      ((if rejection then onUnhandledRejection error
        else onUncaughtException error) st').2
  end.

(** The events Electron can emit in a state: [whenReady] resolves once,
    [ready-to-show] is for a window that exists and has not shown yet,
    [closed] for a window that exists, [window-all-closed] when no window
    is left. *)
Definition emitted (e : signal) (st : desktop) : Prop :=
  match e with
  | WhenReady => ready st = false
  | ReadyToShow id =>
      ∃ w, windowOf id st = Some w ∧ BrowserWindow.onceReadyToShow w = true
  | Closed id => is_Some (windowOf id st)
  | WindowAllClosed => windows st = []
  | _ => True
  end.

(** The states of the process. *)
Definition running (h : host) : desktop → Prop :=
  reachable_from (dispatch h) emitted initialDesktop.

(** ** Well-formed states *)

(** At most one window exists, [mainWindow] holds it, and it is shown
    exactly when its [ready-to-show] listener has run; [serverProcess] is
    never assigned, so nothing is killed; every [createWindow] has left
    one listener of [before-quit]; one listener of [activate] is
    registered when the application is ready; the menu, once installed,
    is the template; every message went to a window on a channel the page
    can listen to. *)
Record wf_desktop (h : host) (st : desktop) : Prop := WfDesktop {
  wf_windows :
    match mainWindow st with
    | Ref id =>
        ∃ w, windows st = [(id, w)] ∧ id < created st ∧
             BrowserWindow.onClosed w = true ∧
             BrowserWindow.visible w = negb (BrowserWindow.onceReadyToShow w) ∧
             BrowserWindow.options w = windowOptions
    | Null => windows st = [] ∧ 0 < created st
    | Undefined => windows st = [] ∧ created st = 0
    end;
  wf_ready : ready st = bool_decide (0 < created st);
  wf_server : serverProcess st = None ∧ kills st = 0;
  wf_beforeQuit : beforeQuit st = created st;
  wf_activate : activate st = if ready st then 1 else 0;
  wf_menu : applicationMenu st = None ∨ applicationMenu st = Some (template h);
  wf_delivered :
    Forall (λ m, m.1 < created st ∧ channel m.2 ∈ listened) (delivered st)
}.

(** The events that open the window, show it and close it. *)
Definition openAndClose : list signal := [WhenReady; ReadyToShow 0; Closed 0].

Definition macHost : host := Host "production" "darwin" "arm64" "2.0.0" "marketing".
Definition devHost : host := Host "development" "win32" "x64" "2.0.0" "marketing".

(** ** Lemmas *)

Lemma alterWindow_head id f w ws :
  alterWindow id f ((id, w) :: ws) = (id, f w) :: ws.
Proof. simpl. by rewrite decide_True. Qed.

Ltac desktop_unfold :=
  monad_unfold;
  cbv [set_ready add_activate set_mainWindow set_windows set_created
       set_applicationMenu add_beforeQuit add_delivered add_dialog add_quit
       add_kill ready mainWindow serverProcess windows created applicationMenu
       beforeQuit activate delivered dialogs quits kills] in *;
  rewrite ?alterWindow_head in *.

Lemma createWindow_run h st :
  createWindow h st =
  (Ok tt,
   Desktop (ready st) (Ref (created st)) (serverProcess st)
     ((created st, createdWindow h) :: windows st) (S (created st))
     (applicationMenu st) (S (beforeQuit st)) (activate st) (delivered st)
     (dialogs st) (quits st) (kills st)).
Proof.
  unfold createWindow, createdWindow, newBrowserWindow, mainWindowCall, mainWindowDot.
  by destruct (isDev h), st; desktop_unfold.
Qed.

Lemma webContentsSend_run channel args st :
  webContentsSend channel args st =
  match mainWindow st with
  | Ref id => (Ok tt, add_delivered id (IpcMessage channel args) st)
  | r => (Throw (typeError r "webContents"), st)
  end.
Proof. unfold webContentsSend, mainWindowDot. monad_unfold. by destruct (mainWindow st). Qed.

Section wf.
Context (h : host).
Implicit Types (st : desktop) (e : signal).

Lemma wf_initial : wf_desktop h initialDesktop.
Proof. split; simpl; auto. Qed.

(** What has been done does not matter to the windows. *)
Lemma wf_add_delivered st id m :
  wf_desktop h st → mainWindow st = Ref id → channel m ∈ listened →
  wf_desktop h (add_delivered id m st).
Proof.
  intros [Hw Hr Hs Hb Ha Hm Hd] Hid Hc. split; try done; simpl.
  apply Forall_app. split; [done|]. apply Forall_singleton. split; [|done].
  rewrite Hid in Hw. by destruct Hw as (w & _ & Hlt & _).
Qed.

Lemma wf_add_dialog st d : wf_desktop h st → wf_desktop h (add_dialog d st).
Proof. by intros []. Qed.

Lemma wf_add_quit st : wf_desktop h st → wf_desktop h (add_quit st).
Proof. by intros []. Qed.

Lemma wf_set_applicationMenu st :
  wf_desktop h st → wf_desktop h (set_applicationMenu (template h) st).
Proof. intros []. split; try done. by right. Qed.

Lemma webContentsSend_wf channel args st :
  wf_desktop h st → channel ∈ listened →
  wf_desktop h (webContentsSend channel args st).2.
Proof.
  intros Hwf Hc. rewrite webContentsSend_run.
  destruct (mainWindow st) eqn:Hmw; [done..|]. by apply wf_add_delivered.
Qed.

Lemma onBeforeQuit_skip st :
  serverProcess st = None → onBeforeQuit st = (Ok tt, st).
Proof. intros Hs. unfold onBeforeQuit. monad_unfold. by rewrite Hs. Qed.

Lemma onBeforeQuit_run n st :
  serverProcess st = None → repeatM n onBeforeQuit st = (Ok tt, st).
Proof.
  intros Hs. induction n as [|n IH]; [done|].
  rewrite repeatM_S. unfold mbind, M_bind, bind.
  by rewrite onBeforeQuit_skip.
Qed.

(** The shape of a well-formed state, by the value of [mainWindow]. *)
Lemma wf_not_ready st :
  wf_desktop h st → ready st = false →
  mainWindow st = Undefined ∧ windows st = [] ∧ created st = 0 ∧
  beforeQuit st = 0 ∧ activate st = 0 ∧ delivered st = [].
Proof.
  intros [Hw Hr Hs Hb Ha Hm Hd] Hn. rewrite Hn in Hr, Ha.
  symmetry in Hr. apply bool_decide_eq_false in Hr.
  assert (created st = 0) as Hc by lia. rewrite Hc in *.
  destruct (mainWindow st); [|destruct Hw; lia|destruct Hw as (? & ? & ? & ?); lia].
  destruct Hw. split_and!; try done.
  destruct (delivered st) as [|m ?]; [done|]. apply Forall_cons in Hd as [[? _] _]. lia.
Qed.

Lemma wf_window st id w :
  wf_desktop h st → windowOf id st = Some w →
  mainWindow st = Ref id ∧ windows st = [(id, w)].
Proof.
  intros [Hw _ _ _ _ _ _]. unfold windowOf.
  destruct (mainWindow st) as [| |id']; [by destruct Hw as [-> _]..|].
  destruct Hw as (w' & -> & _). cbn. case_decide; [|done]. naive_solver.
Qed.

Lemma wf_no_window st :
  wf_desktop h st → windows st = [] → ready st = true → mainWindow st = Null.
Proof.
  intros [Hw Hr _ _ _ _ _] Hws Hrd. rewrite Hrd in Hr.
  symmetry in Hr. apply bool_decide_eq_true in Hr.
  destruct (mainWindow st); [destruct Hw; lia|done|].
  destruct Hw as (? & ? & _). congruence.
Qed.

(** [createWindow] when no window exists. *)
Lemma createWindow_wf st :
  wf_desktop h st → windows st = [] → ready st = true →
  wf_desktop h (createWindow h st).2.
Proof.
  intros Hwf Hws Hrd. rewrite createWindow_run.
  destruct Hwf as [Hw Hr Hs Hb Ha Hm Hd]. split; simpl; try done.
  - exists (createdWindow h). rewrite Hws. split_and!; try done. lia.
  - by rewrite Hb.
  - eapply Forall_impl; [done|]. intros m [? ?]. split; [lia|done].
Qed.

Lemma dispatch_WhenReady_wf st :
  wf_desktop h st → ready st = false → wf_desktop h (dispatch h WhenReady st).
Proof.
  intros Hwf Hn. destruct (wf_not_ready st Hwf Hn) as (Hmw & Hws & Hc & Hb & Ha & Hd).
  destruct Hwf as [_ _ Hs _ _ Hm _].
  unfold dispatch, listeners, onReady. monad_unfold. rewrite createWindow_run.
  split; simpl; rewrite ?Hws, ?Hc, ?Hb, ?Ha, ?Hd; try done.
  exists (createdWindow h). split_and!; try done. lia.
Qed.

Lemma dispatch_ReadyToShow_wf st id :
  wf_desktop h st → emitted (ReadyToShow id) st →
  wf_desktop h (dispatch h (ReadyToShow id) st).
Proof.
  intros Hwf (w & Hw & Honce). destruct (wf_window st id w Hwf Hw) as [Hmw Hws].
  destruct Hwf as [Hwin Hr Hs Hb Ha Hm Hd]. rewrite Hmw in Hwin.
  destruct Hwin as (w' & Hw' & Hlt & Hcl & Hvis & Hopt).
  assert (w' = w) as -> by congruence.
  unfold dispatch, listeners, onReadyToShow, createMenu, mainWindowCall, mainWindowDot.
  desktop_unfold. rewrite Hmw, Hws. desktop_unfold.
  split; simpl; rewrite ?Hmw; try done; [|by right].
  eexists. split; [done|]. by split_and!.
Qed.

Lemma dispatch_Closed_wf st id :
  wf_desktop h st → emitted (Closed id) st →
  wf_desktop h (dispatch h (Closed id) st).
Proof.
  intros Hwf [w Hw]. destruct (wf_window st id w Hwf Hw) as [Hmw Hws].
  destruct Hwf as [Hwin Hr Hs Hb Ha Hm Hd]. rewrite Hmw in Hwin.
  destruct Hwin as (w' & Hw' & Hlt & Hcl & Hvis & Hopt).
  assert (w' = w) as -> by congruence.
  unfold dispatch, listeners, onWindowClosed. rewrite Hw, Hcl.
  desktop_unfold. rewrite Hws. cbn. rewrite decide_False by naive_solver.
  split; simpl; try done. split; [done|lia].
Qed.

Lemma dispatch_Activate_wf st :
  wf_desktop h st → wf_desktop h (dispatch h Activate st).
Proof.
  intros Hwf. unfold dispatch, listeners. rewrite (wf_activate h st Hwf).
  destruct (ready st) eqn:Hrd; [|done].
  rewrite repeatM_S, repeatM_0. unfold onActivate at 1. monad_unfold.
  case_decide as Hlen; [|done].
  apply nil_length_inv in Hlen.
  pose proof (createWindow_wf st Hwf Hlen Hrd) as H.
  rewrite createWindow_run in *. done.
Qed.

Lemma onError_wf st error (rejection : bool) :
  wf_desktop h st →
  wf_desktop h ((if rejection then onUnhandledRejection error
                 else onUncaughtException error) st).2.
Proof.
  intros Hwf. destruct rejection;
    unfold onUnhandledRejection, onUncaughtException; monad_unfold;
    destruct (mainWindow st) eqn:Hmw; try done;
    apply webContentsSend_wf; try done; compute_done.
Qed.

Lemma onClick_wf st a result :
  wf_desktop h st → wf_desktop h (onClick a result st).2.
Proof.
  intros Hwf. destruct a; simpl.
  - apply webContentsSend_wf; [done|compute_done].
  - monad_unfold. destruct (canceled result); simpl; [by apply wf_add_dialog|].
    apply webContentsSend_wf; [by apply wf_add_dialog|compute_done].
  - by apply wf_add_quit.
  - by apply wf_add_dialog.
Qed.

(** What a listener throws goes to a listener that keeps the state well
    formed. *)
Lemma caught_wf (listener : process unit) (rejection : bool) st :
  wf_desktop h (listener st).2 →
  wf_desktop h
    match listener st with
    | (Ok _, st') => st'
    | (Throw error, st') =>
        ((if rejection then onUnhandledRejection error
          else onUncaughtException error) st').2
    end.
Proof.
  destruct (listener st) as [[[]|error] st']; [done|]. apply onError_wf.
Qed.

(** Every event that can occur keeps the state well formed. *)
Lemma dispatch_wf e st :
  wf_desktop h st → emitted e st → wf_desktop h (dispatch h e st).
Proof.
  intros Hwf He. destruct e.
  - by apply dispatch_WhenReady_wf.
  - by apply dispatch_ReadyToShow_wf.
  - by apply dispatch_Closed_wf.
  - by apply dispatch_Activate_wf.
  - unfold dispatch, listeners, onWindowAllClosed.
    case_bool_decide; [by apply wf_add_quit|done].
  - unfold dispatch, listeners. rewrite onBeforeQuit_run; [done|].
    by destruct Hwf as [_ _ [? _] _ _ _ _].
  - unfold dispatch, listeners.
    destruct (applicationMenu st ≫= menuAction label) as [a|]; [|done].
    by apply caught_wf, onClick_wf.
  - apply caught_wf, (onError_wf st error false Hwf).
  - apply caught_wf, (onError_wf st reason true Hwf).
Qed.

(** The page can invoke exactly the channels that have a handler. *)
Lemma invoked_handled c :
  c ∈ invoked ↔ ∃ answer, invoke h c = Ok answer.
Proof.
  unfold invoke. cbn. rewrite !elem_of_cons, elem_of_nil.
  repeat case_decide; naive_solver.
Qed.

Lemma running_menu st :
  running h st → applicationMenu st = None ∨ applicationMenu st = Some (template h).
Proof.
  intros Hrun. apply (wf_menu h). revert st Hrun.
  apply reachable_invariant; [apply wf_initial|]. intros e st. apply dispatch_wf.
Qed.

(** C14. In every state the main process reaches, at most one window
    exists and [mainWindow] holds it, the window is shown exactly when its
    [ready-to-show] listener has run, [serverProcess] is unassigned and
    nothing was killed, one [before-quit] listener is registered for each
    window ever created, the menu is the template, and every message went
    to a window on a channel [preload.js] lets the page listen to. *)
Theorem running_wf st : running h st → wf_desktop h st.
Proof.
  apply reachable_invariant; [apply wf_initial|]. intros e st'. apply dispatch_wf.
Qed.

(** C20. When the window is closed and the process stays (macOS), [New
    Scan] throws the [TypeError] of reading [webContents] of [null]; the
    listener of [uncaughtException] sends nothing, since no window is
    left, and the state does not change.  [Open Downloads Folder] opens
    the dialog without a parent and loses the folder chosen. *)
Theorem menu_click_without_window st result :
  mainWindow st = Null → applicationMenu st = Some (template h) →
  onClick SendNewScan result st = (Throw (typeError Null "webContents"), st) ∧
  dispatch h (MenuClick "New Scan" result) st = st ∧
  dispatch h (MenuClick "Open Downloads Folder" result) st =
    add_dialog (OpenDialog Null ["openDirectory"] "Open Downloads Folder") st.
Proof.
  intros Hmw Hmenu. unfold dispatch, listeners. rewrite Hmenu. cbn.
  unfold onUncaughtException, onUnhandledRejection.
  rewrite !webContentsSend_run. monad_unfold. rewrite !webContentsSend_run.
  destruct st, (canceled result); cbn in *; by subst.
Qed.

End wf.

(** Start-up: when Electron is ready the window is created hidden,
    loading the development server or the built page; when it is ready to
    show it is shown and the menu is installed; nothing is sent, no
    dialog is opened. *)
Theorem startup h :
  run (dispatch h) [WhenReady; ReadyToShow 0] initialDesktop =
  Desktop true (Ref 0) None
    [(0, BrowserWindow.Make windowOptions
           (Some (if isDev h then URL "http://localhost:3000"
                  else File "../client/build/index.html"))
           (isDev h) true false true)]
    1 (Some (template h)) 1 1 [] [] 0 0.
Proof.
  unfold run, dispatch, listeners, onReady, onReadyToShow, createMenu,
    mainWindowCall, mainWindowDot. cbn [foldl].
  monad_unfold. rewrite createWindow_run. by desktop_unfold.
Qed.

Lemma openAndClose_admissible :
  admissible (dispatch macHost) emitted openAndClose initialDesktop.
Proof.
  repeat split. 
  - by eexists.
  - by eexists.
Qed.

Lemma running_wf_witness :
  wf_desktop macHost (run (dispatch macHost) openAndClose initialDesktop).
Proof.
  apply running_wf, reachable_run, openAndClose_admissible.
Defined.

Lemma menu_click_without_window_witness :
  dispatch macHost (MenuClick "New Scan" (OpenResult false ["/tmp"]))
    (run (dispatch macHost) openAndClose initialDesktop)
  = run (dispatch macHost) openAndClose initialDesktop.
Proof.
  by apply (menu_click_without_window macHost).
Defined.

End Desktop.
